(* ===== verification/_CoqProject ===== *)
-Q . S2P
Prelude.v
CMem.v
CString.v
CDouble.v
CDecimal.v
Types.v
Serialization.v
World.v
Logger.v
Utils.v
Process.v
ServerTypes.v
ServerHandlers.v
ServerNetwork.v
ServerCore.v
ServerInvariant.v
Client.v
Receiver.v
Relay.v
ClientMain.v
System.v
ClientSession.v
MessageExample.v
Examples.v
