(* ===== verification/Prelude.v ===== *)
(** * TradeSynth: a verification development

    TradeSynth is a trading server, a client library, a client program and three
    example programs, in C.  They exchange packets over TCP: a 20-byte header with
    a checksum over the payload, then the bytes of one struct.  The server accepts
    connections in one loop, decodes packets, relays quotes to every connected
    client and trades to their two parties, and numbers what it sends; the client
    library connects, runs a receiver thread that hands what arrives to callbacks,
    and sends orders and market data requests.

    ** How the model is built

    The definitions are shallow and executable: C functions are Rocq functions,
    statement by statement, named as in the source.

    - Pure code returns [res A]: a value, or [UB] with the reason the C standard
      leaves the execution undefined (out of bounds, unterminated string, signed
      overflow, conversion out of range, use of a null or freed pointer).
    - Code with effects is in the monad [M S]: it returns a value with a new
      state, exits the process, runs into undefined behaviour, or runs out of
      fuel.  [wp m Q s] says that [m] returns from [s] with [Q]; it is false of the
      other three, so every [wp] theorem states that the code does return and that
      no undefined behaviour occurs on the way.  [wp_or_exit] allows it to leave
      the process instead, with a condition of its own.
    - The operating system is the interface [OS], an arbitrary function from the
      calls made so far to an answer.  Calls and answers are recorded in a trace,
      and the theorems speak of the packets handed to [send], the descriptors
      opened and closed, the locks held and the callbacks made in it, for every
      system.  Where a result depends on an answer, [answered] ties it to the call.
    - A [send] on a connection the peer has closed raises [SIGPIPE], which no
      program here handles: [sys_send] leaves the process then.  Theorems about
      code that sends either treat that case ([send_order_correct],
      [request_is_broadcast_as_quote]) or assume [no_broken_pipe].
    - [Indeterminate] is the value of uninitialised and padding bytes, [Libm] the
      values of [pow], [Libc] what C11 leaves open in the conversions of doubles;
      all are parameters.  The only facts assumed of [pow] are its exact powers of
      ten ([LibmExact], which [pow_ref] satisfies).
    - Integers are [Z] kept at their C width with [u32], [u64], [s32], [s64];
      doubles are the Standard Library's [spec_float], binary64.

    ** The files

    Foundations: [Prelude] (results, the monad, [wp], words, lists, automation),
    [CMem] (copies and struct layouts, the class [CType]), [CString] (strings of
    the C library), [CDouble] and [CDecimal] (doubles, and doubles as text),
    [World] (system calls, the interface [OS], the trace), [Process] (the state of
    one program, what its components leave untouched: [bystander], [emits],
    [wire], and what was asked and answered meanwhile: [since], [answered]).

    - [Types]: [include/common/types.h].  Structs with their x86-64 layouts, each
      an instance of [CType] whose laws say that decoding undoes encoding.
    - [Serialization]: [src/serialization/serialization.c].  [packet] is the
      abstract format.  Round trip; exactly when decoding succeeds, fails or reads
      out of bounds; the checksum as a polynomial; which corruption it detects.
    - [Logger]: [src/common/logger.c].  What is printed where, what initialising
      reports.
    - [Utils]: [src/common/utils.c].  Strings, numbers, validation, hashes,
      prices: each function against a reference definition, the round trips of
      integers and of prices as text.
    - [ServerTypes], [ServerHandlers], [ServerNetwork], [ServerCore],
      [ServerInvariant]: [include/server/server_types.h] and the files of
      [src/server].  [handle_spec] is the abstract contract of the message
      handlers, which [handle_message] is proved to refine; accepting and
      disconnecting; the server started and stopped by a signal closes every
      descriptor once; an invariant of every state the operations can reach.
    - [Client], [Receiver], [ClientMain], [ClientSession]: [src/client/client.c]
      and [src/client/main.c].  Connecting branch by branch, sending an order,
      the receiver delivering every report once and in order, a whole session
      from the text typed to the packets sent.
    - [Relay] and [System]: client and server together.  From the messages a
      connection thread of the server dispatches to the callbacks of a client; from
      a request of a client to what the server makes of it.
    - [MessageExample], [Examples]: [examples/message_examples] and
      [examples/trading_communication], which use the library and the server.

    ** What the theorems show

    Refinement and functional correctness of the handlers, of the wire format and
    of the client's operations; life-cycle theorems for the five
    programs (they end, with which status, with no lock held; the servers having
    closed every descriptor, the clients the one they were connected on); a state invariant by induction over the reachable states; round
    trips; bounds.  Some theorems state what the code does where a comment, a test
    or the README expects otherwise: no order is ever acknowledged, because the
    serializer refuses the type of the acknowledgement
    ([process_order_never_succeeds]); trades reach no named client, because
    accepting a connection never names it ([trades_reach_nobody]); a packet may
    announce more payload than it has ([deserialize_undefined_iff]).

    ** Fuel

    Loops over arrays and buffers are structural.  Fuel bounds the loops that wait
    for the outside: the accept loop and the loops that wait for a signal (one
    unit per test of [server_running]; as many as tests before the signal
    arrives, [signal_by]), the receive loops (one per [recv]),
    the prompt loop (one per line), and [normalize_price] (the negative part of
    the exponent).  The theorems about these loops ask for that much fuel and
    conclude that the code returns.

    ** Not modelled

    - Parallel execution in full.  Each thread's function is modelled.  What
      another thread or a signal does to the flags [running] and [server_running]
      can happen at every test of them ([SysRunningPoll], [SysSignalPoll]), and the
      end of the receiver thread, which sets the state the requests of the main
      thread test, can happen before every request of the client programs
      ([receiver_meanwhile]).  The counters of [ClientStats] that both threads
      write are atomic in the code and are followed in each thread separately; the
      lines both threads log are not interleaved.  The server never starts its
      client threads: no code calls [pthread_create] in [src/server].
    - [OrderBook], [OrderBookEntry], [ClientPosition] and the fields that would
      hold them: declared and used by no code.
    - [calculate_spread], [calculate_vwap], [parse_price_string],
      [error_to_string] and [log_error]: declared in [utils.h], defined nowhere.
    - The digits of doubles in log lines are kept as doubles; [%.6f] is modelled
      where [price_to_string] stores its result.
    - The tests (Criterion), the Makefile, the scripts and the container files.  The
      message of [tests/unit/test_serialization.c] serves as an example. *)

From stdpp Require Export base list strings pretty numbers.
From Stdlib Require Export ZArith Lia ZifyBool.
From Stdlib Require Import Strings.Byte.
From coqutil Require Export Byte Word.LittleEndianList.

#[global] Open Scope Z_scope.
#[global] Set Default Goal Selector "!".

(** ** Outcomes of a C computation

    [res A] is the outcome of a pure C computation: a value, or the reason why
    the C standard gives the execution no meaning.  [M S A] threads a state [S]
    and can also leave through [exit] or run out of the fuel of a loop. *)

Inductive ub : Type :=
  | OutOfBounds      (** a read or write outside an object *)
  | Unterminated     (** a string function ran past an array with no NUL *)
  | NullDeref        (** a null pointer was dereferenced *)
  | UseAfterFree     (** a freed object was accessed *)
  | IntOverflow      (** signed overflow *)
  | DivByZero
  | BadConversion.   (** floating value out of the range of the integer type *)

#[export] Instance ub_eq_dec : EqDecision ub.
Proof. solve_decision. Defined.

Inductive res (A : Type) : Type :=
  | Val (a : A)
  | UB (why : ub).
Arguments Val {A} a.
Arguments UB {A} why.

#[export] Instance res_ret : MRet res := fun A a => Val a.
#[export] Instance res_bind : MBind res := fun A B f m =>
  match m with Val a => f a | UB why => UB why end.

Inductive run (S A : Type) : Type :=
  | Ret (a : A) (s : S)
  | Exit (code : Z) (s : S)
  | Undef (why : ub)
  | NoFuel.
Arguments Ret {S A} a s.
Arguments Exit {S A} code s.
Arguments Undef {S A} why.
Arguments NoFuel {S A}.

Definition M (S A : Type) : Type := S -> run S A.

#[export] Instance M_ret {S} : MRet (M S) := fun A a s => Ret a s.
#[export] Instance M_bind {S} : MBind (M S) := fun A B f m s =>
  match m s with
  | Ret a s' => f a s'
  | Exit c s' => Exit c s'
  | Undef why => Undef why
  | NoFuel => NoFuel
  end.

Definition lift_res {S A} (r : res A) : M S A := fun s =>
  match r with Val a => Ret a s | UB why => Undef why end.

Definition exit_with {S A} (code : Z) : M S A := fun s => Exit code s.
Definition undef {S A} (why : ub) : M S A := fun _ => Undef why.
Definition out_of_fuel {S A} : M S A := fun _ => NoFuel.
Definition get_st {S} : M S S := fun s => Ret s s.
Definition put_st {S} (s : S) : M S unit := fun _ => Ret tt s.
Definition gets {S A} (f : S -> A) : M S A := fun s => Ret (f s) s.
Definition modify {S} (f : S -> S) : M S unit := fun s => Ret tt (f s).

(** A pointer to an object the program allocates once. *)
Inductive ptr (A : Type) : Type :=
  | Null
  | Live (a : A)
  | Freed.
Arguments Null {A}.
Arguments Live {A} a.
Arguments Freed {A}.

Definition load_ptr {A} (p : ptr A) : res A :=
  match p with Live a => Val a | Null => UB NullDeref | Freed => UB UseAfterFree end.

Definition when {S} (b : bool) (m : M S unit) : M S unit :=
  if b then m else mret tt.

(** *** Weakest preconditions: [wp m Q s] says that [m] started in [s] returns
    normally (no undefined behaviour, no exit, no exhausted fuel) and that [Q]
    holds of its result and final state. *)

Definition wp {S A} (m : M S A) (Q : A -> S -> Prop) (s : S) : Prop :=
  match m s with Ret a s' => Q a s' | _ => False end.

Section wp.
Context {S : Type}.

Lemma wp_ret {A} (a : A) (Q : A -> S -> Prop) s : Q a s -> wp (mret a) Q s.
Proof. done. Qed.

Lemma wp_bind {A B} (m : M S A) (f : A -> M S B) Q s :
  wp m (fun a s' => wp (f a) Q s') s -> wp (m ≫= f) Q s.
Proof. unfold wp, mbind, M_bind. by destruct (m s). Qed.

Lemma wp_mono {A} (m : M S A) (Q Q' : A -> S -> Prop) s :
  wp m Q s -> (forall a s', Q a s' -> Q' a s') -> wp m Q' s.
Proof. unfold wp. destruct (m s); naive_solver. Qed.

Lemma wp_run {A} (m : M S A) Q s :
  wp m Q s <-> exists a s', m s = Ret a s' /\ Q a s'.
Proof. unfold wp. destruct (m s); naive_solver. Qed.

Lemma wp_lift {A} (r : res A) a (Q : A -> S -> Prop) s :
  r = Val a -> Q a s -> wp (lift_res r) Q s.
Proof. by intros ->. Qed.

Lemma wp_gets {A} (f : S -> A) (Q : A -> S -> Prop) s : Q (f s) s -> wp (gets f) Q s.
Proof. done. Qed.

Lemma wp_modify (f : S -> S) (Q : unit -> S -> Prop) s :
  Q tt (f s) -> wp (modify f) Q s.
Proof. done. Qed.

(** A computation whose result is known is replaced by that result. *)
Lemma wp_val {A} (m : M S A) a s' (Q : A -> S -> Prop) s :
  m s = Ret a s' -> Q a s' -> wp m Q s.
Proof. unfold wp. by intros ->. Qed.
Lemma wp_unfold {A} (m : M S A) Q s :
  wp m Q s = match m s with Ret a s' => Q a s' | _ => False end.
Proof. done. Qed.

Lemma wp_if {A} (b : bool) (m1 m2 : M S A) Q s :
  (b = true -> wp m1 Q s) -> (b = false -> wp m2 Q s) -> wp (if b then m1 else m2) Q s.
Proof. destruct b; auto. Qed.

Lemma wp_when (b : bool) (m : M S unit) Q s :
  (b = true -> wp m Q s) -> (b = false -> Q tt s) -> wp (when b m) Q s.
Proof. destruct b; cbn; auto. Qed.

Lemma wp_get (Q : S -> S -> Prop) s : Q s s -> wp get_st Q s.
Proof. done. Qed.

Lemma wp_put s0 (Q : unit -> S -> Prop) s : Q tt s0 -> wp (put_st s0) Q s.
Proof. done. Qed.
End wp.
#[global] Opaque wp.

(** *** Returning or leaving

    [wp_or_exit m Q E s]: [m] started in [s] returns with [Q], or leaves the
    process with [E]; again no undefined behaviour and no exhausted fuel.  What
    precedes the call that may leave is run with [wp]. *)

Definition wp_or_exit {S A} (m : M S A) (Q : A -> S -> Prop) (E : Z -> S -> Prop) (s : S) : Prop :=
  match m s with Ret a s' => Q a s' | Exit c s' => E c s' | _ => False end.

Section wp_or_exit.
Context {S : Type}.
Implicit Types (E : Z -> S -> Prop) (s : S).

Lemma wp_or_exit_ret {A} (m : M S A) Q E s : wp m Q s -> wp_or_exit m Q E s.
Proof. rewrite wp_unfold. unfold wp_or_exit. by destruct (m s). Qed.

Lemma wp_or_exit_exit {A} c (Q : A -> S -> Prop) E s : E c s -> wp_or_exit (exit_with c) Q E s.
Proof. done. Qed.

(** Leaving in the first of two computations leaves the whole. *)
Lemma wp_or_exit_bind {A B} (m : M S A) (f : A -> M S B) Q E s :
  wp_or_exit m (fun a s' => wp_or_exit (f a) Q E s') E s -> wp_or_exit (m ≫= f) Q E s.
Proof. unfold wp_or_exit, mbind, M_bind. by destruct (m s). Qed.

Lemma wp_or_exit_after {A B} (m : M S A) (f : A -> M S B) Q E s :
  wp m (fun a s' => wp_or_exit (f a) Q E s') s -> wp_or_exit (m ≫= f) Q E s.
Proof. intros Hm. by apply wp_or_exit_bind, wp_or_exit_ret. Qed.

Lemma wp_or_exit_mono {A} (m : M S A) (Q Q' : A -> S -> Prop) E E' s :
  wp_or_exit m Q E s -> (forall a s', Q a s' -> Q' a s') -> (forall c s', E c s' -> E' c s') ->
  wp_or_exit m Q' E' s.
Proof. unfold wp_or_exit. destruct (m s); naive_solver. Qed.

(** Where leaving is impossible it returns. *)
Lemma wp_or_exit_wp {A} (m : M S A) Q E s :
  wp_or_exit m Q E s -> (forall c s', ~ E c s') -> wp m Q s.
Proof. rewrite wp_unfold. unfold wp_or_exit. destruct (m s); naive_solver. Qed.
End wp_or_exit.
#[global] Opaque wp_or_exit.

(** One step of symbolic execution; the files that add operations extend it. *)
Ltac wp_op := fail.
Ltac wp_step :=
  cbv zeta beta;
  lazymatch goal with
  | |- wp (_ ≫= _) _ _ => apply wp_bind
  | |- wp (mret _) _ _ => apply wp_ret
  | |- wp (gets _) _ _ => apply wp_gets
  | |- wp get_st _ _ => apply wp_get
  | |- wp (put_st _) _ _ => apply wp_put
  | |- wp (modify _) _ _ => apply wp_modify
  | |- wp _ _ _ => wp_op
  end; cbv beta.
Ltac wp_steps := repeat wp_step.

(** Running the first of two computations. *)
Lemma bind_ret {S A B} (m : M S A) (f : A -> M S B) s a s' :
  m s = Ret a s' -> (m ≫= f) s = f a s'.
Proof. unfold mbind, M_bind. by intros ->. Qed.

Lemma bind_undef {S A B} (m : M S A) (f : A -> M S B) s why :
  wp m (fun a s' => f a s' = Undef why) s -> (m ≫= f) s = Undef why.
Proof. rewrite wp_unfold. unfold mbind, M_bind. by destruct (m s). Qed.

Lemma bind_stuck {S A B} (m : M S A) (f : A -> M S B) s why :
  m s = Undef why -> (m ≫= f) s = Undef why.
Proof. unfold mbind, M_bind. by intros ->. Qed.

Lemma bind_inv {S A B} (m : M S A) (f : A -> M S B) s b s'' :
  (m ≫= f) s = Ret b s'' -> exists a s', m s = Ret a s' /\ f a s' = Ret b s''.
Proof. unfold mbind, M_bind. destruct (m s); naive_solver. Qed.

Lemma lift_inv {S A} (r : res A) (s : S) a s' : lift_res r s = Ret a s' -> r = Val a /\ s' = s.
Proof. destruct r; cbn; by intros [= <- <-]. Qed.

Lemma bind_assoc {S A B C} (m : M S A) (f : A -> M S B) (g : B -> M S C) s :
  ((m ≫= f) ≫= g) s = (m ≫= (fun a => f a ≫= g)) s.
Proof. unfold mbind, M_bind. by destruct (m s). Qed.

(** Taking apart a computation that returned. *)
Ltac run_inv :=
  repeat match goal with
  | R : (_ ≫= _) _ = Ret _ _ |- _ =>
      let a := fresh "a" in let s := fresh "st" in let R1 := fresh "R" in
      apply bind_inv in R as (a & s & R1 & R)
  | R : lift_res _ _ = Ret _ _ |- _ => apply lift_inv in R as [? ->]
  | R : mret _ _ = Ret _ _ |- _ => injection R as <- <-
  | R : gets _ _ = Ret _ _ |- _ => injection R as <- <-
  | R : Ret _ _ = Ret _ _ |- _ => injection R as <- <-
  end.

Create HintDb csem discriminated.
#[export] Hint Resolve wp_ret wp_gets wp_modify : csem.

(** ** Machine integers, at their width *)

Definition u8 (z : Z) : Z := z mod 2 ^ 8.
Definition u32 (z : Z) : Z := z mod 2 ^ 32.
Definition u64 (z : Z) : Z := z mod 2 ^ 64.
Definition s8 (z : Z) : Z := (z + 2 ^ 7) mod 2 ^ 8 - 2 ^ 7.
Definition s32 (z : Z) : Z := (z + 2 ^ 31) mod 2 ^ 32 - 2 ^ 31.
Definition s64 (z : Z) : Z := (z + 2 ^ 63) mod 2 ^ 64 - 2 ^ 63.

Declare Scope c_scope.
Delimit Scope c_scope with c.
Notation "a ⊕₃₂ b" := (u32 (a + b)) (at level 50, left associativity) : c_scope.
Notation "a ≪₃₂ n" := (u32 (Z.shiftl a n)) (at level 45, left associativity) : c_scope.
Notation "a ⊕₆₄ b" := (u64 (a + b)) (at level 50, left associativity) : c_scope.
Notation "a ≪₆₄ n" := (u64 (Z.shiftl a n)) (at level 45, left associativity) : c_scope.
#[global] Open Scope c_scope.

Definition is_u32 (z : Z) : Prop := 0 <= z < 2 ^ 32.
Definition is_u64 (z : Z) : Prop := 0 <= z < 2 ^ 64.
Definition is_s32 (z : Z) : Prop := - 2 ^ 31 <= z < 2 ^ 31.
Definition is_s64 (z : Z) : Prop := - 2 ^ 63 <= z < 2 ^ 63.

(** Signed arithmetic: overflow is undefined. *)
Definition chk64 (z : Z) : res Z :=
  if (- 2 ^ 63 <=? z) && (z <? 2 ^ 63) then Val z else UB IntOverflow.
Definition chk32 (z : Z) : res Z :=
  if (- 2 ^ 31 <=? z) && (z <? 2 ^ 31) then Val z else UB IntOverflow.

Lemma chk64_ok z : - 2 ^ 63 <= z < 2 ^ 63 -> chk64 z = Val z.
Proof. intros. unfold chk64. by replace (_ && _) with true by lia. Qed.
Lemma chk32_ok z : - 2 ^ 31 <= z < 2 ^ 31 -> chk32 z = Val z.
Proof. intros. unfold chk32. by replace (_ && _) with true by lia. Qed.

Ltac ints :=
  unfold is_u32, is_u64, is_s32, is_s64, u8, u32, u64, s8, s32, s64 in *;
  repeat match goal with
  | |- context [?a mod ?b] =>
      lazymatch goal with
      | _ : 0 <= a mod b < b |- _ => fail
      | _ => pose proof (Z.mod_pos_bound a b eq_refl)
      end
  end.

Lemma u32_range z : is_u32 (u32 z).
Proof. ints. lia. Qed.
Lemma u64_range z : is_u64 (u64 z).
Proof. ints. lia. Qed.
Lemma s32_range z : is_s32 (s32 z).
Proof. ints. lia. Qed.
Lemma s64_range z : is_s64 (s64 z).
Proof. ints. lia. Qed.
Lemma u32_small z : is_u32 z -> u32 z = z.
Proof. apply Z.mod_small. Qed.
Lemma u64_small z : is_u64 z -> u64 z = z.
Proof. apply Z.mod_small. Qed.
Lemma s32_u32 z : is_s32 z -> s32 (u32 z) = z.
Proof. unfold is_s32, s32, u32. intros. rewrite Zplus_mod_idemp_l, Z.mod_small; lia. Qed.
Lemma s64_u64 z : is_s64 z -> s64 (u64 z) = z.
Proof. unfold is_s64, s64, u64. intros. rewrite Zplus_mod_idemp_l, Z.mod_small; lia. Qed.
Lemma s64_small z : is_s64 z -> s64 z = z.
Proof. unfold is_s64, s64. intros. rewrite Z.mod_small; lia. Qed.
Lemma s32_small z : is_s32 z -> s32 z = z.
Proof. unfold is_s32, s32. intros. rewrite Z.mod_small; lia. Qed.

#[export] Hint Resolve u32_range u64_range s32_range s64_range : csem.

(** ** Pieces of byte arrays

    [slice off n l] is the [n] elements of [l] from offset [off];
    [overwrite off bs l] is [l] with [bs] stored from offset [off]. *)

Definition slice {A} (off n : nat) (l : list A) : list A := take n (drop off l).
Definition overwrite {A} (off : nat) (bs l : list A) : list A :=
  take off l ++ bs ++ drop (off + length bs) l.

#[global] Arguments slice : simpl never.
#[global] Arguments overwrite : simpl never.

Section slices.
Context {A : Type}.
Implicit Types (l bs : list A) (off n : nat).

Lemma length_slice off n l : (off + n <= length l)%nat -> length (slice off n l) = n.
Proof. intros. unfold slice. rewrite length_take, length_drop. lia. Qed.

Lemma length_overwrite off bs l :
  (off + length bs <= length l)%nat -> length (overwrite off bs l) = length l.
Proof.
  intros. unfold overwrite. rewrite !length_app, length_take, length_drop. lia.
Qed.

Lemma slice_overwrite off bs l :
  (off <= length l)%nat -> slice off (length bs) (overwrite off bs l) = bs.
Proof.
  intros. unfold slice, overwrite.
  rewrite drop_app_length' by (rewrite length_take; lia). by rewrite take_app_length.
Qed.

Lemma slice_overwrite_after off n bs l m :
  (off + length bs <= length l)%nat -> (off + length bs <= m)%nat ->
  slice m n (overwrite off bs l) = slice m n l.
Proof.
  intros Hl Hm. unfold slice, overwrite. f_equal.
  rewrite drop_app_ge by (rewrite length_take; lia). rewrite length_take.
  rewrite drop_app_ge by lia. rewrite drop_drop. f_equal. lia.
Qed.

Lemma slice_overwrite_before off n bs l m :
  (off + length bs <= length l)%nat -> (m + n <= off)%nat ->
  slice m n (overwrite off bs l) = slice m n l.
Proof.
  intros Hl Hm. unfold slice, overwrite.
  rewrite drop_app_le by (rewrite length_take; lia).
  rewrite take_app_le by (rewrite length_drop, length_take; lia).
  rewrite skipn_firstn_comm, take_take. f_equal. lia.
Qed.

Lemma drop_overwrite off bs l m :
  (off + length bs <= length l)%nat -> (m <= off)%nat ->
  drop m (overwrite off bs l) = overwrite (off - m) bs (drop m l).
Proof.
  intros. unfold overwrite. rewrite drop_app_le by (rewrite length_take; lia).
  rewrite skipn_firstn_comm, drop_drop. do 3 f_equal. lia.
Qed.

Lemma lookup_overwrite_in off bs l i :
  (off + length bs <= length l)%nat -> (off <= i < off + length bs)%nat ->
  overwrite off bs l !! i = bs !! (i - off)%nat.
Proof.
  intros. unfold overwrite. rewrite lookup_app_r by (rewrite length_take; lia).
  rewrite length_take, lookup_app_l by lia. f_equal. lia.
Qed.

Lemma lookup_overwrite_after off bs l i :
  (off + length bs <= i)%nat -> (off + length bs <= length l)%nat ->
  overwrite off bs l !! i = l !! i.
Proof.
  intros. unfold overwrite. rewrite lookup_app_r by (rewrite length_take; lia).
  rewrite length_take, lookup_app_r by lia. rewrite lookup_drop. f_equal. lia.
Qed.

Lemma lookup_slice off n l i : (i < n)%nat -> slice off n l !! i = l !! (off + i)%nat.
Proof. intros. unfold slice. by rewrite lookup_take_lt, lookup_drop by done. Qed.

Lemma slice_app_l off n l k : (off + n <= length l)%nat -> slice off n (l ++ k) = slice off n l.
Proof.
  intros. unfold slice. rewrite drop_app_le by lia. rewrite take_app_le; [done|].
  rewrite length_drop. lia.
Qed.

Lemma slice_app_skip off n l k :
  (length l <= off)%nat -> slice off n (l ++ k) = slice (off - length l) n k.
Proof. intros. unfold slice. by rewrite drop_app_ge. Qed.

Lemma slice_app_here l k n : length l = n -> slice 0 n (l ++ k) = l.
Proof. intros <-. unfold slice. rewrite drop_0. apply take_app_length. Qed.

Lemma slice_all l n : length l = n -> slice 0 n l = l.
Proof. intros <-. unfold slice. rewrite drop_0. apply firstn_all. Qed.

Lemma slice_slice off n off' n' l :
  (off' + n' <= n)%nat -> slice off' n' (slice off n l) = slice (off + off') n' l.
Proof.
  intros. unfold slice. rewrite skipn_firstn_comm, take_take, drop_drop.
  f_equal. lia.
Qed.
End slices.
