(* ===== verification/CMem.v ===== *)
(** * Objects in memory: bytes, copies and struct layouts

    The byte-level view of C objects used by the rest of the development:
    [memcpy] with its bounds, little-endian integers (the layout of x86-64
    Linux, the platform the Makefile and the container target), and the
    interface [CType] that every struct of [include/] which the program copies
    as bytes implements in [Types.v] and [Serialization.v]. *)

From Stdlib Require Import Strings.Byte.
From S2P Require Import Prelude.

Abbreviation bytes := (list byte).

#[export] Instance byte_eq_decision : EqDecision byte := Byte.byte_eq_dec.

Abbreviation NUL := Byte.x00.

(** Indeterminate bytes: the padding of a struct that was built field by field
    and the initial contents of an automatic array.  C does not say what they
    are, so every definition that produces them takes them from here. *)
Class Indeterminate : Type := junk : nat -> byte.

Definition junk_bytes `{Indeterminate} (off n : nat) : bytes := map junk (seq off n).

(** [memcpy(dst + doff, src, n)]: undefined when it leaves either object. *)
Definition memcpy (dst : bytes) (doff : nat) (src : bytes) (n : nat) : res bytes :=
  if bool_decide (doff + n <= length dst /\ n <= length src)%nat
  then Val (overwrite doff (take n src) dst)
  else UB OutOfBounds.

(** What a fixed-size C type promises to code that copies it as bytes: the
    size, the two directions of the representation, the values that fit, and
    that storing then loading gives the value back whatever the padding holds. *)
Class CType (A : Type) : Type := {
  size_of : nat;
  encode : Indeterminate -> A -> bytes;
  decode : bytes -> A;
  wf : A -> Prop;
  length_encode : forall j a, wf a -> length (encode j a) = size_of;
  decode_encode : forall j a, wf a -> decode (encode j a) = a;
  wf_decode : forall bs, length bs = size_of -> wf (decode bs);
}.
Arguments size_of A {_}.
Arguments encode {A _} _ _.

(** The value of type [A] stored at offset [off] of an object. *)
Definition load {A} `{CType A} (obj : bytes) (off : nat) : A :=
  decode (slice off (size_of A) obj).

(** *** Fields *)

Definition uint_at (n off : nat) (bs : bytes) : Z := le_combine (slice off n bs).
Definition uint_bytes (n : nat) (z : Z) : bytes := le_split n z.

#[global] Arguments junk_bytes : simpl never.
#[global] Arguments uint_at : simpl never.
#[global] Arguments uint_bytes : simpl never.

Lemma memcpy_ok dst doff src n :
  (doff + n <= length dst)%nat -> (n <= length src)%nat ->
  memcpy dst doff src n = Val (overwrite doff (take n src) dst).
Proof. intros. unfold memcpy. by rewrite bool_decide_true. Qed.

Lemma memcpy_exact dst doff src :
  (doff + length src <= length dst)%nat ->
  memcpy dst doff src (length src) = Val (overwrite doff src dst).
Proof. intros. rewrite memcpy_ok by lia. by rewrite firstn_all. Qed.

Lemma length_uint_bytes n z : length (uint_bytes n z) = n.
Proof. apply length_le_split. Qed.

Lemma length_junk_bytes `{Indeterminate} off n : length (junk_bytes off n) = n.
Proof. unfold junk_bytes. by rewrite length_map, length_seq. Qed.

Lemma uint_at_range n off bs : 0 <= uint_at n off bs < 2 ^ (8 * Z.of_nat n).
Proof.
  unfold uint_at. pose proof (le_combine_bound (slice off n bs)) as H.
  assert (length (slice off n bs) <= n)%nat
    by (unfold slice; rewrite length_take; lia).
  pose proof (Z.pow_le_mono_r 2 (8 * Z.of_nat (length (slice off n bs)))
    (8 * Z.of_nat n)). lia.
Qed.

Lemma combine_uint_bytes n z : le_combine (uint_bytes n z) = z mod 2 ^ (8 * Z.of_nat n).
Proof. unfold uint_bytes. rewrite le_combine_split. do 2 f_equal. lia. Qed.

Lemma combine_u32 z : is_u32 z -> le_combine (uint_bytes 4 z) = z.
Proof. intros. rewrite combine_uint_bytes. by apply Z.mod_small. Qed.
Lemma combine_u64 z : is_u64 z -> le_combine (uint_bytes 8 z) = z.
Proof. intros. rewrite combine_uint_bytes. by apply Z.mod_small. Qed.
Lemma combine_s32 z : is_s32 z -> s32 (le_combine (uint_bytes 4 z)) = z.
Proof. intros. rewrite combine_uint_bytes. by apply s32_u32. Qed.
Lemma combine_s64 z : is_s64 z -> s64 (le_combine (uint_bytes 8 z)) = z.
Proof. intros. rewrite combine_uint_bytes. by apply s64_u64. Qed.

Lemma uint_at_u32 off bs : is_u32 (uint_at 4 off bs).
Proof. exact (uint_at_range 4 off bs). Qed.
Lemma uint_at_u64 off bs : is_u64 (uint_at 8 off bs).
Proof. exact (uint_at_range 8 off bs). Qed.

#[export] Hint Resolve uint_at_u32 uint_at_u64 : csem.
Create Rewrite HintDb clen.
Create Rewrite HintDb cval.
#[export] Hint Rewrite length_uint_bytes @length_junk_bytes @length_app : clen.
#[export] Hint Rewrite combine_u32 combine_u64 combine_s32 combine_s64
  using assumption : cval.


Lemma slice_skip {A} k off off' n (l r : list A) :
  length l = k -> off = (k + off')%nat -> slice off n (l ++ r) = slice off' n r.
Proof. intros <- ->. rewrite slice_app_skip by lia. f_equal. lia. Qed.

(** [field_at] reads the fields of an encoding that is a concatenation of
    pieces of known length; [layout] proves the three laws of a [CType]. *)
Create HintDb lens discriminated.
#[export] Hint Resolve length_uint_bytes length_junk_bytes : lens.
Ltac piece_length := first [ eassumption | solve [eauto 1 with lens nocore] ].
Ltac field_at :=
  unfold uint_at, load;
  repeat first
    [ rewrite slice_app_here by piece_length
    | rewrite slice_all by piece_length
    | erewrite slice_skip; [| piece_length | reflexivity] ].
