(* ===== verification/CString.v ===== *)
(** * NUL-terminated strings and the functions of [<string.h>], [<ctype.h>] and
      [<stdlib.h>] the program calls on them

    A [char] array is a list of bytes; a string function that would run past
    the end of its array has no defined result.  [ctype] is the "C" locale. *)

From Stdlib Require Import Strings.Byte.
From S2P Require Import Prelude CMem.

(** The bytes of a string literal, without and with its terminator. *)
Definition chars (s : string) : bytes := String.list_byte_of_string s.
Definition lit (s : string) : bytes := chars s ++ [NUL].

(** [char a[n] = "..."]: the rest of the array is zero. *)
Definition char_array (n : nat) (s : string) : bytes :=
  take n (chars s ++ replicate n NUL).

Fixpoint strlen (s : bytes) : res Z :=
  match s with
  | [] => UB Unterminated
  | b :: s' => if decide (b = NUL) then Val 0 else n ← strlen s'; Val (n + 1)
  end.

(** The characters before the terminator. *)
Fixpoint cstr (s : bytes) : bytes :=
  match s with
  | [] => []
  | b :: s' => if decide (b = NUL) then [] else b :: cstr s'
  end.

Definition terminated (s : bytes) : bool := existsb (fun b => bool_decide (b = NUL)) s.

(** Only the sign of the result of [strcmp] is specified: it is the difference
    of the first bytes that differ. *)
Fixpoint strcmp (a b : bytes) : res Z :=
  match a, b with
  | x :: a', y :: b' =>
      if decide (x = y) then if decide (x = NUL) then Val 0 else strcmp a' b'
      else Val (byte.unsigned x - byte.unsigned y)
  | _, _ => UB Unterminated
  end.

(** The [n] bytes [strncpy] stores: characters up to the terminator, then NULs. *)
Fixpoint strncpy_bytes (src : bytes) (n : nat) : res bytes :=
  match n with
  | O => Val []
  | S n' =>
      match src with
      | [] => UB Unterminated
      | b :: src' =>
          if decide (b = NUL) then Val (replicate n NUL)
          else rest ← strncpy_bytes src' n'; Val (b :: rest)
      end
  end.

Definition strncpy (dest src : bytes) (n : nat) : res bytes :=
  bs ← strncpy_bytes src n;
  memcpy dest 0 bs n.

(** [s[i] = b] *)
Definition store_byte (s : bytes) (i : nat) (b : byte) : res bytes :=
  if bool_decide (i < length s)%nat then Val (<[i := b]> s) else UB OutOfBounds.

Definition isspace (b : byte) : bool :=
  let c := byte.unsigned b in (c =? 32) || ((9 <=? c) && (c <=? 13)).
Definition isdigit (b : byte) : bool :=
  let c := byte.unsigned b in (48 <=? c) && (c <=? 57).
Definition toupper (b : byte) : byte :=
  let c := byte.unsigned b in
  if (97 <=? c) && (c <=? 122) then byte.of_Z (c - 32) else b.
Definition tolower (b : byte) : byte :=
  let c := byte.unsigned b in
  if (65 <=? c) && (c <=? 90) then byte.of_Z (c + 32) else b.

(** *** [strtoll(s, &end, 10)]: the value, whether it was out of range ([ERANGE]),
    and the string at [end].  [s] must be terminated. *)

Fixpoint skip_space (s : bytes) : bytes :=
  match s with b :: s' => if isspace b then skip_space s' else s | [] => [] end.

Fixpoint scan_digits (acc : Z) (s : bytes) : Z * bytes :=
  match s with
  | b :: s' =>
      if isdigit b then scan_digits (10 * acc + (byte.unsigned b - 48)) s' else (acc, s)
  | [] => (acc, [])
  end.

Definition starts_with_digit (s : bytes) : bool :=
  match s with b :: _ => isdigit b | [] => false end.

Definition strtoll (s : bytes) : res (Z * bool * bytes) :=
  if terminated s then
    let s1 := skip_space s in
    let '(neg, s2) :=
      match s1 with
      | b :: s2 =>
          if decide (b = "-"%byte) then (true, s2)
          else if decide (b = "+"%byte) then (false, s2)
          else (false, s1)
      | [] => (false, s1)
      end in
    if starts_with_digit s2 then
      let '(mag, rest) := scan_digits 0 s2 in
      let v := if neg then - mag else mag in
      Val (if v <? - 2 ^ 63 then (- 2 ^ 63, true, rest)
           else if 2 ^ 63 - 1 <? v then (2 ^ 63 - 1, true, rest)
           else (v, false, rest))
    else Val (0, false, s)
  else UB Unterminated.

(** [atoi(s)] is [(int)strtol(s, NULL, 10)]; out of the range of [int] C leaves
    it undefined. *)
Definition atoi (s : bytes) : res Z :=
  '(v, _, _) ← strtoll s;
  if (- 2 ^ 31 <=? v) && (v <? 2 ^ 31) then Val v else UB BadConversion.

(** *** Lemmas *)

Lemma terminated_cstr s : terminated s = true -> exists r, s = cstr s ++ NUL :: r.
Proof.
  induction s as [|b s IH]; cbn; [done|].
  destruct (decide (b = NUL)) as [->|Hb]; cbn; [by eauto|].
  rewrite bool_decide_false by done. intros [r Hr]%IH. exists r. by f_equal.
Qed.

Lemma cstr_no_nul s : NUL ∉ cstr s.
Proof.
  induction s as [|b s IH]; cbn; [apply not_elem_of_nil|].
  destruct (decide (b = NUL)); [apply not_elem_of_nil|].
  by apply not_elem_of_cons.
Qed.

Lemma cstr_app s r : NUL ∉ s -> cstr (s ++ NUL :: r) = s.
Proof.
  induction s as [|b s IH]; cbn; [done|]. intros [? ?]%not_elem_of_cons.
  rewrite decide_False by done. f_equal. auto.
Qed.

Lemma terminated_app s r : terminated (s ++ NUL :: r) = true.
Proof. unfold terminated. rewrite existsb_app. cbn. apply orb_true_r. Qed.

Lemma strlen_val s : terminated s = true -> strlen s = Val (Z.of_nat (length (cstr s))).
Proof.
  induction s as [|b s IH]; cbn; [done|].
  destruct (decide (b = NUL)) as [->|Hb]; [done|].
  rewrite bool_decide_false by done. cbn. intros. rewrite IH by done. cbn.
  f_equal. lia.
Qed.

Lemma strlen_unterminated s : terminated s = false -> strlen s = UB Unterminated.
Proof.
  induction s as [|b s IH]; cbn; [done|].
  destruct (decide (b = NUL)) as [->|Hb]; [done|].
  rewrite bool_decide_false by done. cbn. intros. by rewrite IH.
Qed.

Lemma length_cstr_lt s : terminated s = true -> (length (cstr s) < length s)%nat.
Proof.
  intros [r Hr]%terminated_cstr. rewrite Hr at 2. rewrite length_app. cbn. lia.
Qed.

(** Equality test with [strcmp] decides equality of the strings. *)
Lemma strcmp_eq a b :
  terminated a = true -> terminated b = true ->
  exists z, strcmp a b = Val z /\ (z = 0 <-> cstr a = cstr b).
Proof.
  revert b. induction a as [|x a IH]; intros [|y b]; cbn; try done.
  destruct (decide (x = y)) as [->|Hne].
  - destruct (decide (y = NUL)) as [->|Hy].
    + intros _ _. exists 0. done.
    + rewrite !bool_decide_false by done. cbn. intros Ha Hb.
      destruct (IH b Ha Hb) as (z & -> & Hz). exists z. split; [done|].
      rewrite Hz. split; [by intros ->|by intros [= ?]].
  - intros _ _. exists (byte.unsigned x - byte.unsigned y). split; [done|]. split.
    + intros He. exfalso. apply Hne, byte.unsigned_inj. lia.
    + destruct (decide (x = NUL)), (decide (y = NUL)); congruence.
Qed.

Lemma strncpy_bytes_short src n :
  terminated src = true -> (length (cstr src) <= n)%nat ->
  strncpy_bytes src n = Val (cstr src ++ replicate (n - length (cstr src)) NUL).
Proof.
  revert n. induction src as [|b src IH]; intros [|n]; cbn; try done;
    destruct (decide (b = NUL)) as [->|Hb]; try done; cbn; try lia.
  rewrite bool_decide_false by done. cbn. intros. by rewrite IH by (done || lia).
Qed.

Lemma strncpy_bytes_long src n :
  (n <= length (cstr src))%nat -> strncpy_bytes src n = Val (take n (cstr src)).
Proof.
  revert n. induction src as [|b src IH]; intros [|n]; cbn; try done;
    try (intros; lia).
  destruct (decide (b = NUL)) as [->|Hb]; cbn; [lia|].
  intros. by rewrite IH by lia.
Qed.

Lemma length_strncpy_bytes src n bs : strncpy_bytes src n = Val bs -> length bs = n.
Proof.
  revert n bs. induction src as [|b src IH]; intros [|n] bs; cbn; try (by intros [= <-]); try done.
  destruct (decide (b = NUL)).
  - intros [= <-]. cbn. by rewrite length_replicate.
  - destruct (strncpy_bytes src n) eqn:E; cbn; [|done]. intros [= <-]. cbn.
    f_equal. by apply IH.
Qed.

(** [strncpy] of at most all but the last byte of an array that ends in a NUL
    keeps it a terminated string. *)
Lemma strncpy_terminates src dest n :
  terminated src = true -> length dest = S n -> dest !! n = Some NUL -> (0 < n)%nat ->
  exists d, strncpy dest src n = Val d /\ cstr d = take n (cstr src) /\
    length d = length dest /\ d !! n = Some NUL.
Proof.
  intros Hsrc Hlen Hlast Hn.
  assert (exists z, strncpy_bytes src n = Val (take n (cstr src) ++ replicate z NUL) /\
    (length (take n (cstr src)) + z = n)%nat) as (z & Hbs & Hz).
  { destruct (le_lt_dec (length (cstr src)) n).
    - eexists. rewrite strncpy_bytes_short, firstn_all2 by done. split; [done|]. lia.
    - exists 0%nat. rewrite strncpy_bytes_long, app_nil_r by lia. split; [done|].
      rewrite length_take. lia. }
  set (bs := take n (cstr src) ++ replicate z NUL) in *.
  assert (length bs = n) as Hb by (subst bs; rewrite length_app, length_replicate; lia).
  exists (bs ++ [NUL]). unfold strncpy. rewrite Hbs. cbn [mbind res_bind].
  assert (drop n dest = [NUL]) as Hdrop.
  { rewrite (drop_S _ _ _ Hlast). by rewrite drop_ge by lia. }
  rewrite memcpy_ok by lia. unfold overwrite.
  rewrite take_0, (firstn_all2 bs) by lia. rewrite Hb. cbn [app]. rewrite Nat.add_0_l, Hdrop.
  split_and!; [done| |rewrite length_app, Hb; cbn; lia|].
  - subst bs. rewrite <- app_assoc.
    assert (NUL ∉ take n (cstr src)) as Hno.
    { intros Hin. apply (cstr_no_nul src). rewrite <- (take_drop n (cstr src)).
      apply elem_of_app. by left. }
    destruct z; by apply cstr_app.
  - rewrite lookup_app_r by lia. by rewrite Hb, Nat.sub_diag.
Qed.

Lemma length_char_array n s : length (char_array n s) = n.
Proof. unfold char_array. rewrite length_take, length_app, length_replicate. lia. Qed.

(** *** Decimal numerals are read back *)

Lemma isdigit_bounds b : isdigit b = true -> 48 <= byte.unsigned b <= 57.
Proof. unfold isdigit. lia. Qed.

Lemma isdigit_not_space b : isdigit b = true -> isspace b = false.
Proof. unfold isdigit, isspace. lia. Qed.

Lemma digit_char x : (x < 10)%N ->
  isdigit (Ascii.byte_of_ascii (pretty_N_char x)) = true /\
  byte.unsigned (Ascii.byte_of_ascii (pretty_N_char x)) - 48 = Z.of_N x.
Proof.
  intros. assert (x = 0 \/ x = 1 \/ x = 2 \/ x = 3 \/ x = 4 \/ x = 5 \/ x = 6 \/ x = 7 \/
    x = 8 \/ x = 9)%N as Hx by lia.
  by repeat (destruct Hx as [->|Hx] || subst x).
Qed.

Lemma scan_digits_pretty x s rest :
  scan_digits 0 (chars (pretty_N_go x s) ++ rest) =
  scan_digits (Z.of_N x) (chars s ++ rest).
Proof.
  revert s. induction (N.lt_wf_0 x) as [x _ IH]; intros s.
  destruct (decide (x = 0)%N) as [->|Hx]; [by rewrite pretty_N_go_0|].
  rewrite pretty_N_go_step by lia.
  rewrite IH by (apply N.div_lt; lia).
  destruct (digit_char (x mod 10)) as [Hd Hv]; [by apply N.mod_lt|].
  change (chars (String (pretty_N_char (x mod 10)) s)) with
    (Ascii.byte_of_ascii (pretty_N_char (x mod 10)) :: chars s).
  cbn [app scan_digits]. rewrite Hd, Hv. f_equal.
  rewrite (N.div_mod x 10) at 3 by done. lia.
Qed.

Lemma starts_with_digit_pretty x s rest :
  x <> 0%N \/ starts_with_digit (chars s ++ rest) = true ->
  starts_with_digit (chars (pretty_N_go x s) ++ rest) = true.
Proof.
  revert s. induction (N.lt_wf_0 x) as [x _ IH]; intros s Hs.
  destruct (decide (x = 0)%N) as [->|Hx]; [rewrite pretty_N_go_0; tauto|].
  rewrite pretty_N_go_step by lia. apply IH; [apply N.div_lt; lia|]. right.
  by destruct (digit_char (x mod 10)) as [Hd _]; [apply N.mod_lt|].
Qed.

Lemma pretty_N_digits (x : N) rest :
  starts_with_digit (chars (pretty x) ++ rest) = true /\
  scan_digits 0 (chars (pretty x) ++ NUL :: rest) = (Z.of_N x, NUL :: rest).
Proof.
  unfold pretty, pretty_N. destruct (decide (x = 0)%N) as [->|Hx]; [done|]. split.
  - apply starts_with_digit_pretty. by left.
  - by rewrite scan_digits_pretty.
Qed.

Lemma skip_space_digit s : starts_with_digit s = true -> skip_space s = s.
Proof. destruct s as [|b s]; [done|]. cbn. intros H%isdigit_not_space. by rewrite H. Qed.

(** [scan_digits] stops at the first byte that is not a digit. *)
Lemma scan_pretty (x : N) rest :
  starts_with_digit rest = false ->
  scan_digits 0 (chars (pretty x) ++ rest) = (Z.of_N x, rest).
Proof.
  intros Hrest. unfold pretty, pretty_N. destruct (decide (x = 0)%N) as [->|].
  - cbn. destruct rest as [|b rest]; [done|]. cbn in *. by rewrite Hrest.
  - rewrite scan_digits_pretty. destruct rest as [|b rest]; [done|]. cbn in *. by rewrite Hrest.
Qed.

(** [strtoll] on a numeral of any size, followed by anything that ends and does
    not go on with a digit. *)
Lemma strtoll_numeral n rest :
  starts_with_digit rest = false -> terminated (chars (pretty n) ++ rest) = true ->
  strtoll (chars (pretty n) ++ rest) = Val
    (if n <? - 2 ^ 63 then (- 2 ^ 63, true, rest)
     else if 2 ^ 63 - 1 <? n then (2 ^ 63 - 1, true, rest) else (n, false, rest)).
Proof.
  intros Hrest Hterm. unfold strtoll. rewrite Hterm. clear Hterm.
  destruct (decide (0 <= n)) as [Hpos|Hneg].
  - assert (chars (pretty n) = chars (pretty (Z.to_N n))) as -> by (destruct n; done || lia).
    destruct (pretty_N_digits (Z.to_N n) rest) as [Hd _].
    pose proof (scan_pretty (Z.to_N n) rest Hrest) as Hs.
    rewrite skip_space_digit by done. rewrite Z2N.id in Hs by done.
    destruct (chars _ ++ rest) as [|b s] eqn:E; [done|].
    pose proof (isdigit_bounds b Hd).
    rewrite !decide_False by (intros ->; cbn in *; lia).
    by rewrite Hd, Hs.
  - assert (chars (pretty n) = "-"%byte :: chars (pretty (Z.to_N (- n)))) as -> by
      (destruct n; done || lia).
    destruct (pretty_N_digits (Z.to_N (- n)) rest) as [Hd _].
    pose proof (scan_pretty (Z.to_N (- n)) rest Hrest) as Hs.
    rewrite Z2N.id in Hs by lia. cbn [app skip_space].
    change (isspace "-"%byte) with false. cbv iota.
    rewrite decide_True by done. by rewrite Hd, Hs, Z.opp_involutive.
Qed.

Lemma strtoll_pretty n rest :
  - 2 ^ 63 <= n < 2 ^ 63 ->
  strtoll (chars (pretty n) ++ NUL :: rest) = Val (n, false, NUL :: rest).
Proof.
  intros Hn. rewrite strtoll_numeral by (done || apply terminated_app).
  by rewrite !(proj2 (Z.ltb_ge _ _)) by lia.
Qed.
