(* ===== verification/CDouble.v ===== *)
(** * IEEE-754 binary64, the type [double]

    [double] is the Standard Library's specification of binary64 ([SpecFloat],
    53-bit significand, exponents up to 1024), so the arithmetic below is
    executable and depends on no axiom.  [pow] belongs to libm: its values are a
    parameter ([Libm]), and the only facts ever used about it are the documented
    exact cases collected in [LibmExact]. *)

From Stdlib Require Import SpecFloat.
From S2P Require Import Prelude.

Definition double : Type := spec_float.

Definition d_add : double -> double -> double := SFadd 53 1024.
Definition d_sub : double -> double -> double := SFsub 53 1024.
Definition d_mul : double -> double -> double := SFmul 53 1024.
Definition d_div : double -> double -> double := SFdiv 53 1024.

(** Conversion of an integer, rounded to nearest, ties to even. *)
Definition double_of_Z (z : Z) : double := binary_normalize 53 1024 z 0 false.

(** A decimal literal [n/d] with [n] and [d] exact: one correctly rounded division. *)
Definition d_lit (n d : Z) : double := d_div (double_of_Z n) (double_of_Z d).

Definition d_lt (a b : double) : bool := SFltb a b.
Definition d_gt (a b : double) : bool := SFltb b a.
Definition d_ge (a b : double) : bool := SFleb b a.
Definition isnan (a : double) : bool :=
  match a with S754_nan => true | _ => false end.
Definition isinf (a : double) : bool :=
  match a with S754_infinity _ => true | _ => false end.

(** [(int64_t)d]: truncation towards zero, undefined when the truncated value
    is not an [int64_t]. *)
Definition d_trunc (d : double) : option Z :=
  match d with
  | S754_zero _ => Some 0
  | S754_finite s m e =>
      let mag := if 0 <=? e then Zpos m * 2 ^ e else Zpos m / 2 ^ (- e) in
      Some (if s then - mag else mag)
  | _ => None
  end.

Definition int64_of_double (d : double) : res Z :=
  match d_trunc d with
  | Some z => if (- 2 ^ 63 <=? z) && (z <? 2 ^ 63) then Val z else UB BadConversion
  | None => UB BadConversion
  end.

Class Libm : Type := pow : double -> double -> double.

(** C11 F.10.4.4: [pow(x, 0)] is 1; and powers of ten up to [10^22] are
    representable, where [pow] returns the exact result. *)
Class LibmExact `{Libm} : Prop :=
  pow_ten : forall n, 0 <= n <= 22 ->
    pow (double_of_Z 10) (double_of_Z n) = double_of_Z (10 ^ n).

(** A concrete libm, for the examples: the power of ten nearest to the exact
    value for every exponent an [int32_t] between -22 and 22 can hold, and 1
    outside. *)
Definition pow_ref : Libm := fun _ y =>
  match d_trunc y with
  | Some n =>
      if (0 <=? n) && (n <=? 22) then double_of_Z (10 ^ n)
      else if (-22 <=? n) && (n <? 0) then d_div (double_of_Z 1) (double_of_Z (10 ^ (- n)))
      else double_of_Z 1
  | None => S754_nan
  end.

(** *** The order of the numbers

    [d_key] maps the non-NaN doubles to integers triples whose lexicographic
    order is the order of the numbers; [d_key] is how transitivity is proved. *)

Definition d_key (d : double) : Z * Z * Z :=
  match d with
  | S754_infinity true => (-2, 0, 0)
  | S754_finite true m e => (-1, - e, - Zpos m)
  | S754_zero _ => (0, 0, 0)
  | S754_finite false m e => (1, e, Zpos m)
  | S754_infinity false => (2, 0, 0)
  | S754_nan => (0, 0, 0)
  end.

Definition key_lt (a b : Z * Z * Z) : Prop :=
  let '(a1, a2, a3) := a in let '(b1, b2, b3) := b in
  a1 < b1 \/ (a1 = b1 /\ (a2 < b2 \/ (a2 = b2 /\ a3 < b3))).

Lemma pow_ref_exact : @LibmExact pow_ref.
Proof.
  intros n Hn. unfold pow, pow_ref.
  assert (d_trunc (double_of_Z n) = Some n) as ->.
  { assert (exists k : nat, n = Z.of_nat k /\ (k <= 22)%nat) as (k & -> & Hk)
      by (exists (Z.to_nat n); lia).
    do 23 (destruct k as [|k]; [reflexivity|]). lia. }
  by rewrite (proj2 (Z.leb_le 0 n)), (proj2 (Z.leb_le n 22)) by lia.
Qed.

Lemma key_lt_irrefl a : ~ key_lt a a.
Proof. destruct a as [[??]?]; cbn. lia. Qed.

Lemma key_lt_asym a b : key_lt a b -> ~ key_lt b a.
Proof. destruct a as [[??]?], b as [[??]?]; cbn. lia. Qed.

Lemma key_le_trans a b c : ~ key_lt b a -> ~ key_lt c b -> ~ key_lt c a.
Proof. destruct a as [[??]?], b as [[??]?], c as [[??]?]; cbn. lia. Qed.

Lemma d_lt_key a b :
  isnan a = false -> isnan b = false -> d_lt a b = true <-> key_lt (d_key a) (d_key b).
Proof.
  intros Ha Hb. unfold d_lt, SFltb.
  destruct a as [?|[]| |[] m1 e1], b as [?|[]| |[] m2 e2]; try done; cbn;
    try (split; [done || lia | done || lia]);
    change (Pos.compare_cont Eq m1 m2) with (Pos.compare m1 m2);
    destruct (Z.compare_spec e1 e2), (Pos.compare_spec m1 m2);
    cbn; split; intros; try done; try lia.
Qed.

Lemma d_lt_nan_l a b : isnan a = true -> d_lt a b = false.
Proof. by destruct a. Qed.
Lemma d_lt_nan_r a b : isnan b = true -> d_lt a b = false.
Proof. destruct b; try done. by destruct a as [?|[]| |[] ? ?]. Qed.

Lemma d_lt_asym a b : d_lt a b = true -> d_lt b a = false.
Proof.
  destruct (isnan a) eqn:Ha; [by rewrite d_lt_nan_l|].
  destruct (isnan b) eqn:Hb; [by rewrite d_lt_nan_r|].
  intros H. apply not_true_is_false. intros H'.
  rewrite d_lt_key in H, H' by done. by eapply key_lt_asym.
Qed.
