(* ===== verification/CDecimal.v ===== *)
(** * Doubles as text: [printf("%.6f")] and [strtod]

    Both conversions are correctly rounded (C11 F.5, round to nearest, ties to
    even): [%.6f] rounds the exact binary value to six decimals, [strtod] rounds
    the exact decimal or hexadecimal value to a double.  What C11 leaves to the
    implementation, the text of a NaN and whether a result that underflows sets
    [errno], is the parameter [Libc]. *)

From Stdlib Require Import Strings.Byte SpecFloat.
From S2P Require Import Prelude CMem CString CDouble.

(** Choices of the C library: 7.21.6.1p8 and 7.22.1.3p10. *)
Class Libc : Type := {
  nan_text : string;
  nan_text_clean : NUL ∉ chars nan_text;
  underflow_erange : double -> bool;
}.

(** ** [%.6f] *)

(** [n/d] rounded to the nearest integer, ties to even. *)
Definition round_half_even (n d : Z) : Z :=
  let q := n / d in
  match 2 * (n mod d) ?= d with
  | Lt => q
  | Gt => q + 1
  | Eq => if Z.even q then q else q + 1
  end.

(** [m * 2^e] in millionths. *)
Definition millionths (m e : Z) : Z :=
  if 0 <=? e then m * 2 ^ e * 1000000 else round_half_even (m * 1000000) (2 ^ (- e)).

Definition digit_text (n : Z) : string := pretty (Z.to_N (n mod 10)).
Definition six_digits (n : Z) : string :=
  digit_text (n / 100000) +:+ digit_text (n / 10000) +:+ digit_text (n / 1000) +:+
  digit_text (n / 100) +:+ digit_text (n / 10) +:+ digit_text n.
Definition fixed_text (neg : bool) (n : Z) : string :=
  (if neg then "-" else "") +:+ pretty (Z.to_N (n / 1000000)) +:+ "." +:+
  six_digits (n mod 1000000).

Definition fixed6 `{Libc} (d : double) : string :=
  match d with
  | S754_nan => nan_text
  | S754_infinity neg => (if neg then "-inf" else "inf")%string
  | S754_zero neg => fixed_text neg 0
  | S754_finite neg m e => fixed_text neg (millionths (Zpos m) e)
  end.

(** [snprintf(buffer, size, "%.6f", d)] with [size > 0]: as much as fits. *)
Definition snprintf_fixed6 `{Libc} (buffer : bytes) (size : Z) (d : double) : res bytes :=
  let text := take (Z.to_nat (size - 1)) (chars (fixed6 d)) ++ [NUL] in
  memcpy buffer 0 text (length text).

(** ** [strtod] *)

(** The double nearest to [n/d], for [0 <= n] and [0 < d]. *)
Definition double_of_ratio (neg : bool) (n d : Z) : double :=
  if n =? 0 then S754_zero neg
  else
    let '(mz, ez, lz) := SFdiv_core_binary 53 1024 n 0 d 0 in
    binary_round_aux 53 1024 neg mz ez lz.

Definition strip_sign (s : bytes) : bool * bytes :=
  match s with
  | b :: s' =>
      if decide (b = "-"%byte) then (true, s')
      else if decide (b = "+"%byte) then (false, s')
      else (false, s)
  | [] => (false, s)
  end.

(** What follows [word], written in any case. *)
Fixpoint after_word (word s : bytes) : option bytes :=
  match word, s with
  | [], _ => Some s
  | w :: word', b :: s' => if decide (tolower b = w) then after_word word' s' else None
  | _ :: _, [] => None
  end.

Definition hex_digit (b : byte) : option Z :=
  let c := byte.unsigned b in
  if isdigit b then Some (c - 48)
  else if (97 <=? c) && (c <=? 102) then Some (c - 87)
  else if (65 <=? c) && (c <=? 70) then Some (c - 55)
  else None.

Fixpoint scan_hex (acc : Z) (s : bytes) : Z * bytes :=
  match s with
  | b :: s' => match hex_digit b with Some d => scan_hex (16 * acc + d) s' | None => (acc, s) end
  | [] => (acc, [])
  end.

(** Digits with at most one point among them, at least one digit: their value,
    how many stand after the point, and what follows. *)
Definition significand (scan : Z -> bytes -> Z * bytes) (s : bytes) : option (Z * Z * bytes) :=
  let '(int, s1) := scan 0 s in
  let n_int := Z.of_nat (length s) - Z.of_nat (length s1) in
  let '(value, n_frac, rest) :=
    match s1 with
    | b :: s2 =>
        if decide (b = "."%byte) then
          let '(value, s3) := scan int s2 in
          (value, Z.of_nat (length s2) - Z.of_nat (length s3), s3)
        else (int, 0, s1)
    | [] => (int, 0, s1)
    end in
  if n_int + n_frac =? 0 then None else Some (value, n_frac, rest).

(** An optional exponent after the letter [mark]. *)
Definition exponent_part (mark : byte) (s : bytes) : Z * bytes :=
  match s with
  | b :: s1 =>
      if decide (tolower b = mark) then
        let '(neg, s2) := strip_sign s1 in
        if starts_with_digit s2 then
          let '(v, rest) := scan_digits 0 s2 in (if neg then - v else v, rest)
        else (0, s)
      else (0, s)
  | [] => (0, s)
  end.

(** [n * base^k] *)
Definition scaled (neg : bool) (n base k : Z) : double :=
  double_of_ratio neg (n * base ^ Z.max k 0) (base ^ Z.max (- k) 0).

(** [n * base^k] is not zero and smaller than every normal double. *)
Definition underflows (n base k : Z) : bool :=
  negb (n =? 0) && (n * base ^ Z.max k 0 * 2 ^ 1022 <? base ^ Z.max (- k) 0).

(** The [n-char-sequence] of a NaN, in parentheses; without the closing one
    nothing is consumed. *)
Fixpoint skip_nan_chars (s : bytes) : option bytes :=
  match s with
  | b :: s' =>
      let c := byte.unsigned (tolower b) in
      if decide (b = ")"%byte) then Some s'
      else if isdigit b || ((97 <=? c) && (c <=? 122)) || (c =? 95) then skip_nan_chars s'
      else None
  | [] => None
  end.

Definition finish_number `{Libc} (neg : bool) (n base k : Z) (rest : bytes)
    : double * bool * bytes :=
  let v := scaled neg n base k in
  (v, isinf v || (underflows n base k && underflow_erange v), rest).

(** The decimal, hexadecimal or named number at the start of [s]. *)
Definition unsigned_number `{Libc} (neg : bool) (s : bytes) : option (double * bool * bytes) :=
  match after_word (chars "inf") s, after_word (chars "nan") s with
  | Some s1, _ =>
      Some (S754_infinity neg, false, default s1 (after_word (chars "inity") s1))
  | _, Some s1 =>
      let rest := match s1 with
                  | b :: s2 => if decide (b = "("%byte) then default s1 (skip_nan_chars s2) else s1
                  | [] => s1
                  end in
      Some (S754_nan, false, rest)
  | None, None =>
      match after_word (chars "0x") s ≫= significand scan_hex with
      | Some (value, n_frac, s1) =>
          let '(p, rest) := exponent_part "p"%byte s1 in
          Some (finish_number neg value 2 (p - 4 * n_frac) rest)
      | None =>
          match significand scan_digits s with
          | Some (value, n_frac, s1) =>
              let '(p, rest) := exponent_part "e"%byte s1 in
              Some (finish_number neg value 10 (p - n_frac) rest)
          | None => None
          end
      end
  end.

(** [strtod(s, &end)]: the value, whether [errno] became [ERANGE], and the string
    at [end]. *)
Definition strtod `{Libc} (s : bytes) : res (double * bool * bytes) :=
  if terminated s then
    let '(neg, s1) := strip_sign (skip_space s) in
    Val (default (S754_zero false, false, s) (unsigned_number neg s1))
  else UB Unterminated.

(** ** Lemmas *)

(** *** Exact results

    [canonical k] is the double whose value is the integer [k], for
    [0 < k < 2^53]. *)

Definition digits (k : Z) : Z := Z.log2 k + 1.
Definition canonical (neg : bool) (k : Z) : double :=
  S754_finite neg (Z.to_pos (k * 2 ^ (53 - digits k))) (digits k - 53).

Lemma digits2_log2 p : Zpos (digits2_pos p) = digits (Zpos p).
Proof.
  unfold digits. induction p as [p IH|p IH|]; cbn [digits2_pos]; [| |done].
  - rewrite Pos2Z.inj_succ, IH. change (Zpos p~1) with (2 * Zpos p + 1).
    rewrite Z.log2_succ_double by lia. lia.
  - rewrite Pos2Z.inj_succ, IH. change (Zpos p~0) with (2 * Zpos p).
    rewrite Z.log2_double by lia. lia.
Qed.

Lemma Zdigits2_log2 k : 0 < k -> Zdigits2 k = digits k.
Proof. destruct k; try lia. intros _. apply digits2_log2. Qed.

Lemma digits_shift k s : 0 < k -> 0 <= s -> digits (k * 2 ^ s) = digits k + s.
Proof. intros. unfold digits. rewrite Z.log2_mul_pow2 by lia. lia. Qed.

Lemma digits_small k : 0 < k < 2 ^ 53 -> 1 <= digits k <= 53.
Proof.
  intros. unfold digits. pose proof (Z.log2_nonneg k).
  assert (Z.log2 k < 53) by (apply Z.log2_lt_pow2; lia). lia.
Qed.

Lemma shr_1_even k :
  0 <= k -> shr_1 (Build_shr_record (2 * k) false false) = Build_shr_record k false false.
Proof. destruct k; done. Qed.

Lemma shr_exact (p : positive) k :
  0 <= k -> SpecFloat.iter_pos shr_1 p (Build_shr_record (k * 2 ^ Zpos p) false false) =
    Build_shr_record k false false.
Proof.
  revert k. induction p as [p IH|p IH|]; intros k Hk; cbn [SpecFloat.iter_pos].
  - replace (k * 2 ^ Zpos p~1) with (2 * (k * 2 ^ Zpos p * 2 ^ Zpos p)).
    + rewrite shr_1_even by (apply Z.mul_nonneg_nonneg; lia). rewrite IH by lia. by apply IH.
    + rewrite (Pos2Z.inj_xI p), Z.pow_add_r, Z.mul_comm, <- Z.add_diag, Z.pow_add_r by lia. lia.
  - replace (k * 2 ^ Zpos p~0) with (k * 2 ^ Zpos p * 2 ^ Zpos p).
    + rewrite IH by lia. by apply IH.
    + rewrite (Pos2Z.inj_xO p), <- Z.add_diag, Z.pow_add_r by lia. lia.
  - replace (k * 2 ^ 1) with (2 * k) by lia. by apply shr_1_even.
Qed.

Lemma shr_fexp_exact k e n :
  0 < k -> 0 <= n -> fexp 53 1024 (digits (k * 2 ^ n) + e) = e + n ->
  shr_fexp 53 1024 (k * 2 ^ n) e loc_Exact = (Build_shr_record k false false, e + n).
Proof.
  intros Hk Hn Hf. unfold shr_fexp.
  rewrite Zdigits2_log2, Hf by (apply Z.mul_pos_pos; lia).
  replace (e + n - e) with n by lia. destruct n as [|p|p]; [|cbn [shr shr_record_of_loc]|lia].
  - cbn. by rewrite Z.mul_1_r, Z.add_0_r.
  - by rewrite shr_exact by lia.
Qed.

(** Rounding a multiple of a power of two that is an integer below [2^53]. *)
Lemma round_exact neg k s :
  0 < k < 2 ^ 53 -> 53 - digits k <= s ->
  binary_round_aux 53 1024 neg (k * 2 ^ s) (- s) loc_Exact = canonical neg k.
Proof.
  intros Hk Hs. pose proof (digits_small k Hk) as Hd.
  set (c := k * 2 ^ (53 - digits k)). set (n := s - (53 - digits k)).
  assert (0 < c) as Hc by (apply Z.mul_pos_pos; lia).
  assert (digits c = 53) as Hdc by (subst c; rewrite digits_shift; lia).
  assert (k * 2 ^ s = c * 2 ^ n) as ->.
  { subst c n. rewrite <- Z.mul_assoc, <- Z.pow_add_r by lia. do 2 f_equal. lia. }
  unfold binary_round_aux. rewrite shr_fexp_exact; [|done|lia|].
  2: { rewrite digits_shift, Hdc by lia. unfold fexp, emin. lia. }
  cbn [shr_m loc_of_shr_record round_nearest_even].
  replace c with (c * 2 ^ 0) at 1 by lia. rewrite shr_fexp_exact; [|done|lia|].
  2: { rewrite Z.mul_1_r, Hdc. unfold fexp, emin. lia. }
  cbn [shr_m]. destruct c as [|p|p] eqn:E; try lia.
  rewrite (proj2 (Z.leb_le _ _)) by lia. unfold canonical. fold c. rewrite E. f_equal. lia.
Qed.

Lemma iter_xO n p : Zpos (Pos.iter xO p n) = Zpos p * 2 ^ Zpos n.
Proof.
  induction n as [|n IH] using Pos.peano_ind; [cbn; lia|].
  rewrite Pos.iter_succ, Pos2Z.inj_xO, IH, Pos2Z.inj_succ, Z.pow_succ_r by lia. lia.
Qed.

Lemma binary_round_exact neg p :
  Zpos p < 2 ^ 53 -> binary_round 53 1024 neg p 0 = canonical neg (Zpos p).
Proof.
  intros Hp. pose proof (digits_small (Zpos p) ltac:(lia)) as Hd.
  unfold binary_round, shl_align. rewrite digits2_log2.
  assert (fexp 53 1024 (digits (Zpos p) + 0) = - (53 - digits (Zpos p))) as ->
    by (unfold fexp, emin; lia).
  destruct (53 - digits (Zpos p)) as [|n|n] eqn:E; [| |lia].
  - rewrite <- (round_exact neg (Zpos p) 0) by lia. by rewrite Z.mul_1_r.
  - change (binary_round_aux 53 1024 neg (Zpos (Pos.iter xO p n)) (- Zpos n) loc_Exact =
      canonical neg (Zpos p)).
    rewrite iter_xO, <- E, <- (round_exact neg (Zpos p) (53 - digits (Zpos p))) by lia.
    done.
Qed.

Lemma double_of_Z_exact k :
  Z.abs k < 2 ^ 53 -> k <> 0 -> double_of_Z k = canonical (k <? 0) (Z.abs k).
Proof.
  intros. unfold double_of_Z, binary_normalize.
  destruct k as [|p|p]; [done| |]; by apply binary_round_exact; lia.
Qed.

(** The product of two integers is exact when it fits. *)
Lemma d_mul_exact a b :
  a <> 0 -> b <> 0 -> Z.abs (a * b) < 2 ^ 53 ->
  d_mul (double_of_Z a) (double_of_Z b) = double_of_Z (a * b).
Proof.
  intros Ha Hb Hab.
  assert (Z.abs a < 2 ^ 53 /\ Z.abs b < 2 ^ 53) as [Ha' Hb'] by nia.
  pose proof (digits_small (Z.abs a) ltac:(lia)) as Da.
  pose proof (digits_small (Z.abs b) ltac:(lia)) as Db.
  rewrite !double_of_Z_exact by nia. unfold d_mul, SFmul, canonical.
  rewrite Z.abs_mul in *.
  set (x := Z.abs a * _). set (y := Z.abs b * _).
  assert (0 < x /\ 0 < y) as [Hx Hy] by (split; apply Z.mul_pos_pos; lia).
  rewrite Pos2Z.inj_mul, !Z2Pos.id by done.
  set (s := 106 - digits (Z.abs a) - digits (Z.abs b)).
  assert (x * y = Z.abs a * Z.abs b * 2 ^ s) as ->.
  { subst x y s. rewrite Z.mul_shuffle1, <- Z.pow_add_r by lia. do 2 f_equal. lia. }
  replace (digits (Z.abs a) - 53 + (digits (Z.abs b) - 53)) with (- s) by lia.
  rewrite round_exact.
  - unfold canonical. f_equal. lia.
  - nia.
  - pose proof (Z.log2_mul_below (Z.abs a) (Z.abs b)). unfold digits in *. lia.
Qed.

(** The order of whole numbers is the order of their doubles: first by the number
    of digits, then by the mantissa. *)
Lemma lex_digits a b :
  0 < a < 2 ^ 53 -> 0 < b < 2 ^ 53 ->
  digits a < digits b \/
    digits a = digits b /\ a * 2 ^ (53 - digits a) < b * 2 ^ (53 - digits b) <-> a < b.
Proof.
  intros Ha Hb. pose proof (digits_small a Ha). pose proof (digits_small b Hb).
  assert (digits a < digits b -> a < b) as Hlt.
  { unfold digits. intros Hd. apply Z.log2_lt_cancel. lia. }
  assert (a <= b -> digits a <= digits b) as Hle.
  { unfold digits. intros Hab. pose proof (Z.log2_le_mono a b Hab). lia. }
  split.
  - intros [?|[E Hs]]; [auto|]. rewrite E in Hs. apply Z.mul_lt_mono_pos_r in Hs; [done|].
    apply Z.pow_pos_nonneg; lia.
  - intros Hab. destruct (Z.lt_ge_cases (digits a) (digits b)); [by left|right].
    assert (digits a = digits b) as E by lia. split; [done|]. rewrite E.
    apply Z.mul_lt_mono_pos_r; [apply Z.pow_pos_nonneg; lia|done].
Qed.

Lemma d_lt_whole a b :
  Z.abs a < 2 ^ 53 -> Z.abs b < 2 ^ 53 -> d_lt (double_of_Z a) (double_of_Z b) = (a <? b).
Proof.
  intros Ha Hb. apply eq_true_iff_eq. rewrite Z.ltb_lt.
  assert (forall k, Z.abs k < 2 ^ 53 -> isnan (double_of_Z k) = false /\
    d_key (double_of_Z k) = (Z.sgn k, Z.sgn k * (digits (Z.abs k) - 53),
      k * 2 ^ (53 - digits (Z.abs k)))) as Hkey.
  { intros k Hk. destruct (decide (k = 0)) as [->|Hz]; [done|]. rewrite double_of_Z_exact by done.
    unfold canonical. assert (0 < Z.abs k * 2 ^ (53 - digits (Z.abs k))) as Hpos.
    { pose proof (digits_small (Z.abs k) ltac:(lia)). apply Z.mul_pos_pos; [lia|].
      apply Z.pow_pos_nonneg; lia. }
    destruct (Z.ltb_spec k 0); (split; [done|]); cbn [d_key]; rewrite Z2Pos.id by done;
      repeat f_equal; nia. }
  destruct (Hkey a Ha) as [Na Ka], (Hkey b Hb) as [Nb Kb]. rewrite d_lt_key, Ka, Kb by done.
  clear Hkey Na Nb Ka Kb. unfold key_lt.
  destruct (Z.lt_trichotomy a 0) as [Sa|[->|Sa]], (Z.lt_trichotomy b 0) as [Sb|[->|Sb]];
    try (cbn [Z.sgn]; lia).
  - pose proof (lex_digits (Z.abs b) (Z.abs a) ltac:(lia) ltac:(lia)). rewrite !Z.sgn_neg by done.
    rewrite !Z.abs_neq in * by lia. lia.
  - pose proof (lex_digits (Z.abs a) (Z.abs b) ltac:(lia) ltac:(lia)). rewrite !Z.sgn_pos by done.
    rewrite !Z.abs_eq in * by lia. lia.
Qed.

(** A quotient that is an integer is that integer. *)
Lemma double_of_ratio_exact neg k d :
  0 < k < 2 ^ 53 -> 0 < d -> double_of_ratio neg (k * d) d = canonical neg k.
Proof.
  intros Hk Hd. pose proof (digits_small k Hk) as Dk. unfold double_of_ratio.
  rewrite (proj2 (Z.eqb_neq _ _)) by nia. unfold SFdiv_core_binary.
  rewrite !Zdigits2_log2 by nia.
  set (e' := Z.min _ _).
  pose proof (Z.log2_mul_below k d) as Hlow. pose proof (Z.log2_mul_above k d) as Hhigh.
  assert (- e' = Z.max 0 (53 - (digits (k * d) - digits d))) as He
    by (subst e'; unfold fexp, emin, digits in *; lia).
  assert (match 0 - 0 - e' with Z0 => k * d | Zpos _ => Z.shiftl (k * d) (0 - 0 - e') | Zneg _ => 0 end
    = k * 2 ^ (- e') * d) as ->.
  { destruct (0 - 0 - e') as [|p|p] eqn:E; [|rewrite Z.shiftl_mul_pow2 by lia|lia].
    - replace (- e') with 0 by lia. lia.
    - rewrite <- E. replace (0 - 0 - e') with (- e') by lia. lia. }
  destruct (Z.div_eucl (k * 2 ^ (- e') * d) d) as [q r] eqn:E.
  assert (q = k * 2 ^ (- e') /\ r = 0) as [-> ->].
  { pose proof (Z.div_mul (k * 2 ^ (- e')) d) as Hq. pose proof (Z.mod_mul (k * 2 ^ (- e')) d) as Hr.
    unfold Z.div, Z.modulo in Hq, Hr. rewrite E in Hq, Hr. split; [apply Hq|apply Hr]; lia. }
  assert (new_location d 0 = loc_Exact) as ->
    by (unfold new_location, new_location_even, new_location_odd; by destruct (Z.even d)).
  replace e' with (- - e') at 2 by lia. apply round_exact; [done|].
  unfold digits in *. lia.
Qed.

(** *** Text of doubles *)

Lemma round_half_even_nearest n d : 0 < d -> 2 * Z.abs (round_half_even n d * d - n) <= d.
Proof.
  intros Hd. unfold round_half_even. pose proof (Z.div_mod n d ltac:(lia)) as Hn.
  pose proof (Z.mod_pos_bound n d Hd) as Hr.
  destruct (Z.compare_spec (2 * (n mod d)) d); [destruct (Z.even _)| |]; nia.
Qed.

Lemma round_half_even_exact k d : 0 < d -> round_half_even (k * d) d = k.
Proof.
  intros Hd. unfold round_half_even. rewrite Z.mod_mul, Z.div_mul by lia.
  by destruct d.
Qed.

Lemma fixed6_canonical `{Libc} neg k :
  0 < k < 2 ^ 53 -> fixed6 (canonical neg k) = fixed_text neg (k * 1000000).
Proof.
  intros Hk. pose proof (digits_small k Hk) as Hd. unfold canonical, fixed6, millionths.
  rewrite Z2Pos.id by (apply Z.mul_pos_pos; lia). f_equal.
  destruct (Z.leb_spec 0 (digits k - 53)) as [He|He].
  - replace (digits k) with 53 by lia. cbn. lia.
  - replace (- (digits k - 53)) with (53 - digits k) by lia.
    replace (k * 2 ^ (53 - digits k) * 1000000) with (k * 1000000 * 2 ^ (53 - digits k)) by lia.
    by apply round_half_even_exact; lia.
Qed.

(** The text of a whole number. *)
Lemma fixed_text_whole neg k :
  0 <= k -> fixed_text neg (k * 1000000) =
    (if neg then "-" else "") +:+ pretty (Z.to_N k) +:+ ".000000".
Proof. intros. unfold fixed_text. by rewrite Z.div_mul, Z.mod_mul by lia. Qed.

(** *** Reading it back *)

Lemma pretty_go_all_digits x s :
  Forall (fun b => isdigit b = true) (chars s) ->
  Forall (fun b => isdigit b = true) (chars (pretty_N_go x s)).
Proof.
  revert s. induction (N.lt_wf_0 x) as [x _ IH]; intros s Hs.
  destruct (decide (x = 0)%N) as [->|Hx]; [by rewrite pretty_N_go_0|].
  rewrite pretty_N_go_step by lia. apply IH; [apply N.div_lt; lia|].
  constructor; [|done]. by apply digit_char, N.mod_lt.
Qed.

Lemma pretty_all_digits (x : N) : Forall (fun b => isdigit b = true) (chars (pretty x)).
Proof.
  unfold pretty, pretty_N. destruct (decide (x = 0)%N); [by repeat constructor|].
  by apply pretty_go_all_digits.
Qed.

Lemma chars_app s t : chars (s +:+ t) = chars s ++ chars t.
Proof.
  induction s as [|c s IH]; [done|].
  change (Ascii.byte_of_ascii c :: chars (s +:+ t) = Ascii.byte_of_ascii c :: (chars s ++ chars t)).
  by rewrite IH.
Qed.

Lemma digits_clean ds : Forall (fun b => isdigit b = true) ds -> NUL ∉ ds.
Proof.
  intros Hds Hin%list_elem_of_In. rewrite List.Forall_forall in Hds. by apply Hds in Hin.
Qed.

Lemma NUL_chars_app s t : (NUL ∉ chars (s +:+ t)) <-> (NUL ∉ chars s) /\ (NUL ∉ chars t).
Proof. rewrite chars_app, elem_of_app. tauto. Qed.

Lemma fixed6_clean `{Libc} d : NUL ∉ chars (fixed6 d).
Proof.
  assert (forall x : N, NUL ∉ chars (pretty x)) as Hpretty
    by (intros; apply digits_clean, pretty_all_digits).
  assert (forall neg n, NUL ∉ chars (fixed_text neg n)) as Hfixed.
  { intros. unfold fixed_text, six_digits, digit_text. rewrite !NUL_chars_app.
    split_and!; try apply Hpretty; try destruct neg; by apply (bool_decide_unpack _). }
  destruct d as [|[]| |]; [apply Hfixed| | |apply nan_text_clean|apply Hfixed];
    by apply (bool_decide_unpack _).
Qed.

(** What [snprintf] stores. *)
Lemma snprintf_fixed6_spec `{Libc} buffer size d :
  1 <= size <= Z.of_nat (length buffer) ->
  exists b, snprintf_fixed6 buffer size d = Val b /\ length b = length buffer /\
    cstr b = take (Z.to_nat (size - 1)) (chars (fixed6 d)) /\
    terminated (take (Z.to_nat size) b) = true /\
    drop (Z.to_nat size) b = drop (Z.to_nat size) buffer.
Proof.
  intros Hsize. unfold snprintf_fixed6. set (t := take _ (chars _)).
  assert (length t <= Z.to_nat (size - 1))%nat as Ht by (subst t; rewrite length_take; lia).
  assert (NUL ∉ t) as Hclean.
  { intros Hin. apply (fixed6_clean d). rewrite <- (take_drop (Z.to_nat (size - 1)) (chars _)).
    apply elem_of_app. by left. }
  rewrite memcpy_exact by (rewrite length_app; cbn; lia). eexists. split; [done|].
  unfold overwrite. rewrite take_0, <- app_assoc. cbn [app]. split_and!.
  - rewrite !length_app. cbn. rewrite length_drop. lia.
  - by apply cstr_app.
  - rewrite take_app_ge by lia. destruct (Z.to_nat size - length t)%nat eqn:E; [lia|].
    apply terminated_app.
  - rewrite drop_app_ge by lia. destruct (Z.to_nat size - length t)%nat eqn:E; [lia|].
    cbn [drop]. rewrite drop_drop, length_app. f_equal. cbn. lia.
Qed.

Lemma tolower_digit b : isdigit b = true -> tolower b = b.
Proof. unfold isdigit, tolower. intros. rewrite (proj2 (andb_false_iff _ _)); [done|lia]. Qed.

(** A decimal number is not taken for a name or a hexadecimal number. *)
Lemma not_a_word word b s :
  isdigit b = true -> word <> [] -> starts_with_digit word = false ->
  after_word word (b :: s) = None.
Proof.
  intros Hb Hne Hw. destruct word as [|w word]; [done|]. cbn in *. rewrite tolower_digit by done. rewrite decide_False; [done|]. congruence.
Qed.

Lemma not_hexadecimal b ds rest :
  Forall (fun b => isdigit b = true) (b :: ds) ->
  after_word (chars "0x") ((b :: ds) ++ "."%byte :: rest) = None.
Proof.
  intros Hds. inversion_clear Hds as [|? ? Hb Hds']. cbn. rewrite tolower_digit by done.
  case_decide; [|done]. destruct Hds' as [|b' ds Hb' _]; [done|].
  cbn. rewrite tolower_digit by done. rewrite decide_False; [done|]. by intros ->.
Qed.

(** The number [x.000000]. *)
Lemma unsigned_whole `{Libc} neg (x : N) rest :
  unsigned_number neg (chars (pretty x +:+ ".000000") ++ NUL :: rest) =
  Some (finish_number neg (Z.of_N x * 1000000) 10 (-6) (NUL :: rest)).
Proof.
  rewrite chars_app, <- app_assoc. pose proof (pretty_all_digits x) as Hds.
  change (chars ".000000" ++ NUL :: rest) with
    ("."%byte :: (replicate 6 "0"%byte ++ NUL :: rest)).
  set (tail := replicate 6 "0"%byte ++ NUL :: rest).
  pose proof (scan_pretty x ("."%byte :: tail) eq_refl) as Hscan.
  destruct (chars (pretty x)) as [|b ds] eqn:E.
  { pose proof (proj1 (pretty_N_digits x [])) as Hd. by rewrite E in Hd. }
  unfold unsigned_number. pose proof (Forall_inv Hds) as Hb. cbn beta in Hb.
  rewrite not_hexadecimal by done. cbn [app].
  rewrite !not_a_word by done.
  cbn [mbind option_bind]. unfold significand. cbn [app] in Hscan. rewrite Hscan.
  rewrite decide_True by done.
  assert (scan_digits (Z.of_N x) tail = (Z.of_N x * 1000000, NUL :: rest)) as ->.
  { subst tail. change ((10 * (10 * (10 * (10 * (10 * (10 * Z.of_N x + 0) + 0) + 0) + 0) + 0) + 0,
      NUL :: rest) = (Z.of_N x * 1000000, NUL :: rest)). f_equal. lia. }
  subst tail. cbn [length app replicate].
  rewrite (proj2 (Z.eqb_neq _ _)) by (rewrite length_app; cbn [length]; lia).
  cbn [exponent_part]. rewrite decide_False by done. do 2 f_equal. cbn [length]. lia.
Qed.

Lemma finish_whole `{Libc} neg k rest :
  0 <= k < 2 ^ 53 ->
  finish_number neg (k * 1000000) 10 (-6) rest =
  (if k =? 0 then S754_zero neg else canonical neg k, false, rest).
Proof.
  intros Hk. unfold finish_number, scaled, underflows.
  change (10 ^ Z.max (-6) 0) with 1. change (10 ^ Z.max (- -6) 0) with 1000000.
  rewrite Z.mul_1_r. destruct (Z.eqb_spec k 0) as [->|Hk0]; [done|].
  rewrite double_of_ratio_exact by lia. cbn [isinf canonical orb].
  rewrite (proj2 (Z.ltb_ge _ _)), andb_false_r; [done|].
  assert (1 <= 2 ^ 1022) by (apply (Z.pow_le_mono_r 2 0); lia). nia.
Qed.

Lemma strtod_whole `{Libc} neg k rest :
  0 <= k < 2 ^ 53 ->
  strtod (chars (fixed_text neg (k * 1000000)) ++ NUL :: rest) =
  Val (if k =? 0 then S754_zero neg else canonical neg k, false, NUL :: rest).
Proof.
  intros Hk. unfold strtod. rewrite terminated_app, fixed_text_whole by lia.
  pose proof (unsigned_whole neg (Z.to_N k) rest) as Hnum.
  rewrite Z2N.id, finish_whole in Hnum by lia.
  assert (strip_sign (skip_space (chars ((if neg then "-" else "") +:+
      pretty (Z.to_N k) +:+ ".000000") ++ NUL :: rest)) =
    (neg, chars (pretty (Z.to_N k) +:+ ".000000") ++ NUL :: rest)) as ->; [|by rewrite Hnum].
  destruct neg; [done|].
  change ("" +:+ pretty (Z.to_N k) +:+ ".000000") with (pretty (Z.to_N k) +:+ ".000000").
  pose proof (proj1 (pretty_N_digits (Z.to_N k) (chars ".000000" ++ NUL :: rest))) as Hd.
  rewrite app_assoc, <- chars_app in Hd. rewrite skip_space_digit by done.
  destruct (chars _ ++ _) as [|b s]; [done|]. cbn in *. pose proof (isdigit_bounds b Hd).
  by rewrite !decide_False by (intros ->; cbn in *; lia).
Qed.
