(* ===== verification/Types.v ===== *)
(** * Shared data types ([include/common/types.h])

    Enumerations, the structs that travel between client and server with their
    x86-64 layouts, and the three inline price functions.  An enum object holds
    any 32-bit value, in particular after bytes from the network were copied
    into it, so struct fields of enum type are integers; [*_of_code] is the
    [switch] on such a value. *)

From S2P Require Import Prelude CMem CDouble.

Definition MAX_SYMBOL_LENGTH : nat := 16.
Definition MAX_CLIENT_ID_LENGTH : nat := 32.
Definition MAX_ERROR_MSG_LENGTH : nat := 256.
Definition BUFFER_SIZE : Z := 4096.
Definition MAX_CLIENTS : Z := 100.

Inductive ErrorCode : Type :=
  | SUCCESS
  | ERROR_SOCKET_CREATE
  | ERROR_SOCKET_BIND
  | ERROR_SOCKET_LISTEN
  | ERROR_SOCKET_ACCEPT
  | ERROR_SOCKET_CONNECT
  | ERROR_THREAD_CREATE
  | ERROR_MEMORY_ALLOC
  | ERROR_INVALID_PARAM
  | ERROR_INVALID_STATE
  | ERROR_TIMEOUT
  | ERROR_SERIALIZATION
  | ERROR_DESERIALIZATION
  | ERROR_INVALID_MESSAGE
  | ERROR_INVALID_ORDER
  | ERROR_ORDER_NOT_FOUND
  | ERROR_MARKET_DATA.

Definition error_code (e : ErrorCode) : Z :=
  match e with
  | SUCCESS => 0
  | ERROR_SOCKET_CREATE => -1
  | ERROR_SOCKET_BIND => -2
  | ERROR_SOCKET_LISTEN => -3
  | ERROR_SOCKET_ACCEPT => -4
  | ERROR_SOCKET_CONNECT => -5
  | ERROR_THREAD_CREATE => -6
  | ERROR_MEMORY_ALLOC => -7
  | ERROR_INVALID_PARAM => -8
  | ERROR_INVALID_STATE => -9
  | ERROR_TIMEOUT => -10
  | ERROR_SERIALIZATION => -11
  | ERROR_DESERIALIZATION => -12
  | ERROR_INVALID_MESSAGE => -13
  | ERROR_INVALID_ORDER => -14
  | ERROR_ORDER_NOT_FOUND => -15
  | ERROR_MARKET_DATA => -16
  end.
Coercion error_code : ErrorCode >-> Z.

Inductive MessageType : Type :=
  | MSG_NONE
  | MSG_HEARTBEAT
  | MSG_ORDER_NEW
  | MSG_ORDER_CANCEL
  | MSG_ORDER_MODIFY
  | MSG_ORDER_STATUS
  | MSG_MARKET_DATA
  | MSG_TRADE_EXEC
  | MSG_ERROR.

Definition message_type_code (t : MessageType) : Z :=
  match t with
  | MSG_NONE => 0
  | MSG_HEARTBEAT => 1
  | MSG_ORDER_NEW => 2
  | MSG_ORDER_CANCEL => 3
  | MSG_ORDER_MODIFY => 4
  | MSG_ORDER_STATUS => 5
  | MSG_MARKET_DATA => 6
  | MSG_TRADE_EXEC => 7
  | MSG_ERROR => 8
  end.
Coercion message_type_code : MessageType >-> Z.

Definition message_type_of_code (z : Z) : option MessageType :=
  match z with
  | 0 => Some MSG_NONE
  | 1 => Some MSG_HEARTBEAT
  | 2 => Some MSG_ORDER_NEW
  | 3 => Some MSG_ORDER_CANCEL
  | 4 => Some MSG_ORDER_MODIFY
  | 5 => Some MSG_ORDER_STATUS
  | 6 => Some MSG_MARKET_DATA
  | 7 => Some MSG_TRADE_EXEC
  | 8 => Some MSG_ERROR
  | _ => None
  end.

Inductive OrderType : Type :=
  | ORDER_TYPE_MARKET | ORDER_TYPE_LIMIT | ORDER_TYPE_STOP | ORDER_TYPE_STOP_LIMIT.
Definition order_type_code (t : OrderType) : Z :=
  match t with
  | ORDER_TYPE_MARKET => 1
  | ORDER_TYPE_LIMIT => 2
  | ORDER_TYPE_STOP => 3
  | ORDER_TYPE_STOP_LIMIT => 4
  end.
Coercion order_type_code : OrderType >-> Z.

Inductive OrderSide : Type := ORDER_SIDE_BUY | ORDER_SIDE_SELL.
Definition order_side_code (s : OrderSide) : Z :=
  match s with ORDER_SIDE_BUY => 1 | ORDER_SIDE_SELL => 2 end.
Coercion order_side_code : OrderSide >-> Z.

Inductive OrderStatus : Type :=
  | ORDER_STATUS_NEW | ORDER_STATUS_PARTIAL | ORDER_STATUS_FILLED
  | ORDER_STATUS_CANCELLED | ORDER_STATUS_REJECTED.
Definition order_status_code (s : OrderStatus) : Z :=
  match s with
  | ORDER_STATUS_NEW => 1
  | ORDER_STATUS_PARTIAL => 2
  | ORDER_STATUS_FILLED => 3
  | ORDER_STATUS_CANCELLED => 4
  | ORDER_STATUS_REJECTED => 5
  end.
Coercion order_status_code : OrderStatus >-> Z.

Inductive TimeInForce : Type := TIF_DAY | TIF_IOC | TIF_FOK | TIF_GTC.
Definition time_in_force_code (t : TimeInForce) : Z :=
  match t with TIF_DAY => 1 | TIF_IOC => 2 | TIF_FOK => 3 | TIF_GTC => 4 end.
Coercion time_in_force_code : TimeInForce >-> Z.

Record Price : Type := mkPrice { mantissa : Z; exponent : Z }.

Record Order : Type := mkOrder {
  order_id : Z;
  o_symbol : bytes;
  o_client_id : bytes;
  o_type : Z;
  o_side : Z;
  o_status : Z;
  o_time_in_force : Z;
  o_price : Price;
  o_quantity : Z;
  filled_quantity : Z;
  remaining_quantity : Z;
  creation_time : Z;
  modification_time : Z;
  expiration_time : Z;
}.

Record MarketData : Type := mkMarketData {
  md_symbol : bytes;
  last_price : Price;
  bid : Price;
  ask : Price;
  last_size : Z;
  bid_size : Z;
  ask_size : Z;
  volume : Z;
  num_trades : Z;
  md_timestamp : Z;
}.

Record TradeExecution : Type := mkTradeExecution {
  trade_id : Z;
  t_order_id : Z;
  t_symbol : bytes;
  t_price : Price;
  t_quantity : Z;
  t_timestamp : Z;
  buyer_id : bytes;
  seller_id : bytes;
}.

(** [struct { ErrorCode code; char message[MAX_ERROR_MSG_LENGTH]; } error] *)
Record ErrorData : Type := mkErrorData { e_code : Z; e_message : bytes }.

(** A message; its [data] union is the 264 bytes of its storage, the size of
    the [error] member rounded up to the union's alignment of 8. *)
Definition DATA_SIZE : nat := 264.
Record Message : Type := mkMessage {
  m_type : Z;
  sequence_num : Z;
  m_timestamp : Z;
  m_data : bytes;
}.

Definition wf_Message (m : Message) : Prop :=
  is_u32 (m_type m) /\ is_u64 (sequence_num m) /\ is_s64 (m_timestamp m) /\
  length (m_data m) = DATA_SIZE.

(** *** Layouts *)

Definition encode_Price (j : Indeterminate) (p : Price) : bytes :=
  uint_bytes 8 (mantissa p) ++ uint_bytes 4 (exponent p) ++ junk_bytes 12 4.
Definition decode_Price (bs : bytes) : Price := {|
  mantissa := s64 (uint_at 8 0 bs);
  exponent := s32 (uint_at 4 8 bs) |}.
Definition wf_Price (p : Price) : Prop := is_s64 (mantissa p) /\ is_s32 (exponent p).

(** The padding of a struct nested at offset [base]. *)
Definition inner (base : nat) (j : Indeterminate) : Indeterminate :=
  fun k => j (base + k)%nat.

Definition encode_Order (j : Indeterminate) (o : Order) : bytes :=
  uint_bytes 8 (order_id o) ++ o_symbol o ++ o_client_id o ++
  uint_bytes 4 (o_type o) ++ uint_bytes 4 (o_side o) ++
  uint_bytes 4 (o_status o) ++ uint_bytes 4 (o_time_in_force o) ++
  encode_Price (inner 72 j) (o_price o) ++
  uint_bytes 4 (o_quantity o) ++ uint_bytes 4 (filled_quantity o) ++
  uint_bytes 4 (remaining_quantity o) ++ junk_bytes 100 4 ++
  uint_bytes 8 (creation_time o) ++ uint_bytes 8 (modification_time o) ++
  uint_bytes 8 (expiration_time o).
Definition decode_Order (bs : bytes) : Order := {|
  order_id := uint_at 8 0 bs;
  o_symbol := slice 8 16 bs;
  o_client_id := slice 24 32 bs;
  o_type := uint_at 4 56 bs;
  o_side := uint_at 4 60 bs;
  o_status := uint_at 4 64 bs;
  o_time_in_force := uint_at 4 68 bs;
  o_price := decode_Price (slice 72 16 bs);
  o_quantity := uint_at 4 88 bs;
  filled_quantity := uint_at 4 92 bs;
  remaining_quantity := uint_at 4 96 bs;
  creation_time := s64 (uint_at 8 104 bs);
  modification_time := s64 (uint_at 8 112 bs);
  expiration_time := s64 (uint_at 8 120 bs) |}.
Definition wf_Order (o : Order) : Prop :=
  is_u64 (order_id o) /\ length (o_symbol o) = 16%nat /\
  length (o_client_id o) = 32%nat /\ is_u32 (o_type o) /\ is_u32 (o_side o) /\
  is_u32 (o_status o) /\ is_u32 (o_time_in_force o) /\ wf_Price (o_price o) /\
  is_u32 (o_quantity o) /\ is_u32 (filled_quantity o) /\
  is_u32 (remaining_quantity o) /\ is_s64 (creation_time o) /\
  is_s64 (modification_time o) /\ is_s64 (expiration_time o).

Definition encode_MarketData (j : Indeterminate) (d : MarketData) : bytes :=
  md_symbol d ++ encode_Price (inner 16 j) (last_price d) ++
  encode_Price (inner 32 j) (bid d) ++ encode_Price (inner 48 j) (ask d) ++
  uint_bytes 4 (last_size d) ++ uint_bytes 4 (bid_size d) ++
  uint_bytes 4 (ask_size d) ++ junk_bytes 76 4 ++ uint_bytes 8 (volume d) ++
  uint_bytes 4 (num_trades d) ++ junk_bytes 92 4 ++ uint_bytes 8 (md_timestamp d).
Definition decode_MarketData (bs : bytes) : MarketData := {|
  md_symbol := slice 0 16 bs;
  last_price := decode_Price (slice 16 16 bs);
  bid := decode_Price (slice 32 16 bs);
  ask := decode_Price (slice 48 16 bs);
  last_size := uint_at 4 64 bs;
  bid_size := uint_at 4 68 bs;
  ask_size := uint_at 4 72 bs;
  volume := uint_at 8 80 bs;
  num_trades := uint_at 4 88 bs;
  md_timestamp := s64 (uint_at 8 96 bs) |}.
Definition wf_MarketData (d : MarketData) : Prop :=
  length (md_symbol d) = 16%nat /\ wf_Price (last_price d) /\ wf_Price (bid d) /\
  wf_Price (ask d) /\ is_u32 (last_size d) /\ is_u32 (bid_size d) /\
  is_u32 (ask_size d) /\ is_u64 (volume d) /\ is_u32 (num_trades d) /\
  is_s64 (md_timestamp d).

Definition encode_TradeExecution (j : Indeterminate) (t : TradeExecution) : bytes :=
  uint_bytes 8 (trade_id t) ++ uint_bytes 8 (t_order_id t) ++ t_symbol t ++
  encode_Price (inner 32 j) (t_price t) ++ uint_bytes 4 (t_quantity t) ++
  junk_bytes 52 4 ++ uint_bytes 8 (t_timestamp t) ++ buyer_id t ++ seller_id t.
Definition decode_TradeExecution (bs : bytes) : TradeExecution := {|
  trade_id := uint_at 8 0 bs;
  t_order_id := uint_at 8 8 bs;
  t_symbol := slice 16 16 bs;
  t_price := decode_Price (slice 32 16 bs);
  t_quantity := uint_at 4 48 bs;
  t_timestamp := s64 (uint_at 8 56 bs);
  buyer_id := slice 64 32 bs;
  seller_id := slice 96 32 bs |}.
Definition wf_TradeExecution (t : TradeExecution) : Prop :=
  is_u64 (trade_id t) /\ is_u64 (t_order_id t) /\ length (t_symbol t) = 16%nat /\
  wf_Price (t_price t) /\ is_u32 (t_quantity t) /\ is_s64 (t_timestamp t) /\
  length (buyer_id t) = 32%nat /\ length (seller_id t) = 32%nat.

Definition decode_ErrorData (bs : bytes) : ErrorData := {|
  e_code := s32 (uint_at 4 0 bs);
  e_message := slice 4 256 bs |}.

(** *** Initialisers

    [{ .data.member = v }]: the member is stored, the bytes of the union beyond
    it are unspecified.  Without a [.data] designator the first member (the
    128-byte [order]) is zero-initialised. *)
Definition data_of {A} `{CType A} `{Indeterminate} (v : A) : bytes :=
  encode junk v ++ junk_bytes (size_of A) (DATA_SIZE - size_of A).
Definition zero_data `{Indeterminate} : bytes :=
  replicate 128 NUL ++ junk_bytes 128 (DATA_SIZE - 128).

(** A local [Message] before anything is stored in it. *)
Definition uninitialised_message `{Indeterminate} : Message :=
  let object := junk_bytes 0 24 in
  {| m_type := uint_at 4 0 object; sequence_num := uint_at 8 8 object;
     m_timestamp := s64 (uint_at 8 16 object); m_data := junk_bytes 24 DATA_SIZE |}.

(** *** Prices *)

Definition create_price (mantissa exponent : Z) : Price := mkPrice mantissa exponent.

Definition price_to_double `{Libm} (p : Price) : double :=
  d_mul (double_of_Z (mantissa p)) (pow (double_of_Z 10) (double_of_Z (exponent p))).

Definition double_to_price `{Libm} (value : double) : res Price :=
  let exponent := -6 in
  mantissa ← int64_of_double
    (d_mul value (pow (double_of_Z 10) (double_of_Z (- exponent))));
  Val (mkPrice mantissa exponent).

(** [double_to_price] of an amount of cents *)
Definition cents (z : Z) : Price := create_price (z * 10000) (-6).

(** *** The layouts satisfy the interface *)

Lemma length_encode_Price j p : length (encode_Price j p) = 16%nat.
Proof. reflexivity || (unfold encode_Price; by autorewrite with clen). Qed.

Lemma decode_encode_Price j p : wf_Price p -> decode_Price (encode_Price j p) = p.
Proof.
  destruct p as [m e]. intros [??]. unfold decode_Price, encode_Price; cbn in *.
  field_at. by rewrite combine_s64, combine_s32.
Qed.

Lemma wf_decode_Price bs : wf_Price (decode_Price bs).
Proof. split; apply s64_range || apply s32_range. Qed.

#[export] Instance Price_CType : CType Price := {|
  size_of := 16; encode := encode_Price; decode := decode_Price; wf := wf_Price;
  length_encode := fun j p _ => length_encode_Price j p;
  decode_encode := decode_encode_Price;
  wf_decode := fun bs _ => wf_decode_Price bs |}.

#[export] Hint Resolve length_encode_Price : lens.
#[global] Arguments encode_Price : simpl never.
#[global] Arguments decode_Price : simpl never.

(** Each struct: the length of an encoding is the sum of the pieces; each field
    of the decoding is found at its offset; decoded fields are in range. *)
Ltac struct_length := autorewrite with clen; rewrite ?length_encode_Price; lia.
Ltac struct_roundtrip :=
  field_at; rewrite ?decode_encode_Price by assumption;
  rewrite ?combine_u32, ?combine_u64, ?combine_s32, ?combine_s64 by assumption;
  reflexivity.
Ltac struct_wf :=
  repeat match goal with |- _ /\ _ => split end;
  first [ apply wf_decode_Price | apply uint_at_u32 | apply uint_at_u64
        | apply s64_range | apply s32_range | rewrite length_slice; [reflexivity | lia] ].

Lemma length_encode_Order_strings j o :
  length (o_symbol o) = 16%nat -> length (o_client_id o) = 32%nat ->
  length (encode_Order j o) = 128%nat.
Proof. intros. unfold encode_Order. struct_length. Qed.
Lemma length_encode_Order j o : wf_Order o -> length (encode_Order j o) = 128%nat.
Proof. intros (? & ? & ? & _). by apply length_encode_Order_strings. Qed.
Lemma decode_encode_Order j o : wf_Order o -> decode_Order (encode_Order j o) = o.
Proof.
  destruct o. unfold wf_Order, decode_Order, encode_Order; cbn. intros. destruct_and!.
  struct_roundtrip.
Qed.
Lemma wf_decode_Order bs : length bs = 128%nat -> wf_Order (decode_Order bs).
Proof. intros. unfold wf_Order, decode_Order; cbn. struct_wf. Qed.

#[export] Instance Order_CType : CType Order := {|
  size_of := 128; encode := encode_Order; decode := decode_Order; wf := wf_Order;
  length_encode := length_encode_Order;
  decode_encode := decode_encode_Order;
  wf_decode := wf_decode_Order |}.

Lemma length_encode_MarketData_strings j d :
  length (md_symbol d) = 16%nat -> length (encode_MarketData j d) = 104%nat.
Proof. intros. unfold encode_MarketData. struct_length. Qed.
Lemma length_encode_MarketData j d :
  wf_MarketData d -> length (encode_MarketData j d) = 104%nat.
Proof. intros (? & _). by apply length_encode_MarketData_strings. Qed.
Lemma decode_encode_MarketData j d :
  wf_MarketData d -> decode_MarketData (encode_MarketData j d) = d.
Proof.
  destruct d. unfold wf_MarketData, decode_MarketData, encode_MarketData; cbn.
  intros. destruct_and!. struct_roundtrip.
Qed.
Lemma wf_decode_MarketData bs :
  length bs = 104%nat -> wf_MarketData (decode_MarketData bs).
Proof. intros. unfold wf_MarketData, decode_MarketData; cbn. struct_wf. Qed.

#[export] Instance MarketData_CType : CType MarketData := {|
  size_of := 104; encode := encode_MarketData; decode := decode_MarketData;
  wf := wf_MarketData;
  length_encode := length_encode_MarketData;
  decode_encode := decode_encode_MarketData;
  wf_decode := wf_decode_MarketData |}.

Lemma length_encode_TradeExecution_strings j t :
  length (t_symbol t) = 16%nat -> length (buyer_id t) = 32%nat -> length (seller_id t) = 32%nat ->
  length (encode_TradeExecution j t) = 128%nat.
Proof. intros. unfold encode_TradeExecution. struct_length. Qed.
Lemma length_encode_TradeExecution j t :
  wf_TradeExecution t -> length (encode_TradeExecution j t) = 128%nat.
Proof.
  intros (? & ? & ? & ? & ? & ? & ? & ?). by apply length_encode_TradeExecution_strings.
Qed.
Lemma decode_encode_TradeExecution j t :
  wf_TradeExecution t -> decode_TradeExecution (encode_TradeExecution j t) = t.
Proof.
  destruct t. unfold wf_TradeExecution, decode_TradeExecution, encode_TradeExecution; cbn.
  intros. destruct_and!. struct_roundtrip.
Qed.
Lemma wf_decode_TradeExecution bs :
  length bs = 128%nat -> wf_TradeExecution (decode_TradeExecution bs).
Proof. intros. unfold wf_TradeExecution, decode_TradeExecution; cbn. struct_wf. Qed.

#[export] Instance TradeExecution_CType : CType TradeExecution := {|
  size_of := 128; encode := encode_TradeExecution; decode := decode_TradeExecution;
  wf := wf_TradeExecution;
  length_encode := length_encode_TradeExecution;
  decode_encode := decode_encode_TradeExecution;
  wf_decode := wf_decode_TradeExecution |}.

Lemma message_type_of_code_code t : message_type_of_code (message_type_code t) = Some t.
Proof. by destruct t. Qed.

Lemma length_data_of {A} `{CType A} `{Indeterminate} (v : A) :
  wf v -> (size_of A <= DATA_SIZE)%nat -> length (data_of v) = DATA_SIZE.
Proof.
  intros. unfold data_of. rewrite length_app, length_encode, length_junk_bytes by done. lia.
Qed.

Lemma length_zero_data `{Indeterminate} : length zero_data = DATA_SIZE.
Proof. unfold zero_data. by rewrite length_app, length_junk_bytes. Qed.

Lemma take_data_of {A} `{CType A} `{Indeterminate} (v : A) :
  wf v -> take (size_of A) (data_of v) = encode junk v.
Proof. intros. unfold data_of. by rewrite take_app_length' by (by rewrite length_encode). Qed.

(** A member stored in the union is read back. *)
Lemma load_data_of {A} `{CType A} `{Indeterminate} (v : A) :
  wf v -> load (data_of v) 0 = v.
Proof.
  intros. unfold load, data_of. rewrite slice_app_here by (by apply length_encode).
  by apply decode_encode.
Qed.

Lemma load_ext {A} `{CType A} (d d' : bytes) :
  take (size_of A) d = take (size_of A) d' -> load (A:=A) d 0 = load d' 0.
Proof. unfold load, slice. rewrite !drop_0. by intros ->. Qed.

Lemma wf_load {A} `{CType A} (obj : bytes) off :
  (off + size_of A <= length obj)%nat -> wf (load (A:=A) obj off).
Proof. intros. apply wf_decode, length_slice. lia. Qed.

(** The amounts the examples convert. *)
Lemma price_of_cents `{LibmExact} z :
  z ∈ [15050; 15045; 15055; 28075; 28070; 28080] -> double_to_price (d_lit z 100) = Val (cents z).
Proof.
  intros Hz. unfold double_to_price. change (- -6) with 6. rewrite pow_ten by lia.
  repeat (apply elem_of_cons in Hz as [->|Hz]; [by vm_compute|]). by apply elem_of_nil in Hz.
Qed.
