(* ===== verification/Serialization.v ===== *)
(** * The wire format ([include/serialization/serialization.h],
      [src/serialization/serialization.c])

    Packets are a 20-byte header followed by the raw bytes of one struct.  The
    definitions follow the C functions statement by statement, over byte buffers
    whose length is the size of the C object; [packet] is the abstract format
    they are proved to implement. *)

From S2P Require Import Prelude CMem CString Types.

Definition SERIALIZATION_VERSION : Z := 1.
Definition MAX_MESSAGE_SIZE : Z := 8192.

Inductive SerializationError : Type :=
  | SERIAL_SUCCESS
  | SERIAL_ERROR_BUFFER_OVERFLOW
  | SERIAL_ERROR_INVALID_VERSION
  | SERIAL_ERROR_INVALID_TYPE
  | SERIAL_ERROR_CHECKSUM
  | SERIAL_ERROR_INCOMPLETE
  | SERIAL_ERROR_INVALID_MESSAGE.

Definition serial_code (e : SerializationError) : Z :=
  match e with
  | SERIAL_SUCCESS => 0
  | SERIAL_ERROR_BUFFER_OVERFLOW => -1
  | SERIAL_ERROR_INVALID_VERSION => -2
  | SERIAL_ERROR_INVALID_TYPE => -3
  | SERIAL_ERROR_CHECKSUM => -4
  | SERIAL_ERROR_INCOMPLETE => -5
  | SERIAL_ERROR_INVALID_MESSAGE => -6
  end.
Coercion serial_code : SerializationError >-> Z.

Record MessageHeader : Type := mkMessageHeader {
  version : Z;
  message_size : Z;
  h_type : Z;
  payload_size : Z;
  h_checksum : Z;
}.

Definition encode_header (h : MessageHeader) : bytes :=
  uint_bytes 4 (version h) ++ uint_bytes 4 (message_size h) ++
  uint_bytes 4 (h_type h) ++ uint_bytes 4 (payload_size h) ++
  uint_bytes 4 (h_checksum h).
Definition decode_header (bs : bytes) : MessageHeader := {|
  version := uint_at 4 0 bs;
  message_size := uint_at 4 4 bs;
  h_type := uint_at 4 8 bs;
  payload_size := uint_at 4 12 bs;
  h_checksum := uint_at 4 16 bs |}.
Definition wf_header (h : MessageHeader) : Prop :=
  is_u32 (version h) /\ is_u32 (message_size h) /\ is_u32 (h_type h) /\
  is_u32 (payload_size h) /\ is_u32 (h_checksum h).

(** [sizeof(MessageHeader)] *)
Definition HEADER_SIZE : nat := 20.

(** *** The functions *)

(** The loop of [calculate_checksum]: [data] is the part of the object from
    [data[i]] on. *)
Fixpoint checksum_loop (size i checksum : Z) (data : bytes) {struct data} : res Z :=
  if i <? size then
    match data with
    | [] => UB OutOfBounds
    | b :: data' =>
        checksum_loop size (i + 1)
          (((checksum ≪₃₂ 5) ⊕₃₂ checksum) ⊕₃₂ byte.unsigned b) data'
    end
  else Val checksum.

Definition calculate_checksum (data : bytes) (size : Z) : res Z :=
  checksum_loop size 0 0 data.

(** One case of the [switch] of [serialize_message] (payload bound check and
    copy of the [payload] first bytes of the union), then the common tail. *)
Definition emit_payload (msg : Message) (buf : bytes) (buffer_size : Z)
    (payload : nat) : res (Z * option bytes) :=
  let pos := 0 in
  if pos + Z.of_nat HEADER_SIZE + Z.of_nat payload >? buffer_size
  then Val (serial_code SERIAL_ERROR_BUFFER_OVERFLOW, Some buf)
  else
    buf ← memcpy buf HEADER_SIZE (m_data msg) payload;
    let size := u32 (Z.of_nat HEADER_SIZE + Z.of_nat payload) in
    sum ← calculate_checksum (drop HEADER_SIZE buf) (Z.of_nat payload);
    let header := {|
      version := SERIALIZATION_VERSION;
      message_size := size;
      h_type := m_type msg;
      payload_size := Z.of_nat payload;
      h_checksum := sum |} in
    buf ← memcpy buf 0 (encode_header header) HEADER_SIZE;
    Val (s32 size, Some buf).

Definition serialize_message (msg : option Message) (buffer : option bytes)
    (buffer_size : Z) : res (Z * option bytes) :=
  match msg, buffer with
  | Some msg, Some buf =>
      if buffer_size <? Z.of_nat HEADER_SIZE
      then Val (serial_code SERIAL_ERROR_BUFFER_OVERFLOW, buffer)
      else
        match message_type_of_code (m_type msg) with
        | Some (MSG_ORDER_NEW | MSG_ORDER_MODIFY | MSG_ORDER_CANCEL) =>
            emit_payload msg buf buffer_size (size_of Order)
        | Some MSG_MARKET_DATA => emit_payload msg buf buffer_size (size_of MarketData)
        | Some MSG_TRADE_EXEC =>
            emit_payload msg buf buffer_size (size_of TradeExecution)
        | _ => Val (serial_code SERIAL_ERROR_INVALID_TYPE, buffer)
        end
  | _, _ => Val (serial_code SERIAL_ERROR_BUFFER_OVERFLOW, buffer)
  end.

Definition validate_message_header (header : option MessageHeader) : Z :=
  match header with
  | None => SERIAL_ERROR_INVALID_MESSAGE
  | Some h =>
      if negb (version h =? SERIALIZATION_VERSION) then SERIAL_ERROR_INVALID_VERSION
      else if message_size h <? Z.of_nat HEADER_SIZE then SERIAL_ERROR_INVALID_MESSAGE
      else if message_size h >? MAX_MESSAGE_SIZE then SERIAL_ERROR_BUFFER_OVERFLOW
      else SERIAL_SUCCESS
  end.

(** [memcpy(&msg->data.member, payload, n)] *)
Definition store_payload (msg : Message) (payload : bytes) (n : nat) : res Message :=
  data ← memcpy (m_data msg) 0 payload n;
  Val {| m_type := m_type msg; sequence_num := sequence_num msg;
         m_timestamp := m_timestamp msg; m_data := data |}.

Definition set_type (t : Z) (msg : Message) : Message :=
  {| m_type := t; sequence_num := sequence_num msg;
     m_timestamp := m_timestamp msg; m_data := m_data msg |}.

(** One case of the [switch] of [deserialize_message]. *)
Definition accept_payload (header : MessageHeader) (msg : Message) (payload : bytes)
    (n : nat) : res (Z * option Message) :=
  if negb (payload_size header =? Z.of_nat n)
  then Val (serial_code SERIAL_ERROR_INVALID_MESSAGE, Some msg)
  else
    msg' ← store_payload msg payload n;
    Val (serial_code SERIAL_SUCCESS, Some msg').

Definition deserialize_message (buffer : option bytes) (buffer_size : Z)
    (msg : option Message) : res (Z * option Message) :=
  match buffer, msg with
  | Some buf, Some msg0 =>
      if buffer_size <? Z.of_nat HEADER_SIZE
      then Val (serial_code SERIAL_ERROR_INCOMPLETE, msg)
      else
        header_bytes ← memcpy (replicate HEADER_SIZE NUL) 0 buf HEADER_SIZE;
        let header := decode_header header_bytes in
        if negb (validate_message_header (Some header) =? SERIAL_SUCCESS)
        then Val (serial_code SERIAL_ERROR_INVALID_MESSAGE, msg)
        else if buffer_size <? message_size header
        then Val (serial_code SERIAL_ERROR_INCOMPLETE, msg)
        else
          let payload := drop HEADER_SIZE buf in
          calc ← calculate_checksum payload (payload_size header);
          if negb (calc =? h_checksum header)
          then Val (serial_code SERIAL_ERROR_CHECKSUM, msg)
          else
            let msg1 := set_type (h_type header) msg0 in
            match message_type_of_code (m_type msg1) with
            | Some (MSG_ORDER_NEW | MSG_ORDER_MODIFY | MSG_ORDER_CANCEL) =>
                accept_payload header msg1 payload (size_of Order)
            | Some MSG_MARKET_DATA => accept_payload header msg1 payload (size_of MarketData)
            | Some MSG_TRADE_EXEC =>
                accept_payload header msg1 payload (size_of TradeExecution)
            | _ => Val (serial_code SERIAL_ERROR_INVALID_TYPE, Some msg1)
            end
  | _, _ => Val (serial_code SERIAL_ERROR_INCOMPLETE, msg)
  end.

Definition get_serialization_error (error : Z) : string :=
  match error with
  | 0 => "Success"
  | -1 => "Buffer overflow"
  | -2 => "Invalid version"
  | -3 => "Invalid message type"
  | -4 => "Checksum mismatch"
  | -5 => "Incomplete message"
  | -6 => "Invalid message format"
  | _ => "Unknown error"
  end%string.

(** *** The abstract format *)

(** The payload size that goes with a message type, if it travels at all. *)
Definition wire_size (t : Z) : option nat :=
  match message_type_of_code t with
  | Some (MSG_ORDER_NEW | MSG_ORDER_MODIFY | MSG_ORDER_CANCEL) => Some (size_of Order)
  | Some MSG_MARKET_DATA => Some (size_of MarketData)
  | Some MSG_TRADE_EXEC => Some (size_of TradeExecution)
  | _ => None
  end.

(** The checksum as a polynomial in 33, modulo [2^32]. *)
Fixpoint poly33 (bs : bytes) : Z :=
  match bs with
  | [] => 0
  | b :: bs' => byte.unsigned b * 33 ^ Z.of_nat (length bs') + poly33 bs'
  end.

Definition packet_header (t : Z) (payload : bytes) : MessageHeader := {|
  version := SERIALIZATION_VERSION;
  message_size := Z.of_nat (HEADER_SIZE + length payload);
  h_type := t;
  payload_size := Z.of_nat (length payload);
  h_checksum := poly33 payload mod 2 ^ 32 |}.

Definition packet (t : Z) (payload : bytes) : bytes :=
  encode_header (packet_header t payload) ++ payload.

(** The receiver's message after a packet of type [t] was stored into it. *)
Definition received (msg : Message) (t : Z) (payload : bytes) : Message :=
  {| m_type := t; sequence_num := sequence_num msg; m_timestamp := m_timestamp msg;
     m_data := overwrite 0 payload (m_data msg) |}.

Definition header_ok (h : MessageHeader) : bool :=
  (version h =? SERIALIZATION_VERSION) &&
  (Z.of_nat HEADER_SIZE <=? message_size h) && (message_size h <=? MAX_MESSAGE_SIZE).

(** The whole behaviour of [deserialize_message] on a buffer object [buf] of
    which [size] bytes are announced, branch by branch. *)
Definition deserialize_spec (buf : bytes) (size : Z) (msg : Message)
    : res (Z * option Message) :=
  let h := decode_header (take HEADER_SIZE buf) in
  if size <? Z.of_nat HEADER_SIZE then Val (serial_code SERIAL_ERROR_INCOMPLETE, Some msg)
  else if negb (header_ok h) then Val (serial_code SERIAL_ERROR_INVALID_MESSAGE, Some msg)
  else if size <? message_size h then Val (serial_code SERIAL_ERROR_INCOMPLETE, Some msg)
  else if Z.of_nat (length buf) <? Z.of_nat HEADER_SIZE + payload_size h
  then UB OutOfBounds
  else
    let payload := slice HEADER_SIZE (Z.to_nat (payload_size h)) buf in
    if negb (poly33 payload mod 2 ^ 32 =? h_checksum h)
    then Val (serial_code SERIAL_ERROR_CHECKSUM, Some msg)
    else match wire_size (h_type h) with
         | None => Val (serial_code SERIAL_ERROR_INVALID_TYPE, Some (set_type (h_type h) msg))
         | Some n =>
             if payload_size h =? Z.of_nat n
             then Val (serial_code SERIAL_SUCCESS, Some (received msg (h_type h) payload))
             else Val (serial_code SERIAL_ERROR_INVALID_MESSAGE,
                       Some (set_type (h_type h) msg))
         end.

(** What [deserialize_message] demands of a buffer of which [size] bytes were
    received, when it accepts it with type [t] and [payload]. *)
Definition accepts (buf : bytes) (size t : Z) (payload : bytes) : Prop :=
  let h := decode_header (take HEADER_SIZE buf) in
  Z.of_nat HEADER_SIZE <= size /\
  version h = SERIALIZATION_VERSION /\
  Z.of_nat HEADER_SIZE <= message_size h <= Z.min MAX_MESSAGE_SIZE size /\
  h_type h = t /\
  wire_size t = Some (length payload) /\
  payload_size h = Z.of_nat (length payload) /\
  slice HEADER_SIZE (length payload) buf = payload /\
  h_checksum h = poly33 payload mod 2 ^ 32.

(** A datagram with a good header, received whole, whose payload lies in the buffer
    and has the announced checksum. *)
Definition intact (buf : bytes) (size : Z) : Prop :=
  let h := decode_header (take HEADER_SIZE buf) in
  Z.of_nat HEADER_SIZE <= size /\ header_ok h = true /\ message_size h <= size /\
  Z.of_nat HEADER_SIZE + payload_size h <= Z.of_nat (length buf) /\
  poly33 (slice HEADER_SIZE (Z.to_nat (payload_size h)) buf) mod 2 ^ 32 = h_checksum h.

(** *** The message of [tests/unit/test_serialization.c] *)

Definition test_order : Order := {|
  order_id := 12345;
  o_symbol := char_array 16 "AAPL";
  o_client_id := replicate 32 NUL;
  o_type := ORDER_TYPE_LIMIT;
  o_side := ORDER_SIDE_BUY;
  o_status := ORDER_STATUS_NEW;
  o_time_in_force := 0;
  o_price := create_price 100500000 (-6);
  o_quantity := 100;
  filled_quantity := 0;
  remaining_quantity := 0;
  creation_time := 0;
  modification_time := 0;
  expiration_time := 0 |}.

Definition test_message `{Indeterminate} (now : Z) : Message := {|
  m_type := MSG_ORDER_NEW;
  sequence_num := 1;
  m_timestamp := now;
  m_data := data_of test_order |}.

Definition test_decoded : Message := {|
  m_type := 0; sequence_num := 0; m_timestamp := 0; m_data := replicate DATA_SIZE NUL |}.

Definition zero_junk : Indeterminate := fun _ => NUL.
#[local] Existing Instance zero_junk.

(** *** The checksum *)

Lemma poly33_app l r :
  poly33 (l ++ r) = poly33 l * 33 ^ Z.of_nat (length r) + poly33 r.
Proof.
  induction l as [|b l IH]; cbn [poly33 app]; [lia|].
  rewrite IH, length_app, Nat2Z.inj_add, Z.pow_add_r by lia. lia.
Qed.

Lemma checksum_step c b :
  ((c ≪₃₂ 5) ⊕₃₂ c) ⊕₃₂ b = (33 * c + b) mod 2 ^ 32.
Proof.
  unfold u32. rewrite Z.shiftl_mul_pow2 by lia.
  rewrite Zplus_mod_idemp_l, <- Zplus_assoc, Zplus_mod_idemp_l. f_equal. lia.
Qed.

Lemma checksum_loop_val size data i c :
  0 <= c < 2 ^ 32 -> i <= size -> size - i <= Z.of_nat (length data) ->
  checksum_loop size i c data =
  Val ((c * 33 ^ (size - i) + poly33 (take (Z.to_nat (size - i)) data)) mod 2 ^ 32).
Proof.
  revert i c. induction data as [|b data IH]; intros i c Hc Hi Hl; cbn [length] in Hl;
    cbn [checksum_loop]; destruct (Z.ltb_spec i size).
  - lia.
  - replace (size - i) with 0 by lia. cbn. rewrite Z.mul_1_r, Z.add_0_r.
    by rewrite Z.mod_small.
  - rewrite checksum_step, IH by (try apply Z.mod_pos_bound; lia). f_equal.
    replace (Z.to_nat (size - i)) with (S (Z.to_nat (size - (i + 1)))) by lia.
    cbn [take firstn poly33]. rewrite length_take.
    replace (Z.of_nat (Z.to_nat (size - (i + 1)) `min` length data))
      with (size - (i + 1)) by lia.
    replace (size - i) with (Z.succ (size - (i + 1))) by lia.
    rewrite Z.pow_succ_r by lia.
    rewrite <- Zplus_mod_idemp_l, Zmult_mod_idemp_l, Zplus_mod_idemp_l. f_equal. lia.
  - replace (size - i) with 0 by lia. cbn. rewrite Z.mul_1_r, Z.add_0_r.
    by rewrite Z.mod_small.
Qed.

Lemma checksum_loop_oob size data i c :
  Z.of_nat (length data) < size - i -> checksum_loop size i c data = UB OutOfBounds.
Proof.
  revert i c. induction data as [|b data IH]; intros i c Hl; cbn [length] in Hl;
    cbn [checksum_loop]; rewrite (proj2 (Z.ltb_lt i size)) by lia; [done|].
  apply IH. lia.
Qed.

Lemma calculate_checksum_val data size :
  0 <= size <= Z.of_nat (length data) ->
  calculate_checksum data size = Val (poly33 (take (Z.to_nat size) data) mod 2 ^ 32).
Proof.
  intros. unfold calculate_checksum. rewrite checksum_loop_val by lia.
  do 2 f_equal. rewrite Z.sub_0_r. lia.
Qed.

Lemma calculate_checksum_exact data n :
  (n <= length data)%nat ->
  calculate_checksum data (Z.of_nat n) = Val (poly33 (take n data) mod 2 ^ 32).
Proof. intros. rewrite calculate_checksum_val by lia. by rewrite Nat2Z.id. Qed.

(** Two equally long byte strings that differ in exactly one byte have
    different checksums: 33 is odd, so its powers are units modulo [2^32], and
    the difference of two bytes is less than [2^32]. *)
Lemma poly33_one_byte l r b b' :
  b <> b' -> poly33 (l ++ b :: r) mod 2 ^ 32 <> poly33 (l ++ b' :: r) mod 2 ^ 32.
Proof.
  intros Hne Heq. rewrite !poly33_app in Heq. cbn [poly33 length] in Heq.
  set (k := Z.of_nat (length r)) in *.
  assert ((2 ^ 32 | 33 ^ k * (byte.unsigned b - byte.unsigned b'))) as Hdiv.
  { apply Z.mod_divide; [done|].
    replace (33 ^ k * (byte.unsigned b - byte.unsigned b')) with
      ((poly33 l * 33 ^ Z.of_nat (S (length r)) + (byte.unsigned b * 33 ^ k + poly33 r)) -
       (poly33 l * 33 ^ Z.of_nat (S (length r)) + (byte.unsigned b' * 33 ^ k + poly33 r)))
      by lia.
    rewrite Zminus_mod, Heq, Z.sub_diag. done. }
  apply Z.gauss in Hdiv.
  - pose proof (byte.unsigned_range b). pose proof (byte.unsigned_range b').
    destruct (decide (byte.unsigned b = byte.unsigned b')) as [He|].
    + by apply Hne, byte.unsigned_inj.
    + destruct Hdiv as [q Hq]. lia.
  - apply Z.coprime_pow_l; [lia|]. by apply Z.coprime_pow_r; [lia|].
Qed.

(** *** Headers *)

Lemma length_encode_header h : length (encode_header h) = HEADER_SIZE.
Proof. unfold encode_header. by autorewrite with clen. Qed.
#[export] Hint Resolve length_encode_header : lens.

Lemma decode_encode_header h : wf_header h -> decode_header (encode_header h) = h.
Proof.
  destruct h. unfold wf_header, decode_header, encode_header; cbn. intros. destruct_and!.
  field_at. by rewrite !combine_u32 by assumption.
Qed.

Lemma wf_decode_header bs : wf_header (decode_header bs).
Proof. unfold wf_header, decode_header; cbn. auto 10 with csem. Qed.

Lemma length_packet t payload :
  length (packet t payload) = (HEADER_SIZE + length payload)%nat.
Proof. unfold packet. by rewrite length_app, length_encode_header. Qed.

Lemma wf_packet_header t payload :
  is_u32 t -> (length payload <= DATA_SIZE)%nat -> wf_header (packet_header t payload).
Proof.
  intros Ht Hl.
  unfold wf_header, packet_header, DATA_SIZE, SERIALIZATION_VERSION in *; cbn -[Z.of_nat Nat.add].
  repeat split; try apply Z.mod_pos_bound; unfold is_u32, HEADER_SIZE in *; lia.
Qed.

Lemma wire_size_le t n : wire_size t = Some n -> (n <= 128)%nat.
Proof.
  unfold wire_size. destruct (message_type_of_code t) as [[]|]; intros [= <-]; cbn; lia.
Qed.

Lemma overwrite_twice {A} (h p buf : list A) :
  (length h + length p <= length buf)%nat ->
  overwrite 0 h (overwrite (length h) p buf) = overwrite 0 (h ++ p) buf.
Proof.
  intros. unfold overwrite. rewrite !take_0, !app_nil_l, !Nat.add_0_l.
  rewrite drop_app_length' by (rewrite length_take; lia).
  by rewrite length_app, app_assoc.
Qed.

(** [serialize_message] implements [packet]. *)
Lemma emit_payload_spec m buf size n :
  wire_size (m_type m) = Some n -> wf_Message m -> size <= Z.of_nat (length buf) ->
  emit_payload m buf size n =
  Val (if size <? Z.of_nat (HEADER_SIZE + n)
       then (serial_code SERIAL_ERROR_BUFFER_OVERFLOW, Some buf)
       else (Z.of_nat (HEADER_SIZE + n),
             Some (overwrite 0 (packet (m_type m) (take n (m_data m))) buf))).
Proof.
  intros Hn (_ & _ & _ & Hd) Hsize. apply wire_size_le in Hn.
  unfold emit_payload, HEADER_SIZE, DATA_SIZE in *.
  assert (length (take n (m_data m)) = n) as Hlp by (rewrite length_take; lia).
  rewrite Z.gtb_ltb.
  replace (0 + Z.of_nat 20 + Z.of_nat n) with (Z.of_nat (20 + n)) by lia.
  destruct (Z.ltb_spec size (Z.of_nat (20 + n))); [done|].
  rewrite memcpy_ok by lia. cbn [mbind res_bind].
  assert (drop 20 (overwrite 20 (take n (m_data m)) buf) =
          take n (m_data m) ++ drop (20 + n) buf) as ->.
  { unfold overwrite. rewrite drop_app_length' by (rewrite length_take; lia).
    by rewrite Hlp. }
  rewrite calculate_checksum_exact by (rewrite length_app; lia). cbn [mbind res_bind].
  rewrite take_app_length' by done.
  rewrite memcpy_ok; [| |by rewrite length_encode_header].
  2:{ rewrite length_overwrite; lia. }
  cbn [mbind res_bind]. rewrite firstn_all2 by (by rewrite length_encode_header).
  unfold packet, packet_header, HEADER_SIZE. rewrite Hlp.
  rewrite u32_small, s32_small by (unfold is_u32, is_s32; lia).
  do 2 f_equal; [lia|]. f_equal.
  rewrite <- overwrite_twice by (rewrite length_encode_header, Hlp; unfold HEADER_SIZE; lia).
  rewrite length_encode_header. do 3 f_equal. lia.
Qed.

Lemma validate_message_header_ok h :
  (validate_message_header (Some h) =? SERIAL_SUCCESS) = header_ok h.
Proof.
  unfold validate_message_header, header_ok.
  destruct (version h =? _); cbn; [|done].
  rewrite Z.gtb_ltb, Z.ltb_antisym, (Z.ltb_antisym _ MAX_MESSAGE_SIZE).
  by destruct (Z.of_nat HEADER_SIZE <=? message_size h), (message_size h <=? MAX_MESSAGE_SIZE).
Qed.

Lemma accept_payload_spec h msg0 buf n :
  (n <= 128)%nat -> length (m_data msg0) = DATA_SIZE ->
  0 <= payload_size h -> Z.of_nat HEADER_SIZE + payload_size h <= Z.of_nat (length buf) ->
  accept_payload h (set_type (h_type h) msg0) (drop HEADER_SIZE buf) n =
  Val (if payload_size h =? Z.of_nat n
       then (serial_code SERIAL_SUCCESS,
             Some (received msg0 (h_type h)
                     (slice HEADER_SIZE (Z.to_nat (payload_size h)) buf)))
       else (serial_code SERIAL_ERROR_INVALID_MESSAGE,
             Some (set_type (h_type h) msg0))).
Proof.
  unfold DATA_SIZE, HEADER_SIZE. intros Hn Hd Hp Hl. unfold accept_payload.
  destruct (Z.eqb_spec (payload_size h) (Z.of_nat n)) as [He|]; [|done].
  cbn [negb]. unfold store_payload. cbn [set_type m_data].
  rewrite memcpy_ok by (rewrite ?length_drop; lia). cbn [mbind res_bind].
  rewrite He, Nat2Z.id. done.
Qed.

Lemma deserialize_message_spec buf size msg :
  size <= Z.of_nat (length buf) -> length (m_data msg) = DATA_SIZE ->
  deserialize_message (Some buf) size (Some msg) = deserialize_spec buf size msg.
Proof.
  intros Hsize Hd. unfold deserialize_message, deserialize_spec, HEADER_SIZE in *.
  destruct (Z.ltb_spec size (Z.of_nat 20)); [done|].
  rewrite memcpy_ok by (rewrite ?length_replicate; lia). cbn [mbind res_bind].
  assert (overwrite 0 (take 20 buf) (replicate 20 NUL) = take 20 buf) as ->.
  { unfold overwrite. rewrite take_0, length_take.
    replace (20 `min` length buf)%nat with 20%nat by lia. apply app_nil_r. }
  set (h := decode_header (take 20 buf)).
  assert (wf_header h) as (_ & _ & _ & [Hp _] & _) by apply wf_decode_header.
  rewrite validate_message_header_ok. destruct (header_ok h); [cbn [negb]|done].
  destruct (Z.ltb_spec size (message_size h)); [done|].
  destruct (Z.ltb_spec (Z.of_nat (length buf)) (Z.of_nat 20 + payload_size h)).
  { unfold calculate_checksum. rewrite checksum_loop_oob; [done|].
    rewrite length_drop. lia. }
  rewrite calculate_checksum_val by (rewrite length_drop; lia). cbn [mbind res_bind].
  fold (slice 20 (Z.to_nat (payload_size h)) buf).
  destruct (negb _); [done|]. cbn [m_type set_type]. unfold wire_size.
  destruct (message_type_of_code (h_type h)) as [[]|]; try done;
    rewrite (accept_payload_spec h msg buf) by (try done; cbn; lia);
    by destruct (payload_size h =? _).
Qed.

Lemma received_data msg t payload n :
  length (m_data msg) = DATA_SIZE -> length payload = n -> (n <= DATA_SIZE)%nat ->
  take n (m_data (received msg t payload)) = payload.
Proof.
  intros Hd <- Hn. cbn [received m_data].
  pose proof (slice_overwrite 0 payload (m_data msg) ltac:(lia)) as H.
  unfold slice in H. by rewrite drop_0 in H.
Qed.

Lemma decode_packet t payload rest :
  is_u32 t -> (length payload <= DATA_SIZE)%nat ->
  decode_header (take HEADER_SIZE (packet t payload ++ rest)) = packet_header t payload.
Proof.
  intros. unfold packet. rewrite <- app_assoc, take_app_length' by (by rewrite length_encode_header).
  by apply decode_encode_header, wf_packet_header.
Qed.

(** A buffer that starts with a packet is accepted, whatever follows it. *)
Lemma deserialize_packet t payload rest size msg :
  is_u32 t -> wire_size t = Some (length payload) -> length (m_data msg) = DATA_SIZE ->
  Z.of_nat (HEADER_SIZE + length payload) <= size <=
    Z.of_nat (length (packet t payload ++ rest)) ->
  deserialize_message (Some (packet t payload ++ rest)) size (Some msg) =
  Val (serial_code SERIAL_SUCCESS, Some (received msg t payload)).
Proof.
  intros Ht Hw Hd [Hlo Hhi]. pose proof (wire_size_le _ _ Hw) as Hle.
  rewrite deserialize_message_spec by done. unfold deserialize_spec.
  rewrite length_app, length_packet in *.
  rewrite decode_packet by (unfold DATA_SIZE; lia || done).
  unfold header_ok, packet_header, HEADER_SIZE, SERIALIZATION_VERSION, MAX_MESSAGE_SIZE in *.
  cbn [version message_size payload_size h_checksum h_type].
  rewrite !(proj2 (Z.ltb_ge _ _)), (proj2 (Z.leb_le (Z.of_nat 20) _)),
    (proj2 (Z.leb_le _ 8192)) by lia. cbn [Z.eqb negb andb].
  rewrite Nat2Z.id. unfold packet. rewrite <- app_assoc.
  rewrite slice_app_skip by (by rewrite length_encode_header).
  rewrite length_encode_header, Nat.sub_diag, slice_app_here by done.
  by rewrite !Z.eqb_refl, Hw, Z.eqb_refl.
Qed.

Lemma wf_received msg t payload :
  wf_Message msg -> is_u32 t -> (length payload <= DATA_SIZE)%nat ->
  wf_Message (received msg t payload).
Proof.
  intros (? & ? & ? & Hd) ? ?. split_and!; try done. cbn.
  by rewrite length_overwrite by (rewrite Hd; lia).
Qed.

Lemma serialize_message_spec m buf size :
  wf_Message m -> size <= Z.of_nat (length buf) ->
  serialize_message (Some m) (Some buf) size =
  Val (if size <? Z.of_nat HEADER_SIZE
       then (serial_code SERIAL_ERROR_BUFFER_OVERFLOW, Some buf)
       else match wire_size (m_type m) with
            | None => (serial_code SERIAL_ERROR_INVALID_TYPE, Some buf)
            | Some n =>
                if size <? Z.of_nat (HEADER_SIZE + n)
                then (serial_code SERIAL_ERROR_BUFFER_OVERFLOW, Some buf)
                else (Z.of_nat (HEADER_SIZE + n),
                      Some (overwrite 0 (packet (m_type m) (take n (m_data m))) buf))
            end).
Proof.
  intros Hm Hsize. unfold serialize_message.
  destruct (size <? Z.of_nat HEADER_SIZE); [done|].
  destruct (wire_size (m_type m)) as [n|] eqn:Hn.
  - rewrite <- (emit_payload_spec m buf size n) by done. unfold wire_size in Hn.
    by destruct (message_type_of_code (m_type m)) as [[]|]; simplify_eq.
  - unfold wire_size in Hn.
    by destruct (message_type_of_code (m_type m)) as [[]|]; simplify_eq.
Qed.

Lemma serialize_ok m buf size n :
  wf_Message m -> wire_size (m_type m) = Some n ->
  Z.of_nat (HEADER_SIZE + n) <= size <= Z.of_nat (length buf) ->
  serialize_message (Some m) (Some buf) size =
  Val (Z.of_nat (HEADER_SIZE + n),
       Some (overwrite 0 (packet (m_type m) (take n (m_data m))) buf)).
Proof.
  intros ? Hn ?. rewrite serialize_message_spec, Hn by (done || lia).
  by rewrite !(proj2 (Z.ltb_ge _ _)) by lia.
Qed.

Lemma overwrite_0_app {A} (bs l : list A) :
  overwrite 0 bs l = bs ++ drop (length bs) l.
Proof. done. Qed.

(** Serialisation into a local [uint8_t buffer[BUFFER_SIZE]]. *)
Lemma serialize_local `{Indeterminate} (t : MessageType) n ts d k :
  wire_size t = Some k -> length d = DATA_SIZE ->
  exists b, serialize_message (Some (mkMessage t n ts d))
      (Some (junk_bytes 0 (Z.to_nat BUFFER_SIZE))) BUFFER_SIZE =
    Val (Z.of_nat (HEADER_SIZE + k), Some b) /\
    length b = Z.to_nat BUFFER_SIZE /\
    take (HEADER_SIZE + k) b = packet t (take k d).
Proof.
  intros Hk Hd. pose proof (wire_size_le _ _ Hk).
  assert (wf_Message (mkMessage t 0 0 d)) as Hwf
    by (split_and!; cbn; unfold is_u32, is_u64, is_s64; try done; destruct t; cbn; lia).
  assert (length (packet t (take k d)) = HEADER_SIZE + k)%nat as Hp
    by (rewrite length_packet, length_take; unfold DATA_SIZE in *; lia).
  assert (length (junk_bytes 0 (Z.to_nat BUFFER_SIZE)) = Z.to_nat BUFFER_SIZE) as HB
    by apply length_junk_bytes.
  set (B := junk_bytes 0 (Z.to_nat BUFFER_SIZE)) in *. clearbody B.
  assert (Z.of_nat (HEADER_SIZE + k) <= BUFFER_SIZE <= Z.of_nat (length B)) as Hs
    by (rewrite HB; unfold BUFFER_SIZE, HEADER_SIZE; lia).
  exists (overwrite 0 (packet t (take k d)) B). split; [|split].
  - exact (serialize_ok (mkMessage t 0 0 d) B BUFFER_SIZE k Hwf Hk Hs).
  - rewrite length_overwrite; [done|]. lia.
  - rewrite overwrite_0_app. by rewrite take_app_length'.
Qed.

(** A message is only accepted with a type that travels. *)
(** A message of a type that does not travel is refused. *)
Lemma serialize_local_rejected `{Indeterminate} (t : MessageType) n ts d :
  wire_size t = None ->
  serialize_message (Some (mkMessage t n ts d))
    (Some (junk_bytes 0 (Z.to_nat BUFFER_SIZE))) BUFFER_SIZE =
  Val (serial_code SERIAL_ERROR_INVALID_TYPE, Some (junk_bytes 0 (Z.to_nat BUFFER_SIZE))).
Proof. by destruct t. Qed.

(** A header that claims no more than the object holds is read without leaving it. *)
Lemma deserialize_harmless buf size msg :
  size <= Z.of_nat (length buf) -> length (m_data msg) = DATA_SIZE ->
  (Z.of_nat HEADER_SIZE <= size ->
   Z.of_nat HEADER_SIZE + payload_size (decode_header (take HEADER_SIZE buf)) <=
   Z.of_nat (length buf)) ->
  exists code m, deserialize_message (Some buf) size (Some msg) = Val (code, Some m).
Proof.
  intros Hsize Hd Hp. rewrite deserialize_message_spec by done. unfold deserialize_spec.
  set (h := decode_header _) in *. clearbody h.
  destruct (Z.ltb_spec size (Z.of_nat HEADER_SIZE)); [by eauto|].
  destruct (negb _); [by eauto|]. destruct (size <? _); [by eauto|].
  rewrite (proj2 (Z.ltb_ge _ _)) by auto.
  destruct (negb _); [by eauto|]. destruct (wire_size _); [|by eauto].
  destruct (_ =? _); by eauto.
Qed.

Lemma deserialize_accepts_type buf size msg o :
  deserialize_message (Some buf) size (Some msg) = Val (serial_code SERIAL_SUCCESS, o) ->
  exists msg', o = Some msg' /\ wire_size (m_type msg') <> None.
Proof.
  unfold deserialize_message. destruct (size <? Z.of_nat HEADER_SIZE); [done|].
  destruct (memcpy _ _ _ _) as [hb|]; cbn [mbind res_bind]; [|done].
  set (h := decode_header hb). destruct (negb _); [done|]. destruct (size <? _); [done|].
  destruct (calculate_checksum _ _) as [sum|]; cbn [mbind res_bind]; [|done].
  destruct (negb _); [done|]. cbn [m_type set_type].
  assert (forall n, accept_payload h (set_type (h_type h) msg) (drop HEADER_SIZE buf) n =
    Val (serial_code SERIAL_SUCCESS, o) -> exists msg', o = Some msg' /\ m_type msg' = h_type h)
    as Htype.
  { intros n. unfold accept_payload, store_payload. destruct (negb _); [done|].
    destruct (memcpy _ _ _ _); cbn [mbind res_bind]; [|done]. intros [= <-]. by eexists. }
  destruct (message_type_of_code (h_type h)) as [[]|] eqn:E; try done;
    intros (msg' & -> & Ht)%Htype; exists msg'; (split; [done|]); unfold wire_size;
    by rewrite Ht, E.
Qed.

(** The union keeps its size. *)
Lemma deserialize_data_length buf size msg code o :
  size <= Z.of_nat (length buf) -> length (m_data msg) = DATA_SIZE ->
  deserialize_message (Some buf) size (Some msg) = Val (code, o) ->
  exists msg', o = Some msg' /\ length (m_data msg') = DATA_SIZE.
Proof.
  intros Hsize Hd. rewrite deserialize_message_spec by done. unfold deserialize_spec.
  set (h := decode_header _).
  assert (wf_header h) as (_ & _ & _ & [Hp _] & _) by apply wf_decode_header.
  clearbody h.
  destruct (size <? _); [by intros [= _ <-]; eauto|]. destruct (negb _); [by intros [= _ <-]; eauto|].
  destruct (size <? _); [by intros [= _ <-]; eauto|].
  destruct (Z.ltb_spec (Z.of_nat (length buf)) (Z.of_nat HEADER_SIZE + payload_size h)); [done|].
  destruct (negb _); [by intros [= _ <-]; eauto|].
  destruct (wire_size (h_type h)) as [n|] eqn:Hn; [|by intros [= _ <-]; eauto].
  pose proof (wire_size_le _ _ Hn).
  destruct (Z.eqb_spec (payload_size h) (Z.of_nat n)); [|by intros [= _ <-]; eauto].
  intros [= _ <-]. eexists. split; [done|]. cbn [received m_data].
  rewrite length_overwrite; [done|]. rewrite length_slice by lia. unfold DATA_SIZE in *. lia.
Qed.

(** ** Properties *)

(** C2. Round trip: a message of a type that travels, serialised into a large
    enough buffer, is a packet that [deserialize_message] accepts, for every
    announced length that covers it; the receiver's message then has the
    sender's type and payload bytes, hence the same struct, and keeps its own
    sequence number and timestamp. *)
Theorem serialize_deserialize (m m0 : Message) (n : nat) (buf : bytes) (size rsize : Z) :
  wf_Message m -> wf_Message m0 -> wire_size (m_type m) = Some n ->
  Z.of_nat (HEADER_SIZE + n) <= size <= Z.of_nat (length buf) ->
  Z.of_nat (HEADER_SIZE + n) <= rsize <= Z.of_nat (length buf) ->
  exists buf' m1,
    serialize_message (Some m) (Some buf) size =
      Val (Z.of_nat (HEADER_SIZE + n), Some buf') /\
    length buf' = length buf /\
    deserialize_message (Some buf') rsize (Some m0) =
      Val (serial_code SERIAL_SUCCESS, Some m1) /\
    wf_Message m1 /\ m_type m1 = m_type m /\
    take n (m_data m1) = take n (m_data m) /\
    sequence_num m1 = sequence_num m0 /\ m_timestamp m1 = m_timestamp m0.
Proof.
  intros Hm (? & ? & ? & Hd0) Hn Hsize Hrsize.
  pose proof (wire_size_le _ _ Hn) as Hle. pose proof Hm as (Ht & _ & _ & Hd).
  assert (length (take n (m_data m)) = n) as Hlp
    by (rewrite length_take; unfold DATA_SIZE in *; lia).
  exists (overwrite 0 (packet (m_type m) (take n (m_data m))) buf).
  exists (received m0 (m_type m) (take n (m_data m))).
  assert (length (packet (m_type m) (take n (m_data m))) <= length buf)%nat as Hlen
    by (rewrite length_packet; lia).
  rewrite length_overwrite by lia.
  split_and!; try done.
  - by apply serialize_ok.
  - rewrite overwrite_0_app. apply deserialize_packet; rewrite ?Hlp; try done.
    rewrite length_app, length_drop, length_packet, Hlp in *. lia.
  - apply wf_received; [done..|]. rewrite Hlp. unfold DATA_SIZE. lia.
  - by apply received_data; [| |unfold DATA_SIZE; lia].
Qed.

Lemma wf_by_compute (m : Message) :
  (0 <=? m_type m) && (m_type m <? 2 ^ 32) && (0 <=? sequence_num m) &&
  (sequence_num m <? 2 ^ 64) && (- 2 ^ 63 <=? m_timestamp m) &&
  (m_timestamp m <? 2 ^ 63) && (length (m_data m) =? DATA_SIZE)%nat = true ->
  wf_Message m.
Proof.
  unfold wf_Message, is_u32, is_u64, is_s64. rewrite !andb_true_iff.
  rewrite Nat.eqb_eq. lia.
Qed.

Lemma serialize_deserialize_witness :
  exists buf' m1,
    serialize_message (Some (test_message 0)) (Some (replicate 4096 NUL)) 4096 =
      Val (148, Some buf') /\
    length buf' = length (replicate 4096 NUL) /\
    deserialize_message (Some buf') 148 (Some test_decoded) =
      Val (serial_code SERIAL_SUCCESS, Some m1) /\
    wf_Message m1 /\ m_type m1 = 2 /\
    take 128 (m_data m1) = take 128 (m_data (test_message 0)) /\
    sequence_num m1 = 0 /\ m_timestamp m1 = 0.
Proof.
  apply (serialize_deserialize (test_message 0) test_decoded 128 (replicate 4096 NUL) 4096 148).
  - apply wf_by_compute. by vm_compute.
  - apply wf_by_compute. by vm_compute.
  - by vm_compute.
  - split; by vm_compute.
  - split; by vm_compute.
Defined.

(** C17. What [serialize_message] does, on every branch: a null pointer, a buffer
    that cannot hold the header, a type that does not travel and a buffer that
    cannot hold the payload give an error and leave the buffer as it was; in
    every other case the buffer starts with the packet of the message. *)
Theorem serialize_message_branches (m : Message) (buf : bytes) (size : Z) :
  wf_Message m -> size <= Z.of_nat (length buf) ->
  serialize_message None (Some buf) size =
    Val (serial_code SERIAL_ERROR_BUFFER_OVERFLOW, Some buf) /\
  serialize_message (Some m) None size =
    Val (serial_code SERIAL_ERROR_BUFFER_OVERFLOW, None) /\
  serialize_message (Some m) (Some buf) size =
    Val (if size <? 20 then (serial_code SERIAL_ERROR_BUFFER_OVERFLOW, Some buf)
         else match wire_size (m_type m) with
              | None => (serial_code SERIAL_ERROR_INVALID_TYPE, Some buf)
              | Some n =>
                  if size <? Z.of_nat (20 + n)
                  then (serial_code SERIAL_ERROR_BUFFER_OVERFLOW, Some buf)
                  else (Z.of_nat (20 + n),
                        Some (packet (m_type m) (take n (m_data m)) ++ drop (20 + n) buf))
              end).
Proof.
  intros Hm Hsize. split_and!; [done..|].
  rewrite serialize_message_spec by done. f_equal.
  destruct (size <? _); [done|]. destruct (wire_size (m_type m)) as [n|] eqn:Hn; [|done].
  destruct (size <? _); [done|]. rewrite overwrite_0_app, length_packet, length_take.
  pose proof (wire_size_le _ _ Hn). destruct Hm as (_ & _ & _ & ->).
  unfold HEADER_SIZE, DATA_SIZE. do 4 f_equal. lia.
Qed.

Lemma serialize_message_branches_witness :
  serialize_message (Some (test_message 0)) (Some (replicate 20 NUL)) 20 =
  Val (serial_code SERIAL_ERROR_BUFFER_OVERFLOW, Some (replicate 20 NUL)).
Proof.
  refine (proj2 (proj2 (serialize_message_branches (test_message 0) (replicate 20 NUL) 20 _ _))).
  - apply wf_by_compute. by vm_compute.
  - by vm_compute.
Defined.

(** C6. [deserialize_message] succeeds exactly on the buffers the format
    accepts, and then stores the packet's type and payload and nothing else. *)
Theorem deserialize_success_iff (buf : bytes) (size : Z) (msg m' : Message) :
  size <= Z.of_nat (length buf) -> wf_Message msg ->
  deserialize_message (Some buf) size (Some msg) =
    Val (serial_code SERIAL_SUCCESS, Some m') <->
  exists t payload, accepts buf size t payload /\ m' = received msg t payload.
Proof.
  intros Hsize (_ & _ & _ & Hd). rewrite deserialize_message_spec by done.
  unfold deserialize_spec, accepts. set (h := decode_header (take HEADER_SIZE buf)).
  assert (wf_header h) as (_ & _ & _ & [Hp _] & _) by apply wf_decode_header.
  clearbody h. unfold header_ok, MAX_MESSAGE_SIZE. split.
  - repeat case_match; try discriminate; intros [= <-];
      exists (h_type h), (slice HEADER_SIZE (Z.to_nat (payload_size h)) buf);
      (split; [|done]); unfold HEADER_SIZE in *; rewrite length_slice by lia;
      split_and!; try lia; done || (etrans; [eassumption|f_equal; lia]).
  - intros (t & payload & (H1 & H2 & H3 & <- & Hw & H4 & H5 & H6) & ->).
    assert (Z.of_nat HEADER_SIZE + payload_size h <= Z.of_nat (length buf)).
    { rewrite H4, <- H5. unfold slice, HEADER_SIZE in *.
      pose proof (wire_size_le _ _ Hw).
      assert (length (take (length payload) (drop 20 buf)) = length payload) as Hl
        by (by rewrite H5).
      rewrite length_take, length_drop in *. lia. }
    rewrite (proj2 (Z.ltb_ge size _)), (proj2 (Z.eqb_eq (version h) _)),
      (proj2 (Z.leb_le (Z.of_nat HEADER_SIZE) _)), (proj2 (Z.leb_le _ 8192)),
      (proj2 (Z.ltb_ge size (message_size h))), (proj2 (Z.ltb_ge (Z.of_nat (length buf)) _))
      by lia.
    cbn [negb andb]. by rewrite H4, Nat2Z.id, H5, H6, Z.eqb_refl, Hw, Z.eqb_refl.
Qed.

(** A 148-byte buffer holding the packet of [test_message]. *)
Definition test_packet : bytes := packet MSG_ORDER_NEW (encode junk test_order).

Lemma deserialize_success_iff_witness :
  exists t payload, accepts test_packet 148 t payload /\
    received test_decoded MSG_ORDER_NEW (encode junk test_order) =
    received test_decoded t payload.
Proof.
  apply (deserialize_success_iff test_packet 148 test_decoded
    (received test_decoded MSG_ORDER_NEW (encode junk test_order))).
  - by vm_compute.
  - apply wf_by_compute. by vm_compute.
  - by vm_compute.
Defined.

(** C7. Memory safety, exactly: once the announced length is at most the size of
    the object, [deserialize_message] leaves the object only when the header
    passes its checks and claims a payload that the object does not hold.
    Nothing in the code compares [payload_size] with the received length. *)
Theorem deserialize_undefined_iff (buf : bytes) (size : Z) (msg : Message) (why : ub) :
  size <= Z.of_nat (length buf) -> wf_Message msg ->
  let h := decode_header (take HEADER_SIZE buf) in
  deserialize_message (Some buf) size (Some msg) = UB why <->
  why = OutOfBounds /\ version h = 1 /\ 20 <= message_size h <= Z.min 8192 size /\
  Z.of_nat (length buf) < 20 + payload_size h.
Proof.
  intros Hsize (_ & _ & _ & Hd) h. rewrite deserialize_message_spec by done.
  unfold deserialize_spec. fold h. clearbody h.
  unfold header_ok, MAX_MESSAGE_SIZE, SERIALIZATION_VERSION, HEADER_SIZE.
  split.
  - repeat case_match; try discriminate. intros [= <-]. split_and!; lia || done.
  - intros (-> & ? & ? & ?). repeat case_match; try done; lia.
Qed.

(** A 20-byte datagram that claims an 8 KiB payload. *)
Definition hostile_header : MessageHeader := {|
  version := 1; message_size := 20; h_type := MSG_ORDER_NEW;
  payload_size := 8000; h_checksum := 0 |}.

Lemma deserialize_undefined_iff_witness :
  deserialize_message (Some (encode_header hostile_header ++ replicate 4076 NUL)) 20
    (Some test_decoded) = UB OutOfBounds.
Proof.
  apply (deserialize_undefined_iff (encode_header hostile_header ++ replicate 4076 NUL) 20
    test_decoded OutOfBounds).
  - by vm_compute.
  - apply wf_by_compute. by vm_compute.
  - split_and!; by vm_compute.
Defined.

(** C18. What a failed [deserialize_message] leaves: the receiver's message with at
    most its type changed.  Unless the datagram is [intact] (a header that passes
    its checks, whole, with a payload in the buffer and the right checksum), the
    message is as it was and the code one of the three for that; if it is
    intact, the type has become the one the header names, and that type does not
    travel ([SERIAL_ERROR_INVALID_TYPE]) or the payload size is not its own
    ([SERIAL_ERROR_INVALID_MESSAGE]). *)
Theorem deserialize_failure_frame (buf : bytes) (size : Z) (msg : Message)
    (r : Z) (m' : option Message) :
  size <= Z.of_nat (length buf) -> wf_Message msg ->
  deserialize_message (Some buf) size (Some msg) = Val (r, m') -> r <> SERIAL_SUCCESS ->
  let h := decode_header (take HEADER_SIZE buf) in
  (~ intact buf size /\ m' = Some msg /\
   (r = SERIAL_ERROR_INCOMPLETE \/ r = SERIAL_ERROR_INVALID_MESSAGE \/
    r = SERIAL_ERROR_CHECKSUM)) \/
  (intact buf size /\ m' = Some (set_type (h_type h) msg) /\
   ((r = SERIAL_ERROR_INVALID_TYPE /\ wire_size (h_type h) = None) \/
    (r = SERIAL_ERROR_INVALID_MESSAGE /\
     exists n, wire_size (h_type h) = Some n /\ payload_size h <> Z.of_nat n))).
Proof.
  intros Hsize (_ & _ & _ & Hd). rewrite deserialize_message_spec by done.
  unfold deserialize_spec, intact. set (h := decode_header (take HEADER_SIZE buf)). clearbody h.
  destruct (Z.ltb_spec size (Z.of_nat HEADER_SIZE)); [intros [= <- <-] _; left; auto with lia|].
  destruct (header_ok h); cbn [negb]; [|intros [= <- <-] _; left; naive_solver].
  destruct (Z.ltb_spec size (message_size h)); [intros [= <- <-] _; left; auto with lia|].
  destruct (Z.ltb_spec (Z.of_nat (length buf)) (Z.of_nat HEADER_SIZE + payload_size h)); [done|].
  destruct (Z.eqb_spec (poly33 (slice HEADER_SIZE (Z.to_nat (payload_size h)) buf) mod 2 ^ 32)
    (h_checksum h)) as [E|E]; cbn [negb]; [|intros [= <- <-] _; left; naive_solver].
  destruct (wire_size (h_type h)) as [n|]; [destruct (Z.eqb_spec (payload_size h) (Z.of_nat n))|];
    intros [= <- <-] Hr; try done; right; (split; [done|]; split; [done|]); eauto.
Qed.

(** A well-summed packet of a type that does not travel. *)
Lemma deserialize_failure_frame_witness :
  let buf := packet MSG_ORDER_STATUS (encode junk test_order) in
  let h := decode_header (take HEADER_SIZE buf) in
  let r := serial_code SERIAL_ERROR_INVALID_TYPE in
  let m' := Some (set_type MSG_ORDER_STATUS test_decoded) in
  (~ intact buf 148 /\ m' = Some test_decoded /\
   (r = SERIAL_ERROR_INCOMPLETE \/ r = SERIAL_ERROR_INVALID_MESSAGE \/
    r = SERIAL_ERROR_CHECKSUM)) \/
  (intact buf 148 /\ m' = Some (set_type (h_type h) test_decoded) /\
   ((r = SERIAL_ERROR_INVALID_TYPE /\ wire_size (h_type h) = None) \/
    (r = SERIAL_ERROR_INVALID_MESSAGE /\
     exists n, wire_size (h_type h) = Some n /\ payload_size h <> Z.of_nat n))).
Proof.
  intros buf h r m'.
  apply (deserialize_failure_frame buf 148 test_decoded r m').
  - by vm_compute.
  - apply wf_by_compute. by vm_compute.
  - by vm_compute.
  - discriminate.
Defined.

(** C15. The shift-and-add loop of [calculate_checksum] computes the polynomial
    of the bytes in 33 modulo [2^32] over exactly [size] bytes, and leaves the
    object when it holds fewer. *)
Theorem calculate_checksum_poly (data : bytes) (size : Z) :
  calculate_checksum data size =
  if Z.of_nat (length data) <? size then UB OutOfBounds
  else Val (poly33 (take (Z.to_nat size) data) mod 2 ^ 32).
Proof.
  destruct (Z.ltb_spec (Z.of_nat (length data)) size).
  - unfold calculate_checksum. apply checksum_loop_oob. lia.
  - destruct (Z.leb_spec 0 size).
    + apply calculate_checksum_val. lia.
    + unfold calculate_checksum. replace (Z.to_nat size) with 0%nat by lia.
      destruct data; cbn [checksum_loop]; by rewrite (proj2 (Z.ltb_ge 0 size)) by lia.
Qed.

(** C16. Error detection: change any one byte of the payload of a packet and
    [deserialize_message] answers [SERIAL_ERROR_CHECKSUM], leaving the message
    as it was. *)
Theorem corrupted_payload_detected (t : Z) (l r rest : bytes) (b b' : byte)
    (size : Z) (msg : Message) :
  wire_size t = Some (length (l ++ b :: r)) -> is_u32 t -> wf_Message msg -> b <> b' ->
  Z.of_nat (length (packet t (l ++ b :: r))) <= size <=
    Z.of_nat (length (packet t (l ++ b :: r) ++ rest)) ->
  deserialize_message
    (Some (encode_header (packet_header t (l ++ b :: r)) ++ (l ++ b' :: r) ++ rest))
    size (Some msg) =
  Val (serial_code SERIAL_ERROR_CHECKSUM, Some msg).
Proof.
  intros Hw Ht (_ & _ & _ & Hd) Hne. pose proof (wire_size_le _ _ Hw) as Hle.
  set (p := l ++ b :: r) in *. set (q := l ++ b' :: r).
  assert (length q = length p) as Hlq by (unfold p, q; by rewrite !length_app).
  rewrite length_app, length_packet. intros Hsize.
  rewrite deserialize_message_spec by
    (rewrite ?length_app, ?length_encode_header, ?Hlq; lia || done).
  unfold deserialize_spec.
  rewrite take_app_length' by (by rewrite length_encode_header).
  rewrite decode_encode_header by (apply wf_packet_header; unfold DATA_SIZE; lia || done).
  unfold header_ok, packet_header, MAX_MESSAGE_SIZE, HEADER_SIZE, SERIALIZATION_VERSION in *.
  cbn [version message_size h_type payload_size h_checksum].
  rewrite (proj2 (Z.leb_le (Z.of_nat 20) _)), (proj2 (Z.leb_le _ 8192)),
    !(proj2 (Z.ltb_ge _ _)) by
    (rewrite ?length_app, ?length_encode_header, ?Hlq; unfold HEADER_SIZE; lia).
  cbn [negb andb Z.eqb Pos.eqb]. rewrite Nat2Z.id.
  rewrite slice_app_skip by (by rewrite length_encode_header).
  rewrite length_encode_header, Nat.sub_diag, slice_app_here by done.
  destruct (Z.eqb_spec (poly33 q mod 2 ^ 32) (poly33 p mod 2 ^ 32)) as [He|]; [|done].
  exfalso. by apply (poly33_one_byte l r b b').
Qed.

(** The payload of [test_order] before and after its quantity, 100. *)
Definition test_before : bytes := take 88 (encode junk test_order).
Definition test_after : bytes := drop 89 (encode junk test_order).

Lemma corrupted_payload_detected_witness :
  test_before ++ Byte.x64 :: test_after = encode junk test_order /\
  deserialize_message
    (Some (encode_header (packet_header MSG_ORDER_NEW (test_before ++ Byte.x64 :: test_after)) ++
           (test_before ++ Byte.xff :: test_after) ++ []))
    148 (Some test_decoded) =
  Val (serial_code SERIAL_ERROR_CHECKSUM, Some test_decoded).
Proof.
  split; [by vm_compute|].
  apply (corrupted_payload_detected MSG_ORDER_NEW test_before test_after []
    Byte.x64 Byte.xff 148 test_decoded).
  - by vm_compute.
  - split; by vm_compute.
  - apply wf_by_compute. by vm_compute.
  - discriminate.
  - split; by vm_compute.
Defined.

(** The checksum does not cover the header: turning the type byte of a
    new-order packet into "cancel" or "modify" gives a packet that is accepted
    with the same payload, for every order. *)
Theorem order_type_not_protected (payload rest : bytes) (size : Z) (msg : Message) (t : MessageType) :
  length payload = size_of Order -> wf_Message msg ->
  t = MSG_ORDER_CANCEL \/ t = MSG_ORDER_MODIFY ->
  148 <= size <= Z.of_nat (length (packet MSG_ORDER_NEW payload ++ rest)) ->
  deserialize_message
    (Some (<[8%nat := byte.of_Z t]> (packet MSG_ORDER_NEW payload ++ rest))) size (Some msg) =
  Val (serial_code SERIAL_SUCCESS, Some (received msg t payload)).
Proof.
  intros Hl (_ & _ & _ & Hd) Ht Hsize.
  assert (<[8%nat := byte.of_Z t]> (packet MSG_ORDER_NEW payload ++ rest) =
          packet t payload ++ rest) as ->.
  { unfold packet, encode_header, packet_header.
    cbn [version message_size h_type payload_size h_checksum].
    destruct Ht as [-> | ->]; done. }
  rewrite length_app, length_packet, Hl in Hsize. cbn in Hl, Hsize.
  apply deserialize_packet; [| |done|].
  - destruct Ht as [-> | ->]; split; by vm_compute.
  - rewrite Hl. by destruct Ht as [-> | ->].
  - rewrite length_app, length_packet, Hl. unfold HEADER_SIZE. lia.
Qed.

Lemma order_type_not_protected_witness :
  deserialize_message
    (Some (<[8%nat := byte.of_Z MSG_ORDER_CANCEL]>
             (packet MSG_ORDER_NEW (encode junk test_order) ++ []))) 148 (Some test_decoded) =
  Val (serial_code SERIAL_SUCCESS,
       Some (received test_decoded MSG_ORDER_CANCEL (encode junk test_order))).
Proof.
  apply (order_type_not_protected (encode junk test_order) [] 148 test_decoded MSG_ORDER_CANCEL).
  - by vm_compute.
  - apply wf_by_compute. by vm_compute.
  - by left.
  - split; by vm_compute.
Defined.

(** Framing: a buffer that starts with a packet is accepted and everything
    after the packet is ignored, so when the stream delivers two packets in one
    read the second is lost without an error. *)
Theorem coalesced_packet_lost (t : Z) (payload second : bytes) (msg : Message) :
  is_u32 t -> wire_size t = Some (length payload) -> wf_Message msg ->
  let buf := packet t payload ++ second in
  deserialize_message (Some buf) (Z.of_nat (length buf)) (Some msg) =
  deserialize_message (Some (packet t payload)) (Z.of_nat (length (packet t payload))) (Some msg) /\
  deserialize_message (Some buf) (Z.of_nat (length buf)) (Some msg) =
  Val (serial_code SERIAL_SUCCESS, Some (received msg t payload)).
Proof.
  intros Ht Hw (_ & _ & _ & Hd) buf. unfold buf.
  rewrite deserialize_packet by (rewrite ?length_app, ?length_packet; lia || done).
  pose proof (deserialize_packet t payload [] (Z.of_nat (length (packet t payload))) msg Ht Hw Hd)
    as H.
  rewrite app_nil_r in H. rewrite H by (rewrite length_packet; lia). done.
Qed.

Lemma coalesced_packet_lost_witness :
  let buf := packet MSG_ORDER_NEW (encode junk test_order) ++ test_packet in
  deserialize_message (Some buf) (Z.of_nat (length buf)) (Some test_decoded) =
  deserialize_message (Some (packet MSG_ORDER_NEW (encode junk test_order)))
    (Z.of_nat (length (packet MSG_ORDER_NEW (encode junk test_order)))) (Some test_decoded) /\
  deserialize_message (Some buf) (Z.of_nat (length buf)) (Some test_decoded) =
  Val (serial_code SERIAL_SUCCESS,
       Some (received test_decoded MSG_ORDER_NEW (encode junk test_order))).
Proof.
  apply (coalesced_packet_lost MSG_ORDER_NEW (encode junk test_order) test_packet test_decoded).
  - split; by vm_compute.
  - by vm_compute.
  - apply wf_by_compute. by vm_compute.
Defined.
