(* ===== verification/World.v ===== *)
(** * The process and its environment

    Everything the program asks of the operating system (sockets, clock, threads,
    locks, allocation) goes through [sys]: a call is recorded in [trace] together
    with its answer, and the answer comes from [OS], an arbitrary function of the
    calls made so far.  A theorem that quantifies over [OS] therefore holds for
    every behaviour of the kernel, the network and the peers.

    [World] is the state shared by all components of one process: the trace, the
    [errno] of the thread, and the two static variables of
    [src/common/logger.c] with the log written so far.  A component's own state
    gives access to it through the interface [HasWorld]. *)

From S2P Require Import Prelude CMem CString CDouble.

(** The locks of [ServerContext] and [ClientContext]. *)
Inductive Lock : Type :=
  | StatsMutex | ClientsMutex | MarketDataLock | OrderBookLock | PositionLock
  | StateMutex.

(** The user callbacks of [ClientCallbacks]. *)
Inductive Callback : Type :=
  | OnConnect | OnDisconnect | OnMarketData | OnOrderStatus | OnTrade.

(** What the program keeps on the heap. *)
Inductive HeapObject : Type :=
  | ObjServerContext | ObjClients | ObjClientContext | ObjConnection | ObjAnonymous (p : Z).

Inductive Syscall : Type :=
  | SysTime
  | SysSocket
  | SysSetsockopt (fd : Z)
  | SysBind (fd port : Z)
  | SysListen (fd backlog : Z)
  | SysFcntlGetFl (fd : Z)
  | SysFcntlNonblock (fd flags : Z)
  | SysInetPton (host : bytes)
  | SysConnect (fd port : Z)
  | SysAccept (fd : Z)
  | SysRecv (fd : Z) (len : Z)
  | SysSend (fd : Z) (bs : bytes)
  | SysShutdown (fd : Z)
  | SysClose (fd : Z)
  | SysUsleep (us : Z)
  | SysSleep (s : Z)
  | SysSigaction
  | SysSignalPoll          (** has SIGINT or SIGTERM arrived? *)
  | SysRunningPoll         (** has another thread cleared [context->running]? *)
  | SysReceiverPoll        (** has the receiver thread reached its end by now? *)
  | SysMalloc (size : Z)
  | SysCalloc (o : HeapObject) (n size : Z)
  | SysFree (o : HeapObject)
  | SysRand
  | SysMutexInit (l : Lock)
  | SysMutexDestroy (l : Lock)
  | SysLock (l : Lock)
  | SysUnlock (l : Lock)
  | SysThreadCreate
  | SysThreadJoin (t : Z)
  | SysFopen (path : bytes)
  | SysFgets (n : Z)
  | SysCallback (cb : Callback) (payload : bytes).

Record Answer : Type := mkAnswer {
  a_ret : Z;       (** the returned integer, handle or null pointer *)
  a_err : Z;       (** [errno], when the call fails *)
  a_data : bytes;  (** bytes delivered, for the calls that deliver some *)
}.

Definition EAGAIN : Z := 11.
Definition EWOULDBLOCK : Z := 11.
Definition EINPROGRESS : Z := 115.
Definition EPIPE : Z := 32.
Definition SIGPIPE : Z := 13.

(** *** The log *)

Inductive FILEp : Type := FNULL | FStderr | FFile (h : Z).
Inductive LogDest : Type := Stdout | Stderr | LogFile (h : Z).

(** The arguments of a format string.  A [%s] argument is a [char] array. *)
Inductive LogArg : Type :=
  | LInt (z : Z) | LStr (s : bytes) | LText (s : string) | LDouble (d : double)
  | LErrno (e : Z).   (** the text [strerror] gives for [e] *)

Inductive LogEvent : Type :=
  | LogLock
  | LogWrite (d : LogDest) (prefix format : string) (args : list LogArg) (suffix : string)
  | LogFlush (h : Z)
  | LogUnlock
  | LogClosed (h : Z).

Record World : Type := mkWorld {
  trace : list (Syscall * Answer);
  errno : Z;
  log_file : FILEp;
  minimum_level : Z;
  log_out : list LogEvent;
}.

Definition initial_world : World := {|
  trace := []; errno := 0; log_file := FNULL; minimum_level := 2; log_out := [] |}.

Definition with_log (l : list LogEvent) (w : World) : World :=
  mkWorld (trace w) (errno w) (log_file w) (minimum_level w) l.

Class HasWorld (S : Type) : Type := {
  world : S -> World;
  set_world : World -> S -> S;
  world_set : forall w s, world (set_world w s) = w;
  set_world_set : forall w w' s, set_world w (set_world w' s) = set_world w s;
  set_world_world : forall s, set_world (world s) s = s;
}.

#[export] Instance World_HasWorld : HasWorld World := {|
  world := fun w => w; set_world := fun w _ => w;
  world_set := fun _ _ => eq_refl; set_world_set := fun _ _ _ => eq_refl;
  set_world_world := fun _ => eq_refl |}.

Class OS : Type := {
  answer : list (Syscall * Answer) -> Syscall -> Answer;
  (** the clock, [localtime] and [strftime] as the logger reads them *)
  wall_clock : list LogEvent -> Z;
  strftime_local : Z -> string;
}.

Section system_calls.
Context {S : Type} `{HasWorld S} `{OS}.

Definition after_sys (c : Syscall) (w : World) : World :=
  let a := answer (trace w) c in
  mkWorld (trace w ++ [(c, a)])
    (if a_ret a <? 0 then a_err a else errno w)
    (log_file w) (minimum_level w) (log_out w).

Definition sys (c : Syscall) : M S Answer := fun s =>
  Ret (answer (trace (world s)) c) (set_world (after_sys c (world s)) s).

(** [recv] into a buffer: at most [len] bytes are delivered, stored from the
    start of the buffer, and the count returned; a negative result is an error
    and stores nothing. *)
Definition sys_recv (fd : Z) (buffer : bytes) (len : Z) : M S (Z * bytes) :=
  a ← sys (SysRecv fd len);
  if a_ret a <? 0 then mret (-1, buffer)
  else
    let got := take (Z.to_nat len) (a_data a) in
    buffer ← lift_res (memcpy buffer 0 got (length got));
    mret (Z.of_nat (length got), buffer).

(** A signal nobody handles ends the process; this is the status a shell shows. *)
Definition killed_by {A} (signal : Z) : M S A := exit_with (128 + signal).

(** [send] with flags 0: the number of bytes taken, at most all of them, or -1.
    On a connection the peer has closed ([EPIPE]) the kernel raises [SIGPIPE],
    which no program here handles, ignores or masks with [MSG_NOSIGNAL]. *)
Definition broken_pipe (a : Answer) : bool := (a_ret a <? 0) && (a_err a =? EPIPE).
Definition taken (a : Answer) (bs : bytes) : Z :=
  if a_ret a <? 0 then -1 else Z.min (a_ret a) (Z.of_nat (length bs)).
Definition sys_send (fd : Z) (bs : bytes) : M S Z :=
  a ← sys (SysSend fd bs);
  if broken_pipe a then killed_by SIGPIPE else mret (taken a bs).

(** [rand()] is between 0 and [RAND_MAX], which is [2^31 - 1] in glibc. *)
Definition RAND_MAX : Z := 2147483647.
Definition rand : M S Z := a ← sys SysRand; mret (a_ret a mod (RAND_MAX + 1)).

(** [calloc] answers a null pointer when the size in bytes overflows [size_t]. *)
Definition calloc (o : HeapObject) (n size : Z) : M S bool :=
  a ← sys (SysCalloc o n size);
  mret (negb (a_ret a =? 0) && (n * size <? 2 ^ 64)).

Definition time_NULL : M S Z := a ← sys SysTime; mret (a_ret a).

Lemma wp_sys c (Q : Answer -> S -> Prop) s :
  Q (answer (trace (world s)) c) (set_world (after_sys c (world s)) s) ->
  wp (sys c) Q s.
Proof. by rewrite wp_unfold. Qed.

Lemma trace_after_sys c w :
  trace (after_sys c w) = trace w ++ [(c, answer (trace w) c)].
Proof. done. Qed.
End system_calls.

(** *** Reading traces *)

Definition calls (tr : list (Syscall * Answer)) : list Syscall := map fst tr.

Definition as_send (c : Syscall) : option (Z * bytes) :=
  match c with SysSend fd bs => Some (fd, bs) | _ => None end.
Definition as_close (c : Syscall) : option Z :=
  match c with SysClose fd => Some fd | _ => None end.
Definition as_callback (c : Syscall) : option (Callback * bytes) :=
  match c with SysCallback cb bs => Some (cb, bs) | _ => None end.

(** The packets handed to [send], the descriptors closed, the callbacks made, in
    order. *)
Definition sends (w : World) : list (Z * bytes) := omap as_send (calls (trace w)).
Definition closes (w : World) : list Z := omap as_close (calls (trace w)).
Definition callbacks_made (w : World) : list (Callback * bytes) :=
  omap as_callback (calls (trace w)).

(** The descriptors obtained from [socket] and [accept], and how often a loop
    asked for signals. *)
Definition as_opened (e : Syscall * Answer) : option Z :=
  match e.1 with
  | SysSocket | SysAccept _ => if a_ret e.2 <? 0 then None else Some (a_ret e.2)
  | _ => None
  end.
Definition opened (w : World) : list Z := omap as_opened (trace w).
Definition as_poll (c : Syscall) : option unit :=
  match c with SysSignalPoll | SysRunningPoll => Some tt | _ => None end.
Definition polls (tr : list (Syscall * Answer)) : nat := length (omap as_poll (calls tr)).

(** The calls of [sleep]. *)
Definition as_sleep (c : Syscall) : option Z :=
  match c with SysSleep n => Some n | _ => None end.
Definition sleeps (w : World) : list Z := omap as_sleep (calls (trace w)).

(** How many lines were asked of standard input. *)
Definition as_fgets (c : Syscall) : option unit :=
  match c with SysFgets _ => Some tt | _ => None end.
Definition lines_asked (w : World) : nat := length (omap as_fgets (calls (trace w))).

(** The locks held after a sequence of calls, most recent first; [None] when a
    lock is released that is not the last one taken, or taken twice. *)
#[export] Instance Lock_eq_dec : EqDecision Lock.
Proof. solve_decision. Defined.

Definition lock_step (held : option (list Lock)) (c : Syscall) : option (list Lock) :=
  h ← held;
  match c with
  | SysLock l => if decide (l ∈ h) then None else Some (l :: h)
  | SysUnlock l =>
      match h with
      | l' :: h' => if decide (l = l') then Some h' else None
      | [] => None
      end
  | _ => Some h
  end.
Definition is_lock_call (c : Syscall) : bool :=
  match c with SysLock _ | SysUnlock _ => true | _ => false end.
Lemma lock_step_other held c : is_lock_call c = false -> lock_step held c = held.
Proof. by destruct held, c. Qed.
Definition locks_held (w : World) : option (list Lock) :=
  fold_left lock_step (calls (trace w)) (Some []).

(** A kernel that gives every call the same answer, for the examples. *)
Definition os_const (r e : Z) (d : bytes) : OS := {|
  answer := fun _ _ => mkAnswer r e d;
  wall_clock := fun _ => 1733326245;
  strftime_local := fun _ => "2024-12-04 15:30:45"%string |}.

(** No [send] meets a connection that the peer has closed. *)
Definition no_broken_pipe `{OS} : Prop := forall tr fd bs,
  broken_pipe (answer tr (SysSend fd bs)) = false.

Lemma sends_taken `{OS} :
  (forall tr fd bs, 0 <= a_ret (answer tr (SysSend fd bs))) -> no_broken_pipe.
Proof. intros Hs tr fd bs. unfold broken_pipe. pose proof (Hs tr fd bs). lia. Qed.

(** The clock is within [2^62] seconds of the epoch, far from the ends of [time_t]. *)
Definition sane_clock `{OS} : Prop := forall tr,
  - 2 ^ 62 <= a_ret (answer tr SysTime) < 2 ^ 62.

Lemma chk_clock `{OS} k tr :
  sane_clock -> 0 <= k <= 86400 * 30 ->
  chk64 (a_ret (answer tr SysTime) + k) = Val (a_ret (answer tr SysTime) + k).
Proof. intros Hclock Hk. apply chk64_ok. pose proof (Hclock tr). lia. Qed.
