(* ===== verification/Logger.v ===== *)
(** * The logger ([include/common/logger.h], [src/common/logger.c])

    Its state is two static variables ([log_file], [minimum_level]), kept in
    [World]; what it prints is appended to [log_out].  [SUCCESS] and
    [ERROR_INVALID_PARAM] are redefined here exactly as [logger.h] redefines
    them: every source file includes [types.h] before [logger.h], so in the code
    these names mean the macros, 0 and -1, and not the enumerators of
    [types.h].  A file that imports this one after [Types] sees the same. *)

From S2P Require Import Prelude CMem CString CDouble World.

Inductive LogLevel : Type :=
  | LOG_TRACE | LOG_DEBUG | LOG_INFO | LOG_WARN | LOG_ERROR | LOG_FATAL.
Definition log_level_code (l : LogLevel) : Z :=
  match l with
  | LOG_TRACE => 0 | LOG_DEBUG => 1 | LOG_INFO => 2
  | LOG_WARN => 3 | LOG_ERROR => 4 | LOG_FATAL => 5
  end.
Coercion log_level_code : LogLevel >-> Z.

Definition SUCCESS : Z := 0.
Definition ERROR_INVALID_PARAM : Z := -1.
Definition ERROR_FILE_OPEN : Z := -2.

Definition level_strings : list string :=
  ["TRACE"; "DEBUG"; "INFO"; "WARN"; "ERROR"; "FATAL"]%string.

Definition ESC : string := String (Ascii.ascii_of_nat 27) EmptyString.
Definition level_colors : list string :=
  [ESC +:+ "[34m"; ESC +:+ "[36m"; ESC +:+ "[32m"; ESC +:+ "[33m"; ESC +:+ "[31m";
   ESC +:+ "[35m"]%string.
Definition ANSI_COLOR_RESET : string := (ESC +:+ "[0m")%string.

(** [%-5s]: padded on the right to five columns. *)
Definition pad5 (s : string) : string :=
  (s +:+ String.concat "" (replicate (5 - String.length s) " "))%string.

(** ["%s [%-5s] (%s:%d - %s) "] *)
Definition log_prefix (timestamp level file : string) (line : Z) (func : string) : string :=
  (timestamp +:+ " [" +:+ pad5 level +:+ "] (" +:+ file +:+ ":" +:+ pretty line +:+
   " - " +:+ func +:+ ") ")%string.

(** A [%s] argument must be a terminated string. *)
Definition arg_ok (a : LogArg) : bool :=
  match a with LStr s => terminated s | _ => true end.

Definition newline : string := String (Ascii.ascii_of_nat 10) EmptyString.

Section logger.
Context {S : Type} `{HasWorld S} `{OS}.

Definition log_append (es : list LogEvent) : M S unit :=
  modify (fun s => let w := world s in
    set_world (with_log (log_out w ++ es) w) s).

Definition log_message (level : Z) (file : string) (line : Z) (func : string)
    (format : string) (args : list LogArg) : M S unit :=
  w ← gets world;
  if level <? minimum_level w then mret tt
  else
    let now := wall_clock (log_out w) in
    let timestamp := strftime_local now in
    match level_colors !! Z.to_nat level, level_strings !! Z.to_nat level with
    | Some color, Some name =>
        if forallb arg_ok args then
          let prefix := log_prefix timestamp name file line func in
          log_append [LogLock];;
          log_append
            [LogWrite Stdout (color +:+ prefix)%string format args
               (ANSI_COLOR_RESET +:+ newline)%string];;
          match log_file w with
          | FFile h =>
              log_append [LogWrite (LogFile h) prefix format args newline; LogFlush h]
          | _ => mret tt
          end;;
          log_append [LogUnlock];;
          if level =? LOG_FATAL then exit_with 1 else mret tt
        else undef Unterminated
    | _, _ => undef OutOfBounds
    end.

(** [init_logger(path, min_level)].  [log_file_path] is [None] for NULL. *)
Definition init_logger (log_file_path : option bytes) (min_level : Z) : M S Z :=
  if (min_level <? LOG_TRACE) || (min_level >? LOG_FATAL) then
    log_append [LogWrite Stderr "" "Invalid log level: %d" [LInt min_level] newline];;
    mret ERROR_INVALID_PARAM
  else
    modify (fun s => let w := world s in
      set_world (mkWorld (trace w) (errno w) (log_file w) min_level (log_out w)) s);;
    opened ← match log_file_path with
             | Some path =>
                 a ← sys (SysFopen path);
                 let f := if a_ret a =? 0 then FNULL else FFile (a_ret a) in
                 modify (fun s => let w := world s in
                   set_world (mkWorld (trace w) (errno w) f (minimum_level w) (log_out w)) s);;
                 if a_ret a =? 0 then
                   log_append [LogWrite Stderr "" "Failed to open log file: %s"
                     [LStr path] newline];;
                   mret false
                 else mret true
             | None =>
                 modify (fun s => let w := world s in
                   set_world (mkWorld (trace w) (errno w) FStderr (minimum_level w)
                     (log_out w)) s);;
                 mret true
             end;
    if negb opened then mret ERROR_FILE_OPEN
    else
      match level_strings !! Z.to_nat min_level with
      | Some name =>
          log_message LOG_INFO "src/common/logger.c" 56 "init_logger"
            "Logger initialized with minimum level: %s" [LText name];;
          mret SUCCESS
      | None => undef OutOfBounds
      end.

Definition close_logger : M S unit :=
  w ← gets world;
  match log_file w with
  | FFile h =>
      log_message LOG_INFO "src/common/logger.c" 128 "close_logger" "Closing logger" [];;
      log_append [LogClosed h];;
      modify (fun s => let w := world s in
        set_world (mkWorld (trace w) (errno w) FNULL (minimum_level w) (log_out w)) s)
  | _ => mret tt
  end.
End logger.

(** *** What a call prints *)

(** The events one enabled call of [log_message] adds. *)
Definition log_lines `{OS} (w : World) (level : Z) (file : string) (line : Z)
    (func format : string) (args : list LogArg) : list LogEvent :=
  let prefix := log_prefix (strftime_local (wall_clock (log_out w)))
    (default ""%string (level_strings !! Z.to_nat level)) file line func in
  [LogLock;
   LogWrite Stdout (default ""%string (level_colors !! Z.to_nat level) +:+ prefix)%string
     format args (ANSI_COLOR_RESET +:+ newline)%string] ++
  match log_file w with
  | FFile h => [LogWrite (LogFile h) prefix format args newline; LogFlush h]
  | _ => []
  end ++ [LogUnlock].

(** Where a piece of log went. *)
Definition destinations (es : list LogEvent) : list LogDest :=
  omap (fun e => match e with LogWrite d _ _ _ _ => Some d | _ => None end) es.

Section logger_lemmas.
Context {S : Type} `{HasWorld S} `{OS}.
Implicit Types (s : S).

Definition put_log (l : list LogEvent) (s : S) : S := set_world (with_log l (world s)) s.

Lemma world_put_log l s : world (put_log l s) = with_log l (world s).
Proof. apply world_set. Qed.

Lemma put_log_put_log l l' s : put_log l (put_log l' s) = put_log l s.
Proof. unfold put_log. by rewrite world_set, set_world_set. Qed.

Lemma put_log_self s : put_log (log_out (world s)) s = s.
Proof.
  unfold put_log. transitivity (set_world (world s) s); [|apply set_world_world].
  f_equal. by destruct (world s).
Qed.

Lemma log_append_eq es s : log_append es s = Ret tt (put_log (log_out (world s) ++ es) s).
Proof. done. Qed.

Lemma log_append_bind {A} es (k : unit -> M S A) s :
  (log_append es ≫= k) s = k tt (put_log (log_out (world s) ++ es) s).
Proof. done. Qed.

Lemma log_message_disabled level file line func format args s :
  level < minimum_level (world s) ->
  log_message level file line func format args s = Ret tt s.
Proof.
  intros Hl. unfold log_message, mbind, M_bind, gets.
  by rewrite (proj2 (Z.ltb_lt _ _)).
Qed.

(** An enabled call with a valid level and printable arguments. *)
Lemma log_message_enabled level file line func format args s :
  minimum_level (world s) <= level -> 0 <= level <= 5 -> forallb arg_ok args = true ->
  log_message level file line func format args s =
  (if level =? LOG_FATAL then Exit 1 else Ret tt)
    (put_log (log_out (world s) ++ log_lines (world s) level file line func format args) s).
Proof.
  intros Hmin Hlvl Hargs. unfold log_message, log_lines.
  rewrite (bind_ret (gets world) _ s (world s) s eq_refl), (proj2 (Z.ltb_ge _ _)) by done.
  assert (exists color name, level_colors !! Z.to_nat level = Some color /\
            level_strings !! Z.to_nat level = Some name) as (color & name & Hc & Hn).
  { assert (level = 0 \/ level = 1 \/ level = 2 \/ level = 3 \/ level = 4 \/ level = 5)
      as [->|[->|[->|[->|[->| ->]]]]] by lia; by eauto. }
  rewrite Hc, Hn, Hargs. cbn [default].
  rewrite !log_append_bind, !world_put_log. cbn [log_out with_log].
  destruct (log_file (world s)) as [| |h].
  1,2: rewrite (bind_ret (mret tt) _ _ tt _ eq_refl).
  3: rewrite log_append_bind.
  all: rewrite log_append_bind, ?world_put_log;
    cbn [log_out with_log]; rewrite ?put_log_put_log, <- ?app_assoc;
    by destruct (level =? LOG_FATAL).
Qed.

(** Any enabled or disabled call below [LOG_FATAL] only extends the log. *)
Lemma wp_log level file line func format args (Q : unit -> S -> Prop) s :
  0 <= level <= 4 -> forallb arg_ok args = true -> (forall l, Q tt (put_log l s)) ->
  wp (log_message level file line func format args) Q s.
Proof.
  intros Hl Hargs HQ.
  destruct (Z.lt_ge_cases level (minimum_level (world s))).
  - eapply wp_val; [by apply log_message_disabled|].
    rewrite <- (put_log_self s). apply HQ.
  - eapply wp_val; [|by apply HQ].
    rewrite log_message_enabled by (lia || done).
    by rewrite (proj2 (Z.eqb_neq level LOG_FATAL)) by (cbn; lia).
Qed.

Lemma log_returns level file line func format args s r s' :
  0 <= level <= 5 -> log_message level file line func format args s = Ret r s' ->
  exists l, s' = put_log l s.
Proof.
  intros Hl Hrun. destruct (Z.lt_ge_cases level (minimum_level (world s))) as [Hm|Hm].
  - rewrite log_message_disabled in Hrun by done. injection Hrun as _ <-.
    exists (log_out (world s)). by rewrite put_log_self.
  - destruct (forallb arg_ok args) eqn:Ha.
    + rewrite log_message_enabled in Hrun by done.
      destruct (level =? LOG_FATAL); [done|]. injection Hrun as _ <-. by eexists.
    + exfalso. unfold log_message in Hrun.
      rewrite (bind_ret (gets world) _ s (world s) s eq_refl), (proj2 (Z.ltb_ge _ _)), Ha
        in Hrun by done.
      by destruct (level_colors !! Z.to_nat level), (level_strings !! Z.to_nat level).
Qed.

Lemma wp_log_append es (Q : unit -> S -> Prop) s :
  Q tt (put_log (log_out (world s) ++ es) s) -> wp (log_append es) Q s.
Proof. by rewrite wp_unfold. Qed.

Ltac wp_op ::= first
  [ apply wp_sys | apply wp_log_append
  | apply wp_log; [by cbn | done |]; intros ? ].

Lemma init_logger_wp path min_level s :
  0 <= min_level <= 5 -> (forall p, path = Some p -> terminated p = true) ->
  wp (init_logger path min_level) (fun r s' =>
    minimum_level (world s') = min_level /\
    match path with
    | None => r = SUCCESS /\ log_file (world s') = FStderr
    | Some p =>
        let h := a_ret (answer (trace (world s)) (SysFopen p)) in
        if h =? 0 then r = ERROR_FILE_OPEN /\ log_file (world s') = FNULL
        else r = SUCCESS /\ log_file (world s') = FFile h
    end) s.
Proof.
  intros Hm Hp. unfold init_logger. cbn [log_level_code].
  replace ((min_level <? 0) || (min_level >? 5)) with false by lia.
  assert (exists name, level_strings !! Z.to_nat min_level = Some name) as [name Hname].
  { destruct (level_strings !! Z.to_nat min_level) eqn:E; [by eauto|].
    apply lookup_ge_None in E. cbn in E. lia. }
  wp_steps. destruct path as [p|].
  - wp_steps. rewrite world_set. cbn [trace].
    destruct (a_ret (answer (trace (world s)) (SysFopen p)) =? 0).
    + wp_steps. cbn [negb]. wp_steps. rewrite ?world_put_log, ?world_set. done.
    + wp_steps. cbn [negb]. rewrite Hname. wp_steps.
      rewrite ?world_put_log, ?world_set. done.
  - wp_steps. cbn [negb]. rewrite Hname. wp_steps.
    rewrite ?world_put_log, ?world_set. done.
Qed.
End logger_lemmas.

Ltac wp_op ::= first
  [ apply wp_sys | apply wp_log_append
  | apply wp_log; [by cbn | done |]; intros ? ].

(** ** Properties *)

Section logger_properties.
Context {S : Type} `{HasWorld S} `{OS}.

(** C36. The level filter and the output: a call below the minimum level does
    nothing; any other call prints one coloured record on standard output and,
    when a log file is open, one plain record in it followed by a flush, all
    between taking and releasing the log mutex; a fatal record then ends the
    process, after the mutex was released. *)
Theorem log_message_output (level : Z) file line func format args (s : S) :
  0 <= level <= 5 -> forallb arg_ok args = true ->
  log_message level file line func format args s =
  if level <? minimum_level (world s) then Ret tt s
  else (if level =? LOG_FATAL then Exit 1 else Ret tt)
    (put_log (log_out (world s) ++ log_lines (world s) level file line func format args) s).
Proof.
  intros Hl Hargs. destruct (Z.ltb_spec level (minimum_level (world s))).
  - by apply log_message_disabled.
  - by apply log_message_enabled.
Qed.

(** [init_logger]: an invalid level is refused and changes no setting; with
    a path the level is set, the file is opened, and a failure to open it is
    reported with the level already changed; afterwards the level is one of the
    six and a fatal message always ends the process. *)
Theorem init_logger_result (path : option bytes) (min_level : Z) (s : S) :
  (forall p, path = Some p -> terminated p = true) ->
  wp (init_logger path min_level) (fun r s' =>
    if (0 <=? min_level) && (min_level <=? 5) then
      minimum_level (world s') = min_level /\
      match path with
      | None => r = SUCCESS /\ log_file (world s') = FStderr
      | Some p =>
          let h := a_ret (answer (trace (world s)) (SysFopen p)) in
          if h =? 0 then r = ERROR_FILE_OPEN /\ log_file (world s') = FNULL
          else r = SUCCESS /\ log_file (world s') = FFile h
      end /\
      (forall file line func format, exists s'',
         log_message LOG_FATAL file line func format [] s' = Exit 1 s'')
    else
      r = ERROR_INVALID_PARAM /\
      minimum_level (world s') = minimum_level (world s) /\
      log_file (world s') = log_file (world s)) s.
Proof.
  intros Hp. destruct ((0 <=? min_level) && (min_level <=? 5)) eqn:Hm.
  - eapply wp_mono; [apply init_logger_wp; [lia|done]|].
    intros r s' [Hlvl Hout]. split_and!; [done..|]. intros.
    rewrite log_message_enabled; [by eexists|cbn; lia..|done].
  - unfold init_logger. cbn [log_level_code].
    replace ((min_level <? 0) || (min_level >? 5)) with true by lia.
    wp_steps. by rewrite world_put_log.
Qed.

(** Without a log file every record goes to standard output and to nothing
    else: after [init_logger(NULL, level)] the file pointer is [stderr], which
    [log_message] skips, although the comment on [init_logger] promises that the
    log is written to [stderr]. *)
Theorem null_path_never_logs_to_stderr (min_level : Z) (s : S) :
  0 <= min_level <= 5 ->
  wp (init_logger None min_level) (fun r s' =>
    r = SUCCESS /\
    forall level file line func format args,
      destinations (log_lines (world s') level file line func format args) = [Stdout]) s.
Proof.
  intros Hm. eapply wp_mono; [apply init_logger_wp; [done|by intros ? [=]]|].
  intros r s' (_ & -> & Hf). split; [done|]. intros. unfold log_lines.
  by rewrite Hf.
Qed.
End logger_properties.

Lemma log_message_output_witness :
  let os := os_const 0 0 [] in
  log_message (S:=World) LOG_ERROR "f.c" 7 "g" "msg" [] initial_world =
  Ret tt (put_log (log_lines initial_world LOG_ERROR "f.c" 7 "g" "msg" []) initial_world).
Proof.
  exact (@log_message_output World _ (os_const 0 0 []) LOG_ERROR "f.c" 7 "g" "msg" []
    initial_world (conj (ltac:(by cbn) : 0 <= 4) (ltac:(by cbn) : 4 <= 5)) eq_refl).
Defined.

Lemma init_logger_result_witness :
  let os := os_const 3 0 [] in
  wp (init_logger (S:=World) (Some (lit "./server.log")) 2) (fun r s' =>
    minimum_level (world s') = 2 /\ (r = SUCCESS /\ log_file (world s') = FFile 3) /\
    (forall file line func format, exists s'',
       log_message LOG_FATAL file line func format [] s' = Exit 1 s'')) initial_world.
Proof.
  apply (@init_logger_result World _ (os_const 3 0 []) (Some (lit "./server.log")) 2
    initial_world).
  by intros p [= <-].
Defined.

Lemma null_path_never_logs_to_stderr_witness :
  let os := os_const 0 0 [] in
  wp (init_logger (S:=World) None 1) (fun r s' =>
    r = SUCCESS /\
    forall level file line func format args,
      destinations (log_lines (world s') level file line func format args) = [Stdout])
    initial_world.
Proof.
  apply (@null_path_never_logs_to_stderr World _ (os_const 0 0 []) 1 initial_world).
  by cbn.
Defined.
