(* ===== verification/Utils.v ===== *)
(** * Utilities ([include/common/utils.h], [src/common/utils.c])

    Strings, numbers, validation, hashing and prices.  Functions that log take
    the logger's world; the others are pure.  Declared in the header but defined
    nowhere in the sources, and so absent here: [calculate_spread],
    [calculate_vwap], [parse_price_string], [error_to_string], [log_error]. *)

From Stdlib Require Import Strings.Byte SpecFloat.
From S2P Require Import Prelude CMem CString CDouble CDecimal Types World Logger.

Definition UTILS_C : string := "src/common/utils.c".

(** ** Time *)

Record timespec : Type := mkTimespec { tv_sec : Z; tv_nsec : Z }.

Definition get_time_diff_ms (start finish : timespec) : res Z :=
  dsec ← chk64 (tv_sec finish - tv_sec start);
  ms ← chk64 (dsec * 1000);
  dnsec ← chk64 (tv_nsec finish - tv_nsec start);
  chk64 (ms + Z.quot dnsec 1000000).

(** [strftime] stores the text when it fits with its terminator; otherwise the
    contents of the buffer are indeterminate. *)
Definition format_timestamp `{OS} `{Indeterminate} (timestamp : Z) (buffer : bytes)
    (buffer_size : Z) : res bytes :=
  let text := chars (strftime_local timestamp) ++ [NUL] in
  if Z.of_nat (length text) <=? buffer_size then memcpy buffer 0 text (length text)
  else Val (junk_bytes 0 (length buffer)).

(** ** Strings *)

(** The first loop of [trim_whitespace]: the number of positions [str] advances. *)
Fixpoint leading_spaces (str : bytes) : res nat :=
  match str with
  | [] => UB Unterminated
  | b :: str' => if isspace b then n ← leading_spaces str'; Val (S n) else Val 0%nat
  end.

(** The second loop: [end] moves left while it is beyond [str] and on a space. *)
Fixpoint trailing_end (buf : bytes) (str end_ : nat) : res nat :=
  match end_ with
  | O => Val O
  | S e =>
      if (str <? end_)%nat then
        match buf !! end_ with
        | Some b => if isspace b then trailing_end buf str e else Val end_
        | None => UB OutOfBounds
        end
      else Val end_
  end.

(** [trim_whitespace(buf)]: the returned pointer as an offset into the buffer
    ([None] is NULL), and the buffer it wrote to. *)
Definition trim_whitespace (str : option bytes) : res (option nat * bytes) :=
  match str with
  | None => Val (None, [])
  | Some buf =>
      p ← leading_spaces buf;
      match buf !! p with
      | None => UB OutOfBounds
      | Some b =>
          if decide (b = NUL) then Val (Some p, buf)
          else
            len ← strlen (drop p buf);
            e ← trailing_end buf p (p + Z.to_nat len - 1);
            buf' ← store_byte buf (S e) NUL;
            Val (Some p, buf')
      end
  end.

(** [for (i = 0; str[i]; i++) str[i] = f(str[i])] *)
Fixpoint map_string (f : byte -> byte) (str : bytes) : res bytes :=
  match str with
  | [] => UB Unterminated
  | b :: str' => if decide (b = NUL) then Val str else r ← map_string f str'; Val (f b :: r)
  end.

Definition string_to_upper (str : option bytes) : res (Z * option bytes) :=
  match str with
  | None => Val (ERROR_INVALID_PARAM, None)
  | Some s => s' ← map_string toupper s; Val (SUCCESS, Some s')
  end.

Definition string_to_lower (str : option bytes) : res (Z * option bytes) :=
  match str with
  | None => Val (ERROR_INVALID_PARAM, None)
  | Some s => s' ← map_string tolower s; Val (SUCCESS, Some s')
  end.

Definition safe_strncpy (dest src : option bytes) (size : Z) : res (option bytes) :=
  match dest, src with
  | Some dest, Some src =>
      if size =? 0 then Val None
      else
        dest ← strncpy dest src (Z.to_nat (size - 1));
        dest ← store_byte dest (Z.to_nat (size - 1)) NUL;
        Val (Some dest)
  | _, _ => Val None
  end.

(** ** Numbers *)

(** [*endptr == '\0'] *)
Definition at_end (rest : bytes) : bool :=
  match rest with b :: _ => bool_decide (b = NUL) | [] => false end.

Definition safe_atoi64 (str : option bytes) : res Z :=
  match str with
  | None => Val 0
  | Some s =>
      '(val, erange, endptr) ← strtoll s;
      Val (if negb erange && at_end endptr then val else 0)
  end.

Definition safe_atod `{Libc} (str : option bytes) : res double :=
  match str with
  | None => Val (double_of_Z 0)
  | Some s =>
      '(val, erange, endptr) ← strtod s;
      Val (if negb erange && at_end endptr then val else double_of_Z 0)
  end.

Definition is_valid_price (price : double) : bool :=
  d_gt price (double_of_Z 0) && d_lt price (double_of_Z 1000000) &&
  negb (isnan price) && negb (isinf price).

Definition is_valid_quantity (quantity : Z) : bool :=
  (quantity >? 0) && (quantity <=? 1000000).

(** ** Orders *)

Definition is_valid_order_type (type : Z) : bool :=
  (type >=? ORDER_TYPE_MARKET) && (type <=? ORDER_TYPE_STOP_LIMIT).

Definition is_valid_order_side (side : Z) : bool :=
  (side =? ORDER_SIDE_BUY) || (side =? ORDER_SIDE_SELL).

Definition is_valid_time_in_force (tif : Z) : bool :=
  (tif >=? TIF_DAY) && (tif <=? TIF_GTC).

Definition order_type_to_string (type : Z) : string :=
  match type with
  | 1 => "MARKET" | 2 => "LIMIT" | 3 => "STOP" | 4 => "STOP_LIMIT" | _ => "UNKNOWN"
  end%string.

Definition order_side_to_string (side : Z) : string :=
  match side with 1 => "BUY" | 2 => "SELL" | _ => "UNKNOWN" end%string.

Definition order_status_to_string (status : Z) : string :=
  match status with
  | 1 => "NEW" | 2 => "PARTIAL" | 3 => "FILLED" | 4 => "CANCELLED" | 5 => "REJECTED"
  | _ => "UNKNOWN"
  end%string.

Section logging_utils.
Context {S : Type} `{HasWorld S} `{OS} `{Libm}.

#[local] Abbreviation LOG_ERROR line func fmt args :=
  (log_message LOG_ERROR UTILS_C line func fmt args).

Definition get_current_timestamp : M S Z := time_NULL.

Definition safe_malloc (size : Z) : M S Z :=
  a ← sys (SysMalloc size);
  let ptr := a_ret a in
  if ptr =? 0 then
    LOG_ERROR 95 "safe_malloc" "Memory allocation failed for size %zu" [LInt size];;
    mret 0
  else mret ptr.

Definition safe_calloc (nmemb size : Z) : M S Z :=
  a ← sys (SysCalloc (ObjAnonymous 0) nmemb size);
  let ptr := if nmemb * size <? 2 ^ 64 then a_ret a else 0 in
  if ptr =? 0 then
    LOG_ERROR 104 "safe_calloc" "Memory allocation failed for %zu elements of size %zu"
      [LInt nmemb; LInt size];;
    mret 0
  else mret ptr.

(** [safe_free(&p)]; [None] is a null [ptr], [Some p] the pointer it points to. *)
Definition safe_free (ptr : option Z) : M S (option Z) :=
  match ptr with
  | Some p => if p =? 0 then mret ptr else sys (SysFree (ObjAnonymous p));; mret (Some 0)
  | None => mret None
  end.

(** [strlen(s) == 0 || strlen(s) >= MAX_SYMBOL_LENGTH] *)
Definition bad_symbol_length (symbol : bytes) : res bool :=
  n ← strlen symbol;
  Val ((n =? 0) || (n >=? Z.of_nat MAX_SYMBOL_LENGTH)).

Definition validate_order_fields (order : option Order) : M S Z :=
  match order with
  | None => mret ERROR_INVALID_PARAM
  | Some order =>
      bad ← lift_res (bad_symbol_length (o_symbol order));
      if (bad : bool) then
        LOG_ERROR 122 "validate_order_fields" "Invalid symbol length for order ID=%lu"
          [LInt (order_id order)];;
        mret (ERROR_INVALID_ORDER : Z)
      else if o_quantity order <=? 0 then
        LOG_ERROR 127 "validate_order_fields" "Invalid quantity %u for order ID=%lu"
          [LInt (o_quantity order); LInt (order_id order)];;
        mret (ERROR_INVALID_ORDER : Z)
      else if negb (is_valid_order_type (o_type order)) then
        LOG_ERROR 132 "validate_order_fields" "Invalid order type %d for order ID=%lu"
          [LInt (s32 (o_type order)); LInt (order_id order)];;
        mret (ERROR_INVALID_ORDER : Z)
      else if negb (is_valid_order_side (o_side order)) then
        LOG_ERROR 137 "validate_order_fields" "Invalid order side %d for order ID=%lu"
          [LInt (s32 (o_side order)); LInt (order_id order)];;
        mret (ERROR_INVALID_ORDER : Z)
      else mret SUCCESS
  end.

(** ** Market data *)

Definition validate_market_data (data : option MarketData) : M S Z :=
  match data with
  | None => mret ERROR_INVALID_PARAM
  | Some data =>
      bad ← lift_res (bad_symbol_length (md_symbol data));
      if (bad : bool) then
        LOG_ERROR 190 "validate_market_data" "Invalid symbol in market data" [];;
        mret (ERROR_MARKET_DATA : Z)
      else if d_ge (price_to_double (bid data)) (price_to_double (ask data)) then
        LOG_ERROR 195 "validate_market_data" "Invalid bid/ask spread for %s"
          [LStr (md_symbol data)];;
        mret (ERROR_MARKET_DATA : Z)
      else mret SUCCESS
  end.

(** ** Random numbers *)

Definition generate_random_price (min max : double) : M S double :=
  r ← rand;
  mret (d_add min (d_mul (d_div (double_of_Z r) (double_of_Z RAND_MAX)) (d_sub max min))).

Definition generate_random_quantity (min max : Z) : M S Z :=
  r ← rand;
  diff ← lift_res (chk32 (max - min));
  range ← lift_res (chk32 (diff + 1));
  if range =? 0 then undef DivByZero
  else lift_res (chk32 (min + Z.rem r range)).
End logging_utils.

(** ** Hashes *)

(** [c = *str++] is a plain [char], signed on this platform, widened to [int]. *)
Fixpoint hash_loop (hash : Z) (str : bytes) : res Z :=
  match str with
  | [] => UB Unterminated
  | b :: str' =>
      let c := s8 (byte.unsigned b) in
      if c =? 0 then Val hash
      else hash_loop (((hash ≪₆₄ 5) ⊕₆₄ hash) ⊕₆₄ c) str'
  end.

Definition hash_string (str : bytes) : res Z := hash_loop 5381 str.

(** [(hash << 5) + hash + x] *)
Definition hash_mix (hash x : Z) : Z := ((hash ≪₆₄ 5) ⊕₆₄ hash) ⊕₆₄ x.

Definition hash_order (order : option Order) : res Z :=
  match order with
  | None => Val 0
  | Some order =>
      hash ← hash_string (o_symbol order);
      let hash := hash_mix hash (order_id order) in
      let hash := hash_mix hash (o_type order) in
      let hash := hash_mix hash (o_side order) in
      let hash := hash_mix hash (o_quantity order) in
      Val hash
  end.

(** ** Prices *)

Definition compare_prices `{Libm} (p1 p2 : option Price) : Z :=
  match p1, p2 with
  | Some p1, Some p2 =>
      let price1 := price_to_double p1 in
      let price2 := price_to_double p2 in
      if d_lt price1 price2 then -1 else if d_gt price1 price2 then 1 else 0
  | _, _ => 0
  end.

(** The loop of [normalize_price], with fuel; the loop stops after at most
    [-exponent] rounds, see [normalize_loop_total]. *)
Definition normalize_guard (p : Price) : bool :=
  (Z.rem (mantissa p) 10 =? 0) && (exponent p <? 0).

Fixpoint normalize_loop (fuel : nat) (p : Price) : option Price :=
  if normalize_guard p then
    match fuel with
    | O => None
    | S fuel' => normalize_loop fuel' (mkPrice (Z.quot (mantissa p) 10) (exponent p + 1))
    end
  else Some p.

Definition normalize_price (fuel : nat) (price : option Price) : option (option Price) :=
  match price with
  | None => Some None
  | Some p => Some <$> normalize_loop fuel p
  end.

Definition price_to_string `{Libm} `{Libc} (price : option Price) (buffer : option bytes)
    (buffer_size : Z) : res (option bytes) :=
  match price, buffer with
  | Some price, Some buffer =>
      if buffer_size =? 0 then Val None
      else
        let value := price_to_double price in
        buffer ← snprintf_fixed6 buffer buffer_size value;
        Val (Some buffer)
  | _, _ => Val None
  end.

(** ** Reference definitions *)

(** A string without its leading and trailing white space. *)
Definition rtrim (s : bytes) : bytes := reverse (skip_space (reverse s)).
Definition trim (s : bytes) : bytes := rtrim (skip_space s).

(** [hash_string] as a polynomial in 33 with signed characters. *)
Fixpoint poly33_signed (s : bytes) : Z :=
  match s with
  | [] => 0
  | b :: s' => s8 (byte.unsigned b) * 33 ^ Z.of_nat (length s') + poly33_signed s'
  end.

(** The order hash as a polynomial in 33 over the symbol and the four mixed
    fields, modulo [2^64]. *)
Definition order_poly (o : Order) : Z :=
  let n := Z.of_nat (length (cstr (o_symbol o))) in
  (5381 * 33 ^ n + poly33_signed (cstr (o_symbol o))) * 33 ^ 4 +
  order_id o * 33 ^ 3 + o_type o * 33 ^ 2 + o_side o * 33 + o_quantity o.

(** ** Strings: lemmas *)

(** The order of [tests/unit/test_serialization.c] with another id and quantity. *)
Definition sample_order (id quantity : Z) : Order := {|
  order_id := id;
  o_symbol := char_array 16 "AAPL";
  o_client_id := replicate 32 NUL;
  o_type := ORDER_TYPE_LIMIT;
  o_side := ORDER_SIDE_BUY;
  o_status := ORDER_STATUS_NEW;
  o_time_in_force := 0;
  o_price := create_price 100500000 (-6);
  o_quantity := quantity;
  filled_quantity := 0;
  remaining_quantity := 0;
  creation_time := 0;
  modification_time := 0;
  expiration_time := 0 |}.

Lemma skip_space_suffix s : exists pre, s = pre ++ skip_space s.
Proof.
  induction s as [|b s [pre IH]]; cbn; [by exists []|].
  destruct (isspace b); [|by exists []]. exists (b :: pre). by rewrite IH at 1.
Qed.

Lemma skip_space_head s : match skip_space s with b :: _ => isspace b = false | [] => True end.
Proof. induction s as [|b s IH]; cbn; [done|]. by destruct (isspace b) eqn:E. Qed.

Lemma leading_spaces_spec s r :
  exists pre, s = pre ++ skip_space s /\
    leading_spaces (s ++ NUL :: r) = Val (length pre).
Proof.
  induction s as [|b s (pre & Hs & IH)]; cbn; [by exists []|].
  destruct (isspace b); [|by exists []]. exists (b :: pre).
  rewrite IH. split; [by rewrite Hs at 1|done].
Qed.

Lemma rtrim_snoc s b : rtrim (s ++ [b]) = if isspace b then rtrim s else s ++ [b].
Proof.
  unfold rtrim. rewrite reverse_snoc. cbn [skip_space]. destruct (isspace b); [done|].
  by rewrite reverse_cons, reverse_involutive.
Qed.

Lemma rtrim_prefix s : exists q, s = rtrim s ++ q.
Proof.
  induction s as [|b s [q IH]] using rev_ind; [by exists []|]. rewrite rtrim_snoc.
  destruct (isspace b); [|by exists []; rewrite app_nil_r].
  exists (q ++ [b]). by rewrite app_assoc, <- IH.
Qed.

Lemma rtrim_cons b s : isspace b = false -> exists s', rtrim (b :: s) = b :: s'.
Proof.
  intros Hb. destruct (rtrim_prefix (b :: s)) as [q Hq].
  destruct (rtrim (b :: s)) as [|b' s'] eqn:E.
  - exfalso. clear Hq. induction s as [|c s IH] using rev_ind.
    + unfold rtrim in E. cbn in E. by rewrite Hb in E.
    + rewrite app_comm_cons, rtrim_snoc in E. destruct (isspace c); [auto|done].
  - exists s'. by injection Hq as <- _.
Qed.

Lemma trailing_end_spec pre b t rest :
  isspace b = false ->
  trailing_end (pre ++ (b :: t) ++ rest) (length pre) (length pre + length t) =
  Val (length pre + length (rtrim (b :: t)) - 1)%nat.
Proof.
  intros Hb. revert rest. induction t as [|c t IH] using rev_ind; intros rest.
  - assert (rtrim [b] = [b]) as -> by (unfold rtrim; cbn; by rewrite Hb).
    cbn [length]. replace (length pre + 1 - 1)%nat with (length pre) by lia.
    rewrite Nat.add_0_r. destruct (length pre) eqn:E; [done|]. cbn [trailing_end].
    by rewrite Nat.ltb_irrefl.
  - rewrite length_app, app_comm_cons, rtrim_snoc. cbn [length].
    replace (length pre + (length t + 1))%nat with (S (length pre + length t)) by lia.
    cbn [trailing_end]. rewrite (proj2 (Nat.ltb_lt _ _)) by lia.
    rewrite lookup_app_r by lia.
    replace (S (length pre + length t) - length pre)%nat with (length (b :: t)) by (cbn; lia).
    rewrite <- app_assoc, lookup_app_r by done.
    rewrite Nat.sub_diag. cbn [app lookup list_lookup].
    destruct (isspace c).
    + rewrite <- (IH ([c] ++ rest)). f_equal.
    + f_equal. cbn [length]. rewrite length_app. cbn [length]. lia.
Qed.

Lemma store_byte_middle a b c x :
  store_byte (a ++ b :: c) (length a) x = Val (a ++ x :: c).
Proof.
  unfold store_byte. rewrite bool_decide_true by (rewrite length_app; cbn; lia).
  f_equal. rewrite insert_app_r_alt by lia. by rewrite Nat.sub_diag.
Qed.

Lemma insert_middle (a c : bytes) b x : <[length a := x]> (a ++ b :: c) = a ++ x :: c.
Proof. rewrite insert_app_r_alt by lia. by rewrite Nat.sub_diag. Qed.

Lemma trim_whitespace_spec s r :
  NUL ∉ s ->
  exists p buf', trim_whitespace (Some (s ++ NUL :: r)) = Val (Some p, buf') /\
    buf' = <[(p + length (trim s))%nat := NUL]> (s ++ NUL :: r) /\
    (p + length (trim s) <= length s)%nat /\
    exists r', drop p buf' = trim s ++ NUL :: r'.
Proof.
  intros Hs. destruct (leading_spaces_spec s r) as (pre & Hpre & Hlead).
  unfold trim_whitespace, trim. rewrite Hlead. cbn [mbind res_bind].
  pose proof (skip_space_head s) as Hhead. set (t := skip_space s) in *.
  assert (NUL ∉ t) as Ht by (rewrite Hpre, not_elem_of_app in Hs; tauto).
  rewrite Hpre, <- app_assoc. rewrite lookup_app_r, Nat.sub_diag by lia.
  destruct t as [|b t].
  { exists (length pre), (pre ++ [] ++ NUL :: r). cbn. rewrite Nat.add_0_r, app_nil_r.
    split_and!; [done|by rewrite insert_middle|done|]. exists r. by rewrite drop_app_length. }
  cbn [app lookup list_lookup]. apply not_elem_of_cons in Ht as [Hb Ht].
  rewrite decide_False by done. rewrite app_comm_cons, drop_app_length.
  rewrite strlen_val by apply terminated_app. cbn [mbind res_bind].
  rewrite cstr_app by (by apply not_elem_of_cons). cbn [length].
  replace (length pre + Z.to_nat (Z.of_nat (S (length t))) - 1)%nat
    with (length pre + length t)%nat by lia.
  rewrite trailing_end_spec by done. cbn [mbind res_bind].
  destruct (rtrim_prefix (b :: t)) as [q Hq].
  destruct (rtrim_cons b t Hhead) as [s' Hs'].
  destruct (q ++ NUL :: r) as [|x y] eqn:E; [by destruct q|].
  assert (pre ++ (b :: t) ++ NUL :: r = (pre ++ rtrim (b :: t)) ++ x :: y) as ->.
  { rewrite Hq at 1. by rewrite <- !app_assoc, E. }
  replace (S (length pre + length (rtrim (b :: t)) - 1))
    with (length (pre ++ rtrim (b :: t))) by (rewrite length_app, Hs'; cbn; lia).
  rewrite store_byte_middle. cbn [mbind res_bind].
  eexists _, _. split; [done|]. split; [by rewrite <- length_app, insert_middle|]. split.
  { apply (f_equal length) in Hq. rewrite !length_app in *. lia. }
  exists y. by rewrite <- app_assoc, drop_app_length.
Qed.

(** ** Numbers and prices: lemmas *)


Lemma map_string_spec f s r :
  NUL ∉ s -> map_string f (s ++ NUL :: r) = Val (map f s ++ NUL :: r).
Proof.
  induction s as [|b s IH]; cbn; [done|]. intros [? ?]%not_elem_of_cons.
  by rewrite decide_False, IH by done.
Qed.

Lemma toupper_cases b :
  byte.unsigned (toupper b) = byte.unsigned b \/
  (97 <= byte.unsigned b <= 122 /\ byte.unsigned (toupper b) = byte.unsigned b - 32).
Proof.
  unfold toupper. pose proof (byte.unsigned_range b).
  destruct (_ && _) eqn:E; [right|by left].
  rewrite byte.unsigned_of_Z. unfold byte.wrap. rewrite Z.mod_small; lia.
Qed.

Lemma toupper_idem b : toupper (toupper b) = toupper b.
Proof.
  unfold toupper at 1. replace (_ && _) with false; [done|].
  destruct (toupper_cases b) as [He|[??]]; [|lia]. unfold toupper in He |- *.
  destruct ((97 <=? byte.unsigned b) && (byte.unsigned b <=? 122)) eqn:E; [|lia].
  rewrite byte.unsigned_of_Z in *. unfold byte.wrap in *.
  rewrite Z.mod_small in He by lia. lia.
Qed.

Lemma normalize_step_value p :
  normalize_guard p = true -> mantissa p = 10 * Z.quot (mantissa p) 10 /\ exponent p < 0.
Proof.
  unfold normalize_guard. intros. pose proof (Z.quot_rem' (mantissa p) 10). lia.
Qed.

(** The fuel of the loop of [normalize_price]: one unit per negative power of ten. *)
Lemma normalize_loop_total fuel p :
  (Z.to_nat (- exponent p) <= fuel)%nat ->
  exists p', normalize_loop fuel p = Some p' /\ normalize_guard p' = false /\
    exponent p <= exponent p' <= Z.max 0 (exponent p) /\
    mantissa p = mantissa p' * 10 ^ (exponent p' - exponent p) /\
    Z.abs (mantissa p') <= Z.abs (mantissa p).
Proof.
  revert p. induction fuel as [|fuel IH]; intros p Hf; cbn [normalize_loop];
    destruct (normalize_guard p) eqn:Hg.
  - apply normalize_step_value in Hg. lia.
  - exists p. rewrite Z.sub_diag, Z.mul_1_r. split_and!; lia || done.
  - apply normalize_step_value in Hg as [Hm He].
    destruct (IH (mkPrice (Z.quot (mantissa p) 10) (exponent p + 1)))
      as (p' & -> & Hg' & He' & Hv & Ha); [cbn; lia|]. cbn [mantissa exponent] in *.
    exists p'. split_and!; try lia; try done.
    rewrite Hm, Hv. replace (exponent p' - exponent p)
      with (Z.succ (exponent p' - (exponent p + 1))) by lia.
    rewrite Z.pow_succ_r by lia. lia.
  - exists p. rewrite Z.sub_diag, Z.mul_1_r. split_and!; lia || done.
Qed.

(** Two normal forms of one value are equal. *)
Lemma normal_form_unique p q :
  normalize_guard p = false -> normalize_guard q = false ->
  exponent p <= 0 -> exponent p <= exponent q <= 0 ->
  mantissa p = mantissa q * 10 ^ (exponent q - exponent p) -> p = q.
Proof.
  destruct p as [m e], q as [m' e']; unfold normalize_guard; cbn [mantissa exponent].
  intros Hp _ He [Hle Hle'] Hv.
  destruct (decide (e = e')) as [->|Hne].
  - rewrite Z.sub_diag, Z.mul_1_r in Hv. by subst.
  - exfalso. replace (e' - e) with (Z.succ (e' - e - 1)) in Hv by lia.
    rewrite Z.pow_succ_r in Hv by lia.
    assert (Z.rem m 10 = 0) as Hr; [|lia].
    apply Z.rem_divide; [done|]. exists (m' * 10 ^ (e' - e - 1)). lia.
Qed.

Lemma hash_step h c :
  ((h ≪₆₄ 5) ⊕₆₄ h) ⊕₆₄ c = (33 * h + c) mod 2 ^ 64.
Proof.
  unfold u64. rewrite Z.shiftl_mul_pow2 by lia.
  rewrite Zplus_mod_idemp_l, <- Zplus_assoc, Zplus_mod_idemp_l. f_equal. lia.
Qed.

Lemma s8_zero b : s8 (byte.unsigned b) = 0 <-> b = NUL.
Proof.
  pose proof (byte.unsigned_range b). split; [|by intros ->].
  unfold s8. intros Hz. apply byte.unsigned_inj. change (byte.unsigned NUL) with 0.
  destruct (Z.lt_ge_cases (byte.unsigned b) 128).
  - rewrite Z.mod_small in Hz; lia.
  - replace (byte.unsigned b + 2 ^ 7) with (byte.unsigned b - 128 + 1 * 2 ^ 8) in Hz by lia.
    rewrite Z.mod_add, Z.mod_small in Hz; lia.
Qed.

Lemma hash_loop_spec h s r :
  NUL ∉ s -> 0 <= h < 2 ^ 64 ->
  hash_loop h (s ++ NUL :: r) =
  Val ((h * 33 ^ Z.of_nat (length s) + poly33_signed s) mod 2 ^ 64).
Proof.
  revert h. induction s as [|b s IH]; intros h Hs Hh.
  - change (hash_loop h ([] ++ NUL :: r)) with (Val h).
    cbn [length poly33_signed]. change (Z.of_nat 0) with 0.
    by rewrite Z.pow_0_r, Z.mul_1_r, Z.add_0_r, Z.mod_small.
  - apply not_elem_of_cons in Hs as [Hb Hs].
    cbn [hash_loop app poly33_signed length].
    destruct (Z.eqb_spec (s8 (byte.unsigned b)) 0) as [Hz%s8_zero|_]; [congruence|].
    rewrite hash_step, IH by (try apply Z.mod_pos_bound; done). f_equal.
    rewrite Nat2Z.inj_succ, Z.pow_succ_r by lia.
    rewrite <- Zplus_mod_idemp_l, Zmult_mod_idemp_l, Zplus_mod_idemp_l. f_equal. lia.
Qed.

Lemma hash_mix_eq h x : hash_mix h x = (33 * h + x) mod 2 ^ 64.
Proof. apply hash_step. Qed.

(** 33 is a unit modulo [2^64], so mixing the same data into two different
    hashes gives different hashes. *)
Lemma hash_mix_inj h h' x :
  0 <= h < 2 ^ 64 -> 0 <= h' < 2 ^ 64 -> hash_mix h x = hash_mix h' x -> h = h'.
Proof.
  rewrite !hash_mix_eq. intros Hh Hh' Heq.
  assert ((2 ^ 64 | 33 * (h - h'))) as Hdiv.
  { apply Z.mod_divide; [done|].
    replace (33 * (h - h')) with ((33 * h + x) - (33 * h' + x)) by lia.
    by rewrite Zminus_mod, Heq, Z.sub_diag. }
  apply Z.gauss in Hdiv; [|done]. destruct Hdiv as [q Hq].
  assert (q = 0) by lia. lia.
Qed.

Lemma hash_mix_range h x : 0 <= hash_mix h x < 2 ^ 64.
Proof. rewrite hash_mix_eq. by apply Z.mod_pos_bound. Qed.

Lemma hash_mix_inj_r h x x' :
  0 <= x < 2 ^ 64 -> 0 <= x' < 2 ^ 64 -> hash_mix h x = hash_mix h x' -> x = x'.
Proof.
  rewrite !hash_mix_eq. intros Hx Hx' Heq.
  assert ((2 ^ 64 | x - x')) as [q Hq].
  { apply Z.mod_divide; [done|].
    replace (x - x') with ((33 * h + x) - (33 * h + x')) by lia.
    by rewrite Zminus_mod, Heq, Z.sub_diag. }
  assert (q = 0) by lia. lia.
Qed.

(** Mixing sees its first argument only modulo [2^64]. *)
Lemma hash_mix_mod h x : hash_mix (h mod 2 ^ 64) x = hash_mix h x.
Proof.
  rewrite !hash_mix_eq. by rewrite <- Zplus_mod_idemp_l, Zmult_mod_idemp_r, Zplus_mod_idemp_l.
Qed.

Lemma hash_order_eq o :
  terminated (o_symbol o) = true -> hash_order (Some o) = Val (order_poly o mod 2 ^ 64).
Proof.
  intros Ht. destruct (terminated_cstr _ Ht) as [r Hr].
  unfold hash_order, hash_string. rewrite Hr at 1.
  rewrite hash_loop_spec by (try apply cstr_no_nul; lia). cbn [mbind res_bind].
  rewrite hash_mix_mod, (hash_mix_eq _ (order_id o)), hash_mix_mod, (hash_mix_eq _ (o_type o)),
    hash_mix_mod, (hash_mix_eq _ (o_side o)), hash_mix_mod, hash_mix_eq.
  f_equal. unfold order_poly. f_equal. lia.
Qed.

Lemma bad_symbol_length_spec symbol :
  terminated symbol = true ->
  bad_symbol_length symbol =
  Val ((length (cstr symbol) =? 0)%nat || (MAX_SYMBOL_LENGTH <=? length (cstr symbol))%nat).
Proof.
  intros. unfold bad_symbol_length. rewrite strlen_val by done. cbn [mbind res_bind].
  f_equal. unfold MAX_SYMBOL_LENGTH. lia.
Qed.

(** ** Properties *)

(** C31. [trim_whitespace] on a string [s] in a buffer returns a pointer [p] into
    that buffer at which the string without its leading and trailing white space
    now starts: one byte is written, the NUL behind the last character kept (over
    the old terminator, if there was no trailing white space), and every other
    byte of the buffer is as it was.  Trimming again would change nothing. *)
Theorem trim_whitespace_correct (s r : bytes) :
  NUL ∉ s ->
  let buf := s ++ NUL :: r in
  exists p, let k := (p + length (trim s))%nat in
    trim_whitespace (Some buf) = Val (Some p, <[k := NUL]> buf) /\ (k <= length s)%nat /\
    cstr (drop p (<[k := NUL]> buf)) = trim s /\ trim (trim s) = trim s.
Proof.
  intros Hs buf. destruct (trim_whitespace_spec s r Hs) as (p & buf' & Hrun & -> & Hk & r' & Hd).
  fold buf in Hd. exists p. cbv zeta. split_and!; [exact Hrun|exact Hk| |].
  - rewrite Hd. apply cstr_app. intros Hin. apply Hs.
    destruct (rtrim_prefix (skip_space s)) as [q Hq].
    destruct (skip_space_suffix s) as [pre Hpre].
    rewrite Hpre, Hq. apply elem_of_app. right. apply elem_of_app. by left.
  - unfold trim. pose proof (skip_space_head s) as Hh.
    destruct (skip_space s) as [|b t]; [done|].
    destruct (rtrim_cons b t Hh) as [s' Hs']. rewrite Hs'. cbn [skip_space].
    rewrite Hh. rewrite <- Hs'. unfold rtrim. rewrite reverse_involutive.
    pose proof (skip_space_head (reverse (b :: t))) as Hh'.
    destruct (skip_space (reverse (b :: t))) as [|c u]; [done|]. cbn [skip_space].
    by rewrite Hh'.
Qed.

Lemma trim_whitespace_correct_witness :
  let buf := chars "  AAPL " ++ [NUL] in
  exists p, let k := (p + length (trim (chars "  AAPL ")))%nat in
    trim_whitespace (Some buf) = Val (Some p, <[k := NUL]> buf) /\ (k <= 7)%nat /\
    cstr (drop p (<[k := NUL]> buf)) = trim (chars "  AAPL ") /\
    trim (trim (chars "  AAPL ")) = trim (chars "  AAPL ").
Proof.
  apply (trim_whitespace_correct (chars "  AAPL ") []).
  apply (bool_decide_unpack _). by vm_compute.
Defined.

(** C32. [safe_strncpy] into a large enough destination stores the longest
    prefix of the source that fits with a terminator, always terminates it
    within [size] bytes, and leaves the bytes beyond [size] alone. *)
Theorem safe_strncpy_correct (dest src : bytes) (size : Z) :
  1 <= size <= Z.of_nat (length dest) -> terminated src = true ->
  exists dest', safe_strncpy (Some dest) (Some src) size = Val (Some dest') /\
    length dest' = length dest /\
    cstr dest' = take (Z.to_nat (size - 1)) (cstr src) /\
    terminated (take (Z.to_nat size) dest') = true /\
    drop (Z.to_nat size) dest' = drop (Z.to_nat size) dest.
Proof.
  intros Hsize Hsrc. set (n := Z.to_nat (size - 1)).
  assert (exists bs z, strncpy_bytes src n = Val bs /\ length bs = n /\
    bs = take n (cstr src) ++ replicate z NUL) as (bs & z & Hbs & Hlen & Hsplit).
  { destruct (le_lt_dec (length (cstr src)) n).
    - eexists _, _. split; [by apply strncpy_bytes_short|].
      rewrite firstn_all2 by lia. split; [|done].
      rewrite length_app, length_replicate. lia.
    - exists (take n (cstr src)), 0%nat. rewrite strncpy_bytes_long by lia.
      rewrite length_take, app_nil_r. split_and!; lia || done. }
  assert (dest = take n dest ++ drop n dest) as Hd by (by rewrite take_drop).
  assert (exists d ds, drop n dest = d :: ds) as (d & ds & Hds).
  { destruct (drop n dest) eqn:E; [|by eauto].
    apply (f_equal length) in E. rewrite length_drop in E. cbn in E. lia. }
  exists (bs ++ NUL :: ds). unfold safe_strncpy.
  rewrite (proj2 (Z.eqb_neq size 0)) by lia. fold n. unfold strncpy. rewrite Hbs.
  cbn [mbind res_bind]. rewrite memcpy_ok by lia. cbn [mbind res_bind].
  unfold overwrite. rewrite take_0, (firstn_all2 bs) by lia.
  cbn [app]. rewrite Nat.add_0_l, Hlen, Hds, <- Hlen, store_byte_middle, ?Hlen.
  assert (length dest = n + S (length ds))%nat as Hdl.
  { rewrite Hd, length_app, Hds, length_take. cbn.
    apply (f_equal length) in Hds. rewrite length_drop in Hds. cbn in Hds. lia. }
  assert (NUL ∉ take n (cstr src)) as Hnn.
  { intros Hin. apply (cstr_no_nul src). rewrite <- (take_drop n (cstr src)).
    apply elem_of_app. by left. }
  replace (Z.to_nat size) with (S n) by lia.
  split_and!.
  - done.
  - rewrite length_app. cbn. lia.
  - rewrite Hsplit. destruct z; [by rewrite app_nil_r, cstr_app|].
    cbn [replicate]. rewrite <- app_assoc. cbn [app]. by rewrite cstr_app.
  - replace (bs ++ NUL :: ds) with ((bs ++ [NUL]) ++ ds) by (by rewrite <- app_assoc).
    rewrite take_app_length' by (rewrite length_app; cbn; lia). apply terminated_app.
  - replace (bs ++ NUL :: ds) with ((bs ++ [NUL]) ++ ds) by (by rewrite <- app_assoc).
    rewrite drop_app_length' by (rewrite length_app; cbn; lia).
    apply (f_equal (drop 1)) in Hds. by rewrite drop_drop, Nat.add_1_r in Hds.
Qed.

Lemma safe_strncpy_correct_witness :
  exists dest', safe_strncpy (Some (replicate 4 Byte.xff)) (Some (lit "GOOGL")) 4 =
    Val (Some dest') /\
    length dest' = 4%nat /\ cstr dest' = take 3 (cstr (lit "GOOGL")) /\
    terminated (take 4 dest') = true /\ drop 4 dest' = drop 4 (replicate 4 Byte.xff).
Proof.
  apply (safe_strncpy_correct (replicate 4 Byte.xff) (lit "GOOGL") 4); [split|]; by vm_compute.
Defined.

(** [string_to_upper] changes exactly the letters before the terminator and
    doing it again changes nothing; [string_to_lower] likewise maps every
    character before the terminator. *)
Theorem string_case_correct (s r : bytes) :
  NUL ∉ s ->
  string_to_upper (Some (s ++ NUL :: r)) = Val (SUCCESS, Some (map toupper s ++ NUL :: r)) /\
  string_to_lower (Some (s ++ NUL :: r)) = Val (SUCCESS, Some (map tolower s ++ NUL :: r)) /\
  map toupper (map toupper s) = map toupper s.
Proof.
  intros Hs. unfold string_to_upper, string_to_lower. rewrite !map_string_spec by done.
  split_and!; [done..|]. rewrite map_map. apply map_ext, toupper_idem.
Qed.

Lemma string_case_correct_witness :
  string_to_upper (Some (chars "aapl" ++ NUL :: [])) =
    Val (SUCCESS, Some (map toupper (chars "aapl") ++ NUL :: [])) /\
  string_to_lower (Some (chars "aapl" ++ NUL :: [])) =
    Val (SUCCESS, Some (map tolower (chars "aapl") ++ NUL :: [])) /\
  map toupper (map toupper (chars "aapl")) = map toupper (chars "aapl").
Proof.
  apply (string_case_correct (chars "aapl") []).
  apply (bool_decide_unpack _). by vm_compute.
Defined.

(** C30. [safe_atoi64] reads back every 64-bit integer, negative ones included, from
    its decimal numeral; it answers 0 for the numeral of an integer that does not
    fit, and 0 for the numeral of any integer followed by a character that is not
    a digit and the rest of a string, whatever that rest is. *)
Theorem safe_atoi64_roundtrip (n : Z) :
  (forall rest, safe_atoi64 (Some (chars (pretty n) ++ NUL :: rest)) =
     Val (if (- 2 ^ 63 <=? n) && (n <? 2 ^ 63) then n else 0)) /\
  (forall c rest, c <> NUL -> isdigit c = false -> terminated rest = true ->
     safe_atoi64 (Some (chars (pretty n) ++ c :: rest)) = Val 0).
Proof.
  split.
  - intros rest. unfold safe_atoi64. rewrite strtoll_numeral by (done || apply terminated_app).
    assert ((- 2 ^ 63 <=? n) && (n <? 2 ^ 63) =
      negb (n <? - 2 ^ 63) && negb (2 ^ 63 - 1 <? n)) as -> by lia.
    by destruct (n <? - 2 ^ 63), (2 ^ 63 - 1 <? n).
  - intros c rest Hc Hd Hrest. apply terminated_cstr in Hrest as [r Hr].
    assert (terminated (chars (pretty n) ++ c :: rest) = true) as Ht.
    { rewrite Hr, app_comm_cons, app_assoc. apply terminated_app. }
    unfold safe_atoi64. rewrite strtoll_numeral by done.
    assert (at_end (c :: rest) = false) as Hend by (unfold at_end; by rewrite bool_decide_false).
    destruct (n <? - 2 ^ 63); [|destruct (2 ^ 63 - 1 <? n)]; cbn [mbind res_bind negb andb];
      by rewrite ?Hend.
Qed.

Lemma safe_atoi64_roundtrip_witness :
  safe_atoi64 (Some (chars (pretty (-9223372036854775808)) ++ NUL :: [])) =
    Val (-9223372036854775808) /\
  safe_atoi64 (Some (chars (pretty (-17)) ++ Byte.x2e :: lit "5")) = Val 0.
Proof.
  split.
  - exact (proj1 (safe_atoi64_roundtrip (-9223372036854775808)) []).
  - apply (proj2 (safe_atoi64_roundtrip (-17)) Byte.x2e (lit "5")); [discriminate|..];
      by vm_compute.
Defined.

(** C28. [normalize_price] terminates: [-exponent] rounds are enough. Its result
    has the same value, an exponent between the old one and 0 (or the old one
    when that was positive), no trailing decimal zero unless the exponent is not
    negative, and stays inside [int64_t]. *)
Theorem normalize_price_correct (p : Price) (fuel : nat) :
  wf_Price p -> (Z.to_nat (- exponent p) <= fuel)%nat ->
  exists p', normalize_price fuel (Some p) = Some (Some p') /\ wf_Price p' /\
    exponent p <= exponent p' <= Z.max 0 (exponent p) /\
    mantissa p = mantissa p' * 10 ^ (exponent p' - exponent p) /\
    (Z.rem (mantissa p') 10 <> 0 \/ 0 <= exponent p') /\
    normalize_price 0 (Some p') = Some (Some p').
Proof.
  intros [Hm He] Hf. destruct (normalize_loop_total fuel p Hf) as (p' & Hl & Hg & Hx & Hv & Ha).
  exists p'. unfold normalize_price. rewrite Hl. cbn [normalize_loop]. rewrite Hg.
  unfold wf_Price, is_s64, is_s32 in *. split_and!; try done; try lia.
  unfold normalize_guard in Hg. lia.
Qed.

Lemma normalize_price_correct_witness :
  exists p', normalize_price 6 (Some (mkPrice 150500000 (-6))) = Some (Some p') /\
    wf_Price p' /\ -6 <= exponent p' <= Z.max 0 (-6) /\
    150500000 = mantissa p' * 10 ^ (exponent p' - -6) /\
    (Z.rem (mantissa p') 10 <> 0 \/ 0 <= exponent p') /\
    normalize_price 0 (Some p') = Some (Some p').
Proof.
  apply (normalize_price_correct (mkPrice 150500000 (-6)) 6).
  - split; split; by vm_compute.
  - by vm_compute; lia.
Defined.

(** C29. Normal forms are canonical: two prices with exponents at most 0 that
    stand for the same number are normalised to the same structure. *)
Theorem normalize_price_canonical (p q : Price) (f g : nat) (e : Z) :
  wf_Price p -> wf_Price q -> exponent p <= 0 -> exponent q <= 0 ->
  (Z.to_nat (- exponent p) <= f)%nat -> (Z.to_nat (- exponent q) <= g)%nat ->
  e <= exponent p -> e <= exponent q ->
  mantissa p * 10 ^ (exponent p - e) = mantissa q * 10 ^ (exponent q - e) ->
  normalize_price f (Some p) = normalize_price g (Some q).
Proof.
  intros _ _ Hp Hq Hf Hg He1 He2 Heq. unfold normalize_price.
  destruct (normalize_loop_total f p Hf) as (p' & -> & Hgp & Hxp & Hvp & _).
  destruct (normalize_loop_total g q Hg) as (q' & -> & Hgq & Hxq & Hvq & _).
  cbn. do 2 f_equal.
  rewrite Hvp, Hvq, <- !Z.mul_assoc, <- !Z.pow_add_r in Heq by lia.
  replace (exponent p' - exponent p + (exponent p - e)) with (exponent p' - e) in Heq by lia.
  replace (exponent q' - exponent q + (exponent q - e)) with (exponent q' - e) in Heq by lia.
  assert (forall a b, exponent a <= exponent b -> e <= exponent a ->
    mantissa a * 10 ^ (exponent a - e) = mantissa b * 10 ^ (exponent b - e) ->
    mantissa a = mantissa b * 10 ^ (exponent b - exponent a)) as Hcancel.
  { intros a b Hab Ha H.
    replace (exponent b - e) with (exponent b - exponent a + (exponent a - e)) in H by lia.
    rewrite Z.pow_add_r, Z.mul_assoc in H by lia.
    eapply Z.mul_cancel_r; [|exact H]. apply Z.pow_nonzero; lia. }
  destruct (Z.le_ge_cases (exponent p') (exponent q')).
  - apply normal_form_unique; try lia; try done. apply Hcancel; lia.
  - symmetry. apply normal_form_unique; try lia; try done. apply Hcancel; lia.
Qed.

Lemma normalize_price_canonical_witness :
  normalize_price 6 (Some (mkPrice 150500000 (-6))) = normalize_price 2 (Some (mkPrice 15050 (-2))).
Proof.
  apply (normalize_price_canonical (mkPrice 150500000 (-6)) (mkPrice 15050 (-2)) 6 2 (-6));
    try (by vm_compute); try (by vm_compute; lia); split; split; by vm_compute.
Defined.

Section price_order.
Context `{Libm}.

(** The product of [price_to_double] is exact for whole numbers that fit. *)
Lemma price_to_double_whole `{!LibmExact} p :
  0 <= exponent p <= 15 -> Z.abs (mantissa p * 10 ^ exponent p) < 2 ^ 53 ->
  price_to_double p = double_of_Z (mantissa p * 10 ^ exponent p).
Proof.
  intros He Hfit. unfold price_to_double. rewrite pow_ten by lia.
  assert (0 < 10 ^ exponent p < 2 ^ 53) as Hten.
  { split; [apply Z.pow_pos_nonneg; lia|].
    apply (Z.le_lt_trans _ (10 ^ 15)); [apply Z.pow_le_mono_r; lia|done]. }
  destruct (decide (mantissa p = 0)) as [->|Hm]; [|apply d_mul_exact; lia].
  rewrite (double_of_Z_exact (10 ^ _)) by lia.
  by rewrite (proj2 (Z.ltb_ge _ _)) by lia.
Qed.

Lemma compare_prices_trans (p q r : Price) :
  let c a b := compare_prices (Some a) (Some b) in
  isnan (price_to_double p) = false -> isnan (price_to_double q) = false ->
  isnan (price_to_double r) = false -> c p q <= 0 -> c q r <= 0 -> c p r <= 0.
Proof.
  intros c Hx Hy Hz. unfold c, compare_prices. change d_gt with (fun a b => d_lt b a). cbv beta.
  set (x := price_to_double p) in *. set (y := price_to_double q) in *.
  set (z := price_to_double r) in *.
  assert (forall a b, isnan a = false -> isnan b = false ->
    d_lt a b = false <-> ~ key_lt (d_key a) (d_key b)) as Hkey.
  { intros a b ? ?. rewrite <- d_lt_key by done. by rewrite not_true_iff_false. }
  assert (forall a b, (if d_lt a b then -1 else if d_lt b a then 1 else 0) <= 0 ->
    d_lt b a = false) as Hle.
  { intros a b. pose proof (d_lt_asym a b). destruct (d_lt a b), (d_lt b a); naive_solver lia. }
  intros Hxy%Hle Hyz%Hle.
  assert (d_lt z x = false) as ->; [|destruct (d_lt x z); lia].
  rewrite Hkey in * by done. by eapply key_le_trans.
Qed.

(** C35. [compare_prices] compares the numbers.  On prices that are whole numbers
    below [2^53] (exponent from 0 to 15) it is the sign of the difference of the
    integers [mantissa * 10^exponent], whatever the exponents are; for all prices,
    swapping them negates the result, and for prices whose double is a number it is
    transitive; with a NULL pointer the answer is 0. *)
Theorem compare_prices_correct `{!LibmExact} (p q r : Price) :
  let c a b := compare_prices (Some a) (Some b) in
  let value a := mantissa a * 10 ^ exponent a in
  let whole a := 0 <= exponent a <= 15 /\ Z.abs (value a) < 2 ^ 53 in
  (whole p -> whole q -> c p q = Z.sgn (value p - value q)) /\
  c q p = - c p q /\
  (isnan (price_to_double p) = false -> isnan (price_to_double q) = false ->
   isnan (price_to_double r) = false -> c p q <= 0 -> c q r <= 0 -> c p r <= 0) /\
  compare_prices None (Some q) = 0 /\ compare_prices (Some p) None = 0.
Proof.
  intros c value whole. split_and!; [|..|done|done].
  - intros [Hpe Hp] [Hqe Hq]. unfold c, compare_prices.
    rewrite !price_to_double_whole by done. change d_gt with (fun a b => d_lt b a). cbv beta.
    rewrite !d_lt_whole by done. fold (value p) (value q). clear.
    destruct (Z.ltb_spec (value p) (value q)), (Z.ltb_spec (value q) (value p)); lia.
  - unfold c, compare_prices. change d_gt with (fun a b => d_lt b a). cbv beta.
    pose proof (d_lt_asym (price_to_double p) (price_to_double q)).
    pose proof (d_lt_asym (price_to_double q) (price_to_double p)).
    destruct (d_lt (price_to_double p) _), (d_lt (price_to_double q) _); naive_solver lia.
  - apply compare_prices_trans.
Qed.

(** [double_to_price] truncates where its comment promises six decimals of
    precision: 2.01, whose nearest double times [10^6] is just below 2010000, is
    stored as 2.009999. *)
Theorem double_to_price_truncates `{!LibmExact} :
  double_to_price (d_lit 201 100) = Val (create_price 2009999 (-6)).
Proof.
  unfold double_to_price. change (- -6) with 6. rewrite pow_ten by lia. by vm_compute.
Qed.
End price_order.

Lemma compare_prices_correct_witness :
  let c a b := @compare_prices pow_ref (Some a) (Some b) in
  c (mkPrice 15 1) (mkPrice 1499 (-1)) = 1 /\ c (mkPrice 15 1) (mkPrice 151 0) = -1 /\
  c (mkPrice 151 0) (mkPrice 15 1) = 1.
Proof.
  intros c. split; [by vm_compute|].
  pose proof (@compare_prices_correct pow_ref pow_ref_exact (mkPrice 15 1) (mkPrice 151 0)
    (mkPrice 0 0)) as (Hc & Hneg & _).
  assert (c (mkPrice 15 1) (mkPrice 151 0) = -1) as E
    by (apply Hc; (split; [split|]; by vm_compute)).
  split; [exact E|]. exact (eq_trans Hneg (f_equal Z.opp E)).
Defined.

Lemma double_to_price_truncates_witness :
  @double_to_price pow_ref (d_lit 201 100) = Val (create_price 2009999 (-6)).
Proof. exact (@double_to_price_truncates pow_ref pow_ref_exact). Defined.

(** *** Prices as text *)

Section price_text.
Context `{Libm} `{Libc}.

(** C27. [price_to_string] prints the double [price_to_double] computes for the price
    (mantissa times [pow(10, exponent)], a rounded product that need not be the
    double nearest to the price), rounded to the nearest millionth and cut to what
    fits: for every price and every buffer of at least [buffer_size] bytes, at
    least 1, the result ends inside [buffer_size] bytes, has the longest prefix of
    the text that leaves room for the terminator, and nothing beyond [buffer_size]
    is touched.  When that double is finite, [m * 2^e] with a sign, the number [n]
    of millionths printed is exact for [e >= 0] and within half a millionth of it
    for [e < 0]. *)
Theorem price_to_string_correct (p : Price) (buffer : bytes) (buffer_size : Z) :
  1 <= buffer_size <= Z.of_nat (length buffer) ->
  (exists b, price_to_string (Some p) (Some buffer) buffer_size = Val (Some b) /\
    length b = length buffer /\
    cstr b = take (Z.to_nat (buffer_size - 1)) (chars (fixed6 (price_to_double p))) /\
    terminated (take (Z.to_nat buffer_size) b) = true /\
    drop (Z.to_nat buffer_size) b = drop (Z.to_nat buffer_size) buffer) /\
  (forall neg m e, price_to_double p = S754_finite neg m e -> exists n,
    fixed6 (price_to_double p) = fixed_text neg n /\
    (0 <= e -> n = Zpos m * 2 ^ e * 1000000) /\
    (e < 0 -> 2 * Z.abs (n * 2 ^ (- e) - Zpos m * 1000000) <= 2 ^ (- e))).
Proof.
  intros Hsize. split.
  - destruct (snprintf_fixed6_spec buffer buffer_size (price_to_double p) Hsize)
      as (b & Hb & Hrest).
    exists b. split; [|done]. unfold price_to_string.
    by rewrite (proj2 (Z.eqb_neq _ _)), Hb by lia.
  - intros neg m e Hv. rewrite Hv. exists (millionths (Zpos m) e). split; [done|].
    unfold millionths. split; intros He.
    + by rewrite (proj2 (Z.leb_le _ _)).
    + rewrite (proj2 (Z.leb_gt _ _)) by done.
      apply round_half_even_nearest, Z.pow_pos_nonneg; lia.
Qed.

(** C26. Round trip: the text of a price with an exponent from 0 to 15 whose value is
    below [2^53] in magnitude is the decimal numeral of that whole number with six
    zeros after the point, and [safe_atod] reads it back as exactly the same double,
    whenever the text fits into the buffer and [pow] is exact on powers of ten. *)
Theorem price_text_roundtrip `{!LibmExact} (p : Price) (buffer : bytes) (buffer_size : Z) :
  let value := mantissa p * 10 ^ exponent p in
  0 <= exponent p <= 15 -> Z.abs value < 2 ^ 53 ->
  Z.of_nat (length (chars (pretty value))) + 8 <= buffer_size <= Z.of_nat (length buffer) ->
  exists b, price_to_string (Some p) (Some buffer) buffer_size = Val (Some b) /\
    cstr b = chars (pretty value) ++ chars ".000000" /\
    safe_atod (Some b) = Val (price_to_double p).
Proof.
  intros value He Hfit Hsize.
  destruct (snprintf_fixed6_spec buffer buffer_size (price_to_double p) ltac:(lia))
    as (b & Hb & Hlen & Hcstr & Hterm & _).
  pose proof (price_to_double_whole p He Hfit) as Hval. fold value in Hval.
  rewrite Hval in Hb, Hcstr |- *. clearbody value. set (k := Z.abs value) in *.
  assert (fixed6 (double_of_Z value) = fixed_text (value <? 0) (k * 1000000)) as Htext.
  { destruct (decide (value = 0)) as [E|Hv]; [subst k; by rewrite E|].
    rewrite double_of_Z_exact by done. apply fixed6_canonical. subst k. lia. }
  assert (fixed_text (value <? 0) (k * 1000000) = pretty value +:+ ".000000") as Hshape.
  { rewrite fixed_text_whole by lia. subst k. by destruct value. }
  rewrite Htext, Hshape, chars_app, take_ge in Hcstr
    by (rewrite length_app; change (length (chars ".000000")) with 7%nat; lia).
  exists b. split; [|split; [done|]].
  { unfold price_to_string. rewrite (proj2 (Z.eqb_neq _ _)) by lia.
    by rewrite Hval, Hb. }
  assert (terminated b = true) as Ht.
  { rewrite <- (take_drop (Z.to_nat buffer_size) b). apply terminated_cstr in Hterm as [r Hr].
    rewrite Hr, <- app_assoc. apply terminated_app. }
  apply terminated_cstr in Ht as [r Hr]. unfold safe_atod.
  rewrite Hr, Hcstr, <- chars_app, <- Hshape, strtod_whole by lia.
  cbn [mbind res_bind negb andb]. unfold at_end. rewrite bool_decide_true by done.
  f_equal. destruct (Z.eqb_spec k 0) as [E|E].
  - by assert (value = 0) as -> by lia.
  - by rewrite double_of_Z_exact by lia.
Qed.
End price_text.

(** A C library that prints [nan] and sets [errno] when a result underflows. *)
Definition libc_ref : Libc.
Proof.
  refine {| nan_text := "nan"; underflow_erange := fun _ => true |}.
  by apply (bool_decide_unpack _).
Defined.

Lemma price_to_string_correct_witness :
  exists b, @price_to_string pow_ref libc_ref (Some (mkPrice 100500000 (-6)))
      (Some (replicate 8 Byte.xff)) 5 = Val (Some b) /\
    length b = 8%nat /\ cstr b = chars "100." /\
    terminated (take 5 b) = true /\ drop 5 b = replicate 3 Byte.xff.
Proof.
  assert (1 <= 5 <= Z.of_nat (length (replicate 8 Byte.xff))) as Hsize by (by vm_compute).
  destruct (proj1 (@price_to_string_correct pow_ref libc_ref (mkPrice 100500000 (-6))
    (replicate 8 Byte.xff) 5 Hsize)) as (b & Hb & Hl & Hc & Ht & Hd).
  exists b. split; [exact Hb|]. split; [exact Hl|]. split; [|by split].
  rewrite Hc. by vm_compute.
Defined.

Lemma price_text_roundtrip_witness :
  exists b, @price_to_string pow_ref libc_ref (Some (mkPrice (-15) 3))
      (Some (replicate 16 Byte.xff)) 16 = Val (Some b) /\
    cstr b = chars "-15000.000000" /\
    @safe_atod libc_ref (Some b) = Val (@price_to_double pow_ref (mkPrice (-15) 3)).
Proof.
  destruct (@price_text_roundtrip pow_ref libc_ref pow_ref_exact (mkPrice (-15) 3)
    (replicate 16 Byte.xff) 16) as (b & Hb & Hc & Hv);
    [split; by vm_compute|by vm_compute|split; by vm_compute|].
  exists b. split; [exact Hb|]. split; [|exact Hv]. rewrite Hc. by vm_compute.
Defined.

(** C34. [hash_order] is the djb2 polynomial over the symbol followed by id, type,
    side and quantity; so orders that differ only in their id never collide, nor
    do orders that differ only in their quantity; a NULL order hashes to 0. *)
Theorem hash_order_correct (o o' : Order) :
  wf_Order o -> wf_Order o' -> terminated (o_symbol o) = true ->
  o_symbol o' = o_symbol o -> o_type o' = o_type o -> o_side o' = o_side o ->
  hash_order (Some o) = Val (order_poly o mod 2 ^ 64) /\
  hash_order None = Val 0 /\
  (o_quantity o' = o_quantity o ->
   hash_order (Some o) = hash_order (Some o') -> order_id o = order_id o') /\
  (order_id o' = order_id o ->
   hash_order (Some o) = hash_order (Some o') -> o_quantity o = o_quantity o').
Proof.
  intros (Hid & _ & _ & _ & _ & _ & _ & _ & Hq & _) (Hid' & _ & _ & _ & _ & _ & _ & _ & Hq' & _)
    Ht Hs Hty Hsd.
  split; [by apply hash_order_eq|]. split; [done|].
  unfold is_u64, is_u32 in *. unfold hash_order. rewrite Hs, Hty, Hsd.
  destruct (hash_string (o_symbol o)) as [h|] eqn:Eh; cbn [mbind res_bind]; [|split].
  2,3: unfold hash_string in Eh; destruct (terminated_cstr _ Ht) as [r Hr]; exfalso;
    rewrite Hr, hash_loop_spec in Eh by (try apply cstr_no_nul; lia); discriminate.
  split; intros -> [= Heq].
  - do 3 (apply hash_mix_inj in Heq; [|apply hash_mix_range..]).
    by apply hash_mix_inj_r in Heq.
  - apply hash_mix_inj_r in Heq; lia.
Qed.

Lemma hash_order_correct_witness :
  hash_order (Some (sample_order 1 100)) = Val (order_poly (sample_order 1 100) mod 2 ^ 64) /\
  hash_order None = Val 0 /\
  (o_quantity (sample_order 2 100) = o_quantity (sample_order 1 100) ->
   hash_order (Some (sample_order 1 100)) = hash_order (Some (sample_order 2 100)) ->
   order_id (sample_order 1 100) = order_id (sample_order 2 100)) /\
  (order_id (sample_order 2 100) = order_id (sample_order 1 100) ->
   hash_order (Some (sample_order 1 100)) = hash_order (Some (sample_order 2 100)) ->
   o_quantity (sample_order 1 100) = o_quantity (sample_order 2 100)).
Proof.
  apply (hash_order_correct (sample_order 1 100) (sample_order 2 100));
    try (by vm_compute); apply (bool_decide_unpack _); by vm_compute.
Defined.

(** C33. [validate_order_fields] accepts an order exactly when its symbol is a
    non-empty string inside its array and its quantity, type and side are in
    range; it answers [ERROR_INVALID_ORDER] otherwise; an order whose symbol has
    no terminator makes [strlen] leave the array, so the check against
    [MAX_SYMBOL_LENGTH] never decides anything. *)
Theorem validate_order_fields_iff {S : Type} `{HasWorld S} `{OS} (o : Order) (s : S) :
  wf_Order o ->
  if terminated (o_symbol o) then
    wp (validate_order_fields (Some o)) (fun r s' =>
      trace (world s') = trace (world s) /\
      (r = 0 <-> cstr (o_symbol o) <> [] /\ 0 < o_quantity o /\ 1 <= o_type o <= 4 /\
                 1 <= o_side o <= 2) /\
      (r <> 0 -> r = ERROR_INVALID_ORDER)) s /\
    (length (cstr (o_symbol o)) < MAX_SYMBOL_LENGTH)%nat
  else validate_order_fields (Some o) s = Undef Unterminated.
Proof.
  intros (Hid & Hs & _ & Hty & Hsd & _ & _ & _ & Hq & _).
  destruct (terminated (o_symbol o)) eqn:Ht.
  - pose proof (length_cstr_lt _ Ht) as Hl. rewrite Hs in Hl.
    split; [|done]. unfold validate_order_fields.
    rewrite bad_symbol_length_spec by done.
    rewrite (proj2 (Nat.leb_gt _ _)), orb_false_r by (unfold MAX_SYMBOL_LENGTH; lia).
    wp_step. eapply wp_lift; [done|]. unfold is_valid_order_type, is_valid_order_side.
    repeat match goal with |- wp (if ?b then _ else _) _ _ => destruct b eqn:? end;
      wp_steps; rewrite ?world_put_log.
    all: destruct (cstr (o_symbol o)) eqn:Ec; cbn [length] in *; try done.
    all: cbn [order_type_code order_side_code error_code] in *.
    all: split_and!; [done| |done]; split; [intros; split_and!; lia || done|].
    all: intros (? & ? & ? & ?); (done || lia).
  - unfold validate_order_fields, bad_symbol_length, mbind, M_bind.
    by rewrite strlen_unterminated.
Qed.

Lemma validate_order_fields_iff_witness :
  let os := os_const 0 0 [] in
  let o := sample_order 1 100 in
  wp (validate_order_fields (Some o)) (fun r s' =>
      trace s' = [] /\
      (r = 0 <-> cstr (o_symbol o) <> [] /\ 0 < o_quantity o /\ 1 <= o_type o <= 4 /\
                 1 <= o_side o <= 2) /\
      (r <> 0 -> r = ERROR_INVALID_ORDER)) initial_world /\
  (length (cstr (o_symbol o)) < MAX_SYMBOL_LENGTH)%nat.
Proof.
  intros os o. assert (wf_Order o) as Hwf by (apply (bool_decide_unpack _); by vm_compute).
  pose proof (@validate_order_fields_iff World _ os o initial_world Hwf) as Hw.
  exact Hw.
Defined.
