(* ===== verification/Process.v ===== *)
(** * Processes

    The state of one of the programs: its world, the global flag its loops test
    ([server_running] in the server, [running] in the examples), and the one
    context object it allocates, with access through the pointer.  [step] is the
    effect of one system call and [≈] equality up to the log; every component's
    specifications are written with them. *)

From S2P Require Import Prelude CMem CString CDouble World Logger.

Record Process (C : Type) : Type := mkProcess {
  p_world : World;
  p_running : Z;
  p_context : ptr C;
}.
Arguments mkProcess {C} p_world p_running p_context.
Arguments p_world {C} p.
Arguments p_running {C} p.
Arguments p_context {C} p.

#[export] Instance Process_HasWorld C : HasWorld (Process C).
Proof.
  refine {| world := p_world;
            set_world := fun w s => mkProcess w (p_running s) (p_context s) |}; [done..|].
  by intros [].
Defined.

Section process.
Context {C : Type}.
Implicit Types (s : Process C).

Definition set_running (v : Z) (s : Process C) : Process C :=
  mkProcess (p_world s) v (p_context s).
Definition set_context (p : ptr C) (s : Process C) : Process C :=
  mkProcess (p_world s) (p_running s) p.

(** [*context] *)
Definition deref : M (Process C) C :=
  p ← gets p_context; lift_res (load_ptr p).

(** [context->field = v] *)
Definition update (f : C -> C) : M (Process C) unit :=
  c ← deref; modify (set_context (Live (f c))).

(** [context == NULL] *)
Definition context_is_null : M (Process C) bool :=
  p ← gets p_context; mret (match p with Null => true | _ => false end).

(** ** Lemmas *)

Lemma wp_deref c (Q : C -> Process C -> Prop) s :
  p_context s = Live c -> Q c s -> wp deref Q s.
Proof. intros Hc HQ. unfold deref. wp_step. wp_step. rewrite Hc. by eapply wp_lift. Qed.

Lemma wp_update c f (Q : unit -> Process C -> Prop) s :
  p_context s = Live c -> Q tt (set_context (Live (f c)) s) -> wp (update f) Q s.
Proof. intros Hc HQ. unfold update. wp_step. eapply wp_deref; [done|]. by wp_step. Qed.

Lemma wp_context_is_null c (Q : bool -> Process C -> Prop) s :
  p_context s = Live c -> Q false s -> wp context_is_null Q s.
Proof. intros Hc HQ. unfold context_is_null. wp_step. wp_step. rewrite Hc. by wp_step. Qed.

(** States that differ only in what was logged. *)
Definition quiet_eq (s s' : Process C) : Prop := put_log [] s = put_log [] s'.
Infix "≈" := quiet_eq (at level 70).

#[export] Instance quiet_eq_equivalence : Equivalence quiet_eq.
Proof. split; [by intros ?|by intros ? ?|intros ? ? ?; apply eq_trans]. Qed.

Lemma quiet_put_log l s : put_log l s ≈ s.
Proof. unfold quiet_eq. by rewrite put_log_put_log. Qed.

(** One system call, its record included. *)
Definition step `{OS} (c : Syscall) (s : Process C) : Process C :=
  set_world (after_sys c (world s)) s.

#[export] Instance put_log_proper l : Proper (quiet_eq ==> quiet_eq) (put_log l).
Proof. intros s s' Hs. by rewrite !quiet_put_log. Qed.
#[export] Instance step_proper `{OS} c : Proper (quiet_eq ==> quiet_eq) (step c).
Proof.
  intros [[t e f m l] r p] [[t' e' f' m' l'] r' p'] Hs. injection Hs as -> -> -> -> -> ->.
  reflexivity.
Qed.
#[export] Instance set_context_proper p : Proper (quiet_eq ==> quiet_eq) (set_context p).
Proof.
  intros [[t e f m l] r q] [[t' e' f' m' l'] r' q'] Hs. injection Hs as -> -> -> -> -> ->.
  reflexivity.
Qed.
#[export] Instance set_running_proper v : Proper (quiet_eq ==> quiet_eq) (set_running v).
Proof.
  intros [[t e f m l] r q] [[t' e' f' m' l'] r' q'] Hs. injection Hs as -> -> -> -> -> ->.
  reflexivity.
Qed.
#[export] Instance p_context_proper : Proper (quiet_eq ==> eq) p_context.
Proof. intros [] [] Hs. by injection Hs. Qed.
#[export] Instance p_running_proper : Proper (quiet_eq ==> eq) p_running.
Proof. intros [] [] Hs. by injection Hs. Qed.
#[export] Instance trace_proper : Proper (quiet_eq ==> eq) (fun s : Process C => trace (world s)).
Proof. intros [[] ? ?] [[] ? ?] Hs. by injection Hs. Qed.

(** Reading a state that was written to. *)
Lemma p_context_put_log l s : p_context (put_log l s) = p_context s.
Proof. done. Qed.
Lemma p_context_step `{OS} c s : p_context (step c s) = p_context s.
Proof. done. Qed.
Lemma p_context_set_context p s : p_context (set_context p s) = p.
Proof. done. Qed.
Lemma p_context_set_running v s : p_context (set_running v s) = p_context s.
Proof. done. Qed.
Lemma running_put_log l s : p_running (put_log l s) = p_running s.
Proof. done. Qed.
Lemma running_step `{OS} c s : p_running (step c s) = p_running s.
Proof. done. Qed.
Lemma running_set_context p s : p_running (set_context p s) = p_running s.
Proof. done. Qed.
Lemma running_set_running v s : p_running (set_running v s) = v.
Proof. done. Qed.
Lemma trace_put_log l (s : Process C) : trace (world (put_log l s)) = trace (world s).
Proof. done. Qed.
Lemma trace_step `{OS} c (s : Process C) :
  trace (world (step c s)) = trace (world s) ++ [(c, answer (trace (world s)) c)].
Proof. done. Qed.
Lemma trace_set_context p (s : Process C) : trace (world (set_context p s)) = trace (world s).
Proof. done. Qed.
Lemma trace_set_running v (s : Process C) : trace (world (set_running v s)) = trace (world s).
Proof. done. Qed.
Lemma set_context_twice p q s : set_context p (set_context q s) = set_context p s.
Proof. done. Qed.


Lemma wp_process_sys `{OS} c (Q : Answer -> Process C -> Prop) s :
  Q (answer (trace (world s)) c) (step c s) -> wp (sys c) Q s.
Proof. apply wp_sys. Qed.

(** [send], when the peer is there, and in any case. *)
Lemma wp_send `{OS} fd bs (Q : Z -> Process C -> Prop) s :
  no_broken_pipe -> Q (taken (answer (trace (world s)) (SysSend fd bs)) bs) (step (SysSend fd bs) s) ->
  wp (sys_send fd bs) Q s.
Proof.
  intros Hpipe HQ. unfold sys_send. apply wp_bind, wp_process_sys. rewrite Hpipe. by apply wp_ret.
Qed.
Lemma wp_or_exit_send `{OS} fd bs (Q : Z -> Process C -> Prop) E s :
  let a := answer (trace (world s)) (SysSend fd bs) in
  let s' := step (SysSend fd bs) s in
  (broken_pipe a = true -> E (128 + SIGPIPE) s') ->
  (broken_pipe a = false -> Q (taken a bs) s') ->
  wp_or_exit (sys_send fd bs) Q E s.
Proof.
  intros a s' HE HQ. unfold sys_send. apply wp_or_exit_after, wp_process_sys. fold a.
  destruct (broken_pipe a); [by apply wp_or_exit_exit, HE|by apply wp_or_exit_ret, wp_ret, HQ].
Qed.

(** What can be read of equivalent states. *)
Lemma quiet_context s s' : s ≈ s' -> p_context s = p_context s'.
Proof. by intros ->. Qed.
Lemma quiet_running s s' : s ≈ s' -> p_running s = p_running s'.
Proof. by intros ->. Qed.
Lemma quiet_trace (s s' : Process C) : s ≈ s' -> trace (world s) = trace (world s').
Proof. destruct s as [[] ? ?], s' as [[] ? ?]. intros Hs. by injection Hs. Qed.
Lemma quiet_sends (s s' : Process C) : s ≈ s' -> sends (world s) = sends (world s').
Proof. intros Hs. unfold sends, calls. by rewrite (quiet_trace _ _ Hs). Qed.
Lemma sends_step `{OS} c (s : Process C) :
  sends (world (step c s)) = sends (world s) ++ omap as_send [c].
Proof. unfold sends, calls. rewrite trace_step, map_app, omap_app. done. Qed.
Lemma callbacks_step `{OS} c (s : Process C) :
  callbacks_made (world (step c s)) = callbacks_made (world s) ++ omap as_callback [c].
Proof. unfold callbacks_made, calls. by rewrite trace_step, map_app, omap_app. Qed.
Lemma callbacks_put_log l (s : Process C) :
  callbacks_made (world (put_log l s)) = callbacks_made (world s).
Proof. done. Qed.
Lemma callbacks_set_context p (s : Process C) :
  callbacks_made (world (set_context p s)) = callbacks_made (world s).
Proof. done. Qed.
Lemma sleeps_step `{OS} c (s : Process C) :
  sleeps (world (step c s)) = sleeps (world s) ++ omap as_sleep [c].
Proof. unfold sleeps, calls. by rewrite trace_step, map_app, omap_app. Qed.
Lemma sleeps_put_log l (s : Process C) : sleeps (world (put_log l s)) = sleeps (world s).
Proof. done. Qed.
Lemma sleeps_set_context p (s : Process C) :
  sleeps (world (set_context p s)) = sleeps (world s).
Proof. done. Qed.
Lemma sleeps_set_running v (s : Process C) :
  sleeps (world (set_running v s)) = sleeps (world s).
Proof. done. Qed.
Lemma sends_put_log l (s : Process C) : sends (world (put_log l s)) = sends (world s).
Proof. done. Qed.
Lemma sends_set_context p (s : Process C) :
  sends (world (set_context p s)) = sends (world s).
Proof. done. Qed.
Lemma closes_step `{OS} c (s : Process C) :
  closes (world (step c s)) = closes (world s) ++ omap as_close [c].
Proof. unfold closes, calls. rewrite trace_step, map_app, omap_app. done. Qed.
Lemma closes_put_log l (s : Process C) : closes (world (put_log l s)) = closes (world s).
Proof. done. Qed.
Lemma closes_set_context p (s : Process C) :
  closes (world (set_context p s)) = closes (world s).
Proof. done. Qed.
Lemma locks_step `{OS} c (s : Process C) :
  locks_held (world (step c s)) = lock_step (locks_held (world s)) c.
Proof. unfold locks_held, calls. by rewrite trace_step, map_app, fold_left_app. Qed.
Lemma locks_put_log l (s : Process C) : locks_held (world (put_log l s)) = locks_held (world s).
Proof. done. Qed.
Lemma locks_set_context p (s : Process C) :
  locks_held (world (set_context p s)) = locks_held (world s).
Proof. done. Qed.
Lemma opened_step `{OS} c (s : Process C) :
  opened (world (step c s)) =
  opened (world s) ++ omap as_opened [(c, answer (trace (world s)) c)].
Proof. unfold opened. by rewrite trace_step, omap_app. Qed.
Lemma opened_put_log l (s : Process C) : opened (world (put_log l s)) = opened (world s).
Proof. done. Qed.
Lemma opened_set_context p (s : Process C) :
  opened (world (set_context p s)) = opened (world s).
Proof. done. Qed.
Lemma lines_asked_step `{OS} c (s : Process C) :
  lines_asked (world (step c s)) = (lines_asked (world s) + length (omap as_fgets [c]))%nat.
Proof. unfold lines_asked, calls. by rewrite trace_step, map_app, omap_app, length_app. Qed.
Lemma lines_asked_put_log l (s : Process C) :
  lines_asked (world (put_log l s)) = lines_asked (world s).
Proof. done. Qed.
Lemma lines_asked_set_context p (s : Process C) :
  lines_asked (world (set_context p s)) = lines_asked (world s).
Proof. done. Qed.
Lemma polls_snoc tr c a : polls (tr ++ [(c, a)]) = (polls tr + length (omap as_poll [c]))%nat.
Proof. unfold polls, calls. by rewrite map_app, omap_app, length_app. Qed.
Lemma errno_step `{OS} c (s : Process C) :
  let a := answer (trace (world s)) c in
  errno (world (step c s)) = if a_ret a <? 0 then a_err a else errno (world s).
Proof. done. Qed.
Lemma opened_set_running v (s : Process C) :
  opened (world (set_running v s)) = opened (world s).
Proof. done. Qed.
Lemma closes_set_running v (s : Process C) :
  closes (world (set_running v s)) = closes (world s).
Proof. done. Qed.
Lemma locks_set_running v (s : Process C) :
  locks_held (world (set_running v s)) = locks_held (world s).
Proof. done. Qed.

(** Operations that returned. *)
Lemma deref_inv s c s' : deref s = Ret c s' -> s' = s /\ p_context s = Live c.
Proof.
  unfold deref, mbind, M_bind, gets, lift_res. destruct (p_context s) eqn:E; cbn; try done.
  by intros [= <- <-].
Qed.
Lemma update_inv f s u s' :
  update f s = Ret u s' -> exists c, p_context s = Live c /\ s' = set_context (Live (f c)) s.
Proof.
  unfold update. intros (c & s1 & [-> Hc]%deref_inv & [= <-])%bind_inv. by exists c.
Qed.
Lemma process_sys_inv `{OS} c (s : Process C) a s' :
  sys c s = Ret a s' -> a = answer (trace (world s)) c /\ s' = step c s.
Proof. by intros [= <- <-]. Qed.

End process.
Infix "≈" := quiet_eq (at level 70).

#[export] Hint Rewrite @p_context_put_log @p_context_step @p_context_set_context
  @p_context_set_running @running_put_log @running_step @running_set_context
  @running_set_running @trace_put_log @trace_step @trace_set_context @trace_set_running
  @set_context_twice : srv.
#[export] Hint Rewrite @lines_asked_step @lines_asked_put_log @lines_asked_set_context : srv.
#[export] Hint Rewrite @callbacks_step @callbacks_put_log @callbacks_set_context : srv.
#[export] Hint Rewrite @sleeps_step @sleeps_put_log @sleeps_set_context @sleeps_set_running : srv.
#[export] Hint Rewrite @opened_set_running @closes_set_running @locks_set_running : srv.
#[export] Hint Rewrite @sends_step @sends_put_log @sends_set_context @closes_step
  @closes_put_log @closes_set_context @opened_step @opened_put_log @opened_set_context
  @polls_snoc @locks_step @locks_put_log @locks_set_context : srv.

#[global] Opaque step set_context set_running quiet_eq.

Ltac srv_context := autorewrite with srv; (eassumption || reflexivity).
Ltac wp_op ::= first
  [ apply wp_process_sys | apply wp_log_append
  | apply wp_log; [by cbn | done |]; intros ?
  | eapply wp_deref; [srv_context|]
  | eapply wp_update; [srv_context|]
  | eapply wp_context_is_null; [srv_context|] ].
Ltac srv := autorewrite with srv in *.

(** Taking apart an operation that returned. *)
Ltac process_inv :=
  repeat first
  [ progress run_inv
  | match goal with
    | R : deref _ = Ret _ _ |- _ => apply deref_inv in R as [-> ?]
    | R : update _ _ = Ret _ _ |- _ => apply update_inv in R as (? & ? & ->)
    | R : sys _ _ = Ret _ _ |- _ => apply process_sys_inv in R as [-> ->]
    | E : p_context ?s = Live ?c, E' : p_context ?s = Live _ |- _ =>
        rewrite E in E'; injection E' as <-
    end ].

(** The effects of a run of system calls, collected. *)
Ltac effects :=
  srv; cbn [omap list_omap as_send as_close as_opened as_poll as_fgets as_callback as_sleep fst snd length] in *;
  rewrite ?app_nil_r, ?Nat.add_0_r in *;
  repeat (rewrite lock_step_other by reflexivity);
  repeat match goal with
  | E : context [lock_step _ _] |- _ => rewrite lock_step_other in E by reflexivity
  end.

(** ** Which calls a computation makes

    [only P m]: whenever [m] returns, the system calls it made satisfy [P].  This
    is partial correctness, so it needs no assumption on the data. *)
Definition only {C A} (P : Syscall -> Prop) (m : M (Process C) A) : Prop :=
  forall s r s', m s = Ret r s' ->
  exists l, trace (world s') = trace (world s) ++ l /\ Forall (fun e => P e.1) l.

Create HintDb only discriminated.

Section only.
Context {C : Type} `{OS} (P : Syscall -> Prop).

Lemma only_nothing {A} (m : M (Process C) A) :
  (forall s r s', m s = Ret r s' -> trace (world s') = trace (world s)) -> only P m.
Proof. intros Hm s r s' R. exists []. by rewrite (Hm _ _ _ R), app_nil_r. Qed.

Lemma only_ret {A} (a : A) : only (C:=C) P (mret a).
Proof. apply only_nothing. by intros s r s' [= _ <-]. Qed.
Lemma only_bind {A B} (m : M (Process C) A) (f : A -> M (Process C) B) :
  only P m -> (forall a, only P (f a)) -> only P (m ≫= f).
Proof.
  intros Hm Hf s r s' (a & s1 & R & R')%bind_inv.
  apply Hf in R' as (l' & -> & Hl'). apply Hm in R as (l & -> & Hl).
  exists (l ++ l'). split; [by rewrite app_assoc|by apply Forall_app_2].
Qed.
Lemma only_lift {A} (r : res A) : only (C:=C) P (lift_res r).
Proof. apply only_nothing. by intros s a s' [_ ->]%lift_inv. Qed.
Lemma only_bind_lift {A B} (r : res A) (f : A -> M (Process C) B) :
  (forall a, r = Val a -> only P (f a)) -> only P (lift_res r ≫= f).
Proof.
  intros Hf s b s' (a & s1 & [Hr ->]%lift_inv & R)%bind_inv. by apply (Hf a Hr) in R.
Qed.
Lemma only_undef {A} why : only (C:=C) (A:=A) P (undef why).
Proof. by intros s r s' [=]. Qed.
Lemma only_out_of_fuel {A} : only (C:=C) (A:=A) P out_of_fuel.
Proof. by intros s r s' [=]. Qed.
Lemma only_gets {A} (f : Process C -> A) : only P (gets f).
Proof. apply only_nothing. by intros s r s' [= _ <-]. Qed.
Lemma only_when b (m : M (Process C) unit) : only P m -> only P (when b m).
Proof. destruct b; [done|]. intros _. apply only_ret. Qed.
Lemma only_exit {A} code : only (C:=C) (A:=A) P (exit_with code).
Proof. by intros s r s' [=]. Qed.
Lemma only_sys c : P c -> only (C:=C) P (sys c).
Proof.
  intros Hc s a s' [_ ->]%process_sys_inv. eexists. rewrite trace_step.
  split; [done|]. by repeat constructor.
Qed.
Lemma only_log level file line func fmt args :
  0 <= level <= 5 -> only (C:=C) P (log_message level file line func fmt args).
Proof.
  intros Hl. apply only_nothing. by intros s a s' [l ->]%log_returns.
Qed.
Lemma only_deref : only (C:=C) P deref.
Proof. apply only_nothing. by intros s a s' [-> _]%deref_inv. Qed.
Lemma only_context_is_null : only (C:=C) P context_is_null.
Proof. apply only_nothing. intros s a s' R. unfold context_is_null in R. by run_inv. Qed.
Lemma only_update (f : C -> C) : only P (update f).
Proof. apply only_nothing. by intros s a s' (c & _ & ->)%update_inv. Qed.
Lemma only_set_context p : only (C:=C) P (modify (set_context p)).
Proof. apply only_nothing. by intros s a s' [= _ <-]. Qed.
End only.

Lemma only_made {C A} `{OS} P (m : M (Process C) A) s r s' :
  only P m -> m s = Ret r s' ->
  exists l, calls (trace (world s')) = calls (trace (world s)) ++ l /\ Forall P l.
Proof.
  intros Hm (l & Ht & Hl)%Hm. exists (map fst l). unfold calls. rewrite Ht, map_app.
  split; [done|]. by apply List.Forall_map.
Qed.

(** What is read off the calls of a computation that makes none of the kind read. *)
Lemma only_omap {C A B} `{OS} (f : Syscall -> option B) (m : M (Process C) A) s r s' :
  only (fun c => f c = None) m -> m s = Ret r s' ->
  omap f (calls (trace (world s'))) = omap f (calls (trace (world s))).
Proof.
  intros Hm (l & Ht & Hl)%Hm. rewrite Ht. unfold calls. rewrite map_app, omap_app. clear Ht.
  induction Hl as [|[c a] l Hc _ IH]; [by rewrite app_nil_r|]. cbn [map fst].
  change (omap f (c :: map fst l)) with
    (match f c with Some x => x :: omap f (map fst l) | None => omap f (map fst l) end).
  cbn [fst] in Hc. by rewrite Hc.
Qed.

Lemma wp_no_omap {C A B} `{OS} (f : Syscall -> option B) (m : M (Process C) A) Q s :
  only (fun c => f c = None) m -> wp m Q s ->
  wp m (fun r s' => Q r s' /\
    omap f (calls (trace (world s'))) = omap f (calls (trace (world s)))) s.
Proof.
  intros Hm (r & s' & R & HQ)%wp_run. apply wp_run. exists r, s'.
  split; [done|]. split; [done|]. by apply (only_omap f m s r s' Hm).
Qed.

Lemma wp_no_send {C A} `{OS} (m : M (Process C) A) Q s :
  only (fun c => as_send c = None) m -> wp m Q s ->
  wp m (fun r s' => Q r s' /\ sends (world s') = sends (world s)) s.
Proof. apply wp_no_omap. Qed.

Lemma wp_no_sleep {C A} `{OS} (m : M (Process C) A) Q s :
  only (fun c => as_sleep c = None) m -> wp m Q s ->
  wp m (fun r s' => Q r s' /\ sleeps (world s') = sleeps (world s)) s.
Proof. apply wp_no_omap. Qed.

Lemma wp_no_fgets {C A} `{OS} (m : M (Process C) A) Q s :
  only (fun c => as_fgets c = None) m -> wp m Q s ->
  wp m (fun r s' => Q r s' /\ lines_asked (world s') = lines_asked (world s)) s.
Proof.
  intros Hm Hw. eapply wp_mono; [by apply (wp_no_omap as_fgets)|].
  intros r s' [HQ Hs]. split; [done|]. unfold lines_asked. by rewrite Hs.
Qed.

#[export] Hint Resolve only_ret only_lift only_undef only_out_of_fuel only_gets only_deref
  only_context_is_null only_update only_set_context : only.

(** *** What was asked and answered since an earlier state

    [since s0 s]: the run of [s] continues that of [s0].  [answered s0 s c a]: in
    between, the system was asked [c] and said [a]. *)
Definition since {C} (s0 s : Process C) : Prop :=
  exists l, trace (world s) = trace (world s0) ++ l.
Definition answered {C} `{OS} (s0 s : Process C) (c : Syscall) (a : Answer) : Prop :=
  exists l l', trace (world s) = trace (world s0) ++ l ++ (c, a) :: l' /\
    a = answer (trace (world s0) ++ l) c.

Section since.
Context {C : Type} `{OS}.
Implicit Types (s : Process C).

Lemma since_refl s : since s s.
Proof. exists []. by rewrite app_nil_r. Qed.
Lemma since_trans s1 s2 s3 : since s1 s2 -> since s2 s3 -> since s1 s3.
Proof. intros [l H1] [l' H2]. exists (l ++ l'). by rewrite H2, H1, app_assoc. Qed.
Lemma since_same_trace s s' : trace (world s') = trace (world s) -> since s s'.
Proof. intros E. exists []. by rewrite E, app_nil_r. Qed.
Lemma since_step c s0 s : since s0 s -> since s0 (step c s).
Proof. intros [l Ht]. eexists. by rewrite trace_step, Ht, <- app_assoc. Qed.
Lemma since_put_log k s0 s : since s0 s -> since s0 (put_log k s).
Proof. done. Qed.
Lemma since_set_context p s0 s : since s0 s -> since s0 (set_context p s).
Proof. done. Qed.

Lemma answered_here c s0 s :
  since s0 s -> answered s0 (step c s) c (answer (trace (world s)) c).
Proof.
  intros [l Ht]. exists l, []. rewrite trace_step, Ht, <- app_assoc. done.
Qed.
Lemma answered_later s0 s s' c a : answered s0 s c a -> since s s' -> answered s0 s' c a.
Proof.
  intros (l & l' & Ht & Ha) [k Hk]. exists l, (l' ++ k). split; [|done].
  by rewrite Hk, Ht, <- !app_assoc.
Qed.
Lemma answered_earlier s0 s s' c a : since s0 s -> answered s s' c a -> answered s0 s' c a.
Proof.
  intros [k Hk] (l & l' & Ht & Ha). exists (k ++ l), l'.
  by rewrite Ht, Ha, Hk, <- !app_assoc.
Qed.
Lemma answered_step c' s0 s c a : answered s0 s c a -> answered s0 (step c' s) c a.
Proof. intros Ha. eapply answered_later; [done|]. apply since_step, since_refl. Qed.
Lemma answered_put_log k s0 s c a : answered s0 s c a -> answered s0 (put_log k s) c a.
Proof. done. Qed.
Lemma answered_set_context p s0 s c a : answered s0 s c a -> answered s0 (set_context p s) c a.
Proof. done. Qed.

(** Where no [send] meets a closed connection. *)
Lemma answered_unbroken s0 s fd bs a :
  no_broken_pipe -> answered s0 s (SysSend fd bs) a -> broken_pipe a = false.
Proof. intros Hpipe (l & l' & _ & ->). apply Hpipe. Qed.

Lemma only_since {A} P (m : M (Process C) A) s r s' : only P m -> m s = Ret r s' -> since s s'.
Proof. intros Hm (l & Ht & _)%Hm. by exists l. Qed.
Lemma wp_since {A} P (m : M (Process C) A) Q s :
  only P m -> wp m Q s -> wp m (fun r s' => Q r s' /\ since s s') s.
Proof.
  intros Hm (r & s' & R & HQ)%wp_run. apply wp_run. exists r, s'.
  split; [done|]. split; [done|]. by eapply only_since.
Qed.
End since.

Create HintDb answered discriminated.
#[export] Hint Resolve since_refl since_step since_put_log since_set_context answered_here
  answered_step answered_put_log answered_set_context : answered.

(** Going through a definition: one rule per construct. *)
Ltac only_step :=
  lazymatch goal with
  | |- only _ (lift_res _ ≫= _) => apply only_bind_lift; intros ? ?
  | |- only _ (_ ≫= _) => apply only_bind; [|intros ?]
  | |- only _ (when _ _) => apply only_when
  | |- only _ (log_message _ _ _ _ _ _) => apply only_log; cbn; lia
  | |- only _ (sys _) => apply only_sys; cbn; try tauto
  | |- only _ (killed_by _) => apply only_exit
  | |- only _ (if ?b then _ else _) => destruct b eqn:?
  | |- only _ (match ?x with _ => _ end) => destruct x
  | |- only _ _ => auto with only
  end.
Ltac only_calls := repeat only_step.

(** Writing the logger's variables asks nothing; opening its file, one thing. *)
Lemma only_modify {C} P (f : Process C -> Process C) :
  (forall s, trace (world (f s)) = trace (world s)) -> only P (modify f).
Proof. intros Hf. apply only_nothing. intros s a s' [= _ <-]. apply Hf. Qed.

Lemma only_init_logger {C} `{OS} P path level :
  (forall p, P (SysFopen p)) -> only (C:=C) P (init_logger path level).
Proof.
  intros Hp. unfold init_logger. only_calls; try (by apply only_modify); try (by apply Hp).
  all: by apply only_nothing; intros s a s' [= _ <-].
Qed.

(** ** Frames

    What stays the same in an operation that neither polls nor touches the
    context, and in one that leaves the descriptors and the wire alone as well. *)

Definition framed {C} (s s' : Process C) : Prop :=
  p_context s' = p_context s /\ p_running s' = p_running s /\
  locks_held (world s') = locks_held (world s) /\
  polls (trace (world s')) = polls (trace (world s)).

Definition bystander {C} (s s' : Process C) : Prop :=
  framed s s' /\ opened (world s') = opened (world s) /\ closes (world s') = closes (world s) /\
  sends (world s') = sends (world s) /\ lines_asked (world s') = lines_asked (world s) /\
  since s s'.

(** The same, but for the packets [l] handed to [send]. *)
Definition emits {C} (l : list (Z * bytes)) (s s' : Process C) : Prop :=
  framed s s' /\ opened (world s') = opened (world s) /\ closes (world s') = closes (world s) /\
  sends (world s') = sends (world s) ++ l.

(** The same without a word on the context. *)
Definition wire {C} (l : list (Z * bytes)) (s s' : Process C) : Prop :=
  locks_held (world s') = locks_held (world s) /\ opened (world s') = opened (world s) /\
  closes (world s') = closes (world s) /\ sends (world s') = sends (world s) ++ l.

Section frames.
Context {C : Type} `{OS}.
Implicit Types (s : Process C).

Lemma bystander_refl s : bystander s s.
Proof. split_and!; [done..|apply since_refl]. Qed.
Lemma bystander_trans s1 s2 s3 : bystander s1 s2 -> bystander s2 s3 -> bystander s1 s3.
Proof.
  intros ((?&?&?&?)&?&?&?&?&Hs) ((?&?&?&?)&?&?&?&?&Hs'). unfold bystander, framed.
  split_and!; try congruence. by eapply since_trans.
Qed.

(** Rewriting the logger's variables is one; so is opening its file. *)
Lemma bystander_same_trace s s' :
  p_context s' = p_context s -> p_running s' = p_running s ->
  trace (world s') = trace (world s) -> bystander s s'.
Proof.
  intros Hc Hr Ht. unfold bystander, framed, opened, closes, sends, lines_asked, locks_held, polls, calls.
  rewrite Hc, Hr, Ht. split_and!; [done..|by apply since_same_trace].
Qed.

Lemma bystander_fopen path s : bystander s (step (SysFopen path) s).
Proof. unfold bystander, framed. effects. split_and!; auto with answered. Qed.

Lemma init_logger_bystander path level s :
  (forall p, path = Some p -> terminated p = true) ->
  wp (init_logger path level) (fun _ s' => bystander s s') s.
Proof.
  intros Hp. unfold init_logger. cbn [log_level_code].
  apply wp_if; intros Hlvl.
  { wp_steps. by apply bystander_same_trace. }
  assert (exists name, level_strings !! Z.to_nat level = Some name) as [name Hname].
  { destruct (level_strings !! Z.to_nat level) eqn:E; [by eauto|].
    apply lookup_ge_None in E. cbn in E. lia. }
  rewrite Hname. destruct path as [p|]; wp_steps; [|cbn [negb]; wp_steps].
  - set (s1 := set_world _ s).
    assert (bystander s (step (SysFopen p) s1)) as Hopen.
    { eapply bystander_trans; [|apply bystander_fopen]. by apply bystander_same_trace. }
    apply wp_if; intros _; wp_steps; cbn [negb]; wp_steps;
      (eapply bystander_trans; [exact Hopen|by apply bystander_same_trace]).
  - by apply bystander_same_trace.
Qed.

Lemma close_logger_bystander s : wp close_logger (fun _ s' => bystander s s') s.
Proof.
  unfold close_logger. wp_step. wp_step. destruct (log_file (world s)); wp_steps;
    by apply bystander_same_trace.
Qed.

Lemma bystander_step c s :
  as_poll c = None -> is_lock_call c = false -> as_close c = None -> as_send c = None ->
  as_fgets c = None -> (forall a, as_opened (c, a) = None) -> bystander s (step c s).
Proof.
  intros Hp Hl Hc Hs Hf Ho. unfold bystander, framed. srv. rewrite lock_step_other by done.
  cbn [omap list_omap]. rewrite Hp, Hc, Hs, Hf, Ho. cbn [length].
  rewrite !app_nil_r, !Nat.add_0_r. split_and!; auto with answered.
Qed.

Lemma bystander_emits s s' : bystander s s' -> emits [] s s'.
Proof. intros (? & ? & ? & Hs & _). unfold emits. by rewrite Hs, app_nil_r. Qed.
Lemma emits_trans l l' s1 s2 s3 : emits l s1 s2 -> emits l' s2 s3 -> emits (l ++ l') s1 s3.
Proof.
  intros ((?&?&?&?)&?&?&Hs) ((?&?&?&?)&?&?&Hs'). unfold emits, framed.
  rewrite Hs', Hs, <- app_assoc. split_and!; congruence.
Qed.
Lemma emits_wire l s s' : emits l s s' -> wire l s s'.
Proof. by intros ((?&?&?&?)&?&?&?). Qed.
Lemma wire_nil s : wire [] s s.
Proof. unfold wire. by rewrite app_nil_r. Qed.
Lemma wire_put_log l k s0 s : wire l s0 s -> wire l s0 (put_log k s).
Proof. done. Qed.
Lemma wire_trans l l' s1 s2 s3 : wire l s1 s2 -> wire l' s2 s3 -> wire (l ++ l') s1 s3.
Proof.
  intros (?&?&?&Hs) (?&?&?&Hs'). unfold wire.
  rewrite Hs', Hs, <- app_assoc. split_and!; congruence.
Qed.
Lemma emits_context l s s' : emits l s s' -> p_context s' = p_context s.
Proof. by intros ((?&?)&?). Qed.

Lemma emits_then l s1 s2 s3 : emits l s1 s2 -> bystander s2 s3 -> emits l s1 s3.
Proof. intros He Hb%bystander_emits. rewrite <- (app_nil_r l). by eapply emits_trans. Qed.
Lemma emits_put_log l k s0 s : emits l s0 s -> emits l s0 (put_log k s).
Proof. intros He. eapply emits_then; [exact He|by apply bystander_same_trace]. Qed.
Lemma emits_step l c s0 s :
  as_poll c = None -> is_lock_call c = false -> as_close c = None -> as_send c = None ->
  as_fgets c = None -> (forall a, as_opened (c, a) = None) -> emits l s0 s -> emits l s0 (step c s).
Proof. intros. eapply emits_then; [done|by apply bystander_step]. Qed.

Lemma wire_step l c s0 s :
  as_poll c = None -> is_lock_call c = false -> as_close c = None -> as_send c = None ->
  as_fgets c = None -> (forall a, as_opened (c, a) = None) -> wire l s0 s -> wire l s0 (step c s).
Proof.
  intros. rewrite <- (app_nil_r l). eapply wire_trans; [done|].
  by apply emits_wire, bystander_emits, bystander_step.
Qed.

(** Reading the clock between two effects. *)
Lemma wp_time l (Q : Z -> Process C -> Prop) s0 s :
  emits l s0 s ->
  (forall s', emits l s0 s' -> Q (a_ret (answer (trace (world s)) SysTime)) s') ->
  wp time_NULL Q s.
Proof.
  intros He HQ. unfold time_NULL. wp_steps. by apply HQ, emits_step.
Qed.
End frames.
#[export] Hint Resolve emits_put_log emits_step wire_put_log wire_step : emits.
