(* ===== verification/ServerTypes.v ===== *)
(** * Server data ([include/server/server_types.h])

    The server's structs, the process state its functions work on, and access to
    the one [ServerContext] the process allocates.  A client is named by its
    index in the array [clients], which is what the [ClientConnection] pointers
    of the code are: two names for the same slot are the same index.

    [OrderBook], [OrderBookEntry] and [ClientPosition] are declared and never
    used; the pointers to them stay null and are kept as addresses. *)

From Stdlib Require Import Strings.Byte.
From S2P Require Import Prelude CMem CString CDouble Types World Logger Process.

Definition DEFAULT_PORT : Z := 8080.
Definition DEFAULT_MAX_CLIENTS : Z := 100.
Definition DEFAULT_SOCKET_TIMEOUT : Z := 30.
Definition MAX_PENDING_CONNECTIONS : Z := 10.

Inductive ServerState : Type :=
  | SERVER_STATE_INIT | SERVER_STARTING | SERVER_RUNNING | SERVER_STOPPING
  | SERVER_STOPPED | SERVER_ERROR.

Record ClientConnection : Type := mkClientConnection {
  c_socket : Z;
  c_address : bytes;
  c_id : bytes;
  c_active : Z;
  c_thread : Z;
  c_context : bool;      (** not null: the process has one [ServerContext] *)
  c_connect_time : Z;
  c_last_heartbeat : Z;
  c_messages_sent : Z;
  c_messages_received : Z;
  c_positions : Z;
  c_num_positions : Z;
}.

Record ServerStats : Type := mkServerStats {
  total_connections : Z;
  active_connections : Z;
  messages_processed : Z;
  errors_encountered : Z;
  bytes_received : Z;
  bytes_sent : Z;
  start_time : Z;
  last_error_time : Z;
}.

Record ServerConfig : Type := mkServerConfig {
  port : Z;
  max_clients : Z;
  socket_timeout : Z;
  bind_address : bytes;
  cfg_log_level : Z;
  cfg_log_file : bytes;
  max_symbols : Z;
  max_orders_per_symbol : Z;
  position_limit : Z;
  client_handler : Z;
}.

Record ServerContext : Type := mkServerContext {
  server_socket : Z;
  state : ServerState;
  sc_sequence_num : Z;
  config : ServerConfig;
  clients : list ClientConnection;
  client_count : Z;
  stats : ServerStats;
  market_data_cache : Z;
  order_books : Z;
  symbol_count : Z;
  sc_positions : Z;
}.

(** [sizeof] of the two heap objects. *)
Definition SERVER_CONTEXT_SIZE : Z := 696.
Definition CLIENT_CONNECTION_SIZE : Z := 160.

(** What [calloc] leaves in them. *)
Definition zero_client : ClientConnection := {|
  c_socket := 0; c_address := replicate 16 NUL; c_id := replicate MAX_CLIENT_ID_LENGTH NUL;
  c_active := 0; c_thread := 0; c_context := false; c_connect_time := 0;
  c_last_heartbeat := 0; c_messages_sent := 0; c_messages_received := 0;
  c_positions := 0; c_num_positions := 0 |}.
Definition zero_stats : ServerStats := mkServerStats 0 0 0 0 0 0 0 0.
Definition zero_config : ServerConfig := {|
  port := 0; max_clients := 0; socket_timeout := 0; bind_address := replicate 16 NUL;
  cfg_log_level := 0; cfg_log_file := replicate 256 NUL; max_symbols := 0;
  max_orders_per_symbol := 0; position_limit := 0; client_handler := 0 |}.
Definition zero_context : ServerContext := {|
  server_socket := 0; state := SERVER_STATE_INIT; sc_sequence_num := 0;
  config := zero_config; clients := []; client_count := 0; stats := zero_stats;
  market_data_cache := 0; order_books := 0; symbol_count := 0; sc_positions := 0 |}.

(** ** Assignments to fields *)

Definition set_server_socket (fd : Z) (c : ServerContext) : ServerContext :=
  mkServerContext fd (state c) (sc_sequence_num c) (config c) (clients c) (client_count c)
    (stats c) (market_data_cache c) (order_books c) (symbol_count c) (sc_positions c).
Definition set_state (st : ServerState) (c : ServerContext) : ServerContext :=
  mkServerContext (server_socket c) st (sc_sequence_num c) (config c) (clients c)
    (client_count c) (stats c) (market_data_cache c) (order_books c) (symbol_count c)
    (sc_positions c).
Definition set_sequence_num (n : Z) (c : ServerContext) : ServerContext :=
  mkServerContext (server_socket c) (state c) n (config c) (clients c) (client_count c)
    (stats c) (market_data_cache c) (order_books c) (symbol_count c) (sc_positions c).
Definition set_config (cfg : ServerConfig) (c : ServerContext) : ServerContext :=
  mkServerContext (server_socket c) (state c) (sc_sequence_num c) cfg (clients c)
    (client_count c) (stats c) (market_data_cache c) (order_books c) (symbol_count c)
    (sc_positions c).
Definition set_clients (cs : list ClientConnection) (c : ServerContext) : ServerContext :=
  mkServerContext (server_socket c) (state c) (sc_sequence_num c) (config c) cs
    (client_count c) (stats c) (market_data_cache c) (order_books c) (symbol_count c)
    (sc_positions c).
Definition set_client_count (n : Z) (c : ServerContext) : ServerContext :=
  mkServerContext (server_socket c) (state c) (sc_sequence_num c) (config c) (clients c) n
    (stats c) (market_data_cache c) (order_books c) (symbol_count c) (sc_positions c).

(** [client->socket = fd; client->address = addr] *)
Definition set_peer (fd : Z) (addr : bytes) (cl : ClientConnection) : ClientConnection :=
  mkClientConnection fd addr (c_id cl) (c_active cl) (c_thread cl) (c_context cl)
    (c_connect_time cl) (c_last_heartbeat cl) (c_messages_sent cl) (c_messages_received cl)
    (c_positions cl) (c_num_positions cl).
Definition set_connect_time (t : Z) (cl : ClientConnection) : ClientConnection :=
  mkClientConnection (c_socket cl) (c_address cl) (c_id cl) (c_active cl) (c_thread cl)
    (c_context cl) t (c_last_heartbeat cl) (c_messages_sent cl) (c_messages_received cl)
    (c_positions cl) (c_num_positions cl).
Definition set_has_context (cl : ClientConnection) : ClientConnection :=
  mkClientConnection (c_socket cl) (c_address cl) (c_id cl) (c_active cl) (c_thread cl) true
    (c_connect_time cl) (c_last_heartbeat cl) (c_messages_sent cl) (c_messages_received cl)
    (c_positions cl) (c_num_positions cl).
Definition set_active (v : Z) (cl : ClientConnection) : ClientConnection :=
  mkClientConnection (c_socket cl) (c_address cl) (c_id cl) v (c_thread cl) (c_context cl)
    (c_connect_time cl) (c_last_heartbeat cl) (c_messages_sent cl) (c_messages_received cl)
    (c_positions cl) (c_num_positions cl).
Definition set_received (n : Z) (cl : ClientConnection) : ClientConnection :=
  mkClientConnection (c_socket cl) (c_address cl) (c_id cl) (c_active cl) (c_thread cl)
    (c_context cl) (c_connect_time cl) (c_last_heartbeat cl) (c_messages_sent cl) n
    (c_positions cl) (c_num_positions cl).
Definition set_last_heartbeat (t : Z) (cl : ClientConnection) : ClientConnection :=
  mkClientConnection (c_socket cl) (c_address cl) (c_id cl) (c_active cl) (c_thread cl)
    (c_context cl) (c_connect_time cl) t (c_messages_sent cl) (c_messages_received cl)
    (c_positions cl) (c_num_positions cl).

(** ** The server process *)

Abbreviation Server := (Process ServerContext).
Abbreviation server_running := p_running.

(** [context->clients[i]], read and written. *)
Definition get_client (i : nat) : M Server ClientConnection :=
  c ← deref;
  match clients c !! i with Some cl => mret cl | None => undef OutOfBounds end.
Definition put_client (i : nat) (f : ClientConnection -> ClientConnection) : M Server unit :=
  cl ← get_client i;
  update (fun c => set_clients (<[i := f cl]> (clients c)) c).

(** *** Signals

    [signal_handler] runs when [SIGINT] or [SIGTERM] arrives; the model lets a
    signal arrive at every test of a [while (server_running)] loop. *)
Definition SERVER_CORE_C : string := "src/server/server_core.c".

Definition signal_handler `{OS} (signum : Z) : M Server unit :=
  log_message LOG_INFO SERVER_CORE_C 10 "signal_handler"
    "Received signal %d, initiating shutdown" [LInt signum];;
  modify (set_running 0).

(** [while (server_running)] *)
Definition loop_test `{OS} : M Server bool :=
  a ← sys SysSignalPoll;
  when (negb (a_ret a =? 0)) (signal_handler (a_ret a));;
  r ← gets server_running;
  mret (negb (r =? 0)).

(** [atomic_fetch_add(&context->sequence_num, 1)] on a 64-bit counter *)
Definition next_sequence : M Server Z :=
  c ← deref;
  update (set_sequence_num (u64 (sc_sequence_num c + 1)));;
  mret (sc_sequence_num c).

(** ** Lemmas *)

Lemma wp_get_client c i cl (Q : ClientConnection -> Server -> Prop) s :
  p_context s = Live c -> clients c !! i = Some cl -> Q cl s -> wp (get_client i) Q s.
Proof.
  intros Hc Hi HQ. unfold get_client. wp_step. eapply wp_deref; [done|].
  rewrite Hi. by wp_step.
Qed.

Lemma wp_put_client c i cl f (Q : unit -> Server -> Prop) s :
  p_context s = Live c -> clients c !! i = Some cl ->
  Q tt (set_context (Live (set_clients (<[i := f cl]> (clients c)) c)) s) ->
  wp (put_client i f) Q s.
Proof.
  intros Hc Hi HQ. unfold put_client. wp_step. eapply wp_get_client; [done..|].
  by eapply wp_update.
Qed.

Lemma wp_next_sequence c (Q : Z -> Server -> Prop) s :
  p_context s = Live c ->
  Q (sc_sequence_num c)
    (set_context (Live (set_sequence_num (u64 (sc_sequence_num c + 1)) c)) s) ->
  wp next_sequence Q s.
Proof.
  intros Hc HQ. unfold next_sequence. wp_step. eapply wp_deref; [done|]. wp_step.
  eapply wp_update; [done|]. by wp_step.
Qed.

Lemma get_client_inv i s cl s' :
  get_client i s = Ret cl s' ->
  s' = s /\ exists c, p_context s = Live c /\ clients c !! i = Some cl.
Proof.
  unfold get_client. intros (c & s1 & [-> Hc]%deref_inv & R)%bind_inv.
  destruct (clients c !! i) eqn:Hi; [|done]. injection R as <- <-. by eauto.
Qed.

Ltac wp_op ::= first
  [ apply wp_process_sys | apply wp_log_append
  | apply wp_log; [by cbn | done |]; intros ?
  | eapply wp_deref; [srv_context|]
  | eapply wp_update; [srv_context|]
  | eapply wp_next_sequence; [srv_context|]
  | eapply wp_context_is_null; [srv_context|] ].

(** Taking apart a server operation that returned. *)
Ltac server_inv :=
  repeat first
  [ progress process_inv
  | match goal with
    | R : get_client _ _ = Ret _ _ |- _ => apply get_client_inv in R as (-> & ? & ? & ?)
    end ].
