(* ===== verification/ServerHandlers.v ===== *)
(** * Message handlers of the server ([src/server/server_handlers.c])

    Each handler is one definition in the server monad; log calls included.
    [handle_spec] is the contract: from the clients' sockets and names and a
    message, the result code, the packets to send and the number of sequence
    numbers to take.  The handlers are proved to refine it. *)

From Stdlib Require Import Strings.Byte.
From S2P Require Import Prelude CMem CString CDouble Types Serialization World Logger Process.
From S2P Require Import ServerTypes.

Definition SERVER_HANDLERS_C : string := "src/server/server_handlers.c".

Section handlers.
Context `{OS} `{Libm} `{Indeterminate}.

#[local] Abbreviation LOG_INFO line func fmt args :=
  (log_message LOG_INFO SERVER_HANDLERS_C line func fmt args).
#[local] Abbreviation LOG_DEBUG line func fmt args :=
  (log_message LOG_DEBUG SERVER_HANDLERS_C line func fmt args).
#[local] Abbreviation LOG_ERROR line func fmt args :=
  (log_message LOG_ERROR SERVER_HANDLERS_C line func fmt args).

Definition send_response_message (client_socket : Z) (response : Message) : M Server Z :=
  '(serialized_size, buffer) ← lift_res (serialize_message (Some response)
      (Some (junk_bytes 0 (Z.to_nat BUFFER_SIZE))) BUFFER_SIZE);
  if serialized_size <? 0 then
    LOG_ERROR 194 "send_response_message" "Failed to serialize response message" [];;
    mret (ERROR_SERIALIZATION : Z)
  else
    sent ← sys_send client_socket (take (Z.to_nat serialized_size) (default [] buffer));
    if negb (sent =? serialized_size) then
      LOG_ERROR 199 "send_response_message" "Failed to send response message" [];;
      mret (ERROR_SOCKET_CONNECT : Z)
    else mret SUCCESS.

(** The loop of [find_client_socket], [n] slots from slot [i] on. *)
Fixpoint find_socket_loop (n i : nat) (cs : list ClientConnection) (client_id : bytes)
    : res Z :=
  match n with
  | O => Val (-1)
  | S n' =>
      match cs !! i with
      | None => UB OutOfBounds
      | Some cl =>
          same ← (if c_socket cl >? 0 then
                    r ← strcmp (c_id cl) client_id; Val (r =? 0)
                  else Val false);
          if (same : bool) then Val (c_socket cl)
          else find_socket_loop n' (S i) cs client_id
      end
  end.

Definition find_client_socket (client_id : bytes) : M Server Z :=
  c ← deref;
  lift_res (find_socket_loop (Z.to_nat MAX_CLIENTS) 0 (clients c) client_id).

Definition get_client_position (client_id symbol : bytes) : M Server Z := mret 0.

(** The static [dummy_data], which nothing writes. *)
Definition dummy_data : MarketData := {|
  md_symbol := replicate MAX_SYMBOL_LENGTH NUL; last_price := mkPrice 0 0;
  bid := mkPrice 0 0; ask := mkPrice 0 0; last_size := 0; bid_size := 0; ask_size := 0;
  volume := 0; num_trades := 0; md_timestamp := 0 |}.
Definition get_market_data (symbol : bytes) : M Server (option MarketData) :=
  mret (Some dummy_data).

Definition generate_order_id : M Server Z := next_sequence.
Definition generate_trade_id : M Server Z := next_sequence.

(** The price improvement of [process_order]. *)
Definition improve_price (order : Order) (market_data : option MarketData) : res Price :=
  if o_type order =? ORDER_TYPE_LIMIT then
    match market_data with
    | Some md =>
        if (o_side order =? ORDER_SIDE_BUY) &&
           d_lt (price_to_double (o_price order)) (price_to_double (ask md))
        then double_to_price (d_add (price_to_double (o_price order)) (d_lit 1 100))
        else Val (o_price order)
    | None => Val (o_price order)
    end
  else Val (o_price order).

Definition set_price (p : Price) (o : Order) : Order :=
  mkOrder (order_id o) (o_symbol o) (o_client_id o) (o_type o) (o_side o) (o_status o)
    (o_time_in_force o) p (o_quantity o) (filled_quantity o) (remaining_quantity o)
    (creation_time o) (modification_time o) (expiration_time o).
Definition set_status (status modified : Z) (o : Order) : Order :=
  mkOrder (order_id o) (o_symbol o) (o_client_id o) (o_type o) (o_side o) status
    (o_time_in_force o) (o_price o) (o_quantity o) (filled_quantity o)
    (remaining_quantity o) (creation_time o) modified (expiration_time o).

Definition process_order (order : Order) : M Server Z :=
  let processed_order := order in
  if (o_quantity processed_order =? 0) || (o_quantity processed_order >? 1000000) then
    LOG_ERROR 71 "process_order" "Invalid order quantity: %u"
      [LInt (o_quantity processed_order)];;
    mret (ERROR_INVALID_ORDER : Z)
  else
    total_position ← get_client_position (o_client_id processed_order)
                       (o_symbol processed_order);
    if (o_side processed_order =? ORDER_SIDE_BUY) &&
       (total_position ⊕₃₂ o_quantity processed_order >? 1000000) then
      LOG_ERROR 81 "process_order" "Position limit exceeded for %s"
        [LStr (o_client_id processed_order)];;
      mret (ERROR_INVALID_ORDER : Z)
    else
      market_data ← get_market_data (o_symbol processed_order);
      price ← lift_res (improve_price processed_order market_data);
      let processed_order := set_price price processed_order in
      now ← time_NULL;
      let processed_order := set_status ORDER_STATUS_NEW now processed_order in
      seq ← next_sequence;
      ts ← time_NULL;
      let response := {|
        m_type := MSG_ORDER_STATUS; sequence_num := seq; m_timestamp := ts;
        m_data := data_of processed_order |} in
      fd ← find_client_socket (o_client_id processed_order);
      send_response_message fd response.

Definition handle_heartbeat (client_socket : Z) (msg : Message) : M Server Z :=
  LOG_DEBUG 37 "handle_heartbeat" "Received heartbeat, sequence: %lu"
    [LInt (sequence_num msg)];;
  ts ← time_NULL;
  let response := {|
    m_type := MSG_HEARTBEAT; sequence_num := sequence_num msg ⊕₆₄ 1; m_timestamp := ts;
    m_data := zero_data |} in
  send_response_message client_socket response.

Definition handle_order_message (msg : Message) : M Server Z :=
  let order := (load (m_data msg) 0 : Order) in
  LOG_INFO 52 "handle_order_message" "Processing order:" [];;
  LOG_INFO 53 "handle_order_message" "  Message Type: %d" [LInt (s32 (m_type msg))];;
  LOG_INFO 54 "handle_order_message" "  Order ID: %lu" [LInt (order_id order)];;
  LOG_INFO 55 "handle_order_message" "  Symbol: %s" [LStr (o_symbol order)];;
  LOG_INFO 56 "handle_order_message" "  Client ID: %s" [LStr (o_client_id order)];;
  LOG_INFO 57 "handle_order_message" "  Type: %d" [LInt (s32 (o_type order))];;
  LOG_INFO 58 "handle_order_message" "  Side: %d" [LInt (s32 (o_side order))];;
  LOG_INFO 59 "handle_order_message" "  Price: %.6f"
    [LDouble (price_to_double (o_price order))];;
  LOG_INFO 60 "handle_order_message" "  Quantity: %u" [LInt (o_quantity order)];;
  process_order order.

(** The loop of [broadcast_market_data], [n] slots from slot [i] on. *)
Fixpoint broadcast_loop (n i : nat) (msg : Message) : M Server unit :=
  match n with
  | O => mret tt
  | S n' =>
      cl ← get_client i;
      when (c_socket cl >? 0) (send_response_message (c_socket cl) msg;; mret tt);;
      broadcast_loop n' (S i) msg
  end.

Definition broadcast_market_data (market_data : MarketData) : M Server Z :=
  seq ← next_sequence;
  ts ← time_NULL;
  let msg := {|
    m_type := MSG_MARKET_DATA; sequence_num := seq; m_timestamp := ts;
    m_data := data_of market_data |} in
  broadcast_loop (Z.to_nat MAX_CLIENTS) 0 msg;;
  mret SUCCESS.

Definition handle_market_data (msg : Message) : M Server Z :=
  let mkt_data := (load (m_data msg) 0 : MarketData) in
  LOG_INFO 116 "handle_market_data" "Received market data:" [];;
  LOG_INFO 117 "handle_market_data" "  Symbol: %s" [LStr (md_symbol mkt_data)];;
  LOG_INFO 118 "handle_market_data" "  Last Price: %.6f"
    [LDouble (price_to_double (last_price mkt_data))];;
  LOG_INFO 119 "handle_market_data" "  Bid: %.6f"
    [LDouble (price_to_double (bid mkt_data))];;
  LOG_INFO 120 "handle_market_data" "  Ask: %.6f"
    [LDouble (price_to_double (ask mkt_data))];;
  LOG_INFO 121 "handle_market_data" "  Volume: %lu" [LInt (volume mkt_data)];;
  broadcast_market_data mkt_data.

Definition process_trade_execution (trade : TradeExecution) : M Server Z :=
  seq ← next_sequence;
  ts ← time_NULL;
  let msg := {|
    m_type := MSG_TRADE_EXEC; sequence_num := seq; m_timestamp := ts;
    m_data := data_of trade |} in
  buyer_socket ← find_client_socket (buyer_id trade);
  seller_socket ← find_client_socket (seller_id trade);
  when (buyer_socket >? 0) (send_response_message buyer_socket msg;; mret tt);;
  when (seller_socket >? 0) (send_response_message seller_socket msg;; mret tt);;
  mret SUCCESS.

Definition handle_trade_exec (msg : Message) : M Server Z :=
  let trade := (load (m_data msg) 0 : TradeExecution) in
  LOG_INFO 147 "handle_trade_exec" "Processing trade execution:" [];;
  LOG_INFO 148 "handle_trade_exec" "  Trade ID: %lu" [LInt (trade_id trade)];;
  LOG_INFO 149 "handle_trade_exec" "  Order ID: %lu" [LInt (t_order_id trade)];;
  LOG_INFO 150 "handle_trade_exec" "  Symbol: %s" [LStr (t_symbol trade)];;
  LOG_INFO 151 "handle_trade_exec" "  Price: %.6f"
    [LDouble (price_to_double (t_price trade))];;
  LOG_INFO 152 "handle_trade_exec" "  Quantity: %u" [LInt (t_quantity trade)];;
  LOG_INFO 153 "handle_trade_exec" "  Buyer: %s" [LStr (buyer_id trade)];;
  LOG_INFO 154 "handle_trade_exec" "  Seller: %s" [LStr (seller_id trade)];;
  process_trade_execution trade.

Definition handle_error (msg : Message) : M Server Z :=
  let error := decode_ErrorData (m_data msg) in
  LOG_ERROR 183 "handle_error" "Received error message: [%d] %s"
    [LInt (e_code error); LStr (e_message error)];;
  mret SUCCESS.

Definition handle_message (client_socket : Z) (msg : Message) : M Server Z :=
  LOG_INFO 12 "handle_message" "Handling message type: %d" [LInt (s32 (m_type msg))];;
  match message_type_of_code (m_type msg) with
  | Some MSG_HEARTBEAT => handle_heartbeat client_socket msg
  | Some (MSG_ORDER_NEW | MSG_ORDER_CANCEL | MSG_ORDER_MODIFY | MSG_ORDER_STATUS) =>
      handle_order_message msg
  | Some MSG_MARKET_DATA => handle_market_data msg
  | Some MSG_TRADE_EXEC => handle_trade_exec msg
  | Some MSG_ERROR => handle_error msg
  | _ =>
      LOG_ERROR 29 "handle_message" "Unknown message type: %d" [LInt (s32 (m_type msg))];;
      mret (ERROR_INVALID_MESSAGE : Z)
  end.
End handlers.

(** ** The contract *)

(** What handling one message amounts to. *)
Record Outcome : Type := mkOutcome {
  result : Z;
  packets : list (Z * bytes);    (** descriptor and bytes, in order *)
  numbers : Z;                   (** sequence numbers taken *)
}.

Definition connected (cl : ClientConnection) : bool := c_socket cl >? 0.

(** The first connected client with that name, or -1. *)
Definition socket_of (cs : list ClientConnection) (client_id : bytes) : Z :=
  match List.find
    (fun cl => connected cl && bool_decide (cstr (c_id cl) = cstr client_id)) cs with
  | Some cl => c_socket cl
  | None => -1
  end.

Definition quantity_ok (o : Order) : bool :=
  negb ((o_quantity o =? 0) || (o_quantity o >? 1000000)).

Definition order_spec (o : Order) : Outcome :=
  if quantity_ok o then mkOutcome ERROR_SERIALIZATION [] 1
  else mkOutcome ERROR_INVALID_ORDER [] 0.

Definition market_data_spec `{Indeterminate} (cs : list ClientConnection)
    (d : MarketData) : Outcome :=
  mkOutcome SUCCESS
    (map (fun cl => (c_socket cl, packet MSG_MARKET_DATA (encode junk d)))
       (List.filter connected cs)) 1.

Definition trade_spec `{Indeterminate} (cs : list ClientConnection)
    (t : TradeExecution) : Outcome :=
  mkOutcome SUCCESS
    (map (fun fd => (fd, packet MSG_TRADE_EXEC (encode junk t)))
       (List.filter (fun fd => fd >? 0) [socket_of cs (buyer_id t); socket_of cs (seller_id t)]))
    1.

Definition handle_spec `{Indeterminate} (cs : list ClientConnection) (msg : Message)
    : Outcome :=
  match message_type_of_code (m_type msg) with
  | Some MSG_HEARTBEAT => mkOutcome ERROR_SERIALIZATION [] 0
  | Some (MSG_ORDER_NEW | MSG_ORDER_CANCEL | MSG_ORDER_MODIFY | MSG_ORDER_STATUS) =>
      order_spec (load (m_data msg) 0)
  | Some MSG_MARKET_DATA => market_data_spec cs (load (m_data msg) 0)
  | Some MSG_TRADE_EXEC => trade_spec cs (load (m_data msg) 0)
  | Some MSG_ERROR => mkOutcome SUCCESS [] 0
  | _ => mkOutcome ERROR_INVALID_MESSAGE [] 0
  end.

(** What the code takes for granted about the bytes of a message: the strings it
    prints or compares end inside their arrays, and an improved price fits. *)
Definition printable `{Libm} (msg : Message) : Prop :=
  match message_type_of_code (m_type msg) with
  | Some (MSG_ORDER_NEW | MSG_ORDER_CANCEL | MSG_ORDER_MODIFY | MSG_ORDER_STATUS) =>
      let o := (load (m_data msg) 0 : Order) in
      terminated (o_symbol o) = true /\ terminated (o_client_id o) = true /\
      exists p, improve_price o (Some dummy_data) = Val p
  | Some MSG_MARKET_DATA => terminated (md_symbol (load (m_data msg) 0)) = true
  | Some MSG_TRADE_EXEC =>
      let t := (load (m_data msg) 0 : TradeExecution) in
      terminated (t_symbol t) = true /\ terminated (buyer_id t) = true /\
      terminated (seller_id t) = true
  | Some MSG_ERROR => terminated (e_message (decode_ErrorData (m_data msg))) = true
  | _ => True
  end.

(** The context as the handlers need it: one hundred slots with names, and a
    64-bit counter. *)
Definition hundred_slots (c : ServerContext) : Prop :=
  (Z.to_nat MAX_CLIENTS <= length (clients c))%nat /\
  Forall (fun cl => terminated (c_id cl) = true) (clients c) /\
  is_u64 (sc_sequence_num c).

(** [m] has the outcome [o] in state [s] with context [c], up to the log. *)
Definition has_outcome `{OS} (m : M Server Z) (o : Outcome) (c : ServerContext)
    (s : Server) : Prop :=
  wp m (fun r s' =>
    r = result o /\
    sends (world s') = sends (world s) ++ packets o /\
    p_context s' = Live (set_sequence_num (u64 (sc_sequence_num c + numbers o)) c) /\
    server_running s' = server_running s) s.

(** A context for the examples: one hundred slots, two of them connected. *)
Definition named_client (fd : Z) (name : string) : ClientConnection := {|
  c_socket := fd; c_address := replicate 16 NUL;
  c_id := char_array MAX_CLIENT_ID_LENGTH name; c_active := 0; c_thread := 0;
  c_context := true; c_connect_time := 0; c_last_heartbeat := 0; c_messages_sent := 0;
  c_messages_received := 0; c_positions := 0; c_num_positions := 0 |}.
Definition sample_context : ServerContext :=
  set_clients (named_client 5 "BUYER" :: named_client 6 "SELLER" :: replicate 98 zero_client)
    (set_sequence_num 1 zero_context).
Definition sample_server : Server := mkProcess initial_world 1 (Live sample_context).
Definition sample_trade : TradeExecution := {|
  trade_id := 1; t_order_id := 12345; t_symbol := char_array 16 "AAPL";
  t_price := create_price 100500000 (-6); t_quantity := 100; t_timestamp := 0;
  buyer_id := char_array 32 "BUYER"; seller_id := char_array 32 "SELLER" |}.
Definition sample_trade_message `{Indeterminate} : Message := {|
  m_type := MSG_TRADE_EXEC; sequence_num := 1; m_timestamp := 0;
  m_data := data_of sample_trade |}.
Definition sample_quote : MarketData := {|
  md_symbol := char_array 16 "AAPL"; last_price := mkPrice 100500000 (-6);
  bid := mkPrice 100400000 (-6); ask := mkPrice 100600000 (-6); last_size := 100;
  bid_size := 500; ask_size := 400; volume := 1000000; num_trades := 0;
  md_timestamp := 0 |}.

(** ** Lemmas *)

Section handler_lemmas.
Context `{OS} `{Libm} `{Indeterminate}.

(** Only the type and the bytes of a message are sent. *)
Lemma serialize_message_type_data t n ts d buf size :
  serialize_message (Some (mkMessage t n ts d)) buf size =
  serialize_message (Some (mkMessage t 0 0 d)) buf size.
Proof. done. Qed.

Lemma send_response_spec fd (t : MessageType) n ts d s :
  length d = DATA_SIZE -> no_broken_pipe \/ wire_size t = None ->
  wp (send_response_message fd (mkMessage t n ts d)) (fun r s' =>
    match wire_size t with
    | None => r = ERROR_SERIALIZATION /\ s' ≈ s
    | Some k => s' ≈ step (SysSend fd (packet t (take k d))) s
    end) s.
Proof.
  intros Hd Hpipe. unfold send_response_message.
  assert (wf_Message (mkMessage t 0 0 d)) as Hwf
    by (split_and!; cbn; unfold is_u32, is_u64, is_s64; try done; destruct t; cbn; lia).
  assert (Z.of_nat (length (junk_bytes 0 (Z.to_nat BUFFER_SIZE))) = BUFFER_SIZE) as Hb
    by (rewrite length_junk_bytes; done).
  rewrite serialize_message_type_data, serialize_message_spec by (done || lia).
  cbn [m_type m_data].
  change (BUFFER_SIZE <? Z.of_nat HEADER_SIZE) with false. cbv iota.
  destruct (wire_size t) as [k|] eqn:Hk.
  - destruct Hpipe as [Hpipe|]; [|discriminate]. pose proof (wire_size_le _ _ Hk).
    rewrite (proj2 (Z.ltb_ge _ _)) by (unfold BUFFER_SIZE, HEADER_SIZE; lia).
    wp_step. eapply wp_lift; [done|]. cbv beta iota.
    rewrite (proj2 (Z.ltb_ge _ _)) by lia. rewrite Nat2Z.id. cbn [from_option]. unfold id.
    rewrite overwrite_0_app, take_app_length'
      by (rewrite length_packet, length_take; unfold DATA_SIZE in *; lia).
    wp_step. apply wp_send; [done|]. apply wp_if; intros _; wp_steps;
      by rewrite ?quiet_put_log.
  - wp_step. eapply wp_lift; [done|]. cbv beta iota.
    change (serial_code SERIAL_ERROR_INVALID_TYPE <? 0) with true. cbv iota.
    wp_steps. by rewrite quiet_put_log.
Qed.

Lemma send_response_ok fd (t : MessageType) n ts d k s (Q : Z -> Server -> Prop) :
  no_broken_pipe -> length d = DATA_SIZE -> wire_size t = Some k ->
  (forall r s', s' ≈ step (SysSend fd (packet t (take k d))) s -> Q r s') ->
  wp (send_response_message fd (mkMessage t n ts d)) Q s.
Proof.
  intros Hpipe Hd Hk HQ. eapply wp_mono; [apply send_response_spec; [done|by left]|].
  rewrite Hk. auto.
Qed.

Lemma send_response_rejected fd (t : MessageType) n ts d s (Q : Z -> Server -> Prop) :
  length d = DATA_SIZE -> wire_size t = None ->
  (forall s', s' ≈ s -> Q ERROR_SERIALIZATION s') ->
  wp (send_response_message fd (mkMessage t n ts d)) Q s.
Proof.
  intros Hd Hk HQ. eapply wp_mono; [apply send_response_spec; [done|by right]|].
  rewrite Hk. intros ? ? [-> ?]. auto.
Qed.

Lemma find_socket_loop_spec n i cs id :
  (i + n <= length cs)%nat -> Forall (fun cl => terminated (c_id cl) = true) cs ->
  terminated id = true ->
  find_socket_loop n i cs id = Val (socket_of (take n (drop i cs)) id).
Proof.
  intros Hl Hids Hid. revert i Hl. induction n as [|n IH]; intros i Hl; [done|].
  destruct (lookup_lt_is_Some_2 cs i) as [cl Hcl]; [lia|].
  cbn [find_socket_loop]. rewrite Hcl, (drop_S _ _ _ Hcl).
  unfold socket_of. cbn [take firstn List.find].
  rewrite IH by lia. change (c_socket cl >? 0) with (connected cl).
  destruct (connected cl); cbn [andb mbind res_bind]; [|done].
  rewrite Forall_lookup in Hids.
  destruct (strcmp_eq (c_id cl) id (Hids _ _ Hcl) Hid) as (z & -> & Hz). cbn [mbind res_bind].
  destruct (Z.eqb_spec z 0) as [Heq|Heq].
  - by rewrite bool_decide_true by tauto.
  - by rewrite bool_decide_false by tauto.
Qed.

Lemma find_client_socket_spec c id (Q : Z -> Server -> Prop) s :
  p_context s = Live c -> hundred_slots c -> terminated id = true ->
  Q (socket_of (take 100 (clients c)) id) s ->
  wp (find_client_socket id) Q s.
Proof.
  intros Hc (Hl & Hids & _) Hid HQ. unfold find_client_socket. wp_steps.
  eapply wp_lift; [|done]. rewrite find_socket_loop_spec by done. by rewrite drop_0.
Qed.

Lemma hundred_slots_seq n c :
  hundred_slots c -> hundred_slots (set_sequence_num (u64 n) c).
Proof. intros (? & ? & _). split_and!; [done..|apply u64_range]. Qed.

Lemma set_sequence_num_same c :
  is_u64 (sc_sequence_num c) -> set_sequence_num (u64 (sc_sequence_num c + 0)) c = c.
Proof. intros. rewrite Z.add_0_r, u64_small by done. by destruct c. Qed.

Lemma broadcast_loop_spec n i (t : MessageType) seq ts d k c s :
  no_broken_pipe -> p_context s = Live c -> (i + n <= length (clients c))%nat ->
  length d = DATA_SIZE -> wire_size t = Some k ->
  wp (broadcast_loop n i (mkMessage t seq ts d)) (fun _ s' =>
    sends (world s') = sends (world s) ++
      map (fun cl => (c_socket cl, packet t (take k d)))
        (List.filter connected (take n (drop i (clients c)))) /\
    p_context s' = Live c /\ server_running s' = server_running s) s.
Proof.
  intros Hpipe Hc Hl Hd Hk. revert i s Hc Hl. induction n as [|n IH]; intros i s Hc Hl.
  { cbn [broadcast_loop]. wp_step. by rewrite app_nil_r. }
  destruct (lookup_lt_is_Some_2 (clients c) i) as [cl Hcl]; [lia|].
  cbn [broadcast_loop]. wp_step. eapply wp_get_client; [done..|].
  rewrite (drop_S _ _ _ Hcl). cbn [take firstn List.filter]. unfold connected at 1.
  wp_step. apply wp_when; intros Hs; rewrite Hs.
  - wp_step. eapply send_response_ok; [done..|]. intros r s' Hs'. wp_step.
    eapply wp_mono; [apply IH; [by rewrite (quiet_context _ _ Hs'), p_context_step|lia]|].
    intros _ s'' (-> & -> & ->). rewrite (quiet_sends _ _ Hs'), (quiet_running _ _ Hs').
    srv. by rewrite <- app_assoc.
  - apply IH; [done|lia].
Qed.

Lemma process_order_outcome o c s p :
  p_context s = Live c -> hundred_slots c -> wf_Order o ->
  terminated (o_client_id o) = true -> improve_price o (Some dummy_data) = Val p ->
  has_outcome (process_order o) (order_spec o) c s.
Proof.
  intros Hc Hslots (_ & Hsym & Hcl & _ & _ & _ & _ & _ & Hq & _) Hid Hp.
  unfold has_outcome, process_order, order_spec, quantity_ok, is_u32 in *.
  destruct ((o_quantity o =? 0) || (o_quantity o >? 1000000)) eqn:Eq; cbn [negb].
  { wp_steps. srv. rewrite app_nil_r. cbn [numbers].
    rewrite set_sequence_num_same by apply Hslots. by rewrite Hc. }
  unfold get_client_position, get_market_data. do 2 wp_step.
  rewrite Z.add_0_l, u32_small by (unfold is_u32; lia).
  replace (o_quantity o >? 1000000) with false by lia. rewrite andb_false_r.
  wp_steps. eapply wp_lift; [done|]. unfold time_NULL. wp_steps.
  eapply find_client_socket_spec; [srv_context|by apply hundred_slots_seq|done|].
  apply (send_response_rejected _ MSG_ORDER_STATUS); [|done|].
  { unfold data_of. rewrite length_app, length_junk_bytes. cbn [encode Order_CType size_of].
    rewrite length_encode_Order_strings by done. done. }
  intros s' Hs'. rewrite (quiet_context _ _ Hs'), (quiet_sends _ _ Hs'), (quiet_running _ _ Hs').
  srv. by rewrite !app_nil_r.
Qed.

Lemma broadcast_outcome d c s :
  no_broken_pipe -> p_context s = Live c -> hundred_slots c -> wf_MarketData d ->
  has_outcome (broadcast_market_data d) (market_data_spec (take 100 (clients c)) d) c s.
Proof.
  intros Hpipe Hc Hslots Hd. unfold has_outcome, broadcast_market_data, time_NULL.
  wp_steps. eapply wp_mono.
  { eapply (broadcast_loop_spec _ _ MSG_MARKET_DATA); [done|srv_context|apply Hslots| |done].
    apply (length_data_of d); [done|by vm_compute; lia]. }
  intros _ s' (Hsend & Hctx & Hrun). wp_steps. rewrite Hsend, Hctx, Hrun. srv.
  rewrite (take_data_of d) by done. by rewrite drop_0, !app_nil_r.
Qed.

Lemma process_trade_outcome t c s :
  no_broken_pipe \/ packets (trade_spec (take 100 (clients c)) t) = [] -> p_context s = Live c -> hundred_slots c -> wf_TradeExecution t ->
  terminated (buyer_id t) = true -> terminated (seller_id t) = true ->
  has_outcome (process_trade_execution t) (trade_spec (take 100 (clients c)) t) c s.
Proof.
  intros Hpipe Hc Hslots Ht Hb Hsl. unfold has_outcome, process_trade_execution, time_NULL.
  unfold trade_spec in *. cbn [List.filter packets] in *.
  pose proof (length_data_of t Ht ltac:(by vm_compute; lia)) as Hlen.
  pose proof (take_data_of t Ht) as Htake.
  wp_steps. eapply find_client_socket_spec; [srv_context|by apply hundred_slots_seq|done|].
  wp_step. eapply find_client_socket_spec; [srv_context|by apply hundred_slots_seq|done|].
  cbn [clients set_sequence_num].
  wp_step. apply wp_when; intros E; rewrite E in Hpipe |- *.
  - destruct Hpipe as [Hpipe|]; [|discriminate]. wp_step. eapply (send_response_ok _ MSG_TRADE_EXEC); [done..|]. intros r s1 Hq1. wp_step.
    wp_step. apply wp_when; intros E'; rewrite E'.
    + wp_step. eapply (send_response_ok _ MSG_TRADE_EXEC); [done..|]. intros r' s2 Hq2.
      wp_steps. rewrite (quiet_context _ _ Hq2), (quiet_sends _ _ Hq2), (quiet_running _ _ Hq2).
      srv. rewrite (quiet_context _ _ Hq1), (quiet_sends _ _ Hq1), (quiet_running _ _ Hq1).
      srv. rewrite Htake, !app_nil_r. by rewrite <- app_assoc.
    + wp_steps. rewrite (quiet_context _ _ Hq1), (quiet_sends _ _ Hq1), (quiet_running _ _ Hq1).
      srv. by rewrite Htake, !app_nil_r.
  - wp_step. apply wp_when; intros E'; rewrite E' in Hpipe |- *.
    + destruct Hpipe as [Hpipe|]; [|discriminate]. wp_step. eapply (send_response_ok _ MSG_TRADE_EXEC); [done..|]. intros r' s2 Hq2.
      wp_steps. rewrite (quiet_context _ _ Hq2), (quiet_sends _ _ Hq2), (quiet_running _ _ Hq2).
      srv. by rewrite Htake, !app_nil_r.
    + wp_steps. srv. by rewrite !app_nil_r.
Qed.

(** A loop longer than the array leaves it. *)
Lemma broadcast_loop_short n i (t : MessageType) seq ts d k c s :
  no_broken_pipe -> p_context s = Live c -> (i <= length (clients c) < i + n)%nat ->
  length d = DATA_SIZE -> wire_size t = Some k ->
  broadcast_loop n i (mkMessage t seq ts d) s = Undef OutOfBounds.
Proof.
  intros Hpipe Hc Hl Hd Hk. revert i s Hc Hl. induction n as [|n IH]; intros i s Hc Hl; [lia|].
  cbn [broadcast_loop]. destruct (clients c !! i) as [cl|] eqn:Hcl.
  - pose proof (lookup_lt_Some _ _ _ Hcl).
    apply bind_undef. eapply wp_get_client; [done..|]. apply bind_undef.
    apply wp_when; intros Hs.
    + wp_step. eapply send_response_ok; [done..|]. intros r s' Hs'. wp_step.
      apply IH; [by rewrite (quiet_context _ _ Hs'), p_context_step|lia].
    + apply IH; [done|lia].
  - unfold get_client, deref, mbind, M_bind, gets. rewrite Hc. cbn. by rewrite Hcl.
Qed.

Lemma no_effect_outcome r s s' c :
  p_context s = Live c -> hundred_slots c -> s' ≈ s ->
  sends (world s') = sends (world s) ++ packets (mkOutcome r [] 0) /\
  p_context s' = Live (set_sequence_num (u64 (sc_sequence_num c + 0)) c) /\
  server_running s' = server_running s.
Proof.
  intros Hc (_ & _ & Hseq) Hs.
  rewrite (quiet_context _ _ Hs), (quiet_sends _ _ Hs), (quiet_running _ _ Hs).
  by rewrite set_sequence_num_same, app_nil_r.
Qed.

End handler_lemmas.


(** What returns at all from [send_response_message] for a type that does not travel. *)
Lemma send_response_rejected_ret `{OS} `{Indeterminate} fd (t : MessageType) n ts d s r s' :
  length d = DATA_SIZE -> wire_size t = None ->
  send_response_message fd (mkMessage t n ts d) s = Ret r s' ->
  r = ERROR_SERIALIZATION /\ s' ≈ s.
Proof.
  intros Hd Hk Hrun. pose proof (send_response_spec fd t n ts d s Hd (or_intror Hk)) as Hw.
  rewrite wp_unfold, Hk in Hw. by rewrite Hrun in Hw.
Qed.

(** A run of log calls whose strings are known to be terminated. *)
Ltac known_strings :=
  cbn [forallb arg_ok];
  repeat match goal with E : terminated _ = true |- _ => rewrite E end; done.
Ltac wp_logs :=
  repeat (wp_step || (apply wp_log;
    [by cbn | known_strings |]; intros ?)).

(** ** Properties *)

Section handler_properties.
Context `{OS} `{Libm} `{Indeterminate}.

(** [handle_message] by cases on the type of the message. *)
Lemma handle_message_outcome (fd : Z) (msg : Message) (c : ServerContext) (s : Server) :
  no_broken_pipe -> p_context s = Live c -> hundred_slots c -> wf_Message msg -> printable msg ->
  has_outcome (handle_message fd msg) (handle_spec (take 100 (clients c)) msg) c s.
Proof.
  intros Hpipe Hc Hslots (_ & _ & _ & Hd) Hprint.
  assert (forall A (CT : CType A), (size_of A <= DATA_SIZE)%nat ->
    wf (load (A:=A) (m_data msg) 0)) as Hwf by (intros; apply wf_load; by rewrite Hd).
  unfold handle_message, handle_spec, printable, has_outcome in *.
  wp_steps. destruct (message_type_of_code (m_type msg)) as [[]|].
  2: { unfold handle_heartbeat, time_NULL. wp_steps.
       apply (send_response_rejected _ MSG_HEARTBEAT); [by rewrite length_zero_data|done|].
       intros s' Hs'. split; [done|].
       rewrite (quiet_context _ _ Hs'), (quiet_sends _ _ Hs'), (quiet_running _ _ Hs').
       srv. rewrite Hc, set_sequence_num_same by apply Hslots. by rewrite !app_nil_r. }
  2,3,4,5: destruct Hprint as (? & ? & p & Hp); unfold handle_order_message; wp_logs;
    refine (process_order_outcome _ c _ p _ Hslots (Hwf Order _ _) _ Hp);
    [srv_context|by vm_compute; lia|done].
  2: unfold handle_market_data; wp_logs;
    refine (broadcast_outcome _ c _ Hpipe _ Hslots (Hwf MarketData _ _));
    [srv_context|by vm_compute; lia].
  2: destruct Hprint as (? & ? & ?); unfold handle_trade_exec; wp_logs;
    refine (process_trade_outcome _ c _ (or_introl Hpipe) _ Hslots (Hwf TradeExecution _ _) _ _);
    [srv_context|by vm_compute; lia|done|done].
  all: unfold handle_error; wp_logs; (split; [done|]);
    apply no_effect_outcome; [done|done|by rewrite ?quiet_put_log].
Qed.

(** C1. Refinement: on a context with at least one hundred slots, all with
    terminated names, and for a well-formed message whose strings are terminated
    and, if it is an order, whose improved price is defined ([printable]: the
    conversion in [double_to_price] does not leave the range of [int64_t], as that
    of a hostile price does), [handle_message] behaves as [handle_spec] says.  As
    long as no [send] meets a closed connection, which would kill the process, and
    whatever else the system answers, it returns that result code, hands exactly
    those packets in that order to [send], takes that many sequence numbers and
    changes nothing else of the context. *)
Theorem handle_message_refines (fd : Z) (msg : Message) (c : ServerContext) (s : Server) :
  no_broken_pipe -> p_context s = Live c -> hundred_slots c -> wf_Message msg -> printable msg ->
  has_outcome (handle_message fd msg) (handle_spec (take 100 (clients c)) msg) c s.
Proof. apply handle_message_outcome. Qed.

(** However [process_order] returns, it sent nothing and did not succeed. *)
Lemma process_order_silent (o : Order) (s : Server) r s' :
  wf_Order o -> process_order o s = Ret r s' ->
  r <> SUCCESS /\ sends (world s') = sends (world s).
Proof.
  intros Hwf Hrun. unfold process_order in Hrun.
  unfold get_client_position, get_market_data, time_NULL, next_sequence, find_client_socket in Hrun.
  repeat match type of Hrun with
  | (if ?b then _ else _) _ = _ => destruct b
  | _ => progress server_inv
  end.
  all: try match goal with R : log_message _ _ _ _ _ _ _ = _ |- _ =>
    apply log_returns in R as [? ->]; [|by cbn]; by srv end.
  apply (send_response_rejected_ret _ MSG_ORDER_STATUS) in Hrun as [-> Hs]; [| |done].
  + split; [done|]. rewrite (quiet_sends _ _ Hs). srv. by rewrite !app_nil_r.
  + destruct Hwf as (_ & ? & ? & _). unfold data_of.
    rewrite length_app, length_junk_bytes. cbn [encode Order_CType size_of].
    by rewrite length_encode_Order_strings.
Qed.

(** C19. No order is ever acknowledged: in every state and for every well-formed
    order, if [process_order] returns it has sent nothing and its answer is not
    [SUCCESS].  And it does return where the context has its hundred slots with
    terminated names, the client name of the order is terminated and its improved
    price is defined ([improve_price] is [Val p]; a hostile price makes that
    conversion undefined): with [ERROR_INVALID_ORDER] for a quantity out of range,
    and otherwise with [ERROR_SERIALIZATION], because [serialize_message] refuses
    [MSG_ORDER_STATUS]. *)
Theorem process_order_never_succeeds (o : Order) (s : Server) :
  wf_Order o ->
  (forall r s', process_order o s = Ret r s' ->
     r <> SUCCESS /\ sends (world s') = sends (world s)) /\
  (forall c p, p_context s = Live c -> hundred_slots c ->
     terminated (o_client_id o) = true -> improve_price o (Some dummy_data) = Val p ->
     exists s', process_order o s =
       Ret (if quantity_ok o then error_code ERROR_SERIALIZATION else ERROR_INVALID_ORDER) s').
Proof.
  intros Hwf. split.
  - intros r s'. by apply process_order_silent.
  - intros c p Hc Hslots Hid Hp.
    pose proof (process_order_outcome o c s p Hc Hslots Hwf Hid Hp) as Hw.
    unfold has_outcome in Hw. apply wp_run in Hw as (r & s' & Hrun & -> & _).
    exists s'. rewrite Hrun. unfold order_spec. by destruct (quantity_ok o).
Qed.

(** [broadcast_market_data] reads one hundred slots whatever [max_clients]
    is: on a context with fewer slots it leaves the array. *)
Theorem broadcast_small_array (d : MarketData) (c : ServerContext) (s : Server) :
  no_broken_pipe -> p_context s = Live c -> wf_MarketData d -> (length (clients c) < 100)%nat ->
  broadcast_market_data d s = Undef OutOfBounds.
Proof.
  intros Hpipe Hc Hd Hl. unfold broadcast_market_data, time_NULL.
  apply bind_undef. wp_op. apply bind_undef. wp_steps.
  match goal with |- (_ ≫= _) ?st = _ => set (s1 := st) end.
  unfold mbind at 1, M_bind. rewrite (broadcast_loop_short _ _ MSG_MARKET_DATA _ _ _ 104%nat
    (set_sequence_num (u64 (sc_sequence_num c + 1)) c)); [done|done|subst s1; by srv| | |done].
  { change (Z.to_nat MAX_CLIENTS) with 100%nat. cbn [clients set_sequence_num]. lia. }
  apply (length_data_of d); [done|by vm_compute; lia].
Qed.
End handler_properties.

Lemma handle_message_refines_witness :
  let os := os_const 148 0 [] in
  @has_outcome os (@handle_message os pow_ref zero_junk 5 (@sample_trade_message zero_junk))
    (mkOutcome SUCCESS
       [(5, packet MSG_TRADE_EXEC (encode zero_junk sample_trade));
        (6, packet MSG_TRADE_EXEC (encode zero_junk sample_trade))] 1)
    sample_context sample_server.
Proof.
  intros os.
  pose proof (@handle_message_refines os pow_ref zero_junk 5 (@sample_trade_message zero_junk)
    sample_context sample_server (fun _ _ _ => eq_refl) eq_refl) as Hw.
  assert (hundred_slots sample_context) as Hslots
    by (apply (bool_decide_unpack _); by vm_compute).
  assert (wf_Message (@sample_trade_message zero_junk)) as Hwf by (apply wf_by_compute; by vm_compute).
  assert (@printable pow_ref (@sample_trade_message zero_junk)) as Hp.
  { unfold printable. change (message_type_of_code _) with (Some MSG_TRADE_EXEC). cbv iota.
    split_and!; by vm_compute. }
  pose proof (Hw Hslots Hwf Hp) as Hout.
  assert (@handle_spec zero_junk (take 100 (clients sample_context))
      (@sample_trade_message zero_junk) =
    mkOutcome SUCCESS
       [(5, packet MSG_TRADE_EXEC (encode zero_junk sample_trade));
        (6, packet MSG_TRADE_EXEC (encode zero_junk sample_trade))] 1) as <-
    by (vm_compute; reflexivity).
  exact Hout.
Defined.

Lemma process_order_never_succeeds_witness :
  let os := os_const 0 0 [] in
  let run := @process_order os pow_ref zero_junk test_order in
  (forall r s', run sample_server = Ret r s' ->
     r <> SUCCESS /\ sends (world s') = sends (world sample_server)) /\
  exists s', run sample_server = Ret (error_code ERROR_SERIALIZATION) s'.
Proof.
  intros os run.
  assert (wf_Order test_order) as Hwf by (apply (bool_decide_unpack _); by vm_compute).
  pose proof (@process_order_never_succeeds os pow_ref zero_junk test_order sample_server Hwf)
    as [Hnever Hret].
  split; [exact Hnever|].
  apply (Hret sample_context (o_price test_order) eq_refl).
  - apply (bool_decide_unpack _); by vm_compute.
  - by vm_compute.
  - by vm_compute.
Defined.

Lemma broadcast_small_array_witness :
  let os := os_const 124 0 [] in
  let c := set_clients (replicate 10 zero_client) zero_context in
  @broadcast_market_data os zero_junk sample_quote (mkProcess initial_world 1 (Live c)) =
  Undef OutOfBounds.
Proof.
  intros os c.
  assert (wf_MarketData sample_quote) as Hwf by (apply (bool_decide_unpack _); by vm_compute).
  refine (@broadcast_small_array os zero_junk sample_quote c
    (mkProcess initial_world 1 (Live c)) (fun _ _ _ => eq_refl) eq_refl Hwf _).
  apply (bool_decide_unpack _); by vm_compute.
Defined.
