(* ===== verification/ServerNetwork.v ===== *)
(** * Connections of the server ([src/server/server_network.c])

    Listening, accepting, the receive loop of a connection and its removal.  A
    [ClientConnection *] is an index into the array, so [disconnect_client] reads
    [client->socket] from the slot as [memmove] left it. *)

From Stdlib Require Import Strings.Byte.
From S2P Require Import Prelude CMem CString CDouble Types Serialization World Logger Process.
From S2P Require Import ServerTypes ServerHandlers.

Definition SERVER_NETWORK_C : string := "src/server/server_network.c".

(** [inet_ntoa] and [ntohs] on the fields of a [struct sockaddr_in]. *)
Definition inet_ntoa (addr : bytes) : string :=
  String.concat "." (map (fun b => pretty (byte.unsigned b)) (slice 4 4 addr)).
Definition sin_port (addr : bytes) : Z :=
  match slice 2 2 addr with
  | [hi; lo] => 256 * byte.unsigned hi + byte.unsigned lo
  | _ => 0
  end.

Section network.
Context `{OS} `{Libm} `{Indeterminate}.

#[local] Abbreviation LOG_INFO line func fmt args :=
  (log_message LOG_INFO SERVER_NETWORK_C line func fmt args).
#[local] Abbreviation LOG_DEBUG line func fmt args :=
  (log_message LOG_DEBUG SERVER_NETWORK_C line func fmt args).
#[local] Abbreviation LOG_WARN line func fmt args :=
  (log_message LOG_WARN SERVER_NETWORK_C line func fmt args).
#[local] Abbreviation LOG_ERROR line func fmt args :=
  (log_message LOG_ERROR SERVER_NETWORK_C line func fmt args).

(** The failure branches of [setup_socket] after the descriptor exists. *)
Definition setup_failed (fd line : Z) (text : string) (code : ErrorCode) : M Server Z :=
  e ← gets (fun s => errno (world s));
  LOG_ERROR line "setup_socket" text [LErrno e];;
  sys (SysClose fd);;
  mret (code : Z).

Definition setup_socket : M Server Z :=
  a ← sys SysSocket;
  let server_socket := a_ret a in
  if server_socket <? 0 then
    e ← gets (fun s => errno (world s));
    LOG_ERROR 6 "setup_socket" "Failed to create socket: %s" [LErrno e];;
    mret (ERROR_SOCKET_CREATE : Z)
  else
    a ← sys (SysSetsockopt server_socket);
    if negb (a_ret a =? 0) then
      setup_failed server_socket 12 "Failed to set socket options: %s" ERROR_SOCKET_CREATE
    else
      c ← deref;
      a ← sys (SysBind server_socket (port (config c) mod 2 ^ 16));
      if a_ret a <? 0 then
        setup_failed server_socket 24 "Failed to bind socket: %s" ERROR_SOCKET_BIND
      else
        a ← sys (SysListen server_socket MAX_PENDING_CONNECTIONS);
        if a_ret a <? 0 then
          setup_failed server_socket 30 "Failed to listen on socket: %s" ERROR_SOCKET_LISTEN
        else
          LOG_INFO 35 "setup_socket" "Server socket setup successfully on port %d"
            [LInt (port (config c))];;
          mret server_socket.

Definition accept_client : M Server Z :=
  null ← context_is_null;
  if (null : bool) then mret ERROR_INVALID_PARAM
  else
    c ← deref;
    a ← sys (SysAccept (server_socket c));
    let client_socket := a_ret a in
    if client_socket <? 0 then
      e ← gets (fun s => errno (world s));
      if (e =? EAGAIN) || (e =? EWOULDBLOCK) then
        sys (SysUsleep 10000);;
        mret (ERROR_TIMEOUT : Z)
      else
        LOG_ERROR 54 "accept_client" "Failed to accept client connection: %s" [LErrno e];;
        mret (ERROR_SOCKET_ACCEPT : Z)
    else
      let client_addr := overwrite 0 (take 16 (a_data a)) (junk_bytes 0 16) in
      LOG_INFO 60 "accept_client" "Accepted new client connection from %s:%d"
        [LText (inet_ntoa client_addr); LInt (sin_port client_addr)];;
      sys (SysLock ClientsMutex);;
      c ← deref;
      if client_count c >=? max_clients (config c) then
        LOG_ERROR 66 "accept_client" "Maximum client limit reached, rejecting connection" [];;
        sys (SysClose client_socket);;
        sys (SysUnlock ClientsMutex);;
        mret (ERROR_INVALID_STATE : Z)
      else
        let client := Z.to_nat (client_count c) in
        update (set_client_count (client_count c + 1));;
        put_client client (set_peer client_socket client_addr);;
        t ← time_NULL;
        put_client client (set_connect_time t);;
        t ← time_NULL;
        put_client client (set_last_heartbeat t);;
        put_client client set_has_context;;
        sys (SysUnlock ClientsMutex);;
        mret SUCCESS.

(** [memmove(&clients[i], &clients[i + 1], n * sizeof(ClientConnection))] *)
Definition move_clients (i n : nat) : M Server unit :=
  c ← deref;
  if bool_decide (S i + n <= length (clients c))%nat
  then update (set_clients (overwrite i (slice (S i) n (clients c)) (clients c)))
  else undef OutOfBounds.

(** The loop of [disconnect_client]: [n] slots from slot [i] on. *)
Fixpoint disconnect_loop (n i client : nat) : M Server unit :=
  match n with
  | O => mret tt
  | S n' =>
      candidate ← get_client i;
      self ← get_client client;
      r ← lift_res (strcmp (c_id candidate) (c_id self));
      if r =? 0 then
        c ← deref;
        when (Z.of_nat i <? client_count c - 1)
          (move_clients i (Z.to_nat (client_count c - Z.of_nat i - 1)));;
        update (set_client_count (client_count c - 1))
      else disconnect_loop n' (S i) client
  end.

Definition disconnect_client (client : nat) : M Server unit :=
  sys (SysLock ClientsMutex);;
  c ← deref;
  disconnect_loop (Z.to_nat (client_count c)) 0 client;;
  sys (SysUnlock ClientsMutex);;
  cl ← get_client client;
  sys (SysClose (c_socket cl));;
  LOG_INFO 155 "disconnect_client" "Client %s disconnected and cleaned up" [LStr (c_id cl)].

(** The [switch] of [handle_client]. *)
Definition dispatch (client : nat) (msg : Message) : M Server unit :=
  match message_type_of_code (m_type msg) with
  | Some (MSG_ORDER_NEW | MSG_ORDER_MODIFY | MSG_ORDER_CANCEL) =>
      cl ← get_client client;
      LOG_INFO 115 "handle_client" "Processing order type %d from client %s"
        [LInt (s32 (m_type msg)); LStr (c_id cl)];;
      process_order (load (m_data msg) 0);;
      mret tt
  | Some MSG_MARKET_DATA =>
      let market_data := (load (m_data msg) 0 : MarketData) in
      LOG_DEBUG 120 "handle_client" "Market data update for %s"
        [LStr (md_symbol market_data)];;
      broadcast_market_data market_data;;
      mret tt
  | Some MSG_TRADE_EXEC =>
      let trade := (load (m_data msg) 0 : TradeExecution) in
      LOG_INFO 125 "handle_client" "Trade execution for %s" [LStr (t_symbol trade)];;
      process_trade_execution trade;;
      mret tt
  | _ =>
      cl ← get_client client;
      LOG_WARN 130 "handle_client" "Unknown message type %d from client %s"
        [LInt (s32 (m_type msg)); LStr (c_id cl)]
  end.

(** The loop of [handle_client], with fuel; [buffer] and [msg] are the two local
    objects, which one round hands to the next. *)
Fixpoint handle_client_loop (fuel client : nat) (buffer : bytes) (msg : Message)
    : M Server unit :=
  running ← loop_test;
  if negb running then mret tt
  else
    match fuel with
    | O => out_of_fuel
    | S fuel' =>
        cl ← get_client client;
        '(bytes_received, buffer) ← sys_recv (c_socket cl) buffer BUFFER_SIZE;
        if bytes_received <=? 0 then
          if bytes_received =? 0 then
            LOG_INFO 95 "handle_client" "Client %s disconnected" [LStr (c_id cl)]
          else
            e ← gets (fun s => errno (world s));
            LOG_ERROR 97 "handle_client" "Error receiving from client %s: %s"
              [LStr (c_id cl); LErrno e]
        else
          '(code, msg') ← lift_res (deserialize_message (Some buffer) bytes_received (Some msg));
          let msg := default msg msg' in
          if negb (code =? SUCCESS) then
            LOG_ERROR 104 "handle_client" "Failed to deserialize message from client %s"
              [LStr (c_id cl)];;
            handle_client_loop fuel' client buffer msg
          else
            put_client client (fun cl => set_received (u64 (c_messages_received cl + 1)) cl);;
            t ← time_NULL;
            put_client client (set_last_heartbeat t);;
            dispatch client msg;;
            handle_client_loop fuel' client buffer msg
    end.

(** A slot in which no connection was stored has a null [context]; the model
    stops there at once, the code at the first use. *)
Definition handle_client (fuel client : nat) : M Server unit :=
  cl ← get_client client;
  if c_context cl then
    LOG_INFO 89 "handle_client" "Handling new client connection: %s" [LStr (c_id cl)];;
    handle_client_loop fuel client (junk_bytes 0 (Z.to_nat BUFFER_SIZE))
      uninitialised_message;;
    disconnect_client client
  else undef NullDeref.
End network.

(** ** The invariant of the context *)

(** No code assigns [id], [active] or [thread]: they stay as [calloc] left them. *)
Definition unnamed (cl : ClientConnection) : Prop :=
  c_id cl = replicate MAX_CLIENT_ID_LENGTH NUL /\ c_active cl = 0 /\ c_thread cl = 0.

Record server_inv (c : ServerContext) : Prop := {
  inv_count : 0 <= client_count c <= max_clients (config c);
  inv_length : Z.of_nat (length (clients c)) = max_clients (config c);
  inv_sequence : is_u64 (sc_sequence_num c);
  inv_unnamed : Forall unnamed (clients c);
}.

(** What [accept_client] stores in a slot. *)
Definition accepted (fd : Z) (addr : bytes) (t1 t2 : Z) (cl : ClientConnection)
    : ClientConnection :=
  set_has_context (set_last_heartbeat t2 (set_connect_time t1 (set_peer fd addr cl))).

(** A limit order whose price does not fit a [double_to_price] result. *)
Definition hostile_order : Order := {|
  order_id := 1; o_symbol := char_array 16 "AAPL"; o_client_id := replicate 32 NUL;
  o_type := ORDER_TYPE_LIMIT; o_side := ORDER_SIDE_BUY; o_status := 0; o_time_in_force := 0;
  o_price := mkPrice (- 2 ^ 63) 0; o_quantity := 1; filled_quantity := 0;
  remaining_quantity := 0; creation_time := 0; modification_time := 0;
  expiration_time := 0 |}.
Definition hostile_packet `{Indeterminate} : bytes :=
  packet MSG_ORDER_NEW (encode junk hostile_order).

(** Examples: a table of three slots, two of them taken by [accept_client]; a
    peer that sends the packet again and again. *)
Definition config_of (n : Z) : ServerConfig :=
  mkServerConfig 8080 n 30 (char_array 16 "0.0.0.0") 2 (char_array 256 "./server.log") 0 0 0 0.
Definition unnamed_client (fd : Z) : ClientConnection :=
  set_has_context (set_peer fd (replicate 16 NUL) zero_client).
Definition two_clients : ServerContext :=
  set_client_count 2
    (set_clients [unnamed_client 5; unnamed_client 6; zero_client]
      (set_config (config_of 3) zero_context)).
Definition two_clients_server : Server := mkProcess initial_world 1 (Live two_clients).
Definition os_hostile `{Indeterminate} : OS := {|
  answer := fun _ c => match c with
            | SysRecv _ _ => mkAnswer 148 0 hostile_packet
            | _ => mkAnswer 0 0 []
            end;
  wall_clock := fun _ => 0;
  strftime_local := fun _ => ""%string |}.

(** The table after slot [k] was removed by [disconnect_client]: the slots above
    it move down and the last one is left twice. *)
Definition removed (k : nat) (c : ServerContext) : ServerContext :=
  let n := Z.to_nat (client_count c) in
  set_client_count (client_count c - 1)
    (set_clients (overwrite k (slice (S k) (n - k - 1) (clients c)) (clients c)) c).

Definition same_name (cl cl' : ClientConnection) : Prop := cstr (c_id cl) = cstr (c_id cl').

(** Slot [k] is the first whose name is that of [self]. *)
Definition first_named (k : nat) (cs : list ClientConnection) (self : ClientConnection)
    : Prop :=
  (exists cl, cs !! k = Some cl /\ same_name cl self) /\
  forall j cl, (j < k)%nat -> cs !! j = Some cl -> ~ same_name cl self.

(** ** Lemmas *)

Section network_lemmas.
Context `{OS} `{Libm} `{Indeterminate}.

Lemma overwrite_elem {A} (P : A -> Prop) off (bs l : list A) :
  Forall P bs -> Forall P l -> Forall P (overwrite off bs l).
Proof.
  intros. unfold overwrite. repeat apply Forall_app_2; auto using Forall_take, Forall_drop.
Qed.

Lemma server_inv_state st c : server_inv c -> server_inv (set_state st c).
Proof. by intros []. Qed.
Lemma server_inv_socket fd c : server_inv c -> server_inv (set_server_socket fd c).
Proof. by intros []. Qed.
Lemma server_inv_sequence n c : server_inv c -> server_inv (set_sequence_num (u64 n) c).
Proof. intros []. split; [done..|apply u64_range|done]. Qed.
Lemma server_inv_count n c :
  server_inv c -> 0 <= n <= client_count c -> server_inv (set_client_count n c).
Proof. intros [] ?. split; [cbn in *; lia|done..]. Qed.

Lemma server_inv_accept fd addr t1 t2 c cl :
  server_inv c -> client_count c < max_clients (config c) ->
  clients c !! Z.to_nat (client_count c) = Some cl ->
  server_inv (set_clients (<[Z.to_nat (client_count c) := accepted fd addr t1 t2 cl]> (clients c))
    (set_client_count (client_count c + 1) c)).
Proof.
  intros [Hc Hl Hs Hu] Hroom Hcl. split; cbn; [lia| |done|].
  - by rewrite length_insert.
  - apply Forall_insert; [done|]. by apply (Forall_lookup_1 _ _ _ _ Hu Hcl).
Qed.

(** The slot [accept_client] fills exists. *)
Lemma next_slot c :
  server_inv c -> client_count c < max_clients (config c) ->
  exists cl, clients c !! Z.to_nat (client_count c) = Some cl.
Proof.
  intros [Hc Hl _ _] Hroom. apply lookup_lt_is_Some_2. lia.
Qed.

Lemma wp_put_client_again c cs i (x : ClientConnection) f (Q : unit -> Server -> Prop) s :
  (i < length cs)%nat ->
  p_context s = Live (set_clients (<[i := x]> cs) c) ->
  Q tt (set_context (Live (set_clients (<[i := f x]> cs) c)) s) ->
  wp (put_client i f) Q s.
Proof.
  intros Hi Hc HQ. eapply wp_put_client; [done|by apply list_lookup_insert_eq|].
  cbn [clients set_clients]. by rewrite list_insert_insert_eq.
Qed.

Lemma wp_loop_test (Q : bool -> Server -> Prop) s :
  a_ret (answer (trace (world s)) SysSignalPoll) = 0 ->
  Q (negb (server_running s =? 0)) (step SysSignalPoll s) -> wp loop_test Q s.
Proof. intros Ha HQ. unfold loop_test. wp_step. wp_step. rewrite Ha. by wp_steps. Qed.

Lemma hostile_price `{!LibmExact} :
  improve_price hostile_order (Some dummy_data) = UB BadConversion.
Proof.
  unfold improve_price, price_to_double, double_to_price.
  cbn [hostile_order dummy_data o_price ask exponent mantissa o_type o_side].
  rewrite !pow_ten by lia. by vm_compute.
Qed.

Lemma wf_hostile : wf_Order hostile_order.
Proof. apply (bool_decide_unpack _). by vm_compute. Qed.

Lemma length_hostile : length (encode junk hostile_order) = 128%nat.
Proof. exact (length_encode (A:=Order) junk hostile_order wf_hostile). Qed.

Lemma length_hostile_packet : length hostile_packet = 148%nat.
Proof. unfold hostile_packet. by rewrite length_packet, length_hostile. Qed.

Lemma hostile_received :
  deserialize_message
    (Some (overwrite 0 hostile_packet (junk_bytes 0 (Z.to_nat BUFFER_SIZE)))) (Z.of_nat 148)
    (Some uninitialised_message) =
  Val (serial_code SERIAL_SUCCESS,
       Some (received uninitialised_message MSG_ORDER_NEW (encode junk hostile_order))).
Proof.
  rewrite overwrite_0_app. unfold hostile_packet at 1. apply deserialize_packet.
  - unfold is_u32. cbn. lia.
  - by rewrite length_hostile.
  - cbn [uninitialised_message m_data]. apply length_junk_bytes.
  - rewrite length_hostile, length_app. fold hostile_packet. rewrite length_hostile_packet.
    unfold HEADER_SIZE. lia.
Qed.

Lemma hostile_load :
  load (m_data (received uninitialised_message MSG_ORDER_NEW (encode junk hostile_order))) 0 =
  hostile_order.
Proof.
  transitivity (load (A:=Order) (data_of hostile_order) 0); [|by apply load_data_of, wf_hostile].
  apply load_ext. rewrite take_data_of by apply wf_hostile.
  apply received_data; [apply length_junk_bytes|apply length_hostile|].
  by vm_compute; lia.
Qed.

Lemma hostile_order_crashes `{!LibmExact} s :
  process_order hostile_order s = Undef BadConversion.
Proof.
  unfold process_order, get_client_position, get_market_data. cbn [hostile_order o_quantity Z.eqb].
  apply bind_undef. wp_step. apply bind_undef. wp_step.
  unfold mbind, M_bind. by rewrite hostile_price.
Qed.

Lemma overwrite_nothing {A} k (l : list A) : overwrite k [] l = l.
Proof. unfold overwrite. cbn. by rewrite Nat.add_0_r, take_drop. Qed.

Lemma lookup_removed k c i :
  0 <= client_count c <= Z.of_nat (length (clients c)) ->
  (k <= i < Z.to_nat (client_count c))%nat ->
  clients (removed k c) !! i =
  clients c !! (if (S i <? Z.to_nat (client_count c))%nat then S i else i).
Proof.
  intros Hc Hi. cbn [removed clients set_client_count set_clients].
  set (n := Z.to_nat (client_count c)) in *.
  assert (length (slice (S k) (n - k - 1) (clients c)) = (n - k - 1)%nat) as Hl
    by (apply length_slice; lia).
  destruct (Nat.ltb_spec (S i) n).
  - rewrite lookup_overwrite_in by lia. rewrite lookup_slice by lia. f_equal. lia.
  - apply lookup_overwrite_after; lia.
Qed.

(** The step the loop takes at the first slot with the client's name. *)
Lemma wp_remove_slot k c (Q : unit -> Server -> Prop) s :
  p_context s = Live c -> 0 <= client_count c <= Z.of_nat (length (clients c)) ->
  (k < Z.to_nat (client_count c))%nat -> Q tt (set_context (Live (removed k c)) s) ->
  wp (c ← deref;
      when (Z.of_nat k <? client_count c - 1)
        (move_clients k (Z.to_nat (client_count c - Z.of_nat k - 1)));;
      update (set_client_count (client_count c - 1))) Q s.
Proof.
  intros Hc Hn Hk HQ. wp_steps. apply wp_when; intros Hlt.
  - unfold move_clients. wp_steps.
    rewrite bool_decide_true by lia. wp_steps.
    unfold removed in HQ. rewrite set_context_twice.
    replace (Z.to_nat (client_count c - Z.of_nat k - 1))
      with (Z.to_nat (client_count c) - k - 1)%nat by lia. apply HQ.
  - wp_steps. unfold removed in HQ.
    replace (Z.to_nat (client_count c) - k - 1)%nat with 0%nat in HQ by lia.
    unfold slice in HQ. cbn [take firstn] in HQ. rewrite take_0, overwrite_nothing in HQ.
    by destruct c.
Qed.

Lemma disconnect_loop_spec n j k c self client (Q : unit -> Server -> Prop) s :
  p_context s = Live c -> 0 <= client_count c <= Z.of_nat (length (clients c)) ->
  Forall (fun cl => terminated (c_id cl) = true) (clients c) ->
  clients c !! client = Some self -> first_named k (clients c) self ->
  (j <= k)%nat -> (k < j + n)%nat -> (j + n = Z.to_nat (client_count c))%nat ->
  Q tt (set_context (Live (removed k c)) s) ->
  wp (disconnect_loop n j client) Q s.
Proof.
  intros Hc Hn Hids Hself Hfirst Hjk Hkn Hjn HQ. pose proof Hfirst as [(cl & Hk & Hsame) Hmin].
  revert j Hjk Hkn Hjn. induction n as [|n IH]; intros j Hjk Hkn Hjn; [lia|].
  destruct (lookup_lt_is_Some_2 (clients c) j) as [cj Hcj]; [lia|].
  cbn [disconnect_loop]. wp_step. eapply wp_get_client; [done..|].
  wp_step. eapply wp_get_client; [done..|].
  rewrite Forall_lookup in Hids.
  destruct (strcmp_eq (c_id cj) (c_id self) (Hids _ _ Hcj) (Hids _ _ Hself)) as (z & Hz & Heq).
  wp_step. eapply wp_lift; [exact Hz|].
  destruct (decide (j = k)) as [->|Hne].
  - rewrite Hk in Hcj. injection Hcj as ->. replace z with 0 by (symmetry; by apply Heq).
    cbn [Z.eqb]. apply (wp_remove_slot k c); [done..|lia|done].
  - destruct (Z.eqb_spec z 0) as [Hz0|_].
    { exfalso. apply (Hmin j cj); [lia|done|by apply Heq]. }
    apply IH; lia.
Qed.
(** [accept_client] on every branch, descriptors and polls included. *)
Lemma accept_client_spec (c : ServerContext) (s : Server) :
  p_context s = Live c -> server_inv c -> locks_held (world s) = Some [] ->
  let a := answer (trace (world s)) (SysAccept (server_socket c)) in
  let full := client_count c >=? max_clients (config c) in
  wp accept_client (fun r s' => exists c',
    p_context s' = Live c' /\ server_inv c' /\ locks_held (world s') = Some [] /\
    server_running s' = server_running s /\
    polls (trace (world s')) = polls (trace (world s)) /\
    (if a_ret a <? 0 then
       opened (world s') = opened (world s) /\ closes (world s') = closes (world s) /\
       r = (if a_err a =? EAGAIN then error_code ERROR_TIMEOUT else ERROR_SOCKET_ACCEPT) /\
       c' = c
     else opened (world s') = opened (world s) ++ [a_ret a] /\ if full then
       r = ERROR_INVALID_STATE /\ c' = c /\ closes (world s') = closes (world s) ++ [a_ret a]
     else
       r = SUCCESS /\ closes (world s') = closes (world s) /\ exists addr t1 t2 cl,
       clients c !! Z.to_nat (client_count c) = Some cl /\
       c' = set_clients
              (<[Z.to_nat (client_count c) := accepted (a_ret a) addr t1 t2 cl]> (clients c))
              (set_client_count (client_count c + 1) c))) s.
Proof.
  intros Hc Hinv Hlocks a full. unfold accept_client. wp_steps. cbv iota. wp_steps.
  fold a. destruct (a_ret a <? 0) eqn:Hfd.
  - wp_steps. rewrite errno_step. fold a. rewrite Hfd. unfold EWOULDBLOCK.
    destruct (a_err a =? EAGAIN) eqn:He; cbn [orb].
    + wp_steps. exists c. effects. fold a. by rewrite Hlocks, Hfd, ?app_nil_r.
    + replace (a_err a =? 11) with false by (unfold EAGAIN in He; lia). wp_steps.
      exists c. effects. fold a. by rewrite Hlocks, Hfd, ?app_nil_r.
  - wp_steps. fold full. destruct full eqn:Hfull.
    + wp_steps. exists c. effects. fold a. by rewrite Hlocks, Hfd.
    + subst full. destruct (next_slot c Hinv) as [cl Hcl]; [lia|].
      pose proof (lookup_lt_Some _ _ _ Hcl) as Hlt.
      assert (forall x, (Z.to_nat (client_count c) < length (<[Z.to_nat (client_count c):=x]>
        (clients c)))%nat) as Hin by (intros; by rewrite length_insert).
      wp_steps. eapply wp_put_client; [srv_context|done|]. cbn [clients set_client_count].
      unfold time_NULL. wp_steps.
      eapply wp_put_client_again; [done|srv_context|]. wp_steps.
      eapply wp_put_client_again; [done|srv_context|]. wp_step.
      eapply wp_put_client_again; [done|srv_context|]. wp_steps.
      eexists. effects. fold a. split; [done|]. rewrite Hlocks, Hfd.
      split_and!; [by apply server_inv_accept; [|lia|]|done..|].
      by eexists _, _, _, cl.
Qed.


End network_lemmas.

Section network_properties.
Context `{OS} `{Libm} `{Indeterminate}.

(** C9. [accept_client] on every branch, for a context that satisfies the
    invariant and whatever the system answers: no connection pending, another
    error, a full table (the new descriptor is closed, the table unchanged), or
    a connection, stored in the next slot.  The invariant is kept, the number of
    clients never passes the limit, and the mutex is released on every path. *)
Theorem accept_client_correct (c : ServerContext) (s : Server) :
  p_context s = Live c -> server_inv c -> locks_held (world s) = Some [] ->
  let a := answer (trace (world s)) (SysAccept (server_socket c)) in
  let full := client_count c >=? max_clients (config c) in
  wp accept_client (fun r s' => exists c',
    p_context s' = Live c' /\ server_inv c' /\ locks_held (world s') = Some [] /\
    server_running s' = server_running s /\
    (if a_ret a <? 0 then
       r = (if a_err a =? EAGAIN then error_code ERROR_TIMEOUT else ERROR_SOCKET_ACCEPT) /\
       c' = c
     else if full then
       r = ERROR_INVALID_STATE /\ c' = c /\ closes (world s') = closes (world s) ++ [a_ret a]
     else
       r = SUCCESS /\ closes (world s') = closes (world s) /\ exists addr t1 t2 cl,
       clients c !! Z.to_nat (client_count c) = Some cl /\
       c' = set_clients
              (<[Z.to_nat (client_count c) := accepted (a_ret a) addr t1 t2 cl]> (clients c))
              (set_client_count (client_count c + 1) c))) s.
Proof.
  intros Hc Hinv Hlocks a full.
  eapply wp_mono; [by apply accept_client_spec|]. cbv zeta. fold a full.
  intros r s' (c' & ? & ? & ? & ? & _ & Hout). exists c'. split_and!; [done..|].
  destruct (a_ret a <? 0); [tauto|]. destruct full; tauto.
Qed.

(** C21. [disconnect_client] removes the first slot with the client's name, not
    the client's own slot, and then closes the socket it finds in the client's
    slot after the move: that of the next client unless this is the last one. *)
Theorem disconnect_client_effect (client k : nat) (self victim : ClientConnection)
    (c : ServerContext) (s : Server) :
  p_context s = Live c -> 0 <= client_count c <= Z.of_nat (length (clients c)) ->
  locks_held (world s) = Some [] ->
  Forall (fun cl => terminated (c_id cl) = true) (clients c) ->
  (client < Z.to_nat (client_count c))%nat -> clients c !! client = Some self ->
  first_named k (clients c) self ->
  clients c !! (if (S client <? Z.to_nat (client_count c))%nat then S client else client)
    = Some victim ->
  wp (disconnect_client client) (fun _ s' =>
    (k <= client)%nat /\ p_context s' = Live (removed k c) /\
    closes (world s') = closes (world s) ++ [c_socket victim] /\
    locks_held (world s') = Some [] /\ sends (world s') = sends (world s)) s.
Proof.
  intros Hc Hn Hlocks Hids Hcl Hself Hfirst Hvictim.
  assert (k <= client)%nat as Hk.
  { apply Nat.nlt_ge. intros Hlt. destruct Hfirst as [_ Hmin].
    by apply (Hmin client self Hlt Hself). }
  unfold disconnect_client. wp_steps.
  eapply disconnect_loop_spec; [srv_context|done..|lia|lia|done|].
  wp_steps. eapply wp_get_client; [srv_context|by rewrite lookup_removed by lia|].
  pose proof (Forall_lookup_1 _ _ _ _ Hids Hvictim) as Hterm. cbn in Hterm.
  wp_logs. srv. rewrite Hlocks, !app_nil_r. by split_and!.
Qed.

(** C20. One packet stops the server: a 148-byte order packet with a correct
    header and checksum, for which the price improvement of [process_order]
    converts a [double] out of the range of [int64_t], makes [handle_client]
    run into undefined behaviour, from every state in which the connection is
    live and for every amount of fuel. *)
Theorem one_packet_crashes_server `{!LibmExact} (fuel client : nat) (cl : ClientConnection)
    (c : ServerContext) (e : Z) (s : Server) :
  (forall tr, a_ret (answer tr SysSignalPoll) = 0) ->
  (forall tr, answer tr (SysRecv (c_socket cl) BUFFER_SIZE) = mkAnswer 148 e hostile_packet) ->
  p_context s = Live c -> clients c !! client = Some cl -> c_context cl = true ->
  terminated (c_id cl) = true -> server_running s <> 0 ->
  handle_client (S fuel) client s = Undef BadConversion.
Proof.
  intros Hpoll Hrecv Hc Hcl Hctx Hid Hrun.
  unfold handle_client. apply bind_undef. eapply wp_get_client; [done..|]. rewrite Hctx.
  apply bind_undef. wp_logs.
  apply bind_stuck. cbn [handle_client_loop].
  apply bind_undef, wp_loop_test; [apply Hpoll|]. srv.
  rewrite (proj2 (Z.eqb_neq _ _) Hrun). cbn [negb].
  apply bind_undef. eapply wp_get_client; [srv_context|done|].
  apply bind_undef. unfold sys_recv. wp_steps. rewrite Hrecv. cbn [a_ret a_data].
  change (148 <? 0) with false. cbv iota.
  pose proof length_hostile_packet as Hlen.
  rewrite take_ge by (rewrite Hlen; by vm_compute; lia).
  wp_step. eapply wp_lift; [apply memcpy_exact; rewrite Hlen, length_junk_bytes; by vm_compute; lia|].
  wp_step. rewrite Hlen. change (Z.of_nat 148 <=? 0) with false. cbv iota.
  unfold hostile_packet. apply bind_undef.
  eapply wp_lift; [by apply hostile_received|]. cbv beta iota. cbn [from_option]. unfold id.
  change (negb (_ =? SUCCESS)) with false. cbv iota.
  apply bind_undef. eapply wp_put_client; [srv_context|done|].
  apply bind_undef. unfold time_NULL. wp_steps.
  apply bind_undef. eapply wp_put_client_again; [by eapply lookup_lt_Some|srv_context|].
  apply bind_stuck. unfold dispatch. cbn [received m_type message_type_code message_type_of_code].
  apply bind_undef. eapply wp_get_client; [srv_context|by apply list_lookup_insert_eq; eapply lookup_lt_Some|].
  apply bind_undef. apply wp_log; [by cbn| |intros l2].
  { cbn [forallb arg_ok c_id set_last_heartbeat set_received]. by rewrite Hid. }
  apply bind_stuck. rewrite hostile_load. apply hostile_order_crashes.
Qed.
End network_properties.

Lemma accept_client_correct_witness :
  let os := os_const 7 0 (replicate 16 NUL) in
  wp (@accept_client os zero_junk) (fun r s' => exists c',
    p_context s' = Live c' /\ server_inv c' /\ locks_held (world s') = Some [] /\
    server_running s' = 1 /\
    (r = SUCCESS /\ closes (world s') = [] /\ exists addr t1 t2 cl,
       clients two_clients !! 2%nat = Some cl /\
       c' = set_clients (<[2%nat := accepted 7 addr t1 t2 cl]> (clients two_clients))
              (set_client_count 3 two_clients))) two_clients_server.
Proof.
  intros os.
  assert (server_inv two_clients) as Hinv
    by (split; cbn; [lia|lia|unfold is_u64; lia|repeat constructor]).
  exact (@accept_client_correct os zero_junk two_clients two_clients_server
    eq_refl Hinv eq_refl).
Defined.

Lemma disconnect_client_effect_witness :
  let os := os_const 0 0 [] in
  wp (@disconnect_client os 0) (fun _ s' =>
    (0 <= 0)%nat /\ p_context s' = Live (removed 0 two_clients) /\
    closes (world s') = closes (world two_clients_server) ++ [c_socket (unnamed_client 6)] /\
    locks_held (world s') = Some [] /\ sends (world s') = sends (world two_clients_server))
    two_clients_server.
Proof.
  intros os.
  assert (first_named 0 (clients two_clients) (unnamed_client 5)) as Hfirst
    by (split; [by exists (unnamed_client 5)|intros; lia]).
  assert (Forall (fun cl => terminated (c_id cl) = true) (clients two_clients)) as Hids
    by (repeat constructor).
  refine (@disconnect_client_effect os 0 0 (unnamed_client 5) (unnamed_client 6) two_clients
    two_clients_server eq_refl _ eq_refl Hids _ eq_refl Hfirst eq_refl).
  - cbn. lia.
  - cbn. lia.
Defined.

Lemma one_packet_crashes_server_witness :
  @handle_client (@os_hostile zero_junk) pow_ref zero_junk 1 0 two_clients_server =
  Undef BadConversion.
Proof.
  refine (@one_packet_crashes_server (@os_hostile zero_junk) pow_ref zero_junk pow_ref_exact 0 0
    (unnamed_client 5) two_clients 0 two_clients_server _ _ eq_refl eq_refl eq_refl _ _).
  - done.
  - done.
  - by vm_compute.
  - by cbn.
Defined.
