(* ===== verification/ServerCore.v ===== *)
(** * Life cycle of the server ([src/server/server_core.c], [src/server/main.c])

    Configuration, start, accept loop, stop, cleanup, and the program itself.
    [SIGINT] and [SIGTERM] arrive at the tests of the loops ([loop_test]). *)

From Stdlib Require Import Strings.Byte.
From S2P Require Import Prelude CMem CString CDouble Types Serialization World Logger Process.
From S2P Require Import ServerTypes ServerHandlers ServerNetwork.

Definition SERVER_MAIN_C : string := "src/server/main.c".

Section core.
Context `{OS} `{Indeterminate}.

#[local] Abbreviation LOG_INFO line func fmt args :=
  (log_message LOG_INFO SERVER_CORE_C line func fmt args).
#[local] Abbreviation LOG_DEBUG line func fmt args :=
  (log_message LOG_DEBUG SERVER_CORE_C line func fmt args).
#[local] Abbreviation LOG_ERROR line func fmt args :=
  (log_message LOG_ERROR SERVER_CORE_C line func fmt args).

Definition validate_server_config (config : option ServerConfig) : M Server Z :=
  match config with
  | None => mret 0
  | Some config =>
      if (port config <=? 0) || (port config >? 65535) then
        LOG_ERROR 18 "validate_server_config" "Invalid port number: %d" [LInt (port config)];;
        mret 0
      else if (max_clients config <=? 0) || (max_clients config >? MAX_CLIENTS) then
        LOG_ERROR 23 "validate_server_config" "Invalid max clients: %d"
          [LInt (max_clients config)];;
        mret 0
      else if socket_timeout config <? 0 then
        LOG_ERROR 28 "validate_server_config" "Invalid socket timeout: %d"
          [LInt (socket_timeout config)];;
        mret 0
      else mret 1
  end.

(** [init(a) != 0 || init(b) != 0 || ...] *)
Fixpoint locks_fail (ls : list Lock) : M Server bool :=
  match ls with
  | [] => mret false
  | l :: ls' =>
      a ← sys (SysMutexInit l);
      if negb (a_ret a =? 0) then mret true else locks_fail ls'
  end.

Definition initialize_server_context (cfg : ServerConfig) : M Server (ptr ServerContext) :=
  allocated ← calloc ObjServerContext 1 SERVER_CONTEXT_SIZE;
  if negb allocated then
    LOG_ERROR 38 "initialize_server_context" "Failed to allocate server context" [];;
    mret Null
  else
    let context := set_state SERVER_STATE_INIT zero_context in
    let context := set_sequence_num 1 context in
    let context := set_config cfg context in
    allocated ← calloc ObjClients (u64 (max_clients cfg)) CLIENT_CONNECTION_SIZE;
    if negb allocated then
      LOG_ERROR 48 "initialize_server_context" "Failed to allocate client array" [];;
      sys (SysFree ObjServerContext);;
      mret Null
    else
      let context :=
        set_clients (replicate (Z.to_nat (u64 (max_clients cfg))) zero_client) context in
      failed ← locks_fail [StatsMutex; ClientsMutex; MarketDataLock; OrderBookLock;
                           PositionLock];
      if (failed : bool) then
        LOG_ERROR 58 "initialize_server_context" "Failed to initialize locks" [];;
        sys (SysFree ObjClients);;
        sys (SysFree ObjServerContext);;
        mret Null
      else mret (Live context).

(** The loop of [stop_server]: [n] clients from index [i] on. *)
Fixpoint stop_loop (n i : nat) : M Server unit :=
  match n with
  | O => mret tt
  | S n' =>
      cl ← get_client i;
      when (negb (c_active cl =? 0))
        (sys (SysThreadJoin (c_thread cl));; put_client i (set_active 0));;
      cl ← get_client i;
      sys (SysClose (c_socket cl));;
      stop_loop n' (S i)
  end.

Definition stop_server : M Server unit :=
  null ← context_is_null;
  if (null : bool) then mret tt
  else
    LOG_INFO 116 "stop_server" "Stopping server" [];;
    update (set_state SERVER_STOPPING);;
    c ← deref;
    when (server_socket c >=? 0)
      (sys (SysClose (server_socket c));; update (set_server_socket (-1)));;
    sys (SysLock ClientsMutex);;
    c ← deref;
    stop_loop (Z.to_nat (client_count c)) 0;;
    update (set_client_count 0);;
    sys (SysUnlock ClientsMutex);;
    update (set_state SERVER_STOPPED);;
    LOG_INFO 136 "stop_server" "Server stopped" [].

(** [free(context->clients); free(context)]: the pointer is left dangling. *)
Definition cleanup_server : M Server unit :=
  null ← context_is_null;
  if (null : bool) then mret tt
  else
    stop_server;;
    sys (SysMutexDestroy StatsMutex);;
    sys (SysMutexDestroy ClientsMutex);;
    c ← deref;
    sys (SysFree ObjClients);;
    sys (SysFree ObjServerContext);;
    modify (set_context Freed);;
    LOG_INFO 150 "cleanup_server" "Server resources cleaned up" [].

(** The main loop of [start_server], with fuel. *)
Fixpoint accept_loop (fuel : nat) : M Server unit :=
  running ← loop_test;
  if negb running then mret tt
  else
    match fuel with
    | O => out_of_fuel
    | S fuel' =>
        r ← gets server_running;
        LOG_DEBUG 98 "start_server" "Server running: %d" [LInt r];;
        result ← accept_client;
        when (result <? 0)
          (e ← gets (fun s => errno (world s));
           if (e =? EAGAIN) || (e =? EWOULDBLOCK) then sys (SysUsleep 9000000);; mret tt
           else
             LOG_ERROR 104 "start_server" "Failed to accept client connection: %s"
               [LErrno e]);;
        accept_loop fuel'
    end.

Definition start_server (fuel : nat) : M Server Z :=
  null ← context_is_null;
  if (null : bool) then
    LOG_ERROR 69 "start_server" "Null server context" [];;
    mret ERROR_INVALID_PARAM
  else
    c ← deref;
    LOG_INFO 73 "start_server" "Starting server on port %d" [LInt (port (config c))];;
    sys SysSigaction;;
    sys SysSigaction;;
    fd ← setup_socket;
    update (set_server_socket fd);;
    if fd <? 0 then
      LOG_ERROR 85 "start_server" "Failed to set up server socket" [];;
      mret fd
    else
      flags ← sys (SysFcntlGetFl fd);
      sys (SysFcntlNonblock fd (a_ret flags));;
      update (set_state SERVER_RUNNING);;
      LOG_INFO 94 "start_server" "Server started successfully" [];;
      accept_loop fuel;;
      stop_server;;
      mret SUCCESS.

(** ** The program *)

Definition print_usage (program_name : bytes) : M Server unit :=
  let printf fmt args := log_append [LogWrite Stdout "" fmt args newline] in
  printf "Usage: %s [options]" [LStr program_name];;
  printf "Options:" [];;
  printf "  -p, --port PORT       Server port (default: %d)" [LInt DEFAULT_PORT];;
  printf "  -c, --clients MAX     Maximum clients (default: %d)" [LInt DEFAULT_MAX_CLIENTS];;
  printf "  -t, --timeout SECS    Socket timeout (default: %d)" [LInt DEFAULT_SOCKET_TIMEOUT];;
  printf "  -l, --log-level LVL   Log level (0-5, default: 2)" [];;
  printf "  -f, --log-file FILE   Log file path" [];;
  printf "  -h, --help            Show this help message" [].

(** What [getopt_long] returns, one answer per call until it returns -1. *)
Inductive Option : Type :=
  | OptPort (optarg : bytes)
  | OptClients (optarg : bytes)
  | OptTimeout (optarg : bytes)
  | OptLogLevel (optarg : bytes)
  | OptLogFile (optarg : bytes)
  | OptHelp
  | OptUnknown.

Definition EXIT_SUCCESS : Z := 0.
Definition EXIT_FAILURE : Z := 1.

(** The initial [config] of [main]. *)
Definition default_config : ServerConfig := {|
  port := DEFAULT_PORT; max_clients := DEFAULT_MAX_CLIENTS;
  socket_timeout := DEFAULT_SOCKET_TIMEOUT;
  bind_address := char_array 16 "0.0.0.0";
  cfg_log_level := Logger.LOG_INFO; cfg_log_file := char_array 256 "./server.log";
  max_symbols := 0; max_orders_per_symbol := 0; position_limit := 0; client_handler := 0 |}.

(** One round of the option loop: the new configuration, or the exit status. *)
Definition apply_option (o : Option) (cfg : ServerConfig) : res (ServerConfig + Z) :=
  let with_numbers p m t l :=
    mkServerConfig p m t (bind_address cfg) l (cfg_log_file cfg) (max_symbols cfg)
      (max_orders_per_symbol cfg) (position_limit cfg) (client_handler cfg) in
  match o with
  | OptPort a =>
      v ← atoi a;
      Val (inl (with_numbers v (max_clients cfg) (socket_timeout cfg) (cfg_log_level cfg)))
  | OptClients a =>
      v ← atoi a;
      Val (inl (with_numbers (port cfg) v (socket_timeout cfg) (cfg_log_level cfg)))
  | OptTimeout a =>
      v ← atoi a;
      Val (inl (with_numbers (port cfg) (max_clients cfg) v (cfg_log_level cfg)))
  | OptLogLevel a =>
      v ← atoi a;
      Val (inl (with_numbers (port cfg) (max_clients cfg) (socket_timeout cfg) v))
  | OptLogFile a =>
      f ← strncpy (cfg_log_file cfg) a 255;
      Val (inl (mkServerConfig (port cfg) (max_clients cfg) (socket_timeout cfg)
        (bind_address cfg) (cfg_log_level cfg) f (max_symbols cfg)
        (max_orders_per_symbol cfg) (position_limit cfg) (client_handler cfg)))
  | OptHelp => Val (inr EXIT_SUCCESS)
  | OptUnknown => Val (inr EXIT_FAILURE)
  end.

Fixpoint parse_options (program : bytes) (opts : list Option) (cfg : ServerConfig)
    : M Server (ServerConfig + Z) :=
  match opts with
  | [] => mret (inl cfg)
  | o :: opts' =>
      r ← lift_res (apply_option o cfg);
      match r with
      | inl cfg' => parse_options program opts' cfg'
      | inr status => print_usage program;; mret (inr status)
      end
  end.

Definition main (fuel : nat) (program : bytes) (opts : list Option) : M Server Z :=
  parsed ← parse_options program opts default_config;
  match parsed with
  | inr status => mret status
  | inl config =>
      init_logger (Some (cfg_log_file config)) (cfg_log_level config);;
      log_message Logger.LOG_INFO SERVER_MAIN_C 65 "main" "TradeSynth Server Starting..." [];;
      context ← initialize_server_context config;
      modify (set_context context);;
      match context with
      | Live _ =>
          result ← start_server fuel;
          cleanup_server;;
          close_logger;;
          mret (if result =? SUCCESS then EXIT_SUCCESS else EXIT_FAILURE)
      | _ =>
          log_message Logger.LOG_ERROR SERVER_MAIN_C 70 "main"
            "Failed to initialize server context" [];;
          mret EXIT_FAILURE
      end
  end.
End core.

(** ** The contract *)

(** The context as [stop_server] leaves it. *)
Definition stopped (c : ServerContext) : ServerContext :=
  set_state SERVER_STOPPED (set_client_count 0
    (set_server_socket (if server_socket c >=? 0 then -1 else server_socket c) c)).

(** The sockets in the table, oldest first. *)
Definition table_sockets (c : ServerContext) : list Z :=
  map c_socket (take (Z.to_nat (client_count c)) (clients c)).

(** What [stop_server] closes. *)
Definition descriptors (c : ServerContext) : list Z :=
  (if server_socket c >=? 0 then [server_socket c] else []) ++ table_sockets c.

(** The kernel delivers a signal at the latest when asked for the [n]-th time. *)
Definition signal_by `{OS} (n : nat) : Prop :=
  forall tr, (n <= polls tr)%nat -> a_ret (answer tr SysSignalPoll) <> 0.

(** Every descriptor obtained was closed, exactly as often as it was obtained. *)
Definition no_leak (s : Server) : Prop := opened (world s) ≡ₚ closes (world s).

(** A kernel for the examples: the second test of the loop finds [SIGINT], every
    other call succeeds with the answer 5. *)
Definition os_sigint : OS := {|
  answer := fun tr c => match c with
            | SysSignalPoll => mkAnswer (if (1 <=? polls tr)%nat then 2 else 0) 0 []
            | SysSetsockopt _ | SysMutexInit _ | SysClose _ => mkAnswer 0 0 []
            | _ => mkAnswer 5 0 (replicate 16 NUL)
            end;
  wall_clock := fun _ => 0;
  strftime_local := fun _ => "2024-12-04 15:30:45"%string |}.

(** A listening socket, or an error code and every descriptor closed again. *)
Definition setup_outcome (s s' : Server) (r : Z) : Prop :=
  (0 <= r /\ opened (world s') = opened (world s) ++ [r] /\
   closes (world s') = closes (world s)) \/
  (exists fds,
   (r = ERROR_SOCKET_CREATE \/ r = ERROR_SOCKET_BIND \/ r = ERROR_SOCKET_LISTEN) /\
   opened (world s') = opened (world s) ++ fds /\
   closes (world s') = closes (world s) ++ fds).

(** The context [initialize_server_context] builds. *)
Definition fresh (cfg : ServerConfig) : ServerContext :=
  set_clients (replicate (Z.to_nat (max_clients cfg)) zero_client)
    (set_config cfg (set_sequence_num 1 (set_state SERVER_STATE_INIT zero_context))).

(** A server between two rounds of its loop: the invariant holds, no lock is
    held, and the descriptors in use are the listening socket and the table. *)
Record serving (c : ServerContext) (s : Server) : Prop := {
  sv_live : p_context s = Live c;
  sv_inv : server_inv c;
  sv_locks : locks_held (world s) = Some [];
  sv_listening : 0 <= server_socket c;
  sv_descriptors : opened (world s) ≡ₚ closes (world s) ++ descriptors c;
}.

(** ** Lemmas *)

Section core_lemmas.
Context `{OS} `{Indeterminate}.

Lemma setup_failed_spec fd line text (code : ErrorCode) s :
  wp (setup_failed fd line text code) (fun r s' =>
    framed s s' /\ r = code /\ opened (world s') = opened (world s) /\
    closes (world s') = closes (world s) ++ [fd]) s.
Proof. unfold setup_failed, framed. wp_steps. by effects. Qed.

Lemma setup_socket_spec c s :
  p_context s = Live c ->
  wp setup_socket (fun r s' => framed s s' /\ setup_outcome s s' r) s.
Proof.
  intros Hc. unfold setup_socket. wp_step. wp_step.
  destruct (a_ret (answer (trace (world s)) SysSocket) <? 0) eqn:Hfd.
  { unfold framed. wp_steps. split; [by effects|]. right. exists [].
    effects. rewrite Hfd, app_nil_r. by auto. }
  set (fd := a_ret (answer (trace (world s)) SysSocket)) in *.
  assert (forall line text (code : ErrorCode) s1,
    (code = ERROR_SOCKET_CREATE \/ code = ERROR_SOCKET_BIND \/ code = ERROR_SOCKET_LISTEN) ->
    framed s s1 -> opened (world s1) = opened (world s) ++ [fd] ->
    closes (world s1) = closes (world s) ->
    wp (setup_failed fd line text code) (fun r s' => framed s s' /\ setup_outcome s s' r) s1)
    as Hfail.
  { intros line text code s1 Hcode (Hf1 & Hf2 & Hf3 & Hf4) Ho Hcl.
    eapply wp_mono; [apply setup_failed_spec|].
    intros r s' ((Hg1 & Hg2 & Hg3 & Hg4) & -> & Ho' & Hc').
    split; [unfold framed; by rewrite Hg1, Hg2, Hg3, Hg4|].
    right. exists [fd]. rewrite Ho', Hc', Ho, Hcl. naive_solver. }
  wp_steps. apply wp_if; intros _.
  { apply Hfail; [by auto|unfold framed; by effects|effects; fold fd; by rewrite Hfd|by effects]. }
  wp_steps. apply wp_if; intros _.
  { apply Hfail; [by auto|unfold framed; by effects|effects; fold fd; by rewrite Hfd|by effects]. }
  wp_steps. apply wp_if; intros _.
  { apply Hfail; [by auto|unfold framed; by effects|effects; fold fd; by rewrite Hfd|by effects]. }
  wp_steps. split; [unfold framed; by effects|]. left. effects. fold fd. rewrite Hfd. split; [lia|done].
Qed.

(** The loop of [stop_server] on clients without a thread. *)
Lemma stop_loop_spec n i c s :
  p_context s = Live c -> Forall unnamed (clients c) -> (i + n <= length (clients c))%nat ->
  wp (stop_loop n i) (fun _ s' => framed s s' /\
    opened (world s') = opened (world s) /\
    closes (world s') = closes (world s) ++ map c_socket (take n (drop i (clients c)))) s.
Proof.
  intros Hc Hun. revert i s Hc. induction n as [|n IH]; intros i s Hc Hl.
  { cbn [stop_loop]. wp_step. unfold framed. by rewrite app_nil_r. }
  destruct (lookup_lt_is_Some_2 (clients c) i) as [cl Hcl]; [lia|].
  destruct (Forall_lookup_1 _ _ _ _ Hun Hcl) as (_ & Hact & _).
  cbn [stop_loop]. wp_step. eapply wp_get_client; [done..|]. rewrite Hact. cbn [Z.eqb negb when].
  wp_steps. eapply wp_get_client; [done..|]. wp_steps.
  eapply wp_mono; [apply IH; [srv_context|lia]|].
  intros _ s' ((Hf1 & Hf2 & Hf3 & Hf4) & Ho & Hcs). unfold framed.
  rewrite Hf1, Hf2, Hf3, Hf4, Ho, Hcs, (drop_S _ _ _ Hcl). effects.
  by rewrite <- app_assoc.
Qed.

Lemma stop_server_spec c s :
  p_context s = Live c -> server_inv c -> locks_held (world s) = Some [] ->
  wp stop_server (fun _ s' =>
    p_context s' = Live (stopped c) /\ server_running s' = server_running s /\
    locks_held (world s') = Some [] /\ opened (world s') = opened (world s) /\
    closes (world s') = closes (world s) ++ descriptors c) s.
Proof.
  intros Hc [Hn Hl _ Hun] Hlocks. unfold stop_server, stopped, descriptors, table_sockets.
  wp_steps. cbn [server_socket set_state]. apply wp_when; intros Hfd; rewrite Hfd; wp_steps.
  all: eapply wp_mono; [apply stop_loop_spec; [srv_context|done|cbn; lia]|].
  all: intros _ s' ((Hf1 & Hf2 & Hf3 & Hf4) & Ho & Hcs); wp_step.
  all: eapply wp_update; [rewrite Hf1; srv_context|]; wp_steps; effects.
  all: rewrite Hf2, Hf3, Ho, Hcs; effects; rewrite Hlocks.
  all: split_and!; try done.
  by rewrite <- app_assoc.
Qed.

Lemma serving_same c s s' :
  serving c s -> p_context s' = p_context s ->
  locks_held (world s') = locks_held (world s) -> opened (world s') = opened (world s) ->
  closes (world s') = closes (world s) -> serving c s'.
Proof. intros [] Hctx Hl Ho Hcl. split; rewrite ?Hctx, ?Hl, ?Ho, ?Hcl; done. Qed.

Lemma descriptors_accept fd addr t1 t2 c cl :
  server_inv c -> client_count c < max_clients (config c) ->
  clients c !! Z.to_nat (client_count c) = Some cl ->
  descriptors (set_clients
    (<[Z.to_nat (client_count c) := accepted fd addr t1 t2 cl]> (clients c))
    (set_client_count (client_count c + 1) c)) = descriptors c ++ [fd].
Proof.
  intros [Hn Hl _ _] Hroom Hcl. pose proof (lookup_lt_Some _ _ _ Hcl) as Hlt.
  unfold descriptors, table_sockets.
  cbn [server_socket set_clients set_client_count clients client_count].
  rewrite <- app_assoc. f_equal. set (k := Z.to_nat (client_count c)) in *.
  replace (Z.to_nat (client_count c + 1)) with (S k) by lia.
  rewrite (take_S_r _ _ (accepted fd addr t1 t2 cl)) by (by apply list_lookup_insert_eq).
  by rewrite take_insert_ge, map_app by done.
Qed.

(** One round of the loop after the test. *)
Lemma accept_round c s :
  serving c s ->
  wp accept_client (fun _ s' => exists c', serving c' s' /\
    server_running s' = server_running s /\
    polls (trace (world s')) = polls (trace (world s))) s.
Proof.
  intros [Hc Hinv Hlocks Hfd Hdesc].
  eapply wp_mono; [by apply accept_client_spec|]. cbv zeta.
  set (a := answer (trace (world s)) (SysAccept (server_socket c))).
  intros r s' (c' & Hc' & Hinv' & Hl' & Hr' & Hp' & Hout). exists c'. split; [|done].
  destruct (a_ret a <? 0).
  - destruct Hout as (Ho & Hcl & _ & ->). split; try done. by rewrite Ho, Hcl.
  - destruct Hout as [Ho Hout]. destruct (_ >=? _) eqn:Hfull.
    + destruct Hout as (_ & -> & Hcl). split; try done. rewrite Ho, Hcl, Hdesc.
      rewrite <- !app_assoc. f_equiv. apply Permutation_app_comm.
    + destruct Hout as (_ & Hcl & addr & t1 & t2 & cl & Hlk & ->). split; try done.
      rewrite descriptors_accept by (done || lia). by rewrite Ho, Hcl, Hdesc, <- app_assoc.
Qed.

(** The loop ends with the signal: [n] bounds the tests still to come. *)
Lemma accept_loop_spec n fuel c s :
  signal_by n -> serving c s -> (n <= polls (trace (world s)) + fuel)%nat ->
  wp (accept_loop fuel) (fun _ s' => exists c', serving c' s' /\ server_running s' = 0) s.
Proof.
  intros Hsig. revert c s. induction fuel as [|fuel IH]; intros c s Hserv Hn;
    cbn [accept_loop]; wp_step; unfold loop_test; wp_steps;
    (destruct (Z.eqb_spec (a_ret (answer (trace (world s)) SysSignalPoll)) 0) as [Hz|Hz];
     cbn [negb when]; unfold signal_handler; wp_steps; effects).
  - exfalso. revert Hz. apply Hsig. lia.
  - cbn [Z.eqb negb]. wp_step. exists c. split; [|by effects].
    eapply serving_same; [done|by effects..].
  - destruct (Z.eqb_spec (server_running s) 0) as [Hrun|Hrun]; cbn [negb].
    { wp_step. exists c. split; [|by effects]. eapply serving_same; [done|by effects..]. }
    assert (polls (trace (world s)) < n)%nat as Hlt.
    { apply Nat.nle_gt. intros Hle. by apply (Hsig _ Hle). }
    wp_steps. eapply wp_mono; [apply (accept_round c)|].
    { eapply serving_same; [done|by effects..]. }
    intros r s1 (c1 & Hserv1 & _ & Hp1). effects. wp_step.
    apply wp_when; intros _; [wp_step; wp_step; apply wp_if; intros _; wp_steps|].
    all: apply (IH c1); [eapply serving_same; [done|by effects..]|effects; lia].
  - cbn [Z.eqb negb]. wp_step. exists c. split; [|by effects].
    eapply serving_same; [done|by effects..].
Qed.

Lemma server_inv_stopped c : server_inv c -> server_inv (stopped c).
Proof. intros [Hn Hl Hs Hu]. split; cbn; [lia|done..]. Qed.

Lemma descriptors_start fd c :
  0 <= fd -> client_count c = 0 ->
  descriptors (set_state SERVER_RUNNING (set_server_socket fd c)) = [fd].
Proof.
  intros Hfd Hn. unfold descriptors, table_sockets.
  cbn [server_socket set_state set_server_socket clients client_count]. rewrite Hn.
  by replace (fd >=? 0) with true by lia.
Qed.

Lemma start_server_spec n fuel c s :
  signal_by n -> (n <= polls (trace (world s)) + fuel)%nat ->
  p_context s = Live c -> server_inv c -> locks_held (world s) = Some [] ->
  client_count c = 0 -> no_leak s ->
  wp (start_server fuel) (fun r s' => exists c',
    p_context s' = Live c' /\ server_inv c' /\ client_count c' = 0 /\
    server_socket c' < 0 /\ locks_held (world s') = Some [] /\ no_leak s' /\
    ((r = SUCCESS /\ server_running s' = 0 /\ state c' = SERVER_STOPPED) \/
     r = ERROR_SOCKET_CREATE \/ r = ERROR_SOCKET_BIND \/ r = ERROR_SOCKET_LISTEN)) s.
Proof.
  intros Hsig Hfuel Hc Hinv Hlocks Hcount Hleak. unfold start_server, no_leak in *.
  wp_steps. cbv iota. wp_steps.
  eapply wp_mono; [eapply setup_socket_spec; srv_context|].
  intros fd s1 ((Hf1 & Hf2 & Hf3 & Hf4) & Hout). effects.
  wp_step. eapply wp_update; [rewrite Hf1; srv_context|].
  destruct Hout as [(Hfd & Ho & Hcl)|(fds & Hcode & Ho & Hcl)]; effects.
  - rewrite (proj2 (Z.ltb_ge _ _)) by done. wp_steps.
    eapply wp_mono.
    { eapply (accept_loop_spec n fuel (set_state SERVER_RUNNING (set_server_socket fd c))).
      - done.
      - split; effects; [done| |by rewrite Hf3|done|].
        + by apply server_inv_state, server_inv_socket.
        + rewrite Ho, Hcl, descriptors_start by done. by rewrite Hleak.
      - effects. rewrite Hf4. lia. }
    intros _ s2 (c2 & Hserv & Hrun). wp_step.
    destruct Hserv as [Hc2 Hinv2 Hl2 Hfd2 Hd2].
    eapply wp_mono; [by eapply stop_server_spec|].
    intros _ s3 (Hc3 & Hr3 & Hl3 & Ho3 & Hcl3). wp_step. exists (stopped c2).
    split_and!; try done.
    + by apply server_inv_stopped.
    + cbn. by replace (server_socket c2 >=? 0) with true by lia.
    + by rewrite Ho3, Hcl3.
    + left. by rewrite Hr3.
  - assert (fd < 0) as Hneg by (destruct Hcode as [->|[->| ->]]; cbn; lia).
    rewrite (proj2 (Z.ltb_lt _ _)) by done. wp_steps.
    exists (set_server_socket fd c). effects.
    split_and!; try done.
    + by apply server_inv_socket.
    + by rewrite Hf3.
    + by rewrite Ho, Hcl, Hleak.
    + tauto.
Qed.

Lemma server_inv_fresh cfg : 0 <= max_clients cfg -> server_inv (fresh cfg).
Proof.
  intros Hm. split; cbn; [lia|rewrite length_replicate; lia|unfold is_u64; lia|].
  by apply Forall_replicate.
Qed.

Lemma locks_fail_bystander ls s : wp (locks_fail ls) (fun _ s' => bystander s s') s.
Proof.
  revert s. induction ls as [|l ls IH]; intros s; cbn [locks_fail]; wp_step; [apply bystander_refl|].
  wp_step. assert (bystander s (step (SysMutexInit l) s)) by (by apply bystander_step).
  apply wp_if; intros _; [by wp_step|].
  eapply wp_mono; [apply IH|]. intros ? ? ?. by eapply bystander_trans.
Qed.

Lemma initialize_spec cfg s :
  is_s32 (max_clients cfg) ->
  wp (initialize_server_context cfg) (fun p s' => bystander s s' /\
    (p = Null \/ (p = Live (fresh cfg) /\ 0 <= max_clients cfg))) s.
Proof.
  intros Hm. unfold initialize_server_context, calloc. wp_steps.
  assert (forall c s1, bystander s s1 -> as_poll c = None -> is_lock_call c = false ->
    as_close c = None -> as_send c = None -> as_fgets c = None -> (forall a, as_opened (c, a) = None) ->
    bystander s (step c s1)) as Hnext.
  { intros. eapply bystander_trans; [done|by apply bystander_step]. }
  assert (forall l s1, bystander s s1 -> bystander s (put_log l s1)) as Hlog.
  { intros. eapply bystander_trans; [done|by apply bystander_same_trace]. }
  pose proof (bystander_refl s) as H0'.
  apply wp_if; intros _; wp_steps; [split; [|by left]; auto|].
  apply wp_if; intros Hok; wp_steps; [split; [|by left]; auto 10|].
  eapply wp_mono; [apply locks_fail_bystander|]. intros failed s1 Hs1.
  assert (bystander s s1) by (eapply bystander_trans; [|exact Hs1]; auto).
  apply wp_if; intros _; wp_steps; [split; [|by left]; auto 10|].
  split; [done|]. right.
  assert (0 <= max_clients cfg).
  { apply Z.nlt_ge. intros Hneg. unfold is_s32 in Hm.
    assert (u64 (max_clients cfg) = max_clients cfg + 2 ^ 64) as Hu
      by (unfold u64; symmetry; apply Z.mod_unique with (-1); lia).
    rewrite Hu in Hok. unfold CLIENT_CONNECTION_SIZE in Hok. lia. }
  split; [|done]. unfold fresh. by rewrite u64_small by (unfold is_s32, is_u64 in *; lia).
Qed.

Lemma cleanup_server_spec c s :
  p_context s = Live c -> server_inv c -> locks_held (world s) = Some [] ->
  wp cleanup_server (fun _ s' =>
    p_context s' = Freed /\ server_running s' = server_running s /\
    locks_held (world s') = Some [] /\ opened (world s') = opened (world s) /\
    closes (world s') = closes (world s) ++ descriptors c) s.
Proof.
  intros Hc Hinv Hlocks. unfold cleanup_server. wp_steps.
  eapply wp_mono; [by eapply stop_server_spec|].
  intros _ s1 (Hc1 & Hr1 & Hl1 & Ho1 & Hcl1). wp_steps.
  effects. by rewrite Hr1, Hl1, Ho1, Hcl1.
Qed.
End core_lemmas.

(** ** Properties *)

Section core_properties.
Context `{OS} `{Indeterminate}.

(** C5. Liveness and resource safety of the server: if a signal arrives by the
    [n]-th test of the loop, [n] rounds of fuel are enough and [start_server]
    returns, whatever the system answers otherwise.  It reports one of the three
    set-up errors, or success with the state [SERVER_STOPPED] after a signal; on
    every path no lock is held, the table is empty, and each descriptor obtained
    from [socket] or [accept] was closed exactly once. *)
Theorem start_server_stops_clean (n fuel : nat) (c : ServerContext) (s : Server) :
  signal_by n -> (n <= polls (trace (world s)) + fuel)%nat ->
  p_context s = Live c -> server_inv c -> locks_held (world s) = Some [] ->
  client_count c = 0 -> no_leak s ->
  wp (start_server fuel) (fun r s' => exists c',
    p_context s' = Live c' /\ client_count c' = 0 /\ server_socket c' < 0 /\
    locks_held (world s') = Some [] /\ no_leak s' /\
    ((r = SUCCESS /\ server_running s' = 0 /\ state c' = SERVER_STOPPED) \/
     r = ERROR_SOCKET_CREATE \/ r = ERROR_SOCKET_BIND \/ r = ERROR_SOCKET_LISTEN)) s.
Proof.
  intros. eapply wp_mono; [by eapply start_server_spec|].
  intros r s' (c' & ? & _ & ? & ? & ? & ? & ?). by exists c'.
Qed.

(** C22. [stop_server] closes the listening socket and the socket of every client
    in the table, once and in that order, empties the table, and leaves the
    mutex free; a second call closes nothing more. *)
Theorem stop_server_twice (c : ServerContext) (s : Server) :
  p_context s = Live c -> server_inv c -> locks_held (world s) = Some [] ->
  wp stop_server (fun _ s' =>
    p_context s' = Live (stopped c) /\ locks_held (world s') = Some [] /\
    closes (world s') = closes (world s) ++ descriptors c /\
    wp stop_server (fun _ s'' =>
      closes (world s'') = closes (world s') /\ p_context s'' = Live (stopped c)) s') s.
Proof.
  intros Hc Hinv Hlocks. eapply wp_mono; [by eapply stop_server_spec|].
  intros _ s1 (Hc1 & _ & Hl1 & _ & Hcl1). split_and!; try done.
  eapply wp_mono; [by eapply stop_server_spec; [|apply server_inv_stopped|]|].
  intros _ s2 (Hc2 & _ & _ & _ & Hcl2). rewrite Hcl2, Hc2.
  assert ((if server_socket c >=? 0 then -1 else server_socket c) >=? 0 = false) as Hneg
    by (destruct (server_socket c >=? 0) eqn:?; lia).
  unfold descriptors, table_sockets, stopped.
  cbn [server_socket set_state set_client_count set_server_socket client_count clients].
  rewrite Hneg. split; [by rewrite app_nil_r|]. by destruct c.
Qed.

(** C12. The program: with options that parse, [main] returns by the signal with
    exit status 0 or 1; status 0 means the server ran until a signal; whether the
    logger, the allocation, the set-up or the start failed, every descriptor was
    closed exactly once, no lock is held, and the context was freed or never
    allocated. *)
Theorem main_exits_clean (n fuel : nat) (program : bytes) (opts : list Option)
    (cfg : ServerConfig) (s : Server) :
  signal_by n -> (n <= polls (trace (world s)) + fuel)%nat ->
  p_context s = Null -> locks_held (world s) = Some [] -> no_leak s ->
  parse_options program opts default_config s = Ret (inl cfg) s ->
  is_s32 (max_clients cfg) -> terminated (cfg_log_file cfg) = true ->
  wp (main fuel program opts) (fun r s' =>
    (r = EXIT_SUCCESS /\ server_running s' = 0 \/ r = EXIT_FAILURE) /\
    no_leak s' /\ locks_held (world s') = Some [] /\
    (p_context s' = Freed \/ p_context s' = Null)) s.
Proof.
  intros Hsig Hfuel Hnull Hlocks Hleak Hparse Hm Hterm. unfold main.
  wp_step. eapply wp_val; [exact Hparse|]. cbv iota. wp_step.
  eapply wp_mono; [apply init_logger_bystander; by intros p [= <-]|].
  intros ? s1 Hs1. wp_steps. eapply wp_mono; [by apply initialize_spec|].
  intros p s2 [Hs2 Hp].
  assert (bystander s s2) as ((_ & Hr & Hl & Hpolls) & Ho & Hcl & _).
  { eapply bystander_trans; [exact Hs1|]. eapply bystander_trans; [|exact Hs2].
    by apply bystander_same_trace. }
  wp_steps. unfold no_leak in *. destruct Hp as [->|[-> Hpos]]; wp_steps.
  { effects. rewrite Hl, Ho, Hcl. by auto. }
  eapply wp_mono.
  { eapply (start_server_spec n fuel (fresh cfg)); unfold no_leak; effects;
      [done| |done|by apply server_inv_fresh|by rewrite Hl|done|by rewrite Ho, Hcl].
    by rewrite Hpolls. }
  intros r s3 (c3 & Hc3 & Hinv3 & Hn3 & Hfd3 & Hl3 & Hk3 & Hres). wp_step.
  eapply wp_mono; [by eapply cleanup_server_spec|].
  intros _ s4 (Hc4 & Hr4 & Hl4 & Ho4 & Hcl4). wp_step.
  eapply wp_mono; [apply close_logger_bystander|].
  intros _ s5 ((Hc5 & Hr5 & Hl5 & _) & Ho5 & Hcl5 & _). wp_step.
  assert (descriptors c3 = []) as Hnone.
  { unfold descriptors, table_sockets. rewrite Hn3.
    by replace (server_socket c3 >=? 0) with false by lia. }
  unfold no_leak in Hk3. rewrite Hnone, app_nil_r in Hcl4.
  rewrite Hc5, Hr5, Hl5, Ho5, Hcl5, Hc4, Hr4, Hl4, Ho4, Hcl4. split_and!; try by auto.
  destruct Hres as [(-> & Hrun & _)|Hcode]; [left; by rewrite Hrun|right].
  destruct Hcode as [->|[->| ->]]; done.
Qed.

(** A context that was initialised and never started has [server_socket] 0,
    as [calloc] left it, so [cleanup_server] closes descriptor 0, the standard
    input of the process. *)
Theorem cleanup_before_start_closes_stdin (cfg : ServerConfig) (s : Server) :
  0 <= max_clients cfg -> p_context s = Live (fresh cfg) ->
  locks_held (world s) = Some [] ->
  wp cleanup_server (fun _ s' =>
    closes (world s') = closes (world s) ++ [0] /\ opened (world s') = opened (world s) /\
    p_context s' = Freed) s.
Proof.
  intros Hm Hc Hlocks. eapply wp_mono; [eapply cleanup_server_spec; [done| |done]|].
  { by apply server_inv_fresh. }
  by intros _ s' (-> & _ & _ & -> & ->).
Qed.

(** The command line: a numeric option stores the number its decimal
    numeral denotes in its own field and changes no other; [-f] stores at most
    255 characters and the name stays terminated in its array. *)
Theorem options_stored (k : Z) (name rest : bytes) (cfg : ServerConfig) :
  is_s32 k -> terminated name = true -> length (cfg_log_file cfg) = 256%nat ->
  cfg_log_file cfg !! 255%nat = Some NUL ->
  let numeral := chars (pretty k) ++ NUL :: rest in
  let with_numbers p m t l := Val (inl (mkServerConfig p m t (bind_address cfg) l
    (cfg_log_file cfg) (max_symbols cfg) (max_orders_per_symbol cfg) (position_limit cfg)
    (client_handler cfg)) : ServerConfig + Z) in
  apply_option (OptPort numeral) cfg =
    with_numbers k (max_clients cfg) (socket_timeout cfg) (cfg_log_level cfg) /\
  apply_option (OptClients numeral) cfg =
    with_numbers (port cfg) k (socket_timeout cfg) (cfg_log_level cfg) /\
  apply_option (OptTimeout numeral) cfg =
    with_numbers (port cfg) (max_clients cfg) k (cfg_log_level cfg) /\
  apply_option (OptLogLevel numeral) cfg =
    with_numbers (port cfg) (max_clients cfg) (socket_timeout cfg) k /\
  exists f, apply_option (OptLogFile name) cfg =
    Val (inl (mkServerConfig (port cfg) (max_clients cfg) (socket_timeout cfg)
      (bind_address cfg) (cfg_log_level cfg) f (max_symbols cfg) (max_orders_per_symbol cfg)
      (position_limit cfg) (client_handler cfg))) /\
    cstr f = take 255 (cstr name) /\ length f = 256%nat /\ f !! 255%nat = Some NUL.
Proof.
  intros Hk Hname Hlen Hlast numeral with_numbers.
  assert (atoi numeral = Val k) as Hatoi.
  { unfold atoi, numeral, is_s32 in *. rewrite strtoll_pretty by lia. cbn [mbind res_bind].
    by replace (_ && _) with true by lia. }
  unfold apply_option. rewrite Hatoi. split_and!; [done..|].
  destruct (strncpy_terminates name (cfg_log_file cfg) 255) as (f & Hf & Hcstr & Hfl & Hl);
    [done..|lia|].
  exists f. rewrite Hf. cbn [mbind res_bind]. by rewrite Hfl.
Qed.
End core_properties.

Lemma signal_by_sigint : @signal_by os_sigint 1.
Proof.
  intros tr Htr. unfold answer, os_sigint. rewrite (proj2 (Nat.leb_le _ _)) by done. done.
Qed.

Lemma start_server_stops_clean_witness :
  let s := mkProcess initial_world 1 (Live (fresh (config_of 3))) in
  wp (@start_server os_sigint zero_junk 1) (fun r s' => exists c',
    p_context s' = Live c' /\ client_count c' = 0 /\ server_socket c' < 0 /\
    locks_held (world s') = Some [] /\ no_leak s' /\
    ((r = SUCCESS /\ server_running s' = 0 /\ state c' = SERVER_STOPPED) \/
     r = ERROR_SOCKET_CREATE \/ r = ERROR_SOCKET_BIND \/ r = ERROR_SOCKET_LISTEN)) s.
Proof.
  intros s.
  assert (server_inv (fresh (config_of 3))) as Hinv by (apply server_inv_fresh; cbn; lia).
  assert (no_leak s) as Hleak by (by unfold no_leak).
  refine (@start_server_stops_clean os_sigint zero_junk 1 1 (fresh (config_of 3)) s
    signal_by_sigint _ eq_refl Hinv eq_refl eq_refl Hleak).
  cbn. lia.
Defined.

Lemma stop_server_twice_witness :
  let os := os_const 0 0 [] in
  wp (@stop_server os) (fun _ s' =>
    p_context s' = Live (stopped two_clients) /\ locks_held (world s') = Some [] /\
    closes (world s') = [0; 5; 6] /\
    wp (@stop_server os) (fun _ s'' =>
      closes (world s'') = closes (world s') /\ p_context s'' = Live (stopped two_clients)) s')
    two_clients_server.
Proof.
  intros os.
  assert (server_inv two_clients) as Hinv
    by (split; cbn; [lia|lia|unfold is_u64; lia|repeat constructor]).
  exact (@stop_server_twice os two_clients two_clients_server eq_refl Hinv eq_refl).
Defined.

Lemma main_exits_clean_witness :
  let s := mkProcess initial_world 1 Null in
  wp (@main os_sigint zero_junk 1 (lit "server") []) (fun r s' =>
    (r = EXIT_SUCCESS /\ server_running s' = 0 \/ r = EXIT_FAILURE) /\
    no_leak s' /\ locks_held (world s') = Some [] /\
    (p_context s' = Freed \/ p_context s' = Null)) s.
Proof.
  intros s. assert (no_leak s) as Hleak by (by unfold no_leak).
  refine (@main_exits_clean os_sigint zero_junk 1 1 (lit "server") [] default_config s
    signal_by_sigint _ eq_refl eq_refl Hleak eq_refl _ _).
  - cbn. lia.
  - split; by vm_compute.
  - by vm_compute.
Defined.

Lemma cleanup_before_start_closes_stdin_witness :
  let os := os_const 0 0 [] in
  let s := mkProcess initial_world 1 (Live (fresh (config_of 3))) in
  wp (@cleanup_server os) (fun _ s' =>
    closes (world s') = closes (world s) ++ [0] /\ opened (world s') = opened (world s) /\
    p_context s' = Freed) s.
Proof.
  intros os s.
  refine (@cleanup_before_start_closes_stdin os (config_of 3) s _ eq_refl eq_refl).
  cbn. lia.
Defined.

Lemma options_stored_witness :
  apply_option (OptPort (chars (pretty 9090) ++ [NUL])) default_config =
    Val (inl (mkServerConfig 9090 100 30 (bind_address default_config) 2
      (cfg_log_file default_config) 0 0 0 0)) /\
  exists f, apply_option (OptLogFile (lit "/tmp/x.log")) default_config =
    Val (inl (mkServerConfig 8080 100 30 (bind_address default_config) 2 f 0 0 0 0)) /\
    cstr f = take 255 (cstr (lit "/tmp/x.log")) /\ length f = 256%nat /\
    f !! 255%nat = Some NUL.
Proof.
  assert (is_s32 9090) as Hk by (unfold is_s32; lia).
  pose proof (options_stored 9090 (lit "/tmp/x.log") [] default_config Hk) as Hopt.
  specialize (Hopt ltac:(by vm_compute) ltac:(by vm_compute) ltac:(by vm_compute)).
  destruct Hopt as (Hport & _ & _ & _ & Hfile). exact (conj Hport Hfile).
Defined.
