(* ===== verification/ServerInvariant.v ===== *)
(** * Reachable states of the server

    The operations that reach the context after [initialize_server_context], as
    labels of a transition system, and the invariant [server_inv] by induction on
    the transitions.  Partial correctness is the right notion here: an operation
    that runs into undefined behaviour reaches no state. *)

From Stdlib Require Import Strings.Byte.
From S2P Require Import Prelude CMem CString CDouble Types Serialization World Logger Process.
From S2P Require Import ServerTypes ServerHandlers ServerNetwork ServerCore.

Inductive Operation : Type :=
  | OpStart (fuel : nat)
  | OpAccept
  | OpMessage (fd : Z) (msg : Message)
  | OpHandleClient (fuel client : nat)
  | OpDisconnect (client : nat)
  | OpNextId
  | OpStop.

Section transitions.
Context `{OS} `{Libm} `{Indeterminate}.

Definition perform (op : Operation) : M Server unit :=
  match op with
  | OpStart fuel => start_server fuel;; mret tt
  | OpAccept => accept_client;; mret tt
  | OpMessage fd msg => handle_message fd msg;; mret tt
  | OpHandleClient fuel client => handle_client fuel client
  | OpDisconnect client => disconnect_client client
  | OpNextId => generate_order_id;; generate_trade_id;; mret tt
  | OpStop => stop_server
  end.

(** States reached from a context fresh from [initialize_server_context]. *)
Inductive reachable (cfg : ServerConfig) : Server -> Prop :=
  | reach_fresh s :
      0 <= max_clients cfg -> p_context s = Live (fresh cfg) -> reachable cfg s
  | reach_step op s s' :
      reachable cfg s -> perform op s = Ret tt s' -> reachable cfg s'.

(** The state invariant: the context is allocated, well formed, and still has the
    configuration it was started with. *)
Definition good (cfg : ServerConfig) (s : Server) : Prop :=
  exists c, p_context s = Live c /\ server_inv c /\ config c = cfg.

Definition preserves (cfg : ServerConfig) {A} (m : M Server A) : Prop :=
  forall s r s', good cfg s -> m s = Ret r s' -> good cfg s'.
End transitions.

(** The state an operation returns in, for the examples. *)
Definition after `{OS} `{Libm} `{Indeterminate} (op : Operation) (s : Server) : Server :=
  match perform op s with Ret _ s' => s' | _ => s end.

Create HintDb preserves discriminated.

(** ** Preservation, one construct at a time *)

Section preservation.
Context `{OS} `{Libm} `{Indeterminate} (cfg : ServerConfig).

Lemma preserves_ret {A} (a : A) : preserves cfg (mret a).
Proof. by intros s r s' Hs [= _ <-]. Qed.
Lemma preserves_bind {A B} (m : M Server A) (f : A -> M Server B) :
  preserves cfg m -> (forall a, preserves cfg (f a)) -> preserves cfg (m ≫= f).
Proof. intros Hm Hf s r s' Hs (a & s1 & R & R')%bind_inv. by eapply Hf, R'; eapply Hm. Qed.
Lemma preserves_lift {A} (r : res A) : preserves cfg (lift_res r).
Proof. by intros s a s' Hs [_ ->]%lift_inv. Qed.
Lemma preserves_undef {A} why : preserves cfg (undef (A:=A) why).
Proof. by intros s a s' Hs [=]. Qed.
Lemma preserves_out_of_fuel {A} : preserves cfg (out_of_fuel (A:=A)).
Proof. by intros s a s' Hs [=]. Qed.
Lemma preserves_gets {A} (f : Server -> A) : preserves cfg (gets f).
Proof. by intros s a s' Hs [= _ <-]. Qed.
Lemma preserves_when b (m : M Server unit) : preserves cfg m -> preserves cfg (when b m).
Proof. destruct b; [done|]. intros _. apply preserves_ret. Qed.
Lemma preserves_exit {A} code : preserves cfg (exit_with (A:=A) code).
Proof. by intros s r s' _ [=]. Qed.
Lemma preserves_sys c : preserves cfg (sys c).
Proof. intros s a s' (c' & Hc & Hi & Hcfg) [_ ->]%process_sys_inv. exists c'. by srv. Qed.
Lemma preserves_log level file line func fmt args :
  0 <= level <= 5 -> preserves cfg (log_message level file line func fmt args).
Proof.
  intros Hl s a s' (c & Hc & Hi & Hcfg) [l ->]%log_returns; [|done]. exists c. by srv.
Qed.
Lemma preserves_deref : preserves cfg deref.
Proof. by intros s a s' Hs [-> _]%deref_inv. Qed.
Lemma preserves_context_is_null : preserves cfg context_is_null.
Proof. intros s a s' Hs R. unfold context_is_null in R. by run_inv. Qed.
Lemma preserves_set_running v : preserves cfg (modify (set_running v)).
Proof. intros s a s' (c & Hc & Hi & Hcfg) [= _ <-]. exists c. by srv. Qed.

(** An assignment that keeps the invariant of the context. *)
Lemma preserves_update f :
  (forall c, server_inv c -> server_inv (f c) /\ config (f c) = config c) ->
  preserves cfg (update f).
Proof.
  intros Hf s a s' (c & Hc & Hi & Hcfg) (c1 & Hc1 & ->)%update_inv.
  rewrite Hc in Hc1. injection Hc1 as <-. destruct (Hf c Hi) as [Hi' Hcfg'].
  exists (f c). srv. by rewrite Hcfg'.
Qed.

Hint Resolve preserves_ret preserves_lift preserves_undef preserves_out_of_fuel
  preserves_exit preserves_gets preserves_sys preserves_deref preserves_context_is_null
  preserves_set_running : preserves.

(** Going through the code: one rule per construct, and the lemmas above. *)
Ltac preserve_step :=
  lazymatch goal with
  | |- preserves _ (_ ≫= _) => apply preserves_bind; [|intros ?]
  | |- preserves _ (when _ _) => apply preserves_when
  | |- preserves _ (log_message _ _ _ _ _ _) => apply preserves_log; cbn; lia
  | |- preserves _ (if ?b then _ else _) => destruct b
  | |- preserves _ (match ?x with _ => _ end) => destruct x
  | |- preserves _ _ => auto with preserves
  end.
Ltac preserve := repeat preserve_step.

Lemma preserves_get_client i : preserves cfg (get_client i).
Proof. unfold get_client. preserve. Qed.

Lemma preserves_put_client i f :
  (forall cl, unnamed cl -> unnamed (f cl)) -> preserves cfg (put_client i f).
Proof.
  intros Hf s r s' (c & Hc & Hi & Hcfg) R. unfold put_client in R. server_inv. simplify_eq.
  eexists. srv. split; [done|]. split; [|done].
  destruct Hi as [Hn Hl Hs Hu]. split; cbn; [done|by rewrite length_insert|done|].
  apply Forall_insert; [done|]. apply Hf. by eapply Forall_lookup_1.
Qed.

Lemma preserves_next_sequence : preserves cfg next_sequence.
Proof.
  unfold next_sequence. preserve. apply preserves_update. intros c Hc.
  split; [by apply server_inv_sequence|done].
Qed.

(** A computation that starts by reading the context. *)
Lemma preserves_deref_bind {A} (k : ServerContext -> M Server A) :
  (forall c s r s', server_inv c -> config c = cfg -> p_context s = Live c ->
     k c s = Ret r s' -> good cfg s') ->
  preserves cfg (deref ≫= k).
Proof.
  intros Hk s r s' (c & Hc & Hi & Hcfg) R. server_inv. simplify_eq. by eapply Hk.
Qed.

Lemma preserves_send fd msg : preserves cfg (send_response_message fd msg).
Proof. unfold send_response_message, sys_send, killed_by. preserve. Qed.
Lemma preserves_find id : preserves cfg (find_client_socket id).
Proof. unfold find_client_socket. preserve. Qed.
Hint Resolve preserves_get_client preserves_next_sequence preserves_send preserves_find
  : preserves.

Lemma preserves_process_order o : preserves cfg (process_order o).
Proof. unfold process_order, get_client_position, get_market_data, time_NULL. preserve. Qed.
Lemma preserves_broadcast_loop n i msg : preserves cfg (broadcast_loop n i msg).
Proof. revert i. induction n as [|n IH]; intros i; cbn [broadcast_loop]; preserve. Qed.
Hint Resolve preserves_process_order preserves_broadcast_loop : preserves.
Lemma preserves_broadcast d : preserves cfg (broadcast_market_data d).
Proof. unfold broadcast_market_data, time_NULL. preserve. Qed.
Lemma preserves_trade t : preserves cfg (process_trade_execution t).
Proof. unfold process_trade_execution, time_NULL. preserve. Qed.
Hint Resolve preserves_broadcast preserves_trade : preserves.

Lemma preserves_handle_message fd msg : preserves cfg (handle_message fd msg).
Proof.
  unfold handle_message, handle_heartbeat, handle_order_message, handle_market_data,
    handle_trade_exec, handle_error, time_NULL. preserve.
Qed.

(** The rest of a computation whose state is known to be good. *)
Lemma preserves_from {A} (m : M Server A) s r s' :
  preserves cfg m -> good cfg s -> m s = Ret r s' -> good cfg s'.
Proof. intros Hm Hs. by apply Hm. Qed.

Lemma preserves_store fd addr i :
  preserves cfg (put_client i (set_peer fd addr);; t ← time_NULL;
    put_client i (set_connect_time t);; t ← time_NULL;
    put_client i (set_last_heartbeat t);; put_client i set_has_context;;
    sys (SysUnlock ClientsMutex);; mret SUCCESS).
Proof. unfold time_NULL. preserve; by apply preserves_put_client. Qed.

Lemma preserves_accept : preserves cfg accept_client.
Proof.
  unfold accept_client.
  apply preserves_bind; [preserve|intros null]. destruct null; [preserve|].
  apply preserves_bind; [preserve|intros c0]. apply preserves_bind; [preserve|intros a].
  destruct (a_ret a <? 0); [preserve|].
  do 2 (apply preserves_bind; [preserve|intros ?]).
  apply preserves_deref_bind. intros c s r s' Hi Hcfg Hc R.
  destruct (client_count c >=? max_clients (config c)) eqn:Hfull.
  - eapply preserves_from, R; [preserve|by exists c].
  - apply bind_inv in R as (u & s1 & R1 & R).
    eapply preserves_from, R; [apply preserves_store|].
    server_inv. eexists. srv. split; [done|]. split; [|done].
    destruct Hi as [Hn Hl Hs Hu]. split; cbn; [lia|done..].
Qed.

Lemma good_removed c k s :
  server_inv c -> config c = cfg -> (k < Z.to_nat (client_count c))%nat ->
  good cfg (set_context (Live (removed k c)) s).
Proof.
  intros [Hn Hl Hs Hu] Hcfg Hk. exists (removed k c). srv. split; [done|]. split; [|done].
  split; cbn; [lia| |done|].
  - rewrite length_overwrite; [done|]. rewrite length_slice by lia. lia.
  - apply overwrite_elem; [|done]. by apply Forall_take, Forall_drop.
Qed.

Lemma preserves_disconnect_loop n j client c s r s' :
  server_inv c -> config c = cfg -> p_context s = Live c ->
  (j + n)%nat = Z.to_nat (client_count c) ->
  disconnect_loop n j client s = Ret r s' -> good cfg s'.
Proof.
  intros Hi Hcfg Hc. revert j s Hc. induction n as [|n IH]; intros j s Hc Hj R;
    cbn [disconnect_loop] in R.
  { run_inv. by exists c. }
  server_inv. destruct (_ =? 0).
  - assert (wp (c ← deref;
      when (Z.of_nat j <? client_count c - 1)
        (move_clients j (Z.to_nat (client_count c - Z.of_nat j - 1)));;
      update (set_client_count (client_count c - 1))) (fun _ s1 => good cfg s1) s) as Hw.
    { eapply (wp_remove_slot j c); [done| |lia|].
      - destruct Hi. lia.
      - apply good_removed; [done..|lia]. }
    rewrite wp_unfold in Hw. by rewrite R in Hw.
  - by eapply IH, R; [|lia].
Qed.

Lemma preserves_disconnect client : preserves cfg (disconnect_client client).
Proof.
  unfold disconnect_client. apply preserves_bind; [preserve|intros ?].
  apply preserves_deref_bind. intros c s r s' Hi Hcfg Hc R.
  apply bind_inv in R as (u & s1 & R1 & R).
  eapply preserves_from, R; [preserve|].
  by eapply (preserves_disconnect_loop _ 0), R1.
Qed.

Lemma preserves_loop_test : preserves cfg loop_test.
Proof. unfold loop_test, signal_handler. preserve. Qed.
Hint Resolve preserves_accept preserves_disconnect preserves_loop_test : preserves.

Lemma preserves_dispatch client msg : preserves cfg (dispatch client msg).
Proof. unfold dispatch. preserve. Qed.
Hint Resolve preserves_dispatch : preserves.

Lemma preserves_handle_client_loop fuel client buffer msg :
  preserves cfg (handle_client_loop fuel client buffer msg).
Proof.
  revert buffer msg. induction fuel as [|fuel IH]; intros buffer msg;
    cbn [handle_client_loop]; unfold sys_recv, time_NULL; preserve;
    by apply preserves_put_client.
Qed.
Hint Resolve preserves_handle_client_loop : preserves.

Lemma preserves_handle_client fuel client : preserves cfg (handle_client fuel client).
Proof. unfold handle_client. preserve. Qed.

Lemma preserves_assign f :
  (forall c, server_inv c -> server_inv (f c)) -> (forall c, config (f c) = config c) ->
  preserves cfg (update f).
Proof. intros Hf Hcfg. apply preserves_update. auto. Qed.

Lemma preserves_stop_loop n i : preserves cfg (stop_loop n i).
Proof.
  revert i. induction n as [|n IH]; intros i; cbn [stop_loop]; preserve.
  apply preserves_put_client. by intros cl (? & _ & ?).
Qed.
Hint Resolve preserves_stop_loop : preserves.

Lemma preserves_stop : preserves cfg stop_server.
Proof.
  unfold stop_server. preserve; apply preserves_assign; try done.
  - intros c Hc. by apply server_inv_state.
  - intros c Hc. by apply server_inv_socket.
  - intros c Hc. apply server_inv_count; [done|]. destruct Hc. lia.
  - intros c Hc. by apply server_inv_state.
Qed.
Hint Resolve preserves_stop : preserves.

Lemma preserves_accept_loop fuel : preserves cfg (accept_loop fuel).
Proof. induction fuel as [|fuel IH]; cbn [accept_loop]; preserve. Qed.
Lemma preserves_setup : preserves cfg setup_socket.
Proof. unfold setup_socket, setup_failed. preserve. Qed.
Hint Resolve preserves_accept_loop preserves_setup : preserves.

Lemma preserves_start fuel : preserves cfg (start_server fuel).
Proof.
  unfold start_server. preserve; apply preserves_assign; try done.
  - intros c Hc. by apply server_inv_socket.
  - intros c Hc. by apply server_inv_state.
Qed.

Lemma preserves_perform op : preserves cfg (perform op).
Proof.
  destruct op; cbn [perform]; unfold generate_order_id, generate_trade_id; preserve;
    auto using preserves_start, preserves_handle_message, preserves_handle_client.
Qed.

Lemma reachable_good s : reachable cfg s -> good cfg s.
Proof.
  induction 1 as [s Hm Hc|op s s' _ IH R].
  - exists (fresh cfg). split; [done|]. split; [by apply server_inv_fresh|done].
  - by eapply preserves_perform, R.
Qed.
End preservation.

(** ** Properties *)

Section invariant_properties.
Context `{OS} `{Libm} `{Indeterminate}.

(** C4. The state invariant: in every state reached from a fresh context by any
    sequence of operations, whatever the system answers, the context is
    allocated and keeps its configuration, the array has exactly [max_clients]
    slots, the number of clients is between 0 and that, the sequence counter is a
    64-bit number, and every slot is still unnamed, inactive and without a
    thread. *)
Theorem reachable_invariant (cfg : ServerConfig) (s : Server) :
  reachable cfg s ->
  exists c, p_context s = Live c /\ config c = cfg /\
    Z.of_nat (length (clients c)) = max_clients cfg /\
    0 <= client_count c <= max_clients cfg /\ is_u64 (sc_sequence_num c) /\
    Forall unnamed (clients c).
Proof. intros (c & Hc & [] & <-)%reachable_good. by exists c. Qed.

Lemma unnamed_socket cs id :
  Forall unnamed cs -> cstr id <> [] -> socket_of cs id = -1.
Proof.
  intros Hun Hid. unfold socket_of. induction Hun as [|cl cs (Hname & _) _ IH]; [done|].
  cbn [List.find]. rewrite Hname.
  rewrite bool_decide_false by (intros E; apply Hid; by rewrite <- E).
  by rewrite andb_false_r.
Qed.

(** C23. No trade report reaches anybody: in every reachable state of a server
    with at least one hundred slots, [process_trade_execution] for a named buyer
    and seller answers [SUCCESS] and sends nothing, because no code ever stores a
    name in a slot. *)
Theorem trades_reach_nobody (cfg : ServerConfig) (t : TradeExecution) (s : Server) :
  reachable cfg s -> 100 <= max_clients cfg -> wf_TradeExecution t ->
  terminated (buyer_id t) = true -> terminated (seller_id t) = true ->
  cstr (buyer_id t) <> [] -> cstr (seller_id t) <> [] ->
  exists s', process_trade_execution t s = Ret SUCCESS s' /\
    sends (world s') = sends (world s).
Proof.
  intros (c & Hc & Hinv & Hcfg)%reachable_good Hmax Hwf Hb Hs Hb' Hs'.
  destruct Hinv as [Hn Hl Hseq Hun].
  assert (hundred_slots c) as Hslots.
  { split_and!; [|eapply Forall_impl; [|exact Hun]; by intros cl (-> & _)|done].
    change (Z.to_nat MAX_CLIENTS) with 100%nat. subst. lia. }
  assert (packets (trade_spec (take 100 (clients c)) t) = []) as Hnone.
  { unfold trade_spec. by rewrite !unnamed_socket by (done || by apply Forall_take). }
  pose proof (process_trade_outcome t c s (or_intror Hnone) Hc Hslots Hwf Hb Hs) as Hout.
  unfold has_outcome in Hout. apply wp_run in Hout as (r & s' & R & -> & Hsends & _).
  exists s'. split; [done|]. by rewrite Hsends, Hnone, app_nil_r.
Qed.
End invariant_properties.

Lemma reachable_invariant_witness :
  let os := os_const 7 0 (replicate 16 NUL) in
  let s0 := mkProcess initial_world 1 (Live (fresh (config_of 3))) in
  let s1 := @after os pow_ref zero_junk OpAccept s0 in
  exists c, p_context s1 = Live c /\ config c = config_of 3 /\
    Z.of_nat (length (clients c)) = max_clients (config_of 3) /\
    0 <= client_count c <= max_clients (config_of 3) /\
    is_u64 (sc_sequence_num c) /\ Forall unnamed (clients c).
Proof.
  intros os s0 s1.
  assert (@perform os pow_ref zero_junk OpAccept s0 = Ret tt s1) as Hrun
    by (vm_compute; reflexivity).
  assert (@reachable os pow_ref zero_junk (config_of 3) s0) as Hfresh
    by (apply reach_fresh; [cbn; lia|reflexivity]).
  exact (@reachable_invariant os pow_ref zero_junk (config_of 3) s1
    (@reach_step os pow_ref zero_junk (config_of 3) OpAccept s0 s1 Hfresh Hrun)).
Defined.

Lemma trades_reach_nobody_witness :
  let os := os_const 148 0 [] in
  let s := mkProcess initial_world 1 (Live (fresh (config_of 100))) in
  exists s', @process_trade_execution os zero_junk sample_trade s = Ret SUCCESS s' /\
    sends (world s') = sends (world s).
Proof.
  intros os s.
  assert (@reachable os pow_ref zero_junk (config_of 100) s) as Hreach
    by (apply reach_fresh; [cbn; lia|done]).
  assert (wf_TradeExecution sample_trade) as Hwf by (apply (bool_decide_unpack _); by vm_compute).
  apply (@trades_reach_nobody os pow_ref zero_junk (config_of 100) sample_trade s Hreach);
    [cbn; lia|exact Hwf|by vm_compute|by vm_compute|by vm_compute|by vm_compute].
Defined.
