(* ===== verification/Client.v ===== *)
(** * The client library ([include/client/client_types.h], [src/client/client.c])

    Connecting, the receiver thread, disconnecting and the two requests.  The
    receiver thread is modelled as the function it runs; what the main thread
    does to it meanwhile, clearing [running], can happen at every test of its
    loop ([SysRunningPoll]).  What the receiver does to the main thread, ending
    and with that setting the state to [CLIENT_DISCONNECTED], is
    [receiver_meanwhile], which the programs' loops let happen before every
    request.  A user callback is recorded with the bytes of the struct it is
    given. *)

From Stdlib Require Import Strings.Byte.
From S2P Require Import Prelude CMem CString CDouble Types Serialization World Logger Process.

Definition CLIENT_C : string := "src/client/client.c".

Inductive ClientState : Type :=
  | CLIENT_DISCONNECTED | CLIENT_CONNECTING | CLIENT_CONNECTED | CLIENT_AUTHENTICATING
  | CLIENT_READY | CLIENT_ERROR.

#[export] Instance ClientState_eq_dec : EqDecision ClientState.
Proof. solve_decision. Defined.

Record ClientStats : Type := mkClientStats {
  messages_sent : Z;
  messages_received : Z;
  orders_sent : Z;
  trades_received : Z;
  k_errors_encountered : Z;
  connect_time : Z;
  last_heartbeat : Z;
}.

Record ClientConfig : Type := mkClientConfig {
  server_host : bytes;
  server_port : Z;
  reconnect_attempts : Z;
  k_socket_timeout : Z;
  k_log_level : Z;
  k_log_file : bytes;
  client_id : bytes;
}.

(** Which callbacks are set. *)
Record ClientCallbacks : Type := mkClientCallbacks {
  has_on_connect : bool;
  has_on_disconnect : bool;
  has_on_market_data : bool;
  has_on_order_status : bool;
  has_on_trade : bool;
  has_on_error : bool;
}.

Record ClientContext : Type := mkClientContext {
  socket : Z;
  k_state : ClientState;
  k_stats : ClientStats;
  k_config : ClientConfig;
  callbacks : ClientCallbacks;
  user_data : Z;
  receiver_thread : Z;
  running : Z;
}.

(** [sizeof(ClientContext)] *)
Definition CLIENT_CONTEXT_SIZE : Z := 776.

(** *** Assignments *)

Definition set_socket (fd : Z) (c : ClientContext) : ClientContext :=
  mkClientContext fd (k_state c) (k_stats c) (k_config c) (callbacks c) (user_data c)
    (receiver_thread c) (running c).
Definition set_k_state (st : ClientState) (c : ClientContext) : ClientContext :=
  mkClientContext (socket c) st (k_stats c) (k_config c) (callbacks c) (user_data c)
    (receiver_thread c) (running c).
Definition set_receiver_thread (t : Z) (c : ClientContext) : ClientContext :=
  mkClientContext (socket c) (k_state c) (k_stats c) (k_config c) (callbacks c) (user_data c)
    t (running c).
Definition set_k_running (v : Z) (c : ClientContext) : ClientContext :=
  mkClientContext (socket c) (k_state c) (k_stats c) (k_config c) (callbacks c) (user_data c)
    (receiver_thread c) v.
Definition set_stats (st : ClientStats) (c : ClientContext) : ClientContext :=
  mkClientContext (socket c) (k_state c) st (k_config c) (callbacks c) (user_data c)
    (receiver_thread c) (running c).

Definition set_stat_connect_time (t : Z) (st : ClientStats) : ClientStats :=
  mkClientStats (messages_sent st) (messages_received st) (orders_sent st)
    (trades_received st) (k_errors_encountered st) t (last_heartbeat st).
Definition incr_messages_sent (st : ClientStats) : ClientStats :=
  mkClientStats (messages_sent st ⊕₆₄ 1) (messages_received st) (orders_sent st)
    (trades_received st) (k_errors_encountered st) (connect_time st) (last_heartbeat st).
Definition incr_messages_received (st : ClientStats) : ClientStats :=
  mkClientStats (messages_sent st) (messages_received st ⊕₆₄ 1) (orders_sent st)
    (trades_received st) (k_errors_encountered st) (connect_time st) (last_heartbeat st).
Definition incr_orders_sent (st : ClientStats) : ClientStats :=
  mkClientStats (messages_sent st) (messages_received st) (orders_sent st ⊕₆₄ 1)
    (trades_received st) (k_errors_encountered st) (connect_time st) (last_heartbeat st).
Definition incr_trades_received (st : ClientStats) : ClientStats :=
  mkClientStats (messages_sent st) (messages_received st) (orders_sent st)
    (trades_received st ⊕₆₄ 1) (k_errors_encountered st) (connect_time st)
    (last_heartbeat st).

(** What [calloc] leaves, before the assignments of [initialize_client]. *)
Definition zero_client_stats : ClientStats := mkClientStats 0 0 0 0 0 0 0.
Definition no_callbacks : ClientCallbacks := mkClientCallbacks false false false false false false.

Abbreviation Client := (Process ClientContext).

Section client.
Context `{OS} `{Indeterminate}.

#[local] Abbreviation LOG_INFO line func fmt args :=
  (log_message LOG_INFO CLIENT_C line func fmt args).
#[local] Abbreviation LOG_WARN line func fmt args :=
  (log_message LOG_WARN CLIENT_C line func fmt args).
#[local] Abbreviation LOG_ERROR line func fmt args :=
  (log_message LOG_ERROR CLIENT_C line func fmt args).

Definition update_stats (f : ClientStats -> ClientStats) : M Client unit :=
  update (fun c => set_stats (f (k_stats c)) c).

(** [if (context->callbacks.cb) context->callbacks.cb(payload, user_data)] *)
Definition call_back (present : ClientCallbacks -> bool) (cb : Callback) (payload : bytes)
    : M Client unit :=
  c ← deref;
  when (present (callbacks c)) (sys (SysCallback cb payload);; mret tt).

(** [context->running] at the test of the loop *)
Definition running_test : M Client bool :=
  a ← sys SysRunningPoll;
  when (negb (a_ret a =? 0)) (update (set_k_running 0));;
  c ← deref;
  mret (negb (running c =? 0)).

(** The [switch] of [message_receiver_thread]. *)
Definition deliver (msg : Message) : M Client unit :=
  match message_type_of_code (m_type msg) with
  | Some MSG_ORDER_STATUS =>
      call_back has_on_order_status OnOrderStatus (take (size_of Order) (m_data msg))
  | Some MSG_MARKET_DATA =>
      call_back has_on_market_data OnMarketData (take (size_of MarketData) (m_data msg))
  | Some MSG_TRADE_EXEC =>
      call_back has_on_trade OnTrade (take (size_of TradeExecution) (m_data msg));;
      update_stats incr_trades_received
  | _ =>
      LOG_WARN 52 "message_receiver_thread" "Received unknown message type: %d"
        [LInt (s32 (m_type msg))]
  end.

Fixpoint receiver_loop (fuel : nat) (buffer : bytes) (msg : Message) : M Client unit :=
  running ← running_test;
  if negb running then mret tt
  else
    match fuel with
    | O => out_of_fuel
    | S fuel' =>
        c ← deref;
        '(bytes_received, buffer) ← sys_recv (socket c) buffer BUFFER_SIZE;
        if bytes_received <? 0 then
          e ← gets (fun s => errno (world s));
          if (e =? EAGAIN) || (e =? EWOULDBLOCK) then
            sys (SysUsleep 100000);;
            receiver_loop fuel' buffer msg
          else
            LOG_ERROR 17 "message_receiver_thread" "Error receiving from server: %s" [LErrno e]
        else if bytes_received =? 0 then
          LOG_INFO 20 "message_receiver_thread" "Server disconnected" []
        else
          '(code, msg') ← lift_res (deserialize_message (Some buffer) bytes_received (Some msg));
          let msg := default msg msg' in
          if negb (code =? SUCCESS) then
            LOG_ERROR 25 "message_receiver_thread" "Failed to deserialize message" [];;
            receiver_loop fuel' buffer msg
          else
            update_stats incr_messages_received;;
            deliver msg;;
            receiver_loop fuel' buffer msg
    end.

(** [message_receiver_thread] after its loop *)
Definition receiver_exit : M Client unit :=
  sys (SysLock StateMutex);;
  update (set_k_state CLIENT_DISCONNECTED);;
  sys (SysUnlock StateMutex);;
  call_back has_on_disconnect OnDisconnect [].

Definition message_receiver_thread (fuel : nat) : M Client unit :=
  receiver_loop fuel (junk_bytes 0 (Z.to_nat BUFFER_SIZE)) uninitialised_message;;
  receiver_exit.

(** The end of the receiver thread, seen from the main thread of a connected
    client: it happens at any of these points, or at none. *)
Definition receiver_meanwhile : M Client unit :=
  a ← sys SysReceiverPoll;
  c ← deref;
  when (negb (a_ret a =? 0) && bool_decide (k_state c = CLIENT_CONNECTED)) receiver_exit.

Definition initialize_client (config : option ClientConfig) (cbs : option ClientCallbacks)
    (data : Z) : M Client (ptr ClientContext) :=
  match config with
  | None =>
      LOG_ERROR 69 "initialize_client" "Invalid client configuration" [];;
      mret Null
  | Some config =>
      allocated ← calloc ObjClientContext 1 CLIENT_CONTEXT_SIZE;
      if negb allocated then
        LOG_ERROR 75 "initialize_client" "Failed to allocate client context" [];;
        mret Null
      else
        let context := {|
          socket := -1; k_state := CLIENT_DISCONNECTED; k_stats := zero_client_stats;
          k_config := config; callbacks := default no_callbacks cbs; user_data := data;
          receiver_thread := 0; running := 1 |} in
        a ← sys (SysMutexInit StateMutex);
        failed ← (if negb (a_ret a =? 0) then mret true
                  else a ← sys (SysMutexInit StatsMutex); mret (negb (a_ret a =? 0)));
        if (failed : bool) then
          LOG_ERROR 90 "initialize_client" "Failed to initialize mutexes" [];;
          sys (SysFree ObjClientContext);;
          mret Null
        else
          LOG_INFO 95 "initialize_client" "Client context initialized successfully" [];;
          mret (Live context)
  end.

(** The address [inet_pton] is given. *)
Definition resolve (host : bytes) : M Client Z :=
  local ← lift_res (strcmp host (lit "localhost"));
  if local =? 0 then
    a ← sys (SysInetPton (lit "127.0.0.1"));
    if a_ret a <=? 0 then
      LOG_ERROR 116 "connect_to_server" "Failed to resolve localhost" [];;
      mret (ERROR_SOCKET_CONNECT : Z)
    else mret SUCCESS
  else
    a ← sys (SysInetPton host);
    if a_ret a <=? 0 then
      LOG_ERROR 121 "connect_to_server" "Invalid server address: %s" [LStr host];;
      mret (ERROR_SOCKET_CONNECT : Z)
    else mret SUCCESS.

(** [pthread_t] as [pthread_create] stores it *)
Definition thread_handle (a : Answer) : Z := uint_at 8 0 (a_data a).

(** [connect_to_server] from [pthread_mutex_lock] at line 144 on. *)
Definition start_receiver : M Client Z :=
  sys (SysLock StateMutex);;
  update (set_k_state CLIENT_CONNECTED);;
  t ← time_NULL;
  update_stats (set_stat_connect_time t);;
  sys (SysUnlock StateMutex);;
  a ← sys SysThreadCreate;
  if negb (a_ret a =? 0) then
    e ← gets (fun s => errno (world s));
    LOG_ERROR 150 "connect_to_server" "Failed to create receiver thread: %s" [LErrno e];;
    c ← deref;
    sys (SysClose (socket c));;
    mret (ERROR_THREAD_CREATE : Z)
  else
    update (set_receiver_thread (thread_handle a));;
    call_back has_on_connect OnConnect [];;
    c ← deref;
    LOG_INFO 159 "connect_to_server" "Connected to server %s:%d"
      [LStr (server_host (k_config c)); LInt (server_port (k_config c))];;
    mret SUCCESS.

Definition connect_to_server : M Client Z :=
  null ← context_is_null;
  if (null : bool) then mret ERROR_INVALID_PARAM
  else
    sys (SysLock StateMutex);;
    c ← deref;
    if bool_decide (k_state c = CLIENT_CONNECTED) then
      sys (SysUnlock StateMutex);;
      mret (ERROR_INVALID_STATE : Z)
    else
      sys (SysUnlock StateMutex);;
      resolved ← resolve (server_host (k_config c));
      if negb (resolved =? SUCCESS) then mret resolved
      else
        a ← sys SysSocket;
        update (set_socket (a_ret a));;
        if a_ret a <? 0 then
          e ← gets (fun s => errno (world s));
          LOG_ERROR 128 "connect_to_server" "Failed to create socket: %s" [LErrno e];;
          mret (ERROR_SOCKET_CREATE : Z)
        else
          let fd := a_ret a in
          flags ← sys (SysFcntlGetFl fd);
          sys (SysFcntlNonblock fd (a_ret flags));;
          a ← sys (SysConnect fd (server_port (k_config c) mod 2 ^ 16));
          e ← gets (fun s => errno (world s));
          if (a_ret a <? 0) && negb (e =? EINPROGRESS) then
            LOG_ERROR 138 "connect_to_server" "Failed to connect to server: %s" [LErrno e];;
            sys (SysClose fd);;
            mret (ERROR_SOCKET_CONNECT : Z)
          else start_receiver.

Definition disconnect_from_server : M Client unit :=
  null ← context_is_null;
  if (null : bool) then mret tt
  else
    update (set_k_running 0);;
    sys (SysLock StateMutex);;
    c ← deref;
    when (socket c >=? 0)
      (sys (SysShutdown (socket c));; sys (SysClose (socket c));; update (set_socket (-1)));;
    sys (SysUnlock StateMutex);;
    c ← deref;
    when (negb (receiver_thread c =? 0))
      (sys (SysThreadJoin (receiver_thread c));; update (set_receiver_thread 0));;
    sys (SysLock StateMutex);;
    update (set_k_state CLIENT_DISCONNECTED);;
    sys (SysUnlock StateMutex);;
    LOG_INFO 185 "disconnect_from_server" "Disconnected from server" [].

Definition cleanup_client : M Client unit :=
  null ← context_is_null;
  if (null : bool) then mret tt
  else
    disconnect_from_server;;
    sys (SysMutexDestroy StateMutex);;
    sys (SysMutexDestroy StatsMutex);;
    c ← deref;
    sys (SysFree ObjClientContext);;
    modify (set_context Freed);;
    LOG_INFO 199 "cleanup_client" "Client resources cleaned up" [].

(** [send(fd, buffer, size, 0)] of the first [size] bytes of a buffer *)
Definition send_bytes (fd : Z) (buffer : bytes) (size : Z) : M Client Z :=
  if size <=? Z.of_nat (length buffer) then sys_send fd (take (Z.to_nat size) buffer)
  else undef OutOfBounds.

(** [size_t msg_size = serialize_message(...)]: negative codes become large. *)
Definition request_market_data (symbol : option bytes) : M Client Z :=
  null ← context_is_null;
  match (null : bool), symbol with
  | false, Some symbol =>
      c ← deref;
      if negb (bool_decide (k_state c = CLIENT_CONNECTED)) then mret (ERROR_INVALID_STATE : Z)
      else
        ts ← time_NULL;
        data ← lift_res (strncpy zero_data symbol (MAX_SYMBOL_LENGTH - 1));
        let msg := {| m_type := MSG_MARKET_DATA; sequence_num := 0; m_timestamp := ts;
                      m_data := data |} in
        '(size, buffer) ← lift_res (serialize_message (Some msg)
            (Some (junk_bytes 0 (Z.to_nat BUFFER_SIZE))) BUFFER_SIZE);
        let msg_size := u64 size in
        if msg_size <=? 0 then
          LOG_ERROR 215 "request_market_data" "Failed to serialize market data request" [];;
          mret (ERROR_SERIALIZATION : Z)
        else
          c ← deref;
          sent ← send_bytes (socket c) (default [] buffer) msg_size;
          if sent <? 0 then
            e ← gets (fun s => errno (world s));
            LOG_ERROR 220 "request_market_data" "Failed to send market data request: %s"
              [LErrno e];;
            mret (ERROR_SOCKET_CONNECT : Z)
          else
            update_stats incr_messages_sent;;
            LOG_INFO 225 "request_market_data" "Requested market data for symbol: %s"
              [LStr symbol];;
            mret SUCCESS
  | _, _ => mret ERROR_INVALID_PARAM
  end.

Definition send_order (order : option Order) : M Client Z :=
  null ← context_is_null;
  match (null : bool), order with
  | false, Some order =>
      c ← deref;
      if negb (bool_decide (k_state c = CLIENT_CONNECTED)) then mret (ERROR_INVALID_STATE : Z)
      else
        ts ← time_NULL;
        let msg := {| m_type := MSG_ORDER_NEW; sequence_num := 1; m_timestamp := ts;
                      m_data := data_of order |} in
        '(size, buffer) ← lift_res (serialize_message (Some msg)
            (Some (junk_bytes 0 (Z.to_nat BUFFER_SIZE))) BUFFER_SIZE);
        let serialized_size := u64 size in
        if serialized_size <=? 0 then mret (ERROR_SERIALIZATION : Z)
        else
          c ← deref;
          sent ← send_bytes (socket c) (default [] buffer) serialized_size;
          if negb (sent =? s64 serialized_size) then mret (ERROR_SOCKET_CONNECT : Z)
          else
            update_stats incr_orders_sent;;
            update_stats incr_messages_sent;;
            mret SUCCESS
  | _, _ => mret ERROR_INVALID_PARAM
  end.

Definition send_data (data : option bytes) (size : Z) : M Client Z :=
  null ← context_is_null;
  match (null : bool), data with
  | false, Some data =>
      if size =? 0 then mret ERROR_INVALID_PARAM
      else c ← deref; send_bytes (socket c) data size
  | _, _ => mret ERROR_INVALID_PARAM
  end.

Definition receive_data (buffer : option bytes) (size : Z) : M Client (Z * option bytes) :=
  null ← context_is_null;
  match (null : bool), buffer with
  | false, Some buf =>
      if size =? 0 then mret (ERROR_INVALID_PARAM, buffer)
      else
        c ← deref;
        '(n, buf') ← sys_recv (socket c) buf size;
        mret (n, Some buf')
  | _, _ => mret (ERROR_INVALID_PARAM, buffer)
  end.
End client.

(** ** Contracts *)

(** What [cleanup_client] and [disconnect_from_server] close. *)
Definition client_descriptors (c : ClientContext) : list Z :=
  if socket c >=? 0 then [socket c] else [].

(** The address [connect_to_server] looks up. *)
Definition lookup_name (host : bytes) : bytes :=
  if bool_decide (cstr host = chars "localhost") then lit "127.0.0.1" else host.

(** The context of a connection established on [fd] at time [t]. *)
Definition established (fd t : Z) (c : ClientContext) : ClientContext :=
  set_stats (set_stat_connect_time t (k_stats c))
    (set_k_state CLIENT_CONNECTED (set_socket fd c)).

(** A non-blocking [connect] that succeeded or is under way. *)
Definition connecting (a : Answer) : Prop := 0 <= a_ret a \/ a_err a = EINPROGRESS.
Definition connect_of (fd : Z) (c : ClientContext) : Syscall :=
  SysConnect fd (server_port (k_config c) mod 2 ^ 16).
Definition lookup_of (c : ClientContext) : Syscall :=
  SysInetPton (lookup_name (server_host (k_config c))).

(** [connect_to_server] from a context that is not connected: the context [c']
    and the state [s'] it leaves with result [r], and the answers that lead
    there. *)
Inductive connect_outcome `{OS} (c c' : ClientContext) (s s' : Client) (r : Z) : Prop :=
  | bad_address name :
      answered s s' (lookup_of c) name -> a_ret name <= 0 ->
      r = ERROR_SOCKET_CONNECT -> c' = c -> opened (world s') = opened (world s) ->
      closes (world s') = closes (world s) -> connect_outcome c c' s s' r
  | no_socket name sock :
      answered s s' (lookup_of c) name -> 0 < a_ret name ->
      answered s s' SysSocket sock -> a_ret sock < 0 ->
      r = ERROR_SOCKET_CREATE -> c' = set_socket (a_ret sock) c ->
      opened (world s') = opened (world s) -> closes (world s') = closes (world s) ->
      connect_outcome c c' s s' r
  | refused fd name conn :
      answered s s' (lookup_of c) name -> 0 < a_ret name -> 0 <= fd ->
      answered s s' (connect_of fd c) conn -> ~ connecting conn ->
      r = ERROR_SOCKET_CONNECT -> c' = set_socket fd c ->
      opened (world s') = opened (world s) ++ [fd] ->
      closes (world s') = closes (world s) ++ [fd] -> connect_outcome c c' s s' r
  | no_thread fd t name conn thread :
      answered s s' (lookup_of c) name -> 0 < a_ret name -> 0 <= fd ->
      answered s s' (connect_of fd c) conn -> connecting conn ->
      answered s s' SysThreadCreate thread -> a_ret thread <> 0 ->
      r = ERROR_THREAD_CREATE -> c' = established fd t c ->
      opened (world s') = opened (world s) ++ [fd] ->
      closes (world s') = closes (world s) ++ [fd] -> connect_outcome c c' s s' r
  | connected_now fd t name conn thread :
      answered s s' (lookup_of c) name -> 0 < a_ret name -> 0 <= fd ->
      answered s s' (connect_of fd c) conn -> connecting conn ->
      answered s s' SysThreadCreate thread -> a_ret thread = 0 ->
      r = SUCCESS -> c' = set_receiver_thread (thread_handle thread) (established fd t c) ->
      callbacks_made (world s') = callbacks_made (world s) ++
        (if has_on_connect (callbacks c) then [(OnConnect, [])] else []) ->
      opened (world s') = opened (world s) ++ [fd] ->
      closes (world s') = closes (world s) -> connect_outcome c c' s s' r.

(** Examples: a fresh and a connected context; a peer that refuses. *)
Definition client_config : ClientConfig :=
  mkClientConfig (char_array 256 "localhost") 8080 3 30 2 (char_array 256 "./client.log")
    (replicate 32 NUL).
Definition new_client : ClientContext :=
  mkClientContext (-1) CLIENT_DISCONNECTED zero_client_stats client_config no_callbacks 0 0 1.
Definition connected_client : ClientContext :=
  set_k_state CLIENT_CONNECTED (set_socket 7 new_client).
Definition client_process (c : ClientContext) : Client := mkProcess initial_world 1 (Live c).
Definition os_refused : OS := {|
  answer := fun _ c => match c with
            | SysSocket => mkAnswer 7 0 []
            | SysConnect _ _ => mkAnswer (-1) 111 []
            | _ => mkAnswer 1 0 []
            end;
  wall_clock := fun _ => 0;
  strftime_local := fun _ => ""%string |}.

(** A system on which everything works, and a server that never replies. *)
Definition os_works : OS := {|
  answer := fun _ c => match c with
            | SysMutexInit _ | SysThreadCreate | SysConnect _ _ | SysReceiverPoll =>
                mkAnswer 0 0 []
            | SysSend _ bs => mkAnswer (Z.of_nat (length bs)) 0 []
            | _ => mkAnswer 7 0 []
            end;
  wall_clock := fun _ => 0;
  strftime_local := fun _ => ""%string |}.
Definition fresh_process : Client := mkProcess initial_world 1 Null.

Definition is_recv (c : Syscall) : Prop := match c with SysRecv _ _ => True | _ => False end.

(** The receiver thread was found to have ended since [s0]. *)
Definition receiver_ended `{OS} (s0 s : Client) : Prop :=
  exists a, answered s0 s SysReceiverPoll a /\ a_ret a <> 0.

(** ** Lemmas *)

Section client_lemmas.
Context `{OS} `{Indeterminate}.

Lemma wp_call_back present cb payload c (Q : unit -> Client -> Prop) s :
  p_context s = Live c ->
  (present (callbacks c) = true -> Q tt (step (SysCallback cb payload) s)) ->
  (present (callbacks c) = false -> Q tt s) ->
  wp (call_back present cb payload) Q s.
Proof.
  intros Hc Ht Hf. unfold call_back. wp_steps. apply wp_when; intros Hp; [wp_steps|]; auto.
Qed.

(** The receiver thread ends here, or not. *)
Lemma receiver_meanwhile_spec c (Q : unit -> Client -> Prop) (s : Client) :
  p_context s = Live c -> locks_held (world s) = Some [] ->
  (forall c' s', p_context s' = Live c' -> socket c' = socket c -> since s s' ->
     lines_asked (world s') = lines_asked (world s) -> wire [] s s' ->
     k_state c' = k_state c \/ k_state c' = CLIENT_DISCONNECTED /\ receiver_ended s s' ->
     Q tt s') ->
  wp receiver_meanwhile Q s.
Proof.
  intros Hc Hl HQ. unfold receiver_meanwhile, receiver_exit. wp_steps. apply wp_when; intros Hend.
  - apply andb_prop in Hend as [Hend _].
    assert (receiver_ended s (step SysReceiverPoll s)) as (a & Ha & Hnz).
    { eexists. split; [by apply answered_here, since_refl|]. lia. }
    clear Hend. wp_steps.
    eapply wp_call_back; [srv_context| |]; intros _;
      (eapply (HQ (set_k_state CLIENT_DISCONNECTED c));
       [by srv|done|by auto 10 with answered|by effects|unfold wire; effects; by rewrite Hl|];
       right; split; [done|]; exists a; split; [by auto 10 with answered|exact Hnz]).
  - eapply (HQ c); [by srv|done|by auto with answered|by effects| |by left].
    unfold wire. by effects.
Qed.

(** [resolve] asks for the one name, and succeeds when the answer is positive. *)
Lemma resolve_spec host s0 s :
  terminated host = true -> since s0 s ->
  wp (resolve host) (fun r s' =>
    p_context s' = p_context s /\ locks_held (world s') = locks_held (world s) /\
    opened (world s') = opened (world s) /\ closes (world s') = closes (world s) /\
    callbacks_made (world s') = callbacks_made (world s) /\ since s0 s' /\
    exists a, answered s0 s' (SysInetPton (lookup_name host)) a /\
      (r = SUCCESS /\ 0 < a_ret a \/ r = ERROR_SOCKET_CONNECT /\ a_ret a <= 0)) s.
Proof.
  intros Hh Hsince. unfold resolve, lookup_name.
  destruct (strcmp_eq host (lit "localhost")) as (z & Hz & Hname); [done|by vm_compute|].
  change (cstr (lit "localhost")) with (chars "localhost") in Hname.
  wp_step. eapply wp_lift; [exact Hz|]. apply wp_if; intros Hlocal;
    [rewrite bool_decide_true by (apply Hname; lia)|rewrite bool_decide_false by (intros E%Hname; lia)];
    wp_steps; (apply wp_if; intros Hle; wp_steps;
     [try (apply wp_log; [by cbn|cbn [forallb arg_ok]; by rewrite Hh|intros ?]; wp_step)|]);
    effects; (repeat (split; [by auto with answered|])); (eexists; split; [by auto with answered|]); lia.
Qed.

(** The context as [disconnect_from_server] leaves it. *)
Definition disconnected (c : ClientContext) : ClientContext :=
  mkClientContext (if socket c >=? 0 then -1 else socket c) CLIENT_DISCONNECTED (k_stats c)
    (k_config c) (callbacks c) (user_data c) 0 0.

Lemma disconnect_spec c s :
  p_context s = Live c -> locks_held (world s) = Some [] ->
  wp disconnect_from_server (fun _ s' =>
    p_context s' = Live (disconnected c) /\ locks_held (world s') = Some [] /\
    opened (world s') = opened (world s) /\
    closes (world s') = closes (world s) ++ client_descriptors c) s.
Proof.
  intros Hc Hl. destruct c as [fd st sts cfg cbs ud th run].
  unfold disconnect_from_server, client_descriptors, disconnected.
  wp_steps. cbn [socket set_k_running].
  apply wp_when; intros Hfd; rewrite Hfd; wp_steps; cbn [receiver_thread set_k_running set_socket];
    (apply wp_when; intros Hth; wp_steps; effects; rewrite Hl; split_and!; try done;
     cbn; by replace th with 0 by lia).
Qed.

Lemma cleanup_client_spec c s :
  p_context s = Live c -> locks_held (world s) = Some [] ->
  wp cleanup_client (fun _ s' =>
    p_context s' = Freed /\ locks_held (world s') = Some [] /\
    opened (world s') = opened (world s) /\
    closes (world s') = closes (world s) ++ client_descriptors c) s.
Proof.
  intros Hc Hl. unfold cleanup_client. wp_steps.
  eapply wp_mono; [by apply disconnect_spec|]. intros _ s1 (Hc1 & Hl1 & Ho1 & Hcl1).
  wp_steps. effects. by rewrite Hl1, Ho1, Hcl1.
Qed.

Lemma start_receiver_spec fd c name conn s0 s :
  p_context s = Live (set_socket fd c) -> locks_held (world s) = Some [] -> 0 <= fd ->
  terminated (server_host (k_config c)) = true ->
  since s0 s -> answered s0 s (lookup_of c) name -> 0 < a_ret name ->
  answered s0 s (connect_of fd c) conn -> connecting conn ->
  callbacks_made (world s) = callbacks_made (world s0) ->
  opened (world s) = opened (world s0) ++ [fd] -> closes (world s) = closes (world s0) ->
  wp start_receiver (fun r s' => exists c',
    p_context s' = Live c' /\ locks_held (world s') = Some [] /\
    connect_outcome c c' s0 s' r) s.
Proof.
  intros Hc Hl Hfd Hh Hsince Hname Hpos Hconn Hok Hcb Ho Hcl.
  unfold start_receiver, time_NULL, update_stats.
  wp_steps. apply wp_if; intros Hth.
  - wp_steps. eexists. effects. split; [done|]. rewrite Hl. split; [done|].
    eapply (no_thread _ _ _ _ _ fd _ name conn); try done; eauto 10 with answered.
    + srv. lia.
    + effects. by rewrite Ho.
    + effects. by rewrite Hcl.
  - wp_steps. eapply wp_call_back; [srv_context| |]; intros Hpresent; cbn in Hpresent; wp_steps;
      (apply wp_log; [by cbn|cbn; by rewrite Hh|intros ?]; wp_step;
       eexists; effects; split; [done|]; rewrite Hl; split; [done|];
       eapply (connected_now _ _ _ _ _ fd _ name conn); try done; eauto 14 with answered;
       [srv; lia..|effects; by rewrite Hpresent, ?app_nil_r, Hcb|effects; by rewrite Ho|effects; by rewrite Hcl]).
Qed.

(** The test [connect(...) < 0 && errno != EINPROGRESS] *)
Lemma connecting_test a e (b : bool) :
  (a_ret a <? 0) && negb ((if a_ret a <? 0 then a_err a else e) =? EINPROGRESS) = b ->
  if b then ~ connecting a else connecting a.
Proof. unfold connecting. destruct (a_ret a <? 0) eqn:E, b; cbn; lia. Qed.

Lemma connect_spec c s :
  p_context s = Live c -> k_state c <> CLIENT_CONNECTED ->
  terminated (server_host (k_config c)) = true -> locks_held (world s) = Some [] ->
  wp connect_to_server (fun r s' => exists c',
    p_context s' = Live c' /\ locks_held (world s') = Some [] /\
    connect_outcome c c' s s' r) s.
Proof.
  intros Hc Hst Hh Hl. unfold connect_to_server. wp_steps.
  rewrite bool_decide_false by done. wp_steps.
  eapply wp_mono; [apply (resolve_spec _ s); [done|by auto with answered]|].
  intros r s1 (Hc1 & Hl1 & Ho1 & Hcl1 & Hcb1 & Hs1 & name & Hname & Hr).
  effects. rewrite Hl in Hl1. rewrite Hc in Hc1.
  destruct Hr as [[-> Hpos]|[-> Hneg]]; cbn [Z.eqb negb error_code].
  2: { wp_steps. exists c. split; [done|]. split; [done|]. by eapply bad_address. }
  change (negb (SUCCESS =? SUCCESS)) with false. cbv iota. wp_steps.
  set (fd := a_ret (answer (trace (world s1)) SysSocket)).
  destruct (fd <? 0) eqn:Hfd.
  { wp_steps. exists (set_socket fd c). effects. fold fd. split; [done|]. split; [by rewrite Hl1|].
    eapply (no_socket _ _ _ _ _ name); eauto 10 with answered; [lia|effects; fold fd..].
    - by rewrite Hfd, app_nil_r, Ho1.
    - by rewrite Hcl1. }
  wp_steps. rewrite errno_step. apply wp_if; intros Hconn.
  - wp_steps. exists (set_socket fd c). effects. split; [done|]. split; [by rewrite Hl1|].
    eapply (refused _ _ _ _ _ fd name); eauto 10 with answered; [lia| |effects; fold fd..].
    + unfold connect_of. srv. exact (connecting_test _ _ _ Hconn).
    + by rewrite Hfd, Ho1.
    + by rewrite Hcl1.
  - eapply (start_receiver_spec fd c name); eauto 10 with answered; effects; try (done || lia).
    + unfold connect_of. srv. exact (connecting_test _ _ _ Hconn).
    + fold fd. by rewrite Hfd, Ho1.
Qed.

(** A reachable address and a refused connection. *)
Lemma refused_spec fd c s :
  p_context s = Live c -> k_state c <> CLIENT_CONNECTED ->
  terminated (server_host (k_config c)) = true -> locks_held (world s) = Some [] ->
  0 <= fd -> (forall tr, a_ret (answer tr SysSocket) = fd) ->
  (forall tr host, 0 < a_ret (answer tr (SysInetPton host))) ->
  (forall tr port, let a := answer tr (SysConnect fd port) in
     a_ret a < 0 /\ a_err a <> EINPROGRESS) ->
  wp connect_to_server (fun r s' => r = ERROR_SOCKET_CONNECT /\
    p_context s' = Live (set_socket fd c) /\ locks_held (world s') = Some [] /\
    opened (world s') = opened (world s) ++ [fd] /\
    closes (world s') = closes (world s) ++ [fd]) s.
Proof.
  intros Hc Hst Hh Hl Hfd Hsock Hpton Hconn. unfold connect_to_server. wp_steps.
  rewrite bool_decide_false by done. wp_steps.
  unfold resolve.
  destruct (strcmp_eq (server_host (k_config c)) (lit "localhost")) as (z & Hz & _);
    [done|by vm_compute|].
  assert (forall Q s0, (forall s1, p_context s1 = p_context s0 ->
      locks_held (world s1) = locks_held (world s0) -> opened (world s1) = opened (world s0) ->
      closes (world s1) = closes (world s0) -> Q SUCCESS s1) ->
    wp (resolve (server_host (k_config c))) Q s0) as Hres.
  { intros Q s0 HQ. unfold resolve. wp_step. eapply wp_lift; [exact Hz|].
    apply wp_if; intros _; wp_steps; (rewrite (proj2 (Z.leb_gt _ _)) by apply Hpton); wp_steps;
      apply HQ; by effects. }
  apply Hres. intros s1 Hc1 Hl1 Ho1 Hcl1. effects. rewrite Hc in Hc1.
  change (negb (SUCCESS =? SUCCESS)) with false. cbv iota. wp_steps. rewrite Hsock.
  rewrite (proj2 (Z.ltb_ge _ _)) by done. wp_steps.
  rewrite errno_step.
  match goal with |- context [answer ?tr (SysConnect fd ?port)] =>
    destruct (Hconn tr port) as [Hneg Herr] end.
  rewrite (proj2 (Z.ltb_lt _ _) Hneg). rewrite (proj2 (Z.eqb_neq _ _) Herr).
  cbn [andb negb]. wp_steps. effects. rewrite Hsock, Hl1, Ho1, Hcl1, Hl.
  by rewrite (proj2 (Z.ltb_ge _ _)) by done.
Qed.

(** *** What the client asks of the system *)

Lemma connect_no_recv : only (fun c => ~ is_recv c) connect_to_server.
Proof.
  unfold connect_to_server, resolve, start_receiver, call_back, update_stats, time_NULL. only_calls.
Qed.
Lemma disconnect_no_recv : only (fun c => ~ is_recv c) disconnect_from_server.
Proof. unfold disconnect_from_server. only_calls. Qed.

Lemma connect_no_send : only (fun c => as_send c = None) connect_to_server.
Proof.
  unfold connect_to_server, resolve, start_receiver, call_back, update_stats, time_NULL. only_calls.
Qed.
Lemma connect_no_fgets : only (fun c => as_fgets c = None) connect_to_server.
Proof.
  unfold connect_to_server, resolve, start_receiver, call_back, update_stats, time_NULL. only_calls.
Qed.
Lemma cleanup_no_send : only (fun c => as_send c = None) cleanup_client.
Proof. unfold cleanup_client, disconnect_from_server. only_calls. Qed.

(** The context [initialize_client] builds. *)
Definition initialized (cfg : ClientConfig) (cbs : option ClientCallbacks) (data : Z)
    : ClientContext :=
  mkClientContext (-1) CLIENT_DISCONNECTED zero_client_stats cfg (default no_callbacks cbs)
    data 0 1.

Lemma initialize_client_spec cfg cbs data s :
  wp (initialize_client (Some cfg) cbs data) (fun p s' =>
    bystander s s' /\ (p = Null \/ p = Live (initialized cfg cbs data))) s.
Proof.
  assert (forall c s1, bystander s s1 -> as_poll c = None -> is_lock_call c = false ->
    as_close c = None -> as_send c = None -> as_fgets c = None -> (forall a, as_opened (c, a) = None) ->
    bystander s (step c s1)) as Hnext.
  { intros. eapply bystander_trans; [done|by apply bystander_step]. }
  assert (forall l s1, bystander s s1 -> bystander s (put_log l s1)) as Hlog.
  { intros. eapply bystander_trans; [done|by apply bystander_same_trace]. }
  pose proof (bystander_refl s) as H0'.
  unfold initialize_client, calloc. wp_steps.
  apply wp_if; intros _; wp_steps; [split; [|by left]; auto|].
  apply wp_if; intros _; wp_steps; cbv iota; wp_steps; [split; [|by left]; auto 10|].
  apply wp_if; intros _; wp_steps; (split; [|by auto]; auto 10).
Qed.

(** *** Sending *)

Lemma send_bytes_or_exit fd buffer k p (Q : Z -> Client -> Prop) E s :
  (k <= length buffer)%nat -> take k buffer = p ->
  (let a := answer (trace (world s)) (SysSend fd p) in
   let s' := step (SysSend fd p) s in
   (broken_pipe a = true -> E (128 + SIGPIPE) s') /\
   (broken_pipe a = false -> Q (taken a p) s')) ->
  wp_or_exit (send_bytes fd buffer (Z.of_nat k)) Q E s.
Proof.
  intros Hk <- [HE HQ]. unfold send_bytes. rewrite (proj2 (Z.leb_le _ _)) by lia.
  rewrite Nat2Z.id. by apply wp_or_exit_send.
Qed.

Lemma send_bytes_spec fd buffer k p (Q : Z -> Client -> Prop) s :
  no_broken_pipe -> (k <= length buffer)%nat -> take k buffer = p ->
  Q (taken (answer (trace (world s)) (SysSend fd p)) p) (step (SysSend fd p) s) ->
  wp (send_bytes fd buffer (Z.of_nat k)) Q s.
Proof.
  intros Hpipe Hk Hp HQ. apply (wp_or_exit_wp _ _ (fun _ _ => False)); [|auto].
  eapply send_bytes_or_exit; [done|exact Hp|]. cbv zeta. rewrite Hpipe. by split.
Qed.

(** How every client program begins: a context, then a connection.  [idle s0 s]:
    since [s0] nothing was sent and nothing read from the user, and no lock is
    held. *)
Definition idle (s0 s : Client) : Prop :=
  locks_held (world s) = Some [] /\ sends (world s) = sends (world s0) /\
  lines_asked (world s) = lines_asked (world s0) /\ since s0 s.

(** A connected client on the new socket [fd]. *)
Definition on_line (c : ClientContext) (fd : Z) (s0 s : Client) : Prop :=
  p_context s = Live c /\ k_state c = CLIENT_CONNECTED /\ socket c = fd /\ 0 <= fd /\
  opened (world s) = opened (world s0) ++ [fd] /\ closes (world s) = closes (world s0).

Lemma client_start_spec cfg cbs data (no_context no_connection connected : M Client Z)
    (Q : Z -> Client -> Prop) (s0 s : Client) :
  bystander s0 s -> locks_held (world s0) = Some [] -> terminated (server_host cfg) = true ->
  (forall s1, idle s0 s1 -> p_context s1 = Null -> wp no_context Q s1) ->
  (forall c s1, idle s0 s1 -> p_context s1 = Live c -> wp no_connection Q s1) ->
  (forall c fd s1, idle s0 s1 -> on_line c fd s0 s1 -> wp connected Q s1) ->
  wp (p ← initialize_client (Some cfg) cbs data;
      modify (set_context p);;
      match p with
      | Live _ =>
          r ← connect_to_server; if negb (r =? SUCCESS) then no_connection else connected
      | _ => no_context
      end) Q s.
Proof.
  intros Hb Hl Hhost Hnull Hfail Hok. wp_step.
  eapply wp_mono; [apply initialize_client_spec|]. intros p s1 [B1 Hp].
  assert (bystander s0 s1) as ((_ & _ & L1 & _) & O1 & C1 & S1 & K1 & T1)
    by (by eapply bystander_trans).
  rewrite Hl in L1. wp_step. wp_step.
  destruct Hp as [->| ->]; [apply Hnull; [by unfold idle; auto with answered|by srv]|]. wp_step.
  eapply wp_mono; [eapply wp_since; [apply connect_no_fgets|];
    apply wp_no_fgets; [apply connect_no_fgets|];
    apply wp_no_send; [apply connect_no_send|]; eapply connect_spec; [srv_context|done|done|by srv]|].
  intros r s2 [[[(c & Hc & L2 & Hout) S2] K2] T2]. srv.
  assert (idle s0 s2) as Hidle.
  { unfold idle. rewrite L2, S2, S1, K2, K1. split_and!; [done..|].
    eapply since_trans; [exact T1|exact T2]. }
  apply wp_if; intros Hr; [by eapply Hfail|].
  destruct Hout as [| | |? ? ? ? ? _ _ _ _ _ _ _ ->|fd t ? ? ? _ _ Hfd _ _ _ _ -> -> _ O2 C2];
    try (by subst); try done.
  eapply (Hok _ fd s2); [done|]. unfold on_line. srv. by rewrite O2, C2, O1, C1.
Qed.

(** Leaving without having sent anything, after a message in the log. *)
Lemma cleanup_idle c (s0 s : Client) :
  idle s0 s -> p_context s = Live c ->
  wp cleanup_client (fun _ s' => p_context s' = Freed /\ locks_held (world s') = Some [] /\
    sends (world s') = sends (world s0)) s.
Proof.
  intros (L & S & _) Hc. eapply wp_mono;
    [apply wp_no_send; [apply cleanup_no_send|]; by eapply cleanup_client_spec|].
  intros _ s' [(Hc' & L' & _) S']. by rewrite S', S.
Qed.

(** Leaving a connection on which [l] was sent. *)
Lemma cleanup_on_line c l fd (s0 s1 s : Client) :
  idle s0 s1 -> on_line c fd s0 s1 -> wire l s1 s ->
  (exists c', p_context s = Live c' /\ socket c' = fd) ->
  wp cleanup_client (fun _ s' => p_context s' = Freed /\ locks_held (world s') = Some [] /\
    sends (world s') = sends (world s0) ++ l /\ opened (world s') = opened (world s0) ++ [fd] /\
    closes (world s') = closes (world s0) ++ [fd]) s.
Proof.
  intros (L1 & S1 & _) (_ & _ & _ & Hfd & O1 & C1) (L & O & C & S) (c' & Hc' & Hs').
  rewrite L1 in L. eapply wp_mono;
    [apply wp_no_send; [apply cleanup_no_send|]; by eapply cleanup_client_spec|].
  intros _ s' [(Hc2 & L2 & O2 & C2) S2]. rewrite S2, S, S1, O2, O, O1, C2, C, C1.
  unfold client_descriptors. rewrite Hs', (proj2 (Z.geb_le _ _)) by done. done.
Qed.

(** The packet an order travels in. *)
Definition order_packet (o : Order) : bytes := packet MSG_ORDER_NEW (encode junk o).

Lemma length_order_packet o : wf_Order o -> length (order_packet o) = 148%nat.
Proof.
  intros Hwf. unfold order_packet. rewrite length_packet.
  assert (length (encode junk o) = 128%nat) as -> by exact (length_encode junk o Hwf). done.
Qed.

(** Counting an order that left. *)
Definition count_order (c : ClientContext) : ClientContext :=
  set_stats (incr_messages_sent (incr_orders_sent (k_stats c))) c.

Lemma send_order_spec c o s :
  p_context s = Live c -> k_state c = CLIENT_CONNECTED -> wf_Order o ->
  let fd := socket c in let p := order_packet o in
  wp_or_exit (send_order (Some o)) (fun r s' => wire [(fd, p)] s s' /\
    exists a, answered s s' (SysSend fd p) a /\ broken_pipe a = false /\
      if taken a p =? 148
      then r = SUCCESS /\ p_context s' = Live (count_order c)
      else r = ERROR_SOCKET_CONNECT /\ p_context s' = Live c)
   (fun code s' => wire [(fd, p)] s s' /\ p_context s' = Live c /\ code = 128 + SIGPIPE /\
    exists a, answered s s' (SysSend fd p) a /\ broken_pipe a = true) s.
Proof.
  intros Hc Hst Hwf fd p. unfold send_order, time_NULL, update_stats.
  apply wp_or_exit_after. wp_steps. apply wp_or_exit_after. wp_steps.
  rewrite bool_decide_true by done. cbn [negb]. apply wp_or_exit_after. wp_steps.
  pose proof (length_data_of o Hwf ltac:(by vm_compute; lia)) as Hd.
  destruct (serialize_local MSG_ORDER_NEW 1 (a_ret (answer (trace (world s)) SysTime))
    (data_of o) (size_of Order) eq_refl Hd) as (b & Hser & Hb & Hp).
  assert (take (size_of Order) (data_of o) = encode junk o) as Htake
    by exact (take_data_of o Hwf).
  rewrite Htake in Hp. fold (order_packet o) p in Hp.
  apply wp_or_exit_after. eapply wp_lift; [exact Hser|]. cbv beta iota.
  change (u64 (Z.of_nat (HEADER_SIZE + size_of Order))) with (Z.of_nat 148).
  change (Z.of_nat 148 <=? 0) with false. cbv iota. cbn [from_option]. unfold id.
  apply wp_or_exit_after. wp_steps. apply wp_or_exit_bind. fold fd.
  eapply send_bytes_or_exit; [rewrite Hb; by vm_compute; lia|exact Hp|]. cbv zeta.
  clear Hser Hb Hp Hd Htake b. change (s64 (Z.of_nat 148)) with 148.
  split; intros Hpipe.
  - split; [unfold wire; by effects|]. srv. split; [done|]. split; [done|].
    eexists. split; [by auto with answered|by srv].
  - apply wp_or_exit_ret. apply wp_if; intros Htaken; wp_steps;
      (split; [unfold wire; by effects|]; eexists; split; [by auto with answered|]; srv;
       split; [done|]).
    + by rewrite (proj1 (negb_true_iff _) Htaken).
    + by rewrite (proj1 (negb_false_iff _) Htaken).
Qed.

(** The same when no pipe breaks, connected or not. *)
Lemma send_order_round c o (Q : Z -> Client -> Prop) s :
  no_broken_pipe -> p_context s = Live c -> wf_Order o ->
  let fd := socket c in let p := order_packet o in
  (k_state c = CLIENT_CONNECTED -> forall c' s' a, p_context s' = Live c' -> socket c' = fd ->
     wire [(fd, p)] s s' -> answered s s' (SysSend fd p) a ->
     Q (if taken a p =? 148 then SUCCESS else (ERROR_SOCKET_CONNECT : Z)) s') ->
  (k_state c <> CLIENT_CONNECTED -> Q (ERROR_INVALID_STATE : Z) s) ->
  wp (send_order (Some o)) Q s.
Proof.
  intros Hpipe Hc Hwf fd p Hon Hoff. destruct (decide (k_state c = CLIENT_CONNECTED)) as [Hst|Hst].
  - eapply wp_or_exit_wp; [eapply wp_or_exit_mono; [by eapply send_order_spec|..]|].
    + intros r s' (Hw & a & Ha & _ & Hr). specialize (Hon Hst).
      destruct (taken a _ =? 148) eqn:Et; destruct Hr as [-> Hc'];
        specialize (Hon _ _ a Hc' eq_refl Hw Ha); fold p in Et; by rewrite Et in Hon.
    + intros code s' He. exact He.
    + intros code s' (_ & _ & _ & a & Ha & Hbroken).
      by rewrite (answered_unbroken _ _ _ _ _ Hpipe Ha) in Hbroken.
  - unfold send_order. wp_steps. rewrite bool_decide_false by done. wp_steps. by apply Hoff.
Qed.
End client_lemmas.

(** The receiver of a context that was told to stop. *)
Lemma stopped_receiver_spec `{OS} `{Indeterminate} fuel c s :
  p_context s = Live c -> running c = 0 -> locks_held (world s) = Some [] ->
  wp (message_receiver_thread fuel) (fun _ s' =>
    p_context s' = Live (set_k_state CLIENT_DISCONNECTED c) /\
    locks_held (world s') = Some [] /\
    exists l, calls (trace (world s')) = calls (trace (world s)) ++ l /\
      Forall (fun e => ~ is_recv e) l) s.
Proof.
  intros Hc Hrun Hl. unfold message_receiver_thread, receiver_exit.
  assert (forall Q : unit -> Client -> Prop, (forall s1, p_context s1 = Live c -> locks_held (world s1) = Some [] ->
    calls (trace (world s1)) = calls (trace (world s)) ++ [SysRunningPoll] -> Q tt s1) ->
    wp (receiver_loop fuel (junk_bytes 0 (Z.to_nat BUFFER_SIZE)) uninitialised_message) Q s)
    as Hloop.
  { intros Q HQ. assert (wp running_test (fun r s1 => r = false /\ p_context s1 = Live c /\
      locks_held (world s1) = Some [] /\
      calls (trace (world s1)) = calls (trace (world s)) ++ [SysRunningPoll]) s) as Htest.
    { unfold running_test. wp_steps. apply wp_when; intros _; wp_steps; cbn [running set_k_running];
        rewrite ?Hrun; effects; rewrite Hl; unfold calls; rewrite map_app;
        (split; [done|]; split; [|done]); [by destruct c; cbn in *; subst|done]. }
    destruct fuel; cbn [receiver_loop]; wp_step; (eapply wp_mono; [exact Htest|]);
      intros ? s1 (-> & ? & ? & ?); cbn [negb]; wp_step; by apply HQ. }
  wp_step. apply Hloop. intros s1 Hc1 Hl1 Ht1. wp_steps.
  eapply wp_call_back; [srv_context| |]; intros _; wp_steps; effects; rewrite Hl1;
    (split; [done|]; split; [done|]); unfold calls in *; rewrite ?map_app, Ht1, <- ?app_assoc;
    (eexists; split; [done|]; repeat (apply Forall_cons_2; [cbn; tauto|]); apply Forall_nil_2).
Qed.

(** ** Properties *)

Section client_properties.
Context `{OS} `{Indeterminate}.


(** A refused connection is closed twice: [connect_to_server] closes the
    descriptor and leaves its number in the context, so [cleanup_client], which
    the program calls next, closes that number again. *)
Theorem refused_connection_closed_twice (fd : Z) (c : ClientContext) (s : Client) :
  p_context s = Live c -> k_state c <> CLIENT_CONNECTED ->
  terminated (server_host (k_config c)) = true -> locks_held (world s) = Some [] ->
  0 <= fd -> (forall tr, a_ret (answer tr SysSocket) = fd) ->
  (forall tr host, 0 < a_ret (answer tr (SysInetPton host))) ->
  (forall tr port, let a := answer tr (SysConnect fd port) in
     a_ret a < 0 /\ a_err a <> EINPROGRESS) ->
  wp (r ← connect_to_server; cleanup_client;; mret r) (fun r s' =>
    r = ERROR_SOCKET_CONNECT /\ opened (world s') = opened (world s) ++ [fd] /\
    closes (world s') = closes (world s) ++ [fd; fd]) s.
Proof.
  intros Hc Hst Hh Hl Hfd Hsock Hpton Hconn.
  wp_step. eapply wp_mono.
  { by eapply (refused_spec fd c). }
  intros r s1 (-> & Hc1 & Hl1 & Ho1 & Hcl1). wp_step.
  eapply wp_mono; [by eapply cleanup_client_spec|].
  intros _ s2 (_ & _ & Ho2 & Hcl2). wp_step. rewrite Ho2, Hcl2, Ho1, Hcl1.
  unfold client_descriptors. cbn [socket set_socket].
  replace (fd >=? 0) with true by lia. by rewrite <- app_assoc.
Qed.

(** C25. A client cannot come back: [disconnect_from_server] clears [running] and
    nothing sets it again, so after a reconnection, successful or not, the
    receiver thread ends at its first test, having received nothing, and leaves
    the state [CLIENT_DISCONNECTED]. *)
Theorem reconnected_receiver_exits (fuel : nat) (c : ClientContext) (s : Client) :
  p_context s = Live c -> terminated (server_host (k_config c)) = true ->
  locks_held (world s) = Some [] ->
  wp (disconnect_from_server;; r ← connect_to_server; message_receiver_thread fuel;; mret r)
    (fun r s' => exists c', p_context s' = Live c' /\ running c' = 0 /\
      k_state c' = CLIENT_DISCONNECTED /\
      exists l, calls (trace (world s')) = calls (trace (world s)) ++ l /\
        Forall (fun e => ~ is_recv e) l) s.
Proof.
  intros Hc Hh Hl.
  pose proof (disconnect_spec c s Hc Hl) as Hd.
  apply wp_run in Hd as (u & s1 & R1 & Hc1 & Hl1 & _ & _).
  pose proof (connect_spec (disconnected c) s1 Hc1 ltac:(done) Hh Hl1) as Hcon.
  apply wp_run in Hcon as (r & s2 & R2 & c2 & Hc2 & Hl2 & Hout).
  assert (running c2 = 0) as Hrun by (destruct Hout; subst; done).
  wp_step. eapply wp_val; [exact R1|]. wp_step. eapply wp_val; [exact R2|]. wp_step.
  eapply wp_mono; [by apply (stopped_receiver_spec fuel c2)|].
  intros _ s3 (Hc3 & _ & l3 & Ht3 & Hf3). wp_step.
  apply (only_made _ _ _ _ _ disconnect_no_recv) in R1 as (l1 & Ht1 & Hf1).
  apply (only_made _ _ _ _ _ connect_no_recv) in R2 as (l2 & Ht2 & Hf2).
  eexists. split; [done|]. split; [done|]. split; [done|].
  exists (l1 ++ l2 ++ l3). rewrite Ht3, Ht2, Ht1, <- !app_assoc.
  split; [done|]. by repeat apply Forall_app_2.
Qed.

(** C13. [send_order] on a connected client hands the kernel exactly one packet,
    the order's, on the client's socket, and the answer decides: on a connection
    the peer has closed the process is killed by [SIGPIPE]; when the kernel took
    all 148 bytes the result is [SUCCESS] and the order is counted; otherwise the
    result is [ERROR_SOCKET_CONNECT] and the context is unchanged.  On a client
    that is not connected nothing is asked of the system.  A receiver that has the
    bytes of the packet, followed by anything, decodes the same order. *)
Theorem send_order_correct (o : Order) (c : ClientContext) (s : Client) (m0 : Message)
    (rest : bytes) :
  p_context s = Live c -> wf_Order o -> length (m_data m0) = DATA_SIZE ->
  let p := order_packet o in
  let handed s' a := sends (world s') = sends (world s) ++ [(socket c, p)] /\
    answered s s' (SysSend (socket c) p) a in
  wp_or_exit (send_order (Some o)) (fun r s' =>
    if bool_decide (k_state c = CLIENT_CONNECTED) then
      exists a, handed s' a /\ broken_pipe a = false /\
        if taken a p =? 148
        then r = SUCCESS /\ p_context s' = Live (count_order c)
        else r = ERROR_SOCKET_CONNECT /\ p_context s' = Live c
    else r = ERROR_INVALID_STATE /\ trace (world s') = trace (world s))
   (fun code s' => k_state c = CLIENT_CONNECTED /\ code = 128 + SIGPIPE /\
    exists a, handed s' a /\ broken_pipe a = true) s /\
  exists m1,
    deserialize_message (Some (p ++ rest)) 148 (Some m0) =
      Val (serial_code SERIAL_SUCCESS, Some m1) /\
    m_type m1 = MSG_ORDER_NEW /\ load (m_data m1) 0 = o.
Proof.
  intros Hc Hwf Hd p handed. split.
  - destruct (decide (k_state c = CLIENT_CONNECTED)) as [Hst|Hst].
    + rewrite bool_decide_true by done.
      eapply wp_or_exit_mono; [by apply send_order_spec|..].
      * intros r s' ((_ & _ & _ & Hs) & a & Ha & Hr). by exists a.
      * intros code s' ((_ & _ & _ & Hs) & _ & -> & a & Ha & Hr).
        split; [done|]. split; [done|]. by exists a.
    + rewrite bool_decide_false by done. apply wp_or_exit_ret. unfold send_order. wp_steps.
      rewrite bool_decide_false by done. by wp_steps.
  - assert (length (encode junk o) = 128%nat) as Hlen by exact (length_encode junk o Hwf).
    exists (received m0 MSG_ORDER_NEW (encode junk o)). split_and!.
    + unfold p, order_packet. apply deserialize_packet; [unfold is_u32; cbn; lia|by rewrite Hlen|done|].
      rewrite length_app, length_packet, Hlen. unfold HEADER_SIZE. lia.
    + done.
    + transitivity (load (A:=Order) (data_of o) 0); [|by apply load_data_of].
      apply load_ext. rewrite take_data_of by done. apply received_data; [done|exact Hlen|by vm_compute; lia].
Qed.
End client_properties.


Lemma refused_connection_closed_twice_witness :
  let os := os_refused in
  wp (r ← @connect_to_server os; @cleanup_client os;; mret r) (fun r s' =>
    r = ERROR_SOCKET_CONNECT /\ opened (world s') = [7] /\ closes (world s') = [7; 7])
    (client_process new_client).
Proof.
  intros os.
  assert (k_state new_client <> CLIENT_CONNECTED) as Hst by discriminate.
  assert (terminated (server_host (k_config new_client)) = true) as Hh by (by vm_compute).
  refine (@refused_connection_closed_twice os 7 new_client (client_process new_client) eq_refl
    Hst Hh eq_refl _ _ _ _).
  - lia.
  - done.
  - intros tr host. cbn. lia.
  - intros tr port. cbn. split; [lia|discriminate].
Defined.

Lemma reconnected_receiver_exits_witness :
  let os := os_const 0 0 [] in
  wp (@disconnect_from_server os;; r ← @connect_to_server os;
      @message_receiver_thread os zero_junk 5;; mret r)
    (fun r s' => exists c', p_context s' = Live c' /\ running c' = 0 /\
      k_state c' = CLIENT_DISCONNECTED /\
      exists l, calls (trace (world s')) = calls (trace initial_world) ++ l /\
        Forall (fun e => ~ is_recv e) l) (client_process connected_client).
Proof.
  intros os.
  assert (terminated (server_host (k_config connected_client)) = true) as Hh by (by vm_compute).
  exact (@reconnected_receiver_exits os zero_junk 5 connected_client
    (client_process connected_client) eq_refl Hh eq_refl).
Defined.

Lemma send_order_correct_witness :
  let os := os_const 148 0 [] in
  let p := @order_packet zero_junk test_order in
  let s := client_process connected_client in
  wp_or_exit (@send_order os zero_junk (Some test_order)) (fun r s' =>
    sends (world s') = [(7, p)] /\ r = SUCCESS /\
    p_context s' = Live (count_order connected_client)) (fun _ _ => False) s /\
  exists m1,
    deserialize_message (Some (p ++ [])) 148 (Some test_decoded) =
      Val (serial_code SERIAL_SUCCESS, Some m1) /\
    m_type m1 = MSG_ORDER_NEW /\ load (m_data m1) 0 = test_order.
Proof.
  intros os p s.
  assert (wf_Order test_order) as Hwf by (apply (bool_decide_unpack _); by vm_compute).
  pose proof (@send_order_correct os zero_junk test_order connected_client s test_decoded [] eq_refl
    Hwf eq_refl) as [Hsend Hdec].
  split; [|exact Hdec]. rewrite bool_decide_true in Hsend by done.
  eapply wp_or_exit_mono; [exact Hsend|..].
  - intros r s' (a & [Hs (l & l' & _ & ->)] & _ & Hr).
    unfold taken in Hr. rewrite length_order_packet in Hr by exact Hwf. exact (conj Hs Hr).
  - intros code s' (_ & _ & a & [_ (l & l' & _ & ->)] & [=]).
Defined.
