(* ===== verification/Receiver.v ===== *)
(** * The receiver of the client library

    [message_receiver_thread] on a connection that brings packets, silence and
    bytes that are rejected, one at a time, and is then closed: every report
    reaches its callback, once and in order. *)

From Stdlib Require Import Strings.Byte.
From S2P Require Import Prelude CMem CString CDouble Types Serialization World Logger Process.
From S2P Require Import Client.

(** ** The contract *)

(** A packet on the connection: its type and its payload. *)
Abbreviation Report := (MessageType * bytes)%type.
Definition travels (r : Report) : Prop := wire_size r.1 = Some (length r.2).

(** The callback a report is delivered to, if one is installed. *)
Definition delivery (cbs : ClientCallbacks) (r : Report) : option (Callback * bytes) :=
  match r.1 with
  | MSG_MARKET_DATA => if has_on_market_data cbs then Some (OnMarketData, r.2) else None
  | MSG_TRADE_EXEC => if has_on_trade cbs then Some (OnTrade, r.2) else None
  | _ => None
  end.
Definition farewell (cbs : ClientCallbacks) : list (Callback * bytes) :=
  if has_on_disconnect cbs then [(OnDisconnect, [])] else [].

(** How a report is counted. *)
Definition counted (st : ClientStats) (r : Report) : ClientStats :=
  match r.1 with
  | MSG_TRADE_EXEC => incr_trades_received (incr_messages_received st)
  | _ => incr_messages_received st
  end.

Definition as_recv (c : Syscall) : option unit :=
  match c with SysRecv _ _ => Some tt | _ => None end.
Definition receives (w : World) : nat := length (omap as_recv (calls (trace w))).

(** What one [recv] on the non-blocking socket can bring: nothing yet, a packet, or
    bytes that [deserialize_message] rejects. *)
Inductive Arrival : Type := Silence | Arrives (r : Report) | Noise (bs : bytes).

Definition rejected (bs : bytes) : Prop :=
  forall msg, length (m_data msg) = DATA_SIZE -> exists code m',
    deserialize_message (Some bs) (Z.of_nat (length bs)) (Some msg) = Val (code, m') /\
    code <> SUCCESS.

Definition can_arrive (x : Arrival) : Prop :=
  match x with
  | Silence => True
  | Arrives r => travels r
  | Noise bs => (0 < length bs <= Z.to_nat BUFFER_SIZE)%nat /\ rejected bs
  end.

Definition brings (x : Arrival) (a : Answer) : Prop :=
  match x with
  | Silence => a_ret a < 0 /\ (a_err a = EAGAIN \/ a_err a = EWOULDBLOCK)
  | Arrives r => 0 <= a_ret a /\ a_data a = packet r.1 r.2
  | Noise bs => 0 <= a_ret a /\ a_data a = bs
  end.

(** The reports among them. *)
Fixpoint reports_in (xs : list Arrival) : list Report :=
  match xs with
  | [] => []
  | Arrives r :: xs' => r :: reports_in xs'
  | _ :: xs' => reports_in xs'
  end.

(** From the [k0]-th call on, [recv] brings these, one per call, and then the end
    of the connection. *)
Definition connection_delivers `{OS} (xs : list Arrival) (k0 : nat) : Prop :=
  forall tr fd, let k := length (omap as_recv (calls tr)) in
  let a := answer tr (SysRecv fd BUFFER_SIZE) in
  (k0 <= k)%nat ->
  match (xs !! (k - k0)%nat : option Arrival) with
  | Some x => brings x a
  | None => 0 <= a_ret a /\ a_data a = []
  end.

(** Nobody clears [running] from outside. *)
Definition left_running `{OS} : Prop := forall tr, a_ret (answer tr SysRunningPoll) = 0.

(** ** Lemmas *)

Section receiver_lemmas.
Context `{OS} `{Indeterminate}.

Lemma receives_step c (s : Client) :
  receives (world (step c s)) = (receives (world s) + length (omap as_recv [c]))%nat.
Proof. unfold receives, calls. by rewrite trace_step, map_app, omap_app, length_app. Qed.
Lemma receives_put_log l (s : Client) : receives (world (put_log l s)) = receives (world s).
Proof. done. Qed.
Lemma receives_set_context p (s : Client) :
  receives (world (set_context p s)) = receives (world s).
Proof. done. Qed.

Lemma connection_next x xs k : connection_delivers (x :: xs) k -> connection_delivers xs (S k).
Proof.
  intros Hs tr fd k' a Hk. specialize (Hs tr fd ltac:(lia)). fold k' a in Hs.
  replace (k' - k)%nat with (S (k' - S k)) in Hs by lia. exact Hs.
Qed.

(** What is rejected on its own is rejected at the start of a larger buffer. *)
Lemma rejected_in_buffer bs rest msg :
  rejected bs -> length (m_data msg) = DATA_SIZE -> exists code t,
    deserialize_message (Some (bs ++ rest)) (Z.of_nat (length bs)) (Some msg) =
      Val (code, Some (set_type t msg)) /\ code <> SUCCESS.
Proof.
  intros Hrej Hd. destruct (Hrej msg Hd) as (code & m' & Hrun & Hcode). exists code.
  rewrite deserialize_message_spec in Hrun |- * by (rewrite ?length_app; lia || done).
  assert (Some msg = Some (set_type (m_type msg) msg)) as Hself by (by destruct msg).
  unfold deserialize_spec in *.
  destruct (Z.ltb_spec (Z.of_nat (length bs)) (Z.of_nat HEADER_SIZE)).
  { injection Hrun as <- <-. exists (m_type msg). by rewrite <- Hself. }
  rewrite take_app_le by lia. set (h := decode_header _) in *. clearbody h.
  destruct (negb (header_ok h)).
  { injection Hrun as <- <-. exists (m_type msg). by rewrite <- Hself. }
  destruct (_ <? message_size h).
  { injection Hrun as <- <-. exists (m_type msg). by rewrite <- Hself. }
  destruct (Z.ltb_spec (Z.of_nat (length bs)) (Z.of_nat HEADER_SIZE + payload_size h));
    [discriminate|].
  rewrite (proj2 (Z.ltb_ge _ _)) by (rewrite length_app; lia).
  rewrite slice_app_l by lia.
  destruct (negb _).
  { injection Hrun as <- <-. exists (m_type msg). by rewrite <- Hself. }
  destruct (wire_size (h_type h)) as [n|];
    [destruct (_ =? Z.of_nat n); injection Hrun as <- <-; [done|]|injection Hrun as <- <-];
    by exists (h_type h).
Qed.

Lemma wp_recv_data bs fd buffer (Q : Z * bytes -> Client -> Prop) (s : Client) :
  let a := answer (trace (world s)) (SysRecv fd BUFFER_SIZE) in
  0 <= a_ret a -> a_data a = bs -> (length bs <= Z.to_nat BUFFER_SIZE)%nat ->
  length buffer = Z.to_nat BUFFER_SIZE ->
  Q (Z.of_nat (length bs), bs ++ drop (length bs) buffer) (step (SysRecv fd BUFFER_SIZE) s) ->
  wp (sys_recv fd buffer BUFFER_SIZE) Q s.
Proof.
  intros a Hret Hdata Hbs Hlen HQ. unfold sys_recv. wp_steps. fold a.
  rewrite (proj2 (Z.ltb_ge _ _)), Hdata, take_ge by done. wp_step.
  eapply wp_lift; [apply memcpy_exact; lia|]. wp_step. by rewrite overwrite_0_app.
Qed.

Lemma wp_recv_fails fd buffer (Q : Z * bytes -> Client -> Prop) (s : Client) :
  a_ret (answer (trace (world s)) (SysRecv fd BUFFER_SIZE)) < 0 ->
  Q (-1, buffer) (step (SysRecv fd BUFFER_SIZE) s) -> wp (sys_recv fd buffer BUFFER_SIZE) Q s.
Proof.
  intros Hret HQ. unfold sys_recv. wp_steps. rewrite (proj2 (Z.ltb_lt _ _)) by done. by wp_step.
Qed.

(** One [recv] into the receiver's buffer. *)
Lemma receive_arrival xs fd buffer (Q : Z * bytes -> Client -> Prop) (s : Client) :
  connection_delivers xs (receives (world s)) -> length buffer = Z.to_nat BUFFER_SIZE ->
  Forall can_arrive xs ->
  let s' := step (SysRecv fd BUFFER_SIZE) s in
  match xs with
  | [] => Q (0, buffer) s'
  | Silence :: _ => errno (world s') = EAGAIN \/ errno (world s') = EWOULDBLOCK ->
      Q (-1, buffer) s'
  | Arrives r :: _ => forall rest, length (packet r.1 r.2 ++ rest) = Z.to_nat BUFFER_SIZE ->
      Q (Z.of_nat (HEADER_SIZE + length r.2), packet r.1 r.2 ++ rest) s'
  | Noise bs :: _ => forall rest, length (bs ++ rest) = Z.to_nat BUFFER_SIZE ->
      Q (Z.of_nat (length bs), bs ++ rest) s'
  end -> wp (sys_recv fd buffer BUFFER_SIZE) Q s.
Proof.
  intros Hin Hlen Htr s' HQ. pose proof (Hin (trace (world s)) fd (Nat.le_refl _)) as Hx.
  unfold receives in Hx. rewrite Nat.sub_diag in Hx.
  destruct xs as [|x xs]; [|apply Forall_inv in Htr; destruct x as [|r|bs]];
    cbn [lookup list_lookup brings can_arrive] in *.
  - destruct Hx as [Hret Hdata]. apply (wp_recv_data []); (done || cbn; lia).
  - destruct Hx as [Hret Herr]. apply wp_recv_fails; [done|]. apply HQ. subst s'.
    rewrite errno_step. cbv zeta. by rewrite (proj2 (Z.ltb_lt _ _)).
  - destruct Hx as [Hret Hdata]. pose proof (wire_size_le _ _ Htr) as Hle. cbn in Hle.
    assert (length (packet r.1 r.2) <= Z.to_nat BUFFER_SIZE)%nat as Hp
      by (rewrite length_packet; unfold HEADER_SIZE, BUFFER_SIZE; lia).
    apply (wp_recv_data (packet r.1 r.2)); [done..|]. rewrite length_packet. apply HQ.
    rewrite length_app, length_drop, length_packet in *. lia.
  - destruct Hx as [Hret Hdata]. apply (wp_recv_data bs); [done|done|lia|done|]. apply HQ.
    rewrite length_app, length_drop. lia.
Qed.
End receiver_lemmas.

#[export] Hint Rewrite
  @receives_step @receives_put_log @receives_set_context : srv.

(** *** One round and the whole thread *)

Section receiver_loop.
Context `{OS} `{Indeterminate}.

(** A context whose receiver runs, with what was counted so far. *)
Definition receiving (c : ClientContext) (st : ClientStats) (s : Client) : Prop :=
  p_context s = Live (set_stats st c).

Lemma deliver_spec c st m0 r (s : Client) :
  receiving c (incr_messages_received st) s -> travels r -> length (m_data m0) = DATA_SIZE ->
  wp (deliver (received m0 r.1 r.2)) (fun _ s' =>
    receiving c (counted st r) s' /\ receives (world s') = receives (world s) /\
    locks_held (world s') = locks_held (world s) /\
    callbacks_made (world s') = callbacks_made (world s) ++
      option_list (delivery (callbacks c) r)) s.
Proof.
  intros Hc Hw Hd. destruct r as [t payload]. unfold travels in Hw. cbn [fst snd] in *.
  unfold deliver, update_stats, delivery, counted, receiving in *. cbn [fst snd m_type received].
  rewrite message_type_of_code_code.
  pose proof (wire_size_le _ _ Hw) as Hle.
  assert (forall n, n = length payload -> take n (m_data (received m0 t payload)) = payload) as Htake.
  { intros n ->. apply received_data; [done|done|unfold DATA_SIZE; lia]. }
  destruct t; try discriminate Hw; injection Hw as Hw.
  1-3: wp_steps; srv; by rewrite app_nil_r.
  - rewrite Htake by exact Hw.
    eapply wp_call_back; [exact Hc| |]; cbn [callbacks set_stats]; intros ->; effects; done.
  - rewrite Htake by exact Hw. wp_step.
    eapply wp_call_back; [exact Hc| |]; cbn [callbacks set_stats]; intros ->; wp_steps; effects;
      done.
Qed.

(** The test of the loop when nobody clears [running]. *)
Lemma wp_running_test c (Q : bool -> Client -> Prop) (s : Client) :
  left_running -> p_context s = Live c -> running c <> 0 ->
  Q true (step SysRunningPoll s) -> wp running_test Q s.
Proof.
  intros Hpoll Hc Hrun HQ. unfold running_test. wp_steps. rewrite Hpoll. cbn [Z.eqb negb when].
  wp_steps. by rewrite (proj2 (Z.eqb_neq _ _) Hrun).
Qed.

(** What a round of the loop changes, for these reports in it. *)
Definition after_round c st (rs : list Report) (s s1 : Client) : Prop :=
  receiving c (fold_left counted rs st) s1 /\ receives (world s1) = S (receives (world s)) /\
  locks_held (world s1) = locks_held (world s) /\
  callbacks_made (world s1) = callbacks_made (world s) ++ omap (delivery (callbacks c)) rs.

(** One round that brings something: the loop goes on from there. *)
Lemma receiver_round fuel x xs c st buffer msg (Q : unit -> Client -> Prop) (s : Client) :
  left_running -> connection_delivers (x :: xs) (receives (world s)) ->
  Forall can_arrive (x :: xs) -> length buffer = Z.to_nat BUFFER_SIZE ->
  length (m_data msg) = DATA_SIZE -> receiving c st s -> running c <> 0 ->
  (forall s1 buffer1 msg1, after_round c st (reports_in [x]) s s1 ->
    length buffer1 = Z.to_nat BUFFER_SIZE -> length (m_data msg1) = DATA_SIZE ->
    wp (receiver_loop fuel buffer1 msg1) Q s1) ->
  wp (receiver_loop (S fuel) buffer msg) Q s.
Proof.
  intros Hpoll Hin Htr Hlen Hd Hc Hrun HQ. cbn [receiver_loop]. wp_step.
  eapply wp_running_test; [done|exact Hc|exact Hrun|]. cbn [negb]. wp_steps.
  eapply (receive_arrival (x :: xs)); [srv; cbn; by rewrite Nat.add_0_r|done|done|].
  apply Forall_inv in Htr. destruct x as [|r|bs]; cbn [can_arrive] in Htr;
    [intros Herr|intros rest Hbuf..]; cbv beta iota.
  - change (-1 <? 0) with true. cbv iota. wp_step. apply wp_gets.
    match goal with |- wp (if ?b then _ else _) _ _ =>
      assert (b = true) as -> by (destruct Herr as [-> | ->]; done) end.
    wp_steps. apply HQ; [|done|done]. unfold after_round. effects. cbn. rewrite ?app_nil_r.
    split; [done|]. split; [lia|done].
  - rewrite (proj2 (Z.ltb_ge _ _)), (proj2 (Z.eqb_neq _ _)) by (unfold HEADER_SIZE; lia).
    wp_step. eapply wp_lift.
    { apply deserialize_packet; [destruct r.1; unfold is_u32; cbn; lia|exact Htr|done|].
      rewrite length_app, length_packet. lia. }
    cbv beta iota. change (negb (serial_code SERIAL_SUCCESS =? SUCCESS)) with false. cbv iota.
    cbn [default from_option]. unfold id, update_stats. wp_steps. cbn [k_stats set_stats].
    eapply wp_mono; [apply (deliver_spec c st); [unfold receiving; srv; by destruct c|done|done]|].
    intros _ s1 (C1 & K1 & L1 & B1). effects. cbn [omap list_omap as_recv length] in K1.
    apply HQ; [|done|].
    + unfold after_round. rewrite K1, L1, B1. split; [exact C1|]. split; [lia|]. split; [done|].
      cbn. rewrite ?app_nil_r. by destruct (delivery (callbacks c) r).
    + cbn [received m_data]. rewrite length_overwrite; [done|].
      pose proof (wire_size_le _ _ Htr). rewrite Hd. unfold DATA_SIZE. lia.
  - destruct Htr as [Hbs Hrej].
    rewrite (proj2 (Z.ltb_ge _ _)), (proj2 (Z.eqb_neq _ _)) by lia.
    destruct (rejected_in_buffer bs rest msg Hrej Hd) as (code & t & Hrun' & Hcode).
    wp_step. eapply wp_lift; [exact Hrun'|]. cbv beta iota.
    rewrite (proj2 (Z.eqb_neq _ _)) by done. cbn [negb default from_option]. unfold id. wp_steps.
    apply HQ; [|done|done]. unfold after_round. effects. cbn. rewrite ?app_nil_r.
    split; [done|]. split; [lia|done].
Qed.

(** The round that finds the end of the connection. *)
Lemma receiver_last_round fuel c st buffer msg (s : Client) :
  left_running -> connection_delivers [] (receives (world s)) ->
  length buffer = Z.to_nat BUFFER_SIZE -> receiving c st s -> running c <> 0 ->
  wp (receiver_loop (S fuel) buffer msg) (fun _ s' =>
    receiving c st s' /\ locks_held (world s') = locks_held (world s) /\
    callbacks_made (world s') = callbacks_made (world s)) s.
Proof.
  intros Hpoll Hin Hlen Hc Hrun. cbn [receiver_loop]. wp_step.
  eapply wp_running_test; [done|exact Hc|exact Hrun|]. cbn [negb]. wp_steps.
  eapply (receive_arrival []); [srv; cbn; by rewrite Nat.add_0_r|done|done|].
  cbv beta iota. change (0 <? 0) with false. change (0 =? 0) with true. cbv iota. wp_steps.
  effects. by rewrite ?app_nil_r.
Qed.

Lemma receiver_loop_spec fuel xs c st buffer msg (s : Client) :
  left_running -> connection_delivers xs (receives (world s)) -> Forall can_arrive xs ->
  (length xs < fuel)%nat -> length buffer = Z.to_nat BUFFER_SIZE ->
  length (m_data msg) = DATA_SIZE -> receiving c st s -> running c <> 0 ->
  wp (receiver_loop fuel buffer msg) (fun _ s' =>
    receiving c (fold_left counted (reports_in xs) st) s' /\
    locks_held (world s') = locks_held (world s) /\
    callbacks_made (world s') =
      callbacks_made (world s) ++ omap (delivery (callbacks c)) (reports_in xs)) s.
Proof.
  intros Hpoll. revert xs st buffer msg s.
  induction fuel as [|fuel IH]; intros xs st buffer msg s Hin Htr Hfuel Hlen Hd Hc Hrun; [lia|].
  destruct xs as [|x xs].
  { cbn [reports_in fold_left omap list_omap]. rewrite app_nil_r. by apply receiver_last_round. }
  eapply (receiver_round fuel x xs c st); [done..|].
  intros s1 buffer1 msg1 (C1 & K1 & L1 & B1) Hb1 Hd1. cbn in Hfuel.
  eapply wp_mono; [apply (IH xs (fold_left counted (reports_in [x]) st) buffer1 msg1 s1); try done|].
  - rewrite K1. by eapply connection_next.
  - by eapply Forall_inv_tail.
  - lia.
  - intros _ s2 (C2 & L2 & B2). rewrite L2, L1, B2, B1, <- app_assoc, <- omap_app.
    rewrite <- fold_left_app in C2. by destruct x.
Qed.

(** The thread from the start to the end of the connection. *)
Lemma receiver_thread_spec fuel xs c (s : Client) :
  left_running -> connection_delivers xs (receives (world s)) -> Forall can_arrive xs ->
  (length xs < fuel)%nat -> p_context s = Live c -> running c <> 0 ->
  locks_held (world s) = Some [] ->
  wp (message_receiver_thread fuel) (fun _ s' =>
    p_context s' = Live (set_k_state CLIENT_DISCONNECTED
      (set_stats (fold_left counted (reports_in xs) (k_stats c)) c)) /\
    locks_held (world s') = Some [] /\
    callbacks_made (world s') = callbacks_made (world s) ++
      omap (delivery (callbacks c)) (reports_in xs) ++ farewell (callbacks c)) s.
Proof.
  intros Hpoll Hin Htr Hfuel Hc Hrun Hl. unfold message_receiver_thread, receiver_exit. wp_step.
  eapply wp_mono.
  { eapply (receiver_loop_spec fuel xs c (k_stats c)); try done; [apply length_junk_bytes..|].
    unfold receiving. rewrite Hc. by destruct c. }
  intros ? s1 (C1 & L1 & B1). unfold receiving in C1. wp_steps.
  eapply wp_call_back; [srv_context| |]; cbn [callbacks set_k_state set_stats]; intros Hcb;
    unfold farewell; rewrite Hcb; effects; rewrite L1, Hl, B1;
    cbn [omap list_omap as_callback]; rewrite ?app_nil_r; (split; [done|]; split; [done|]).
  - by rewrite <- app_assoc.
  - done.
Qed.
End receiver_loop.

(** *** Which callbacks it makes at all *)

Definition receiver_callback (cb : Callback) : Prop :=
  cb = OnMarketData \/ cb = OnTrade \/ cb = OnDisconnect.
Definition calls_back_with (P : Callback -> Prop) (c : Syscall) : Prop :=
  match as_callback c with Some (cb, _) => P cb | None => True end.

(** The callbacks recorded by a computation whose calls are known. *)
Lemma only_callbacks `{OS} P {A} (m : M Client A) s r s' :
  only (calls_back_with P) m -> m s = Ret r s' ->
  exists l, callbacks_made (world s') = callbacks_made (world s) ++ l /\
    Forall (fun cb => P cb.1) l.
Proof.
  intros Hm R. destruct (only_made _ _ _ _ _ Hm R) as (l & Ht & Hl). exists (omap as_callback l).
  unfold callbacks_made. rewrite Ht, omap_app. split; [done|]. clear Ht.
  induction Hl as [|e l He _ IH]; [done|].
  change (omap as_callback (e :: l)) with
    (match as_callback e with Some x => x :: omap as_callback l | None => omap as_callback l end).
  unfold calls_back_with in He. destruct (as_callback e) as [[cb payload]|]; [|done].
  by constructor.
Qed.

Lemma only_receiver_loop `{OS} `{Indeterminate} fuel buffer msg :
  only (calls_back_with receiver_callback) (receiver_loop fuel buffer msg).
Proof.
  unfold calls_back_with, receiver_callback. revert buffer msg.
  induction fuel as [|fuel IH]; intros buffer msg; cbn [receiver_loop];
    unfold running_test, sys_recv, update_stats; only_calls.
  assert (z0 = serial_code SERIAL_SUCCESS) as -> by (unfold SUCCESS in *; cbn; lia).
  destruct (deserialize_accepts_type _ _ _ _ ltac:(eassumption)) as (msg' & -> & Htype).
  cbn [from_option]. unfold id, deliver, call_back, update_stats, wire_size in *.
  destruct (message_type_of_code (m_type msg')) as [[]|]; only_calls.
Qed.

(** ** Properties *)

Section receiver_properties.
Context `{OS} `{Indeterminate}.

(** C10. Every report is delivered to a client that is not being disconnected.  Let
    [running] be set and nobody clear it meanwhile ([left_running]; neither
    [disconnect_from_server] nor a reconnection after it is under way), let no
    mutex be held, and let the connection bring, one per [recv], packets, silence
    on the non-blocking socket and bytes that are rejected, in any order, and then
    end.  Then the receiver thread ends too; it has called [on_market_data] and
    [on_trade], where they are installed, once for each quote and each trade, in
    the order of arrival, with exactly the bytes of the payload, then
    [on_disconnect]; each packet and each trade was counted once, and the state is
    [CLIENT_DISCONNECTED].  One round per arrival and one more are enough. *)
Theorem receiver_delivers_all (fuel : nat) (xs : list Arrival) (c : ClientContext) (s : Client) :
  left_running -> connection_delivers xs (receives (world s)) -> Forall can_arrive xs ->
  (length xs < fuel)%nat -> p_context s = Live c -> running c <> 0 ->
  locks_held (world s) = Some [] ->
  wp (message_receiver_thread fuel) (fun _ s' =>
    p_context s' = Live (set_k_state CLIENT_DISCONNECTED
      (set_stats (fold_left counted (reports_in xs) (k_stats c)) c)) /\
    locks_held (world s') = Some [] /\
    callbacks_made (world s') = callbacks_made (world s) ++
      omap (delivery (callbacks c)) (reports_in xs) ++ farewell (callbacks c)) s.
Proof. apply receiver_thread_spec. Qed.

(** C24. The order-status callback never runs: whatever arrives, and whoever clears
    [running], the callbacks a receiver thread has made when it ends are only
    those for market data, trades and the disconnection, because
    [deserialize_message] accepts no packet of type [MSG_ORDER_STATUS]. *)
Theorem order_status_never_delivered (fuel : nat) (s s' : Client) (u : unit) :
  message_receiver_thread fuel s = Ret u s' ->
  exists l, callbacks_made (world s') = callbacks_made (world s) ++ l /\
    Forall (fun cb => receiver_callback cb.1) l.
Proof.
  intros R. eapply only_callbacks; [|exact R]. unfold message_receiver_thread.
  apply only_bind; [apply only_receiver_loop|]. intros _. unfold receiver_exit, call_back.
  unfold calls_back_with, receiver_callback. only_calls.
Qed.
End receiver_properties.

(** *** Witness *)

(** Fewer bytes than a header are rejected. *)
Lemma short_rejected bs : (length bs < HEADER_SIZE)%nat -> rejected bs.
Proof.
  intros Hl msg Hd. rewrite deserialize_message_spec by done. unfold deserialize_spec.
  rewrite (proj2 (Z.ltb_lt _ _)) by lia. by eexists _, _.
Qed.

(** A quote after a silence, a trade, a fragment, an order, which no server sends,
    and another trade. *)
Definition sample_arrivals : list Arrival :=
  [Silence; Arrives (MSG_MARKET_DATA, replicate 104 Byte.x01);
   Arrives (MSG_TRADE_EXEC, replicate 128 Byte.x02); Noise (replicate 7 Byte.x05);
   Arrives (MSG_ORDER_NEW, replicate 128 Byte.x03); Silence;
   Arrives (MSG_TRADE_EXEC, replicate 128 Byte.x04)].

(** [recv] answers with these, one per call. *)
Definition answer_of (x : option Arrival) : Answer :=
  match x with
  | Some Silence => mkAnswer (-1) EAGAIN []
  | Some (Arrives r) => mkAnswer 1 0 (packet r.1 r.2)
  | Some (Noise bs) => mkAnswer 1 0 bs
  | None => mkAnswer 0 0 []
  end.
Definition os_arrivals (xs : list Arrival) : OS := {|
  answer tr c :=
    match c with
    | SysRecv _ _ => answer_of (xs !! length (omap as_recv (calls tr)))
    | _ => mkAnswer 0 0 []
    end;
  wall_clock := fun _ => 0;
  strftime_local := fun _ => ""%string |}.
Definition listening_client : ClientContext :=
  mkClientContext 7 CLIENT_CONNECTED zero_client_stats client_config
    (mkClientCallbacks true true true true true true) 0 0 1.

Lemma os_arrivals_delivers xs : @connection_delivers (os_arrivals xs) xs 0.
Proof.
  intros tr fd k a _. unfold a. cbn [answer os_arrivals]. fold k. rewrite Nat.sub_0_r.
  destruct (xs !! k) as [[|r|bs]|]; cbn; (split; [lia|]); auto.
Qed.

Lemma receiver_delivers_all_witness :
  let c := listening_client in
  wp (@message_receiver_thread (os_arrivals sample_arrivals) zero_junk 8) (fun _ s' =>
    p_context s' = Live (set_k_state CLIENT_DISCONNECTED
      (set_stats (fold_left counted (reports_in sample_arrivals) (k_stats c)) c)) /\
    locks_held (world s') = Some [] /\
    callbacks_made (world s') =
      [(OnMarketData, replicate 104 Byte.x01); (OnTrade, replicate 128 Byte.x02);
       (OnTrade, replicate 128 Byte.x04); (OnDisconnect, [])])
    (client_process c).
Proof.
  intros c.
  refine (@receiver_delivers_all (os_arrivals sample_arrivals) zero_junk 8 sample_arrivals c
    (client_process c) _ (os_arrivals_delivers _) _ _ eq_refl _ eq_refl).
  - intros tr. reflexivity.
  - repeat (constructor; [first [exact I | reflexivity |
      split; [split; [apply Nat.ltb_lt|apply Nat.leb_le]|apply short_rejected, Nat.ltb_lt];
        reflexivity]|]).
    constructor.
  - apply Nat.lt_succ_diag_r.
  - discriminate.
Defined.

(** What the receiver leaves of this state. *)
Definition after_receiver `{OS} `{Indeterminate} (fuel : nat) (s : Client) : Client :=
  match message_receiver_thread fuel s with Ret _ s' => s' | _ => s end.

(** A well-formed order-status packet between a quote and a trade, on a client with
    every callback installed. *)
Definition status_arrivals : list Arrival :=
  [Arrives (MSG_MARKET_DATA, replicate 104 Byte.x01);
   Noise (packet MSG_ORDER_STATUS (replicate 128 Byte.x02));
   Arrives (MSG_TRADE_EXEC, replicate 128 Byte.x03)].

Lemma order_status_never_delivered_witness :
  let os := os_arrivals status_arrivals in
  let s := client_process listening_client in
  let s' := @after_receiver os zero_junk 4 s in
  callbacks_made (world s') =
    [(OnMarketData, replicate 104 Byte.x01); (OnTrade, replicate 128 Byte.x03);
     (OnDisconnect, [])] /\
  exists l, callbacks_made (world s') = callbacks_made (world s) ++ l /\
    Forall (fun cb => receiver_callback cb.1) l.
Proof.
  intros os s s'.
  assert (@message_receiver_thread os zero_junk 4 s = Ret tt s') as Hrun
    by (vm_compute; reflexivity).
  split; [by vm_compute|].
  exact (@order_status_never_delivered os zero_junk 4 s s' tt Hrun).
Defined.
