(* ===== verification/Relay.v ===== *)
(** * From the server's connections to the client's callbacks

    The messages a connection thread of the server decodes and dispatches one after
    the other ([handle_client]), and what the receiver of a client makes of the
    packets sent to it: the handlers' contract [handle_spec] and the receiver meet
    in the packets. *)

From Stdlib Require Import Strings.Byte.
From S2P Require Import Prelude CMem CString CDouble Types Serialization World Logger Process.
From S2P Require Import ServerTypes ServerHandlers ServerNetwork Client Receiver.

(** ** The contract *)

(** What the server passes on of a message, and to which sockets. *)
Definition relayed `{Indeterminate} (msg : Message) : option Report :=
  match message_type_of_code (m_type msg) with
  | Some MSG_MARKET_DATA =>
      Some (MSG_MARKET_DATA, encode junk (load (m_data msg) 0 : MarketData))
  | Some MSG_TRADE_EXEC =>
      Some (MSG_TRADE_EXEC, encode junk (load (m_data msg) 0 : TradeExecution))
  | _ => None
  end.

Definition recipients (cs : list ClientConnection) (msg : Message) : list Z :=
  match message_type_of_code (m_type msg) with
  | Some MSG_MARKET_DATA => map c_socket (List.filter connected cs)
  | Some MSG_TRADE_EXEC =>
      let t := (load (m_data msg) 0 : TradeExecution) in
      List.filter (fun fd => fd >? 0) [socket_of cs (buyer_id t); socket_of cs (seller_id t)]
  | _ => []
  end.

(** What one message puts on the connection of [fd]: a report for every time
    [fd] is among the recipients. *)
Definition reports_to `{Indeterminate} (cs : list ClientConnection) (fd : Z) (msg : Message)
    : list Report :=
  match relayed msg with
  | Some r => map (fun _ => r) (List.filter (Z.eqb fd) (recipients cs msg))
  | None => []
  end.

Definition report_packet (r : Report) : bytes := packet r.1 r.2.

(** The packets among these sends that went to [fd]. *)
Definition sent_to (fd : Z) (l : list (Z * bytes)) : list bytes :=
  map snd (List.filter (fun p => fd =? p.1) l).

(** The decoded messages of the connection in slot [client], one after the other,
    through the [switch] of [handle_client]. *)
Fixpoint handle_all `{OS} `{Libm} `{Indeterminate} (client : nat) (msgs : list Message)
    : M Server unit :=
  match msgs with
  | [] => mret tt
  | msg :: msgs' => dispatch client msg;; handle_all client msgs'
  end.

(** ** Lemmas *)

Section relay_lemmas.
Context `{OS} `{Libm} `{Indeterminate}.

Lemma sent_to_app fd l l' : sent_to fd (l ++ l') = sent_to fd l ++ sent_to fd l'.
Proof. unfold sent_to. by rewrite List.filter_app, map_app. Qed.

Lemma sent_to_each fd p (fds : list Z) :
  sent_to fd (map (fun f => (f, p)) fds) = map (fun _ => p) (List.filter (Z.eqb fd) fds).
Proof.
  induction fds as [|f fds IH]; [done|]. unfold sent_to in *. cbn [map List.filter fst].
  destruct (fd =? f); cbn [map snd]; by rewrite IH.
Qed.

(** Every packet of the contract carries the relayed report. *)
Lemma handle_spec_packets cs msg :
  packets (handle_spec cs msg) =
  match relayed msg with
  | Some r => map (fun fd => (fd, report_packet r)) (recipients cs msg)
  | None => []
  end.
Proof.
  unfold handle_spec, relayed, recipients, order_spec.
  destruct (message_type_of_code (m_type msg)) as [[]|]; try done;
    try (by destruct (quantity_ok _)).
  unfold market_data_spec. cbn [packets]. by rewrite map_map.
Qed.

Lemma sent_to_spec cs fd msg :
  sent_to fd (packets (handle_spec cs msg)) =
  map report_packet (reports_to cs fd msg).
Proof.
  rewrite handle_spec_packets. unfold reports_to.
  destruct (relayed msg) as [r|]; [|done]. by rewrite sent_to_each, map_map.
Qed.

Lemma travels_relayed msg r : wf_Message msg -> relayed msg = Some r -> travels r.
Proof.
  intros (_ & _ & _ & Hd). unfold relayed, travels.
  destruct (message_type_of_code (m_type msg)) as [[]|]; try discriminate;
    intros [= <-]; cbn [fst snd].
  - change (Some 104%nat = Some (length (encode junk (load (m_data msg) 0 : MarketData)))).
    by rewrite length_encode by (apply wf_load; rewrite Hd; by vm_compute; lia).
  - change (Some 128%nat = Some (length (encode junk (load (m_data msg) 0 : TradeExecution)))).
    by rewrite length_encode by (apply wf_load; rewrite Hd; by vm_compute; lia).
Qed.

Lemma travels_reports cs fd msg : wf_Message msg -> Forall travels (reports_to cs fd msg).
Proof.
  intros Hwf. unfold reports_to. destruct (relayed msg) as [r|] eqn:Hr; [|done].
  apply List.Forall_map, Forall_true. intros _. by eapply travels_relayed.
Qed.

(** One message through the [switch]: the packets of the contract, and nothing of
    the context but its counter changes. *)
Definition dispatched (msg : Message) (c : ServerContext) (s s' : Server) : Prop :=
  sends (world s') = sends (world s) ++ packets (handle_spec (take 100 (clients c)) msg) /\
  exists n, p_context s' = Live (set_sequence_num (u64 n) c).

Lemma dispatched_outcome (m : M Server Z) o msg c k s :
  has_outcome m o c (put_log k s) ->
  packets (handle_spec (take 100 (clients c)) msg) = packets o ->
  wp (m;; mret tt) (fun _ s' => dispatched msg c s s') (put_log k s).
Proof.
  intros Hm Ho. wp_step. eapply wp_mono; [exact Hm|]. intros r s' (_ & Hs & Hc & _). wp_step.
  unfold dispatched. rewrite Hs, Ho. by eauto.
Qed.

(** The types the switch only warns about: nothing is sent. *)
Lemma dispatched_nothing msg c (s s' : Server) :
  packets (handle_spec (take 100 (clients c)) msg) = [] -> hundred_slots c ->
  p_context s = Live c -> s' ≈ s -> dispatched msg c s s'.
Proof.
  intros Hp (_ & _ & Hn) Hc Hs. unfold dispatched.
  rewrite Hp, (quiet_sends _ _ Hs), (quiet_context _ _ Hs), app_nil_r, Hc. split; [done|].
  exists (sc_sequence_num c). rewrite u64_small by done. by destruct c.
Qed.

Lemma dispatch_spec client msg c (s : Server) :
  no_broken_pipe -> p_context s = Live c -> hundred_slots c ->
  (client < length (clients c))%nat -> wf_Message msg -> printable msg ->
  wp (dispatch client msg) (fun _ s' => dispatched msg c s s') s.
Proof.
  intros Hpipe Hc Hslots Hclient (_ & _ & _ & Hd) Hprint.
  assert (forall A (CT : CType A), (size_of A <= DATA_SIZE)%nat ->
    wf (load (A:=A) (m_data msg) 0)) as Hwf by (intros; apply wf_load; by rewrite Hd).
  destruct (lookup_lt_is_Some_2 (clients c) client Hclient) as [cl Hcl].
  assert (terminated (c_id cl) = true) as Hid
    by (destruct Hslots as (_ & Hids & _); by eapply Forall_lookup_1 in Hids).
  pose proof (handle_spec_packets (take 100 (clients c)) msg) as Hpackets.
  assert (packets (handle_spec (take 100 (clients c)) msg) =
    packets (handle_spec (take 100 (clients c)) msg)) as Hsame by done.
  unfold handle_spec in Hsame at 2. unfold dispatch, printable, relayed in *.
  destruct (message_type_of_code (m_type msg)) as [[]|].
  3,4,5: destruct Hprint as (? & ? & p & ?); wp_step; (eapply wp_get_client; [done..|]);
    wp_step; (apply wp_log; [by cbn|known_strings|intros k]);
    (eapply dispatched_outcome; [|exact Hsame]);
    refine (process_order_outcome _ c _ p _ Hslots (Hwf Order _ _) _ _);
    [done|by vm_compute; lia|done..].
  4: wp_step; (apply wp_log; [by cbn|known_strings|intros k]);
    (eapply dispatched_outcome; [|exact Hsame]);
    refine (broadcast_outcome _ c _ Hpipe _ Hslots (Hwf MarketData _ _));
    [done|by vm_compute; lia].
  4: destruct Hprint as (? & ? & ?); wp_step; (apply wp_log; [by cbn|known_strings|intros k]);
    (eapply dispatched_outcome; [|exact Hsame]);
    refine (process_trade_outcome _ c _ (or_introl Hpipe) _ Hslots (Hwf TradeExecution _ _) _ _);
    [done|by vm_compute; lia|done..].
  all: wp_step; eapply wp_get_client; [done..|]; apply wp_log; [by cbn|known_strings|intros k];
    apply dispatched_nothing; [done..|apply quiet_put_log].
Qed.

(** What a run of messages put on the connection of [fd]. *)
Lemma handle_all_spec client fd msgs c (s : Server) :
  no_broken_pipe -> p_context s = Live c -> hundred_slots c ->
  (client < length (clients c))%nat -> Forall wf_Message msgs -> Forall printable msgs ->
  wp (handle_all client msgs) (fun _ s' =>
    exists l, sends (world s') = sends (world s) ++ l /\
      sent_to fd l = map report_packet
        (flat_map (reports_to (take 100 (clients c)) fd) msgs)) s.
Proof.
  intros Hpipe Hc Hslots Hclient Hwf Hpr. revert c s Hc Hslots Hclient.
  induction msgs as [|msg msgs IH]; intros c s Hc Hslots Hclient; cbn [handle_all flat_map].
  { wp_step. exists []. by rewrite app_nil_r. }
  inversion_clear Hwf. inversion_clear Hpr. wp_step.
  eapply wp_mono; [by apply (dispatch_spec client msg c s)|]. intros r s1 (Hs1 & n & Hc1).
  eapply wp_mono; [apply (IH ltac:(done) ltac:(done) _ s1 Hc1); [by apply hundred_slots_seq|done]|].
  intros _ s2 (l & Hs2 & Hl). exists (packets (handle_spec (take 100 (clients c)) msg) ++ l).
  rewrite Hs2, Hs1, <- app_assoc. split; [done|].
  rewrite sent_to_app, sent_to_spec, map_app. by rewrite Hl.
Qed.
End relay_lemmas.

(** ** Properties *)

Section relay_properties.
Context `{OS} `{Libm} `{Indeterminate}.

(** C3. End to end, from the messages a connection thread of the server dispatches to
    the callbacks of a client.  On the server: the context has at least one hundred
    slots, all with terminated names, the thread's own among them; the messages
    are well-formed, their strings are terminated and the improved price of each
    order is defined ([printable]); and no [send] meets a closed connection.  Then
    [dispatch] returns for all the messages, one after the other, and the packets
    handed to [send] for the socket [fd] are the reports [reports_to] names, in
    order.  On every client: if [running] is set and nobody clears it meanwhile
    ([left_running]), no mutex is held, and the connection brings just these
    reports in this order, one per [recv], with any silence or noise in between,
    and then ends, the receiver thread ends with [on_market_data] called for each
    quote and [on_trade] for each trade sent to [fd] (where these callbacks are
    installed), in the order the server handled them, with the bytes of the struct
    the server decoded, and then [on_disconnect]; nothing else of what the server
    handled reaches a callback. *)
Theorem relay_end_to_end (client : nat) (fd : Z) (msgs : list Message) (c : ServerContext)
    (s : Server) :
  no_broken_pipe -> p_context s = Live c -> hundred_slots c ->
  (client < length (clients c))%nat -> Forall wf_Message msgs -> Forall printable msgs ->
  let rs := flat_map (reports_to (take 100 (clients c)) fd) msgs in
  wp (handle_all client msgs) (fun _ s' => exists l,
    sends (world s') = sends (world s) ++ l /\ sent_to fd l = map report_packet rs /\
    forall (peer : OS) (fuel : nat) (xs : list Arrival) (k : ClientContext) (t : Client),
      @left_running peer -> @connection_delivers peer xs (receives (world t)) ->
      Forall can_arrive xs -> reports_in xs = rs -> (length xs < fuel)%nat ->
      p_context t = Live k -> running k <> 0 -> locks_held (world t) = Some [] ->
      wp (@message_receiver_thread peer _ fuel) (fun _ t' =>
        callbacks_made (world t') =
          callbacks_made (world t) ++ omap (delivery (callbacks k)) rs ++ farewell (callbacks k))
        t) s.
Proof.
  intros Hpipe Hc Hslots Hclient Hwf Hpr rs.
  eapply wp_mono; [by apply (handle_all_spec client fd msgs c s)|]. fold rs.
  intros _ s' (l & Hs & Hl). exists l. split_and!; [done..|].
  intros peer fuel xs k t Hrun Hcon Harr <- Hfuel Hk Hrunning Hlocks.
  eapply wp_mono; [by apply (@receiver_thread_spec peer _ fuel xs k t Hrun Hcon)|].
  by intros ? t' (_ & _ & Hcb).
Qed.

(** The reports for [fd] can all travel: there is such a connection. *)
Lemma reports_can_arrive fd msgs (cs : list ClientConnection) :
  Forall wf_Message msgs -> Forall can_arrive (map Arrives (flat_map (reports_to cs fd) msgs)).
Proof.
  intros Hwf. apply List.Forall_map. induction Hwf as [|msg msgs Hm _ IH]; [done|].
  apply Forall_app_2; [by apply travels_reports|done].
Qed.
End relay_properties.

(** *** Witness *)

(** A trade between the two named clients, then a quote, then a heartbeat. *)
Definition sample_quote_message `{Indeterminate} : Message := {|
  m_type := MSG_MARKET_DATA; sequence_num := 2; m_timestamp := 0;
  m_data := data_of sample_quote |}.
Definition sample_heartbeat `{Indeterminate} : Message := {|
  m_type := MSG_HEARTBEAT; sequence_num := 3; m_timestamp := 0; m_data := zero_data |}.
Definition sample_messages `{Indeterminate} : list Message :=
  [sample_trade_message; sample_quote_message; sample_heartbeat].

(** What the buyer's connection brings: the trade, a silence and the quote. *)
Definition buyer_arrivals : list Arrival :=
  [Arrives (MSG_TRADE_EXEC, encode zero_junk sample_trade); Silence;
   Arrives (MSG_MARKET_DATA, encode zero_junk sample_quote)].

Lemma relay_end_to_end_witness :
  wp (@handle_all (os_const 148 0 []) pow_ref zero_junk 0 (@sample_messages zero_junk))
    (fun _ s' =>
      sent_to 5 (sends (world s')) = map report_packet (reports_in buyer_arrivals) /\
      wp (@message_receiver_thread (os_arrivals buyer_arrivals) zero_junk 4) (fun _ t' =>
        callbacks_made (world t') =
          [(OnTrade, encode zero_junk sample_trade);
           (OnMarketData, encode zero_junk sample_quote); (OnDisconnect, [])])
        (client_process listening_client)) sample_server.
Proof.
  assert (hundred_slots sample_context) as Hslots
    by (apply (bool_decide_unpack _); by vm_compute).
  assert (Forall wf_Message (@sample_messages zero_junk)) as Hwf
    by (repeat (constructor; [apply wf_by_compute; by vm_compute|]); constructor).
  assert (Forall (@printable pow_ref) (@sample_messages zero_junk)) as Hpr.
  { constructor; [|constructor; [|constructor; [exact I|constructor]]]; unfold printable.
    - change (message_type_of_code _) with (Some MSG_TRADE_EXEC). cbv iota.
      split_and!; by vm_compute.
    - change (message_type_of_code _) with (Some MSG_MARKET_DATA). cbv iota. by vm_compute. }
  pose proof (@relay_end_to_end (os_const 148 0 []) pow_ref zero_junk 0 5
    (@sample_messages zero_junk) sample_context sample_server (fun _ _ _ => eq_refl) eq_refl
    Hslots ltac:(apply Nat.ltb_lt; reflexivity) Hwf Hpr) as Hrelay.
  assert (flat_map (@reports_to zero_junk (take 100 (clients sample_context)) 5)
    (@sample_messages zero_junk) =
    reports_in buyer_arrivals) as Hrs by (by vm_compute).
  cbv zeta in Hrelay. rewrite Hrs in Hrelay.
  eapply wp_mono; [exact Hrelay|]. intros [] s' (l & Hs & Hl & Hpeer).
  change (sends (world sample_server)) with (@nil (Z * bytes)) in Hs. cbn [app] in Hs.
  rewrite Hs, Hl. split; [reflexivity|].
  refine (Hpeer (os_arrivals buyer_arrivals) 4%nat buyer_arrivals listening_client
    (client_process listening_client) _ (os_arrivals_delivers _) _ eq_refl _ eq_refl _ eq_refl).
  - intros tr. reflexivity.
  - repeat (constructor; [first [exact I|by vm_compute]|]). constructor.
  - apply Nat.lt_succ_diag_r.
  - discriminate.
Defined.
