(* ===== verification/ClientMain.v ===== *)
(** * The client program ([src/client/main.c])

    Options, the callbacks the program installs, and the prompt loop, with fuel
    for the lines the user types; before each request the receiver thread may
    have ended ([receiver_meanwhile]). *)

From Stdlib Require Import Strings.Byte.
From S2P Require Import Prelude CMem CString CDouble Types Serialization World Logger Process.
From S2P Require Import Client.

Definition CLIENT_MAIN_C : string := "src/client/main.c".
Definition DEFAULT_PORT : Z := 8080.
Definition DEFAULT_SOCKET_TIMEOUT : Z := 30.
Definition DEFAULT_RECONNECT_ATTEMPTS : Z := 3.
Definition EXIT_SUCCESS : Z := 0.
Definition EXIT_FAILURE : Z := 1.

(** [strcspn(s, "\n")] *)
Fixpoint strcspn_newline (s : bytes) : res nat :=
  match s with
  | [] => UB Unterminated
  | b :: s' =>
      if decide (b = NUL) then Val 0%nat
      else if decide (b = Byte.x0a) then Val 0%nat
      else n ← strcspn_newline s'; Val (S n)
  end.

(** What [getopt_long] returns. *)
Inductive Option : Type :=
  | OptHost (optarg : bytes)
  | OptPort (optarg : bytes)
  | OptTimeout (optarg : bytes)
  | OptLogLevel (optarg : bytes)
  | OptLogFile (optarg : bytes)
  | OptOther.

Definition default_config : ClientConfig := {|
  server_host := char_array 256 "localhost"; server_port := DEFAULT_PORT;
  reconnect_attempts := DEFAULT_RECONNECT_ATTEMPTS;
  k_socket_timeout := DEFAULT_SOCKET_TIMEOUT; k_log_level := LOG_INFO;
  k_log_file := char_array 256 "./client.log"; client_id := replicate 32 NUL |}.

(** One round of the option loop: the new configuration, or [None] to print the
    usage and fail. *)
Definition apply_option (o : Option) (cfg : ClientConfig) : res (option ClientConfig) :=
  let with_fields host p t l f :=
    Some (mkClientConfig host p (reconnect_attempts cfg) t l f (client_id cfg)) in
  match o with
  | OptHost a =>
      h ← strncpy (server_host cfg) a 255;
      Val (with_fields h (server_port cfg) (k_socket_timeout cfg) (k_log_level cfg)
        (k_log_file cfg))
  | OptPort a =>
      v ← atoi a;
      Val (with_fields (server_host cfg) v (k_socket_timeout cfg) (k_log_level cfg)
        (k_log_file cfg))
  | OptTimeout a =>
      v ← atoi a;
      Val (with_fields (server_host cfg) (server_port cfg) v (k_log_level cfg)
        (k_log_file cfg))
  | OptLogLevel a =>
      v ← atoi a;
      Val (with_fields (server_host cfg) (server_port cfg) (k_socket_timeout cfg) v
        (k_log_file cfg))
  | OptLogFile a =>
      f ← strncpy (k_log_file cfg) a 255;
      Val (with_fields (server_host cfg) (server_port cfg) (k_socket_timeout cfg)
        (k_log_level cfg) f)
  | OptOther => Val None
  end.

Fixpoint parse_options (opts : list Option) (cfg : ClientConfig) : res (option ClientConfig) :=
  match opts with
  | [] => Val (Some cfg)
  | o :: opts' =>
      r ← apply_option o cfg;
      match r with
      | Some cfg' => parse_options opts' cfg'
      | None => Val None
      end
  end.

Section client_main.
Context `{OS} `{Libm} `{Indeterminate}.

#[local] Abbreviation LOG_INFO line func fmt args :=
  (log_message LOG_INFO CLIENT_MAIN_C line func fmt args).
#[local] Abbreviation LOG_WARN line func fmt args :=
  (log_message LOG_WARN CLIENT_MAIN_C line func fmt args).
#[local] Abbreviation LOG_ERROR line func fmt args :=
  (log_message LOG_ERROR CLIENT_MAIN_C line func fmt args).

Definition print_usage (program_name : bytes) : M Client unit :=
  let printf fmt args := log_append [LogWrite Stdout "" fmt args newline] in
  printf "Usage: %s [options]" [LStr program_name];;
  printf "Options:" [];;
  printf "  -h, --host HOST       Server host (default: localhost)" [];;
  printf "  -p, --port PORT       Server port (default: %d)" [LInt DEFAULT_PORT];;
  printf "  -t, --timeout SECS    Socket timeout (default: %d)" [LInt DEFAULT_SOCKET_TIMEOUT];;
  printf "  -l, --log-level LVL   Log level (0-5, default: 2)" [];;
  printf "  -f, --log-file FILE   Log file path" [];;
  printf "  --help                Show this help message" [].

(** *** Callbacks *)

Definition on_connect : M Client unit := LOG_INFO 18 "on_connect" "Connected to server" [].
Definition on_disconnect : M Client unit :=
  LOG_INFO 23 "on_disconnect" "Disconnected from server" [].
Definition on_market_data (data : MarketData) : M Client unit :=
  LOG_INFO 28 "on_market_data" "Market data for %s: Bid=%.2f, Ask=%.2f"
    [LStr (md_symbol data); LDouble (price_to_double (bid data));
     LDouble (price_to_double (ask data))].
Definition on_order_status (order : Order) : M Client unit :=
  LOG_INFO 36 "on_order_status" "Order status update: ID=%lu, Status=%d"
    [LInt (order_id order); LInt (s32 (o_status order))].
Definition on_trade (trade : TradeExecution) : M Client unit :=
  LOG_INFO 42 "on_trade" "Trade executed: ID=%lu, Price=%.2f, Quantity=%d"
    [LInt (trade_id trade); LDouble (price_to_double (t_price trade));
     LInt (s32 (t_quantity trade))].

Definition main_callbacks : ClientCallbacks :=
  mkClientCallbacks true true true true true false.

(** [fgets(symbol, sizeof(symbol), stdin)]: [None] at the end of the input *)
Definition fgets (symbol : bytes) : M Client (option bytes) :=
  let size := Z.of_nat MAX_SYMBOL_LENGTH in
  a ← sys (SysFgets size);
  mret (if a_ret a =? 0 then None
        else Some (overwrite 0 (take (Z.to_nat (size - 1)) (a_data a) ++ [NUL]) symbol)).

Definition prompt (text : string) : M Client unit :=
  log_append [LogWrite Stdout "" text [] ""].

(** The loop of [main], with the receiver thread beside it: by the time a line is
    taken up the receiver may have ended. *)
Fixpoint prompt_loop (fuel : nat) (symbol : bytes) : M Client unit :=
  line ← fgets symbol;
  match line with
  | None => mret tt
  | Some symbol =>
      match fuel with
      | O => out_of_fuel
      | S fuel' =>
          n ← lift_res (strcspn_newline symbol);
          symbol ← lift_res (store_byte symbol n NUL);
          quit ← lift_res (strcmp symbol (lit "quit"));
          if quit =? 0 then LOG_INFO 135 "main" "User requested to exit" []
          else
            len ← lift_res (strlen symbol);
            if len =? 0 then
              LOG_WARN 140 "main" "Symbol cannot be empty" [];;
              prompt "Enter a valid symbol (or 'quit' to exit): ";;
              prompt_loop fuel' symbol
            else
              receiver_meanwhile;;
              result ← request_market_data (Some symbol);
              when (negb (result =? SUCCESS))
                (LOG_ERROR 148 "main" "Failed to request market data for symbol: %s"
                   [LStr symbol]);;
              prompt "Enter symbol to subscribe (or 'quit' to exit): ";;
              prompt_loop fuel' symbol
      end
  end.

Definition main (fuel : nat) (program : bytes) (opts : list Option) : M Client Z :=
  parsed ← lift_res (parse_options opts default_config);
  match parsed with
  | None => print_usage program;; mret EXIT_FAILURE
  | Some config =>
      r ← init_logger (Some (k_log_file config)) (k_log_level config);
      if negb (r =? SUCCESS) then
        log_append [LogWrite Stderr "" "Failed to initialize logger" [] newline];;
        mret EXIT_FAILURE
      else
        LOG_INFO 100 "main" "TradeSynth Client Starting..." [];;
        context ← initialize_client (Some config) (Some main_callbacks) 0;
        modify (set_context context);;
        match context with
        | Live _ =>
            result ← connect_to_server;
            if negb (result =? SUCCESS) then
              LOG_ERROR 122 "main" "Failed to connect to server" [];;
              cleanup_client;;
              close_logger;;
              mret EXIT_FAILURE
            else
              prompt "Enter symbol to subscribe (or 'quit' to exit): ";;
              prompt_loop fuel (junk_bytes 0 MAX_SYMBOL_LENGTH);;
              cleanup_client;;
              close_logger;;
              LOG_INFO 157 "main" "Client terminated successfully" [];;
              mret EXIT_SUCCESS
        | _ =>
            LOG_ERROR 114 "main" "Failed to initialize client context" [];;
            close_logger;;
            mret EXIT_FAILURE
        end
  end.
End client_main.
