(* ===== verification/System.v ===== *)
(** * Client and server together

    What the server makes of the packets the client library sends: the two
    components meet in the wire format, so these theorems compose the client's
    specifications with [deserialize_message] and the contract [handle_spec] of
    the handlers. *)

From Stdlib Require Import Strings.Byte.
From S2P Require Import Prelude CMem CString CDouble Types Serialization World Logger Process.
From S2P Require Import ServerTypes ServerHandlers Client.

(** The struct a market data request carries: the symbol, and zeros. *)
Definition request_quote (symbol : bytes) : MarketData := {|
  md_symbol := take 15 (cstr symbol ++ replicate 15 NUL) ++ [NUL];
  last_price := mkPrice 0 0; bid := mkPrice 0 0; ask := mkPrice 0 0; last_size := 0;
  bid_size := 0; ask_size := 0; volume := 0; num_trades := 0; md_timestamp := 0 |}.

(** ** Lemmas *)

Lemma slice_zeros off n bs m :
  (length bs <= off)%nat -> (off - length bs + n <= m)%nat ->
  slice off n (bs ++ replicate m NUL) = replicate n NUL.
Proof.
  intros Ho Hn. rewrite slice_app_skip by done. unfold slice.
  rewrite drop_replicate, take_replicate. f_equal. lia.
Qed.

Lemma combine_zeros n : LittleEndianList.le_combine (replicate n NUL) = 0.
Proof.
  induction n as [|n IH]; [done|].
  change (Z.lor 0 (Z.shiftl (LittleEndianList.le_combine (replicate n NUL)) 8) = 0).
  by rewrite IH.
Qed.

Lemma uint_at_zeros n off bs m :
  (length bs <= off)%nat -> (off - length bs + n <= m)%nat ->
  uint_at n off (bs ++ replicate m NUL) = 0.
Proof. intros. unfold uint_at. by rewrite slice_zeros, combine_zeros. Qed.

(** Sixteen bytes of symbol followed by zeros decode to a zero quote. *)
Lemma decode_zero_quote symbol :
  length symbol = 16%nat ->
  decode_MarketData (symbol ++ replicate 88 NUL) =
  mkMarketData symbol (mkPrice 0 0) (mkPrice 0 0) (mkPrice 0 0) 0 0 0 0 0 0.
Proof.
  intros Hl. unfold decode_MarketData.
  rewrite (slice_app_here symbol) by done.
  rewrite !slice_zeros, !uint_at_zeros by lia. done.
Qed.

Lemma strncpy_symbol `{Indeterminate} symbol :
  terminated symbol = true ->
  strncpy zero_data symbol (MAX_SYMBOL_LENGTH - 1) =
    Val (md_symbol (request_quote symbol) ++ drop 16 zero_data).
Proof.
  intros Ht. unfold strncpy. change (MAX_SYMBOL_LENGTH - 1)%nat with 15%nat.
  assert (strncpy_bytes symbol 15 = Val (take 15 (cstr symbol ++ replicate 15 NUL))) as ->.
  { destruct (le_lt_dec (length (cstr symbol)) 15).
    - rewrite strncpy_bytes_short, take_app_ge by done. rewrite take_replicate.
      by replace ((15 - length (cstr symbol)) `min` 15)%nat
        with (15 - length (cstr symbol))%nat by lia.
    - rewrite strncpy_bytes_long by lia. by rewrite take_app_le by lia. }
  cbn [mbind res_bind].
  set (bs := take 15 _).
  assert (length bs = 15%nat) as Hb.
  { subst bs. rewrite length_take, length_app, length_replicate. lia. }
  rewrite memcpy_ok by (rewrite ?length_zero_data; unfold DATA_SIZE; lia).
  f_equal. unfold overwrite. rewrite take_0, (firstn_all2 bs), Hb by lia.
  cbn [app request_quote md_symbol]. fold bs. by rewrite <- app_assoc.
Qed.

(** The bytes a request hands to [send]. *)
Definition request_packet `{Indeterminate} (symbol : bytes) : bytes :=
  packet MSG_MARKET_DATA (md_symbol (request_quote symbol) ++ replicate 88 NUL).

Lemma length_request_symbol symbol : length (md_symbol (request_quote symbol)) = 16%nat.
Proof.
  cbn [request_quote md_symbol]. rewrite length_app, length_take, length_app, length_replicate.
  cbn [length]. lia.
Qed.

Section system_lemmas.
Context `{OS} `{Indeterminate}.

(** A request on a connected client: one packet, and only the counters change; on
    a connection the peer has closed, [SIGPIPE]. *)
Lemma request_spec symbol c (s : Client) :
  p_context s = Live c -> k_state c = CLIENT_CONNECTED -> terminated symbol = true ->
  let fd := socket c in let p := request_packet symbol in
  wp_or_exit (request_market_data (Some symbol)) (fun r s' =>
    wire [(fd, p)] s s' /\ (r = SUCCESS \/ r = ERROR_SOCKET_CONNECT) /\
    exists st, p_context s' = Live (set_stats st c))
   (fun code s' => wire [(fd, p)] s s' /\ code = 128 + SIGPIPE /\
    exists a, answered s s' (SysSend fd p) a /\ broken_pipe a = true) s.
Proof.
  intros Hc Hst Ht fd p. unfold request_market_data, time_NULL, update_stats.
  apply wp_or_exit_after. wp_steps. apply wp_or_exit_after. wp_steps.
  rewrite bool_decide_true by done. cbn [negb]. apply wp_or_exit_after. wp_steps.
  apply wp_or_exit_after. eapply wp_lift; [by apply strncpy_symbol|].
  set (d := md_symbol _ ++ drop 16 zero_data).
  assert (length d = DATA_SIZE) as Hd.
  { subst d. rewrite length_app, length_request_symbol, length_drop, length_zero_data.
    unfold DATA_SIZE. lia. }
  assert (take 104 d = md_symbol (request_quote symbol) ++ replicate 88 NUL) as Htake.
  { subst d. rewrite take_app_ge by (rewrite length_request_symbol; lia).
    rewrite length_request_symbol. f_equal. }
  destruct (serialize_local MSG_MARKET_DATA 0 (a_ret (answer (trace (world s)) SysTime)) d 104
    eq_refl Hd) as (b & Hser & Hb & Hp).
  rewrite Htake in Hp. fold (request_packet symbol) p in Hp.
  apply wp_or_exit_after. eapply wp_lift; [exact Hser|]. cbv beta iota.
  change (u64 (Z.of_nat (HEADER_SIZE + 104))) with (Z.of_nat 124).
  change (Z.of_nat 124 <=? 0) with false. cbv iota. cbn [from_option]. unfold id.
  apply wp_or_exit_after. wp_steps. apply wp_or_exit_bind. fold fd.
  eapply send_bytes_or_exit; [rewrite Hb; by vm_compute; lia|exact Hp|]. cbv zeta.
  clear Hser Hb Hp Htake Hd b d. split; intros Hpipe.
  { split; [unfold wire; by effects|]. srv. split; [done|].
    eexists. split; [by auto with answered|by srv]. }
  apply wp_or_exit_ret. apply wp_if; intros _.
  - wp_steps. split; [unfold wire; by effects|]. effects. split; [by right|]. exists (k_stats c). by destruct c.
  - wp_steps. apply wp_log; [by cbn|cbn [forallb arg_ok]; by rewrite Ht|intros ?].
    wp_step. split; [unfold wire; by effects|]. effects. split; [by left|]. by eexists.
Qed.
End system_lemmas.

(** ** Properties *)

Section system_properties.
Context `{OS} `{Indeterminate}.

(** C14. A market data request is taken for a quote: the one packet
    [request_market_data] hands to [send] decodes, on any receiver, to a market
    data message with the symbol cut to 15 characters and every other field 0, and
    the contract of the server's handlers is to broadcast that zero quote to
    every connected client, the one that asked included.  This is so whether the
    call returns or, on a connection the peer has closed, [SIGPIPE] ends the
    process in it. *)
Theorem request_is_broadcast_as_quote (symbol : bytes) (c : ClientContext) (s : Client)
    (cs : list ClientConnection) (m0 : Message) :
  p_context s = Live c -> k_state c = CLIENT_CONNECTED -> terminated symbol = true ->
  length (m_data m0) = DATA_SIZE ->
  let requested s' := exists p m1,
    sends (world s') = sends (world s) ++ [(socket c, p)] /\
    deserialize_message (Some p) (Z.of_nat (length p)) (Some m0) =
      Val (serial_code SERIAL_SUCCESS, Some m1) /\
    handle_spec cs m1 = mkOutcome SUCCESS
      (map (fun cl => (c_socket cl, packet MSG_MARKET_DATA (encode junk (request_quote symbol))))
         (List.filter connected cs)) 1 in
  wp_or_exit (request_market_data (Some symbol)) (fun _ s' => requested s')
   (fun code s' => requested s' /\ code = 128 + SIGPIPE /\ exists p a,
      answered s s' (SysSend (socket c) p) a /\ broken_pipe a = true) s.
Proof.
  intros Hc Hst Ht Hd requested.
  assert (forall s', wire [(socket c, request_packet symbol)] s s' -> requested s') as Hrequested.
  2: { eapply wp_or_exit_mono; [by eapply request_spec|..].
       - intros r s' (Hw & _). by apply Hrequested.
       - intros code s' (Hw & Hcode & Ha). split; [by apply Hrequested|by eauto]. }
  intros s' (_ & _ & _ & Hsends). set (payload := md_symbol (request_quote symbol) ++ replicate 88 NUL).
  assert (length payload = 104%nat) as Hl
    by (subst payload; rewrite length_app, length_request_symbol, length_replicate; done).
  exists (request_packet symbol), (received m0 MSG_MARKET_DATA payload).
  split; [done|]. split.
  - unfold request_packet. fold payload. rewrite <- (app_nil_r (packet _ _)) at 1.
    apply deserialize_packet; [unfold is_u32; cbn; lia|by rewrite Hl|done|].
    rewrite app_nil_r, length_packet. lia.
  - assert (load (m_data (received m0 MSG_MARKET_DATA payload)) 0 = request_quote symbol) as Hload.
    2: { unfold handle_spec.
         change (message_type_of_code (m_type _)) with (Some MSG_MARKET_DATA). cbv iota.
         by rewrite Hload. }
    unfold load. cbn [decode MarketData_CType size_of].
    assert (slice 0 104 (m_data (received m0 MSG_MARKET_DATA payload)) = payload) as ->.
    { unfold slice. rewrite drop_0. apply received_data; [done|done|by vm_compute; lia]. }
    subst payload. apply decode_zero_quote, length_request_symbol.
Qed.
End system_properties.

Lemma request_is_broadcast_as_quote_witness :
  let os := os_const 124 0 [] in
  let cs := [named_client 5 "BUYER"; zero_client; named_client 6 "SELLER"] in
  wp (@request_market_data os zero_junk (Some (lit "AAPL"))) (fun r s' => exists p m1,
    sends (world s') = [(7, p)] /\
    deserialize_message (Some p) (Z.of_nat (length p)) (Some test_decoded) =
      Val (serial_code SERIAL_SUCCESS, Some m1) /\
    @handle_spec zero_junk cs m1 = mkOutcome SUCCESS
      (map (fun cl => (c_socket cl,
          packet MSG_MARKET_DATA (encode zero_junk (request_quote (lit "AAPL")))))
         (List.filter connected cs)) 1) (client_process connected_client).
Proof.
  intros os cs.
  assert (terminated (lit "AAPL") = true) as Ht by (by vm_compute).
  pose proof (@request_is_broadcast_as_quote os zero_junk (lit "AAPL") connected_client
    (client_process connected_client) cs test_decoded eq_refl eq_refl Ht eq_refl) as Hw.
  cbv zeta in Hw. change (sends (world (client_process connected_client))) with (@nil (Z * bytes)) in Hw.
  change (socket connected_client) with 7 in Hw. cbn [app] in Hw.
  eapply wp_or_exit_wp.
  - exact Hw.
  - intros code s' (_ & _ & p & a & (l & l' & _ & ->) & [=]).
Defined.
