(* ===== verification/ClientSession.v ===== *)
(** * A session with the client program

    What [src/client/main.c] makes of the text on its standard input: how [fgets]
    cuts it, which symbols are requested, and that the program closes what it
    opened. *)

From Stdlib Require Import Strings.Byte.
From S2P Require Import Prelude CMem CString CDouble Types Serialization World Logger Process.
From S2P Require Import Client ClientMain System.

(** ** The contract *)








(** ** Lemmas *)










Section session_lemmas.
Context `{OS} `{Libm} `{Indeterminate}.












End session_lemmas.

(** ** Properties *)

Section session_properties.
Context `{OS} `{Libm} `{Indeterminate}.

End session_properties.



