(* ===== verification/MessageExample.v ===== *)
(** * The message example ([examples/message_examples/example_client.c])

    A client of the library that sends two messages of every kind and reads one
    reply after each.  The six packets that can travel are what the server sees
    of it; the two heartbeats never leave the process. *)

From Stdlib Require Import Strings.Byte.
From S2P Require Import Prelude CMem CString CDouble Types Serialization World Logger Process.
From S2P Require Import Client.

Definition MESSAGE_EXAMPLE_C : string := "examples/message_examples/example_client.c".

(** *** The structs it sends

    Each takes the values the code computes: prices, and times read from the
    clock. *)

Definition CLIENT001 : bytes := char_array 32 "CLIENT001".
Definition MARKET : bytes := char_array 32 "MARKET".

Definition buy_order (price : Price) (t1 t2 expiration : Z) : Order := {|
  order_id := 1001; o_symbol := char_array 16 "AAPL"; o_client_id := CLIENT001;
  o_type := ORDER_TYPE_MARKET; o_side := ORDER_SIDE_BUY; o_status := ORDER_STATUS_NEW;
  o_time_in_force := TIF_DAY; o_price := price; o_quantity := 100; filled_quantity := 0;
  remaining_quantity := 100; creation_time := t1; modification_time := t2;
  expiration_time := expiration |}.

Definition sell_order (price : Price) (t1 t2 expiration : Z) : Order := {|
  order_id := 1002; o_symbol := char_array 16 "MSFT"; o_client_id := CLIENT001;
  o_type := ORDER_TYPE_LIMIT; o_side := ORDER_SIDE_SELL; o_status := ORDER_STATUS_NEW;
  o_time_in_force := TIF_GTC; o_price := price; o_quantity := 200; filled_quantity := 0;
  remaining_quantity := 200; creation_time := t1; modification_time := t2;
  expiration_time := expiration |}.

Definition data1 (last b a : Price) (t : Z) : MarketData := {|
  md_symbol := char_array 16 "AAPL"; last_price := last; bid := b; ask := a;
  last_size := 100; bid_size := 500; ask_size := 700; volume := 1000000;
  num_trades := 1250; md_timestamp := t |}.

Definition data2 (last b a : Price) (t : Z) : MarketData := {|
  md_symbol := char_array 16 "MSFT"; last_price := last; bid := b; ask := a;
  last_size := 50; bid_size := 300; ask_size := 400; volume := 750000;
  num_trades := 980; md_timestamp := t |}.

Definition trade1 (price : Price) (t : Z) : TradeExecution := {|
  trade_id := 5001; t_order_id := 1001; t_symbol := char_array 16 "AAPL"; t_price := price;
  t_quantity := 100; t_timestamp := t; buyer_id := CLIENT001; seller_id := MARKET |}.

Definition trade2 (price : Price) (t : Z) : TradeExecution := {|
  trade_id := 5002; t_order_id := 1002; t_symbol := char_array 16 "MSFT"; t_price := price;
  t_quantity := 200; t_timestamp := t; buyer_id := MARKET; seller_id := CLIENT001 |}.

Definition example_config : ClientConfig :=
  mkClientConfig (char_array 256 "localhost") 8080 3 30 0 (replicate 256 NUL)
    (char_array 32 "EXAMPLE_CLIENT").
Definition example_callbacks : ClientCallbacks :=
  mkClientCallbacks true true true false true true.

Section message_example.
Context `{OS} `{Libm} `{Indeterminate}.

#[local] Abbreviation LOG_INFO line func fmt args :=
  (log_message LOG_INFO MESSAGE_EXAMPLE_C line func fmt args).
#[local] Abbreviation LOG_ERROR line func fmt args :=
  (log_message LOG_ERROR MESSAGE_EXAMPLE_C line func fmt args).

(** *** Callbacks *)

Definition on_connect : M Client unit := LOG_INFO 12 "on_connect" "Connected to server" [].
Definition on_disconnect : M Client unit :=
  LOG_INFO 16 "on_disconnect" "Disconnected from server" [].
Definition on_market_data (data : MarketData) : M Client unit :=
  LOG_INFO 20 "on_market_data" "Received market data for %s: Bid %.2f, Ask %.2f"
    [LStr (md_symbol data); LDouble (price_to_double (bid data));
     LDouble (price_to_double (ask data))].
Definition on_trade (trade : TradeExecution) : M Client unit :=
  LOG_INFO 25 "on_trade" "Trade executed: %s %.2f x %d"
    [LStr (t_symbol trade); LDouble (price_to_double (t_price trade));
     LInt (s32 (t_quantity trade))].
Definition on_error (message : bytes) : M Client unit :=
  LOG_ERROR 30 "on_error" "Error occurred: %s" [LStr message].

(** *** Sending *)

Definition send_and_receive (msg : Message) : M Client Z :=
  let buffer := junk_bytes 0 (Z.to_nat BUFFER_SIZE) in
  '(serialized_size, send_buffer) ← lift_res (serialize_message (Some msg) (Some buffer)
      BUFFER_SIZE);
  if serialized_size <? 0 then
    LOG_ERROR 40 "send_and_receive" "Failed to serialize message" [];;
    mret (ERROR_SERIALIZATION : Z)
  else
    sent ← send_data send_buffer serialized_size;
    if negb (sent =? serialized_size) then
      LOG_ERROR 45 "send_and_receive" "Failed to send message" [];;
      mret (ERROR_SOCKET_CONNECT : Z)
    else
      LOG_INFO 49 "send_and_receive" "Sent message type %d, sequence %lu"
        [LInt (s32 (m_type msg)); LInt (sequence_num msg)];;
      '(received, recv_buffer) ← receive_data (Some buffer) BUFFER_SIZE;
      if received >? 0 then
        '(code, response) ← lift_res (deserialize_message recv_buffer received
            (Some uninitialised_message));
        let response := default uninitialised_message response in
        if code =? SUCCESS then
          LOG_INFO 54 "send_and_receive" "Received response type %d, sequence %lu"
            [LInt (s32 (m_type response)); LInt (sequence_num response)];;
          mret SUCCESS
        else mret (ERROR_SOCKET_CONNECT : Z)
      else mret (ERROR_SOCKET_CONNECT : Z).

Definition send_orders : M Client unit :=
  t1 ← time_NULL;
  t2 ← time_NULL;
  t3 ← time_NULL;
  e3 ← lift_res (chk64 (t3 + 86400));
  p1 ← lift_res (double_to_price (d_lit 15050 100));
  ts1 ← time_NULL;
  let buy_msg := {| m_type := MSG_ORDER_NEW; sequence_num := 1; m_timestamp := ts1;
                    m_data := data_of (buy_order p1 t1 t2 e3) |} in
  t4 ← time_NULL;
  t5 ← time_NULL;
  t6 ← time_NULL;
  e6 ← lift_res (chk64 (t6 + 86400 * 30));
  p2 ← lift_res (double_to_price (d_lit 28075 100));
  ts2 ← time_NULL;
  let sell_msg := {| m_type := MSG_ORDER_NEW; sequence_num := 2; m_timestamp := ts2;
                     m_data := data_of (sell_order p2 t4 t5 e6) |} in
  send_and_receive buy_msg;;
  send_and_receive sell_msg;;
  mret tt.

Definition send_market_data : M Client unit :=
  last1 ← lift_res (double_to_price (d_lit 15050 100));
  bid1 ← lift_res (double_to_price (d_lit 15045 100));
  ask1 ← lift_res (double_to_price (d_lit 15055 100));
  t1 ← time_NULL;
  ts1 ← time_NULL;
  let mkt_msg1 := {| m_type := MSG_MARKET_DATA; sequence_num := 3; m_timestamp := ts1;
                     m_data := data_of (data1 last1 bid1 ask1 t1) |} in
  last2 ← lift_res (double_to_price (d_lit 28075 100));
  bid2 ← lift_res (double_to_price (d_lit 28070 100));
  ask2 ← lift_res (double_to_price (d_lit 28080 100));
  t2 ← time_NULL;
  ts2 ← time_NULL;
  let mkt_msg2 := {| m_type := MSG_MARKET_DATA; sequence_num := 4; m_timestamp := ts2;
                     m_data := data_of (data2 last2 bid2 ask2 t2) |} in
  send_and_receive mkt_msg1;;
  send_and_receive mkt_msg2;;
  mret tt.

Definition send_trade_executions : M Client unit :=
  p1 ← lift_res (double_to_price (d_lit 15050 100));
  t1 ← time_NULL;
  ts1 ← time_NULL;
  let trade_msg1 := {| m_type := MSG_TRADE_EXEC; sequence_num := 5; m_timestamp := ts1;
                       m_data := data_of (trade1 p1 t1) |} in
  p2 ← lift_res (double_to_price (d_lit 28075 100));
  t2 ← time_NULL;
  ts2 ← time_NULL;
  let trade_msg2 := {| m_type := MSG_TRADE_EXEC; sequence_num := 6; m_timestamp := ts2;
                       m_data := data_of (trade2 p2 t2) |} in
  send_and_receive trade_msg1;;
  send_and_receive trade_msg2;;
  mret tt.

Definition send_heartbeats : M Client unit :=
  ts1 ← time_NULL;
  let heartbeat1 := {| m_type := MSG_HEARTBEAT; sequence_num := 7; m_timestamp := ts1;
                       m_data := zero_data |} in
  ts2 ← time_NULL;
  let heartbeat2 := {| m_type := MSG_HEARTBEAT; sequence_num := 8; m_timestamp := ts2;
                       m_data := zero_data |} in
  send_and_receive heartbeat1;;
  send_and_receive heartbeat2;;
  mret tt.

Definition message_example_main : M Client Z :=
  init_logger (Some (lit "client.log")) Logger.LOG_DEBUG;;
  LOG_INFO 221 "main" "Starting example client..." [];;
  client ← initialize_client (Some example_config) (Some example_callbacks) 0;
  modify (set_context client);;
  match client with
  | Live _ =>
      r ← connect_to_server;
      if negb (r =? SUCCESS) then
        LOG_ERROR 246 "main" "Failed to connect to server" [];;
        cleanup_client;;
        mret 1
      else
        LOG_INFO 251 "main" "Connected to server, sending messages..." [];;
        send_orders;;
        send_market_data;;
        send_trade_executions;;
        send_heartbeats;;
        cleanup_client;;
        LOG_INFO 259 "main" "Client shutdown complete" [];;
        mret 0
  | _ =>
      LOG_ERROR 241 "main" "Failed to create client context" [];;
      mret 1
  end.
End message_example.

(** ** The contract *)

(** No reply carries a header that claims more than the receive buffer holds. *)
Definition harmless_replies `{OS} : Prop := forall tr fd,
  let got := take (Z.to_nat BUFFER_SIZE) (a_data (answer tr (SysRecv fd BUFFER_SIZE))) in
  (HEADER_SIZE <= length got)%nat ->
  payload_size (decode_header (take HEADER_SIZE got)) <= BUFFER_SIZE - Z.of_nat HEADER_SIZE.

(** What a message puts on the wire. *)
Definition on_the_wire (fd : Z) (t : MessageType) (d : bytes) : list (Z * bytes) :=
  match wire_size t with Some k => [(fd, packet t (take k d))] | None => [] end.

(** The packets of one run, in order; the times are what the clock said. *)
Definition order_packets `{Indeterminate} (ps : list bytes) : Prop :=
  exists t1 t2 e1 t3 t4 e2, ps =
    [packet MSG_ORDER_NEW (encode junk (buy_order (cents 15050) t1 t2 e1));
     packet MSG_ORDER_NEW (encode junk (sell_order (cents 28075) t3 t4 e2))].
Definition market_data_packets `{Indeterminate} (ps : list bytes) : Prop :=
  exists t1 t2, ps =
    [packet MSG_MARKET_DATA (encode junk (data1 (cents 15050) (cents 15045) (cents 15055) t1));
     packet MSG_MARKET_DATA (encode junk (data2 (cents 28075) (cents 28070) (cents 28080) t2))].
Definition trade_packets `{Indeterminate} (ps : list bytes) : Prop :=
  exists t1 t2, ps =
    [packet MSG_TRADE_EXEC (encode junk (trade1 (cents 15050) t1));
     packet MSG_TRADE_EXEC (encode junk (trade2 (cents 28075) t2))].

(** ** Lemmas *)

Section message_example_lemmas.
Context `{OS} `{Libm} `{Indeterminate}.

Lemma send_data_spec c fd b k p l s0 s (Q : Z -> Client -> Prop) :
  no_broken_pipe -> p_context s = Live c -> socket c = fd -> (0 < k <= length b)%nat -> take k b = p ->
  emits l s0 s ->
  (forall r s', emits (l ++ [(fd, p)]) s0 s' -> Q r s') ->
  wp (send_data (Some b) (Z.of_nat k)) Q s.
Proof.
  intros Hpipe Hc Hfd Hk Hp He HQ. unfold send_data. wp_steps.
  rewrite (proj2 (Z.eqb_neq _ _)) by lia. wp_steps. rewrite Hfd.
  eapply send_bytes_spec; [done|lia|exact Hp|]. apply HQ.
  eapply emits_trans; [exact He|]. unfold emits, framed. by effects.
Qed.

Lemma receive_data_spec c l s0 s (Q : Z * option bytes -> Client -> Prop) :
  harmless_replies -> p_context s = Live c -> emits l s0 s ->
  (forall n b s', emits l s0 s' -> n <= Z.of_nat (length b) ->
     length b = Z.to_nat BUFFER_SIZE ->
     (Z.of_nat HEADER_SIZE <= n ->
      Z.of_nat HEADER_SIZE + payload_size (decode_header (take HEADER_SIZE b)) <=
      Z.of_nat (length b)) ->
     Q (n, Some b) s') ->
  wp (receive_data (Some (junk_bytes 0 (Z.to_nat BUFFER_SIZE))) BUFFER_SIZE) Q s.
Proof.
  intros Hrep Hc He HQ. unfold receive_data, sys_recv. wp_steps.
  change (BUFFER_SIZE =? 0) with false. cbv iota. wp_steps.
  assert (forall a, emits l s0 (step (SysRecv (socket c) a) s)) as Hstep.
  { intros a. rewrite <- (app_nil_r l). eapply emits_trans; [exact He|].
    by apply bystander_emits, bystander_step. }
  set (a := answer _ _). apply wp_if; intros Hneg.
  { wp_steps. apply HQ; [done|rewrite length_junk_bytes; lia|by rewrite length_junk_bytes|lia]. }
  set (got := take _ (a_data a)).
  assert (length got <= Z.to_nat BUFFER_SIZE)%nat as Hlen by (subst got; rewrite length_take; lia).
  wp_step. eapply wp_lift; [apply memcpy_exact; rewrite length_junk_bytes; lia|].
  assert (length (overwrite 0 got (junk_bytes 0 (Z.to_nat BUFFER_SIZE))) = Z.to_nat BUFFER_SIZE)
    as Hbuf by (rewrite length_overwrite; rewrite length_junk_bytes; lia).
  wp_steps. apply HQ; [done|rewrite Hbuf; lia|done|].
  intros Hn. rewrite Hbuf, overwrite_0_app, take_app_le by lia.
  assert (HEADER_SIZE <= length got)%nat as Hgot by lia.
  pose proof (Hrep (trace (world s)) (socket c) Hgot) as Hp. fold a got in Hp.
  unfold BUFFER_SIZE in *. lia.
Qed.

(** [send_and_receive], whatever happens: at most its own packet leaves. *)
Lemma send_and_receive_spec c (t : MessageType) n ts d l s0 s (Q : Z -> Client -> Prop) :
  no_broken_pipe -> harmless_replies -> p_context s = Live c -> length d = DATA_SIZE -> emits l s0 s ->
  (forall r s', emits (l ++ on_the_wire (socket c) t d) s0 s' ->
     (r = SUCCESS -> wire_size t <> None) -> Q r s') ->
  wp (send_and_receive (mkMessage t n ts d)) Q s.
Proof.
  intros Hpipe Hrep Hc Hd He HQ. unfold send_and_receive, on_the_wire in *.
  destruct (wire_size t) as [k|] eqn:Hk.
  - destruct (serialize_local t n ts d k Hk Hd) as (b & Hser & Hb & Hp).
    wp_step. eapply wp_lift; [exact Hser|]. cbv beta iota.
    rewrite (proj2 (Z.ltb_ge _ _)) by lia. wp_step.
    eapply send_data_spec; [done|done|done| |exact Hp|exact He|].
    { rewrite Hb. pose proof (wire_size_le _ _ Hk). unfold HEADER_SIZE, BUFFER_SIZE in *. lia. }
    intros sent s1 E1. apply wp_if; intros _.
    { wp_steps. apply HQ; [by apply emits_put_log|done]. }
    wp_steps. eapply receive_data_spec; [done| |by apply emits_put_log|].
    { by rewrite p_context_put_log, (emits_context _ _ _ E1), <- (emits_context _ _ _ He). }
    intros m b' s2 E2 Hm Hb' Hpay. apply wp_if; intros _.
    2: { wp_steps. by apply HQ. }
    destruct (deserialize_harmless b' m uninitialised_message Hm ltac:(apply length_junk_bytes)
      Hpay) as (code & msg & Hde).
    wp_step. eapply wp_lift; [exact Hde|]. cbv beta iota. apply wp_if; intros _; wp_steps.
    + apply HQ; [by apply emits_put_log|done].
    + by apply HQ.
  - wp_step. eapply wp_lift; [by apply serialize_local_rejected|]. cbv beta iota.
    change (serial_code SERIAL_ERROR_INVALID_TYPE <? 0) with true. cbv iota. wp_steps.
    rewrite app_nil_r in HQ. apply HQ; [by apply emits_put_log|done].
Qed.

(** Two messages, one after the other, with whatever else is done in between. *)
Lemma send_two_spec c (t t' : MessageType) n n' ts ts' d d' l s0 s (Q : unit -> Client -> Prop) :
  no_broken_pipe -> harmless_replies -> p_context s = Live c -> length d = DATA_SIZE -> length d' = DATA_SIZE ->
  emits l s0 s ->
  (forall s', emits (l ++ on_the_wire (socket c) t d ++ on_the_wire (socket c) t' d') s0 s' ->
     Q tt s') ->
  wp (send_and_receive (mkMessage t n ts d);; send_and_receive (mkMessage t' n' ts' d');; mret tt)
    Q s.
Proof.
  intros Hpipe Hrep Hc Hd Hd' He HQ. wp_step.
  eapply send_and_receive_spec; [done|done|exact Hc|done|exact He|]. intros _ s1 E1 _. wp_step.
  eapply send_and_receive_spec; [done|done| |done|exact E1|].
  { by rewrite (emits_context _ _ _ E1), <- (emits_context _ _ _ He). }
  intros _ s2 E2 _. wp_step. apply HQ. by rewrite app_assoc.
Qed.

Lemma on_the_wire_struct {A} `{CType A} fd (t : MessageType) (v : A) :
  wire_size t = Some (size_of A) -> length (encode junk v) = size_of A ->
  on_the_wire fd t (data_of v) = [(fd, packet t (encode junk v))].
Proof. intros Hk Hl. unfold on_the_wire, data_of. by rewrite Hk, take_app_length' by done. Qed.

Lemma length_struct {A} `{CType A} (v : A) :
  length (encode junk v) = size_of A -> (size_of A <= DATA_SIZE)%nat ->
  length (data_of v) = DATA_SIZE.
Proof. intros Hl ?. unfold data_of. rewrite length_app, length_junk_bytes, Hl. lia. Qed.

Lemma length_buy p t1 t2 e : length (encode junk (buy_order p t1 t2 e)) = 128%nat.
Proof. by apply length_encode_Order_strings. Qed.
Lemma length_sell p t1 t2 e : length (encode junk (sell_order p t1 t2 e)) = 128%nat.
Proof. by apply length_encode_Order_strings. Qed.
Lemma length_data1 p b a t : length (encode junk (data1 p b a t)) = 104%nat.
Proof. by apply length_encode_MarketData_strings. Qed.
Lemma length_data2 p b a t : length (encode junk (data2 p b a t)) = 104%nat.
Proof. by apply length_encode_MarketData_strings. Qed.
Lemma length_trade1 p t : length (encode junk (trade1 p t)) = 128%nat.
Proof. by apply length_encode_TradeExecution_strings. Qed.
Lemma length_trade2 p t : length (encode junk (trade2 p t)) = 128%nat.
Proof. by apply length_encode_TradeExecution_strings. Qed.

Context `{!LibmExact} (Hpipe : no_broken_pipe) (Hrep : harmless_replies) (Hclock : sane_clock).

Ltac clock := eapply wp_time; [by eauto with emits|]; intros ? ?.
Ltac price := eapply wp_lift; [apply price_of_cents, (bool_decide_unpack _); by vm_compute|].

Ltac clocks := repeat (cbv zeta beta;
  lazymatch goal with
  | |- wp (time_NULL ≫= _) _ _ => wp_step; clock
  | |- wp (lift_res (chk64 _) ≫= _) _ _ => wp_step; eapply wp_lift; [by apply chk_clock|]
  | |- wp (lift_res (double_to_price _) ≫= _) _ _ => wp_step; price
  end).

(** The last time the trace was known, the context was still the same. *)
Ltac same_context Hc He :=
  match goal with E : emits _ _ ?s |- p_context ?s = _ =>
    by rewrite (emits_context _ _ _ E), <- (emits_context _ _ _ He) end.

(** The tail of each sender: two structs whose encodings have the right size. *)
Lemma send_structs_spec {A} `{CType A} c (t : MessageType) (v v' : A) n n' ts ts' l s0 s
    (Q : unit -> Client -> Prop) :
  p_context s = Live c -> wire_size t = Some (size_of A) -> (size_of A <= DATA_SIZE)%nat ->
  length (encode junk v) = size_of A -> length (encode junk v') = size_of A ->
  emits l s0 s ->
  (forall s', emits (l ++ map (pair (socket c))
      [packet t (encode junk v); packet t (encode junk v')]) s0 s' -> Q tt s') ->
  wp (send_and_receive (mkMessage t n ts (data_of v));;
      send_and_receive (mkMessage t n' ts' (data_of v'));; mret tt) Q s.
Proof.
  intros Hc Hw Hs Hv Hv' He HQ.
  eapply send_two_spec; [done|done|exact Hc|by apply length_struct..|exact He|].
  intros s' E. apply HQ. by rewrite !on_the_wire_struct in E by done.
Qed.

Lemma send_orders_spec c l s0 s :
  p_context s = Live c -> emits l s0 s ->
  wp send_orders (fun _ s' => exists ps, order_packets ps /\
    emits (l ++ map (pair (socket c)) ps) s0 s') s.
Proof.
  intros Hc He. unfold send_orders. clocks.
  eapply send_structs_spec; [same_context Hc He|done|by vm_compute; lia|
    apply length_buy|apply length_sell|eassumption|].
  intros s1 E. eexists. split; [|exact E]. by repeat eexists.
Qed.

Lemma send_market_data_spec c l s0 s :
  p_context s = Live c -> emits l s0 s ->
  wp send_market_data (fun _ s' => exists ps, market_data_packets ps /\
    emits (l ++ map (pair (socket c)) ps) s0 s') s.
Proof.
  intros Hc He. unfold send_market_data. clocks.
  eapply send_structs_spec; [same_context Hc He|done|by vm_compute; lia|
    apply length_data1|apply length_data2|eassumption|].
  intros s1 E. eexists. split; [|exact E]. by repeat eexists.
Qed.

Lemma send_trade_executions_spec c l s0 s :
  p_context s = Live c -> emits l s0 s ->
  wp send_trade_executions (fun _ s' => exists ps, trade_packets ps /\
    emits (l ++ map (pair (socket c)) ps) s0 s') s.
Proof.
  intros Hc He. unfold send_trade_executions. clocks.
  eapply send_structs_spec; [same_context Hc He|done|by vm_compute; lia|
    apply length_trade1|apply length_trade2|eassumption|].
  intros s1 E. eexists. split; [|exact E]. by repeat eexists.
Qed.

Lemma send_heartbeats_spec c l s0 s :
  p_context s = Live c -> emits l s0 s ->
  wp send_heartbeats (fun _ s' => emits l s0 s') s.
Proof.
  intros Hc He. unfold send_heartbeats. clocks.
  eapply (send_two_spec c MSG_HEARTBEAT MSG_HEARTBEAT);
    [done|done|same_context Hc He|apply length_zero_data..|eassumption|].
  intros s1 E. cbn [on_the_wire app] in E. by rewrite app_nil_r in E.
Qed.
End message_example_lemmas.

(** ** Properties *)

Section message_example_properties.
Context `{OS} `{Libm} `{Indeterminate} `{!LibmExact}.

(** C37. The whole example.  Let the clock be within [2^62] seconds of the epoch
    ([sane_clock]), no [send] meet a closed connection, which would kill
    the process, no reply carry a header that claims more payload than the receive
    buffer holds ([harmless_replies]), [pow] be exact on powers of ten and no mutex
    be held.  Then the program ends with status 0 or 1 and its context freed or
    never allocated.  Status 1 means that nothing was handed to [send].  Status 0
    means that exactly six packets were handed to [send], on the one socket it
    opened and closed: the two orders, the two quotes and the two trades, in that
    order; it says nothing of whether the kernel took them or replies arrived,
    since the program ignores both.  The two heartbeats are never handed to
    [send]. *)
Theorem message_example_sends_six (s : Client) :
  no_broken_pipe -> harmless_replies -> sane_clock -> locks_held (world s) = Some [] ->
  wp message_example_main (fun r s' => locks_held (world s') = Some [] /\
    ((r = 1 /\ sends (world s') = sends (world s) /\
      (p_context s' = Null \/ p_context s' = Freed)) \/
     (r = 0 /\ p_context s' = Freed /\ exists fd orders quotes trades,
        order_packets orders /\ market_data_packets quotes /\ trade_packets trades /\
        sends (world s') = sends (world s) ++ map (pair fd) (orders ++ quotes ++ trades) /\
        opened (world s') = opened (world s) ++ [fd] /\
        closes (world s') = closes (world s) ++ [fd]))) s.
Proof.
  intros Hpipe Hrep Hclock Hl. unfold message_example_main.
  wp_step. eapply wp_mono; [apply init_logger_bystander; by intros p [= <-]|].
  intros ? s1 B1. wp_step. wp_step.
  eapply client_start_spec; [|exact Hl|by vm_compute|..].
  { eapply bystander_trans; [exact B1|by apply bystander_same_trace]. }
  { intros s2 (L2 & S2 & _) Hc2. wp_steps. srv. rewrite L2, S2, Hc2. by auto 10. }
  { intros c s2 Hidle Hc2. wp_steps. eapply wp_mono; [by eapply (cleanup_idle c)|].
    intros _ s3 (Hc3 & L3 & S3). wp_steps. rewrite Hc3, L3, S3. by auto 10. }
  intros c fd s2 Hidle Hline. pose proof Hline as (Hc & Hst & Hs & _).
  wp_step. wp_step. match goal with |- wp _ _ (put_log ?k s2) =>
    assert (emits [] s2 (put_log k s2)) as E3
      by (by apply bystander_emits, bystander_same_trace) end.
  assert (forall k s', emits k s2 s' -> p_context s' = Live c) as Hctx
    by (intros k s' E; by rewrite (emits_context _ _ _ E)).
  wp_step. eapply wp_mono; [eapply send_orders_spec; eauto|]. intros ? s4 (os & Hos & E4). wp_step.
  eapply wp_mono; [eapply send_market_data_spec; eauto|]. intros ? s5 (ms & Hms & E5). wp_step.
  eapply wp_mono; [eapply send_trade_executions_spec; eauto|]. intros ? s6 (ts & Hts & E6).
  wp_step. eapply wp_mono; [eapply send_heartbeats_spec; eauto|]. intros ? s7 E7. wp_step.
  pose proof (Hctx _ _ E7) as Hc7. apply emits_wire in E7. rewrite Hs in E7.
  eapply wp_mono; [eapply (cleanup_on_line c); [exact Hidle|exact Hline|exact E7|by exists c]|].
  intros _ s8 (Hc8 & L8 & S8 & O8 & C8). wp_steps. srv. split; [done|]. right.
  split; [done|]. split; [done|]. exists fd, os, ms, ts. split_and!; try done.
  by rewrite S8, !map_app, <- !app_assoc.
Qed.
End message_example_properties.

Lemma message_example_sends_six_witness :
  let main := @message_example_main os_works pow_ref zero_junk in
  match main fresh_process with Ret r _ => r = 0 | _ => False end /\
  wp main (fun r s' => locks_held (world s') = Some [] /\
    ((r = 1 /\ sends (world s') = [] /\ (p_context s' = Null \/ p_context s' = Freed)) \/
     (r = 0 /\ p_context s' = Freed /\ exists fd orders quotes trades,
        @order_packets zero_junk orders /\ @market_data_packets zero_junk quotes /\
        @trade_packets zero_junk trades /\
        sends (world s') = map (pair fd) (orders ++ quotes ++ trades) /\
        opened (world s') = [fd] /\ closes (world s') = [fd]))) fresh_process.
Proof.
  intros main. split; [by vm_compute|].
  refine (@message_example_sends_six os_works pow_ref zero_junk pow_ref_exact fresh_process
    _ _ _ eq_refl).
  - apply sends_taken. intros tr fd bs. cbn. lia.
  - intros tr fd got Hgot. subst got. cbn [answer os_works a_data] in Hgot.
    rewrite take_nil in Hgot. unfold HEADER_SIZE in Hgot. cbn [length] in Hgot. lia.
  - intros tr. cbn. lia.
Defined.
