(* ===== verification/Examples.v ===== *)
(** * The trading example ([examples/trading_communication])

    [example_server.c], the server with a message handler of its own, which builds
    on [process_order], and [example_client.c], which sends one order, unless its
    receiver thread has ended by then. *)

From Stdlib Require Import Strings.Byte.
From S2P Require Import Prelude CMem CString CDouble Types Serialization World Logger Process.
From S2P Require Import ServerTypes ServerHandlers ServerNetwork ServerCore Client.

Definition EXAMPLE_SERVER_C : string := "examples/trading_communication/example_server.c".
Definition EXAMPLE_CLIENT_C : string := "examples/trading_communication/example_client.c".

Section example_server.
Context `{OS} `{Libm} `{Indeterminate}.

#[local] Abbreviation LOG_INFO line fmt args :=
  (log_message LOG_INFO EXAMPLE_SERVER_C line "example_handle_order" fmt args).

(** [.data] of a message without initialiser, with a trade stored in it: storing
    the members, the whole struct [price] among them, leaves the padding bytes
    unspecified; what lies behind the trade keeps its zeros. *)
Definition trade_data (t : TradeExecution) : bytes :=
  encode junk t ++ drop (size_of TradeExecution) zero_data.

Definition example_handle_order (order : Order) (client_socket : Z) : M Server unit :=
  LOG_INFO 9 "Received order:" [];;
  LOG_INFO 10 "  Order ID: %lu" [LInt (order_id order)];;
  LOG_INFO 11 "  Symbol: %s" [LStr (o_symbol order)];;
  LOG_INFO 12 "  Price: %.2f" [LDouble (price_to_double (o_price order))];;
  LOG_INFO 13 "  Quantity: %u" [LInt (o_quantity order)];;
  LOG_INFO 14 "  Side: %s"
    [LText (if o_side order =? ORDER_SIDE_BUY then "BUY"%string else "SELL"%string)];;
  LOG_INFO 15 "  Type: %d" [LInt (s32 (o_type order))];;
  LOG_INFO 16 "  Client ID: %s" [LStr (o_client_id order)];;
  ts ← time_NULL;
  symbol ← lift_res (strncpy (replicate 16 NUL) (o_symbol order) MAX_SYMBOL_LENGTH);
  now ← time_NULL;
  buyer ← lift_res (strncpy (replicate 32 NUL) (o_client_id order) MAX_CLIENT_ID_LENGTH);
  seller ← lift_res (strncpy (replicate 32 NUL) (lit "MARKET") MAX_CLIENT_ID_LENGTH);
  let trade := {|
    trade_id := 98765; t_order_id := order_id order; t_symbol := symbol;
    t_price := o_price order; t_quantity := o_quantity order; t_timestamp := now;
    buyer_id := buyer; seller_id := seller |} in
  let response := {|
    m_type := MSG_TRADE_EXEC; sequence_num := 1; m_timestamp := ts;
    m_data := trade_data trade |} in
  '(serialized_size, buffer) ← lift_res (serialize_message (Some response)
      (Some (junk_bytes 0 (Z.to_nat BUFFER_SIZE))) BUFFER_SIZE);
  when (serialized_size >? 0)
    (sys_send client_socket (take (Z.to_nat serialized_size) (default [] buffer));;
     LOG_INFO 40 "Sent trade execution confirmation" []).

Definition example_handle_client_message (client_socket : Z) (data : bytes) (size : Z)
    : M Server unit :=
  '(code, msg) ← lift_res (deserialize_message (Some data) size (Some uninitialised_message));
  let msg := default uninitialised_message msg in
  if code =? SUCCESS then
    match message_type_of_code (m_type msg) with
    | Some MSG_ORDER_NEW =>
        r ← process_order (load (m_data msg) 0);
        when (r =? SUCCESS) (example_handle_order (load (m_data msg) 0) client_socket)
    | _ =>
        log_message LOG_WARN EXAMPLE_SERVER_C 56 "example_handle_client_message"
          "Unhandled message type: %d" [LInt (s32 (m_type msg))]
    end
  else
    log_message LOG_ERROR EXAMPLE_SERVER_C 60 "example_handle_client_message"
      "Failed to deserialize message" [].

(** The handler of a connection of the one server; the connection is a heap
    object of its own, freed at the end. *)
Definition example_client_handler (client_socket : Z) : M Server unit :=
  log_message Logger.LOG_INFO EXAMPLE_SERVER_C 69 "example_client_handler"
    "New client connection thread started" [];;
  '(received, buffer) ← sys_recv client_socket (junk_bytes 0 (Z.to_nat BUFFER_SIZE)) BUFFER_SIZE;
  when (received >? 0) (example_handle_client_message client_socket buffer received);;
  sys (SysClose client_socket);;
  sys (SysFree ObjConnection);;
  mret tt.

(** [client_handler] is not NULL; the other fields are zero. *)
Definition example_server_config : ServerConfig := {|
  port := 8080; max_clients := MAX_CLIENTS; socket_timeout := 0;
  bind_address := replicate 16 NUL; cfg_log_level := 0; cfg_log_file := replicate 256 NUL;
  max_symbols := 0; max_orders_per_symbol := 0; position_limit := 0; client_handler := 1 |}.

(** [while (server_running) sleep(1);] *)
Fixpoint sleep_loop (fuel : nat) : M Server unit :=
  running ← loop_test;
  if negb running then mret tt
  else
    match fuel with
    | O => out_of_fuel
    | S fuel' => sys (SysSleep 1);; sleep_loop fuel'
    end.

#[local] Abbreviation LOG_MAIN level line fmt args :=
  (log_message level EXAMPLE_SERVER_C line "main" fmt args).

Definition example_server_main (fuel : nat) : M Server Z :=
  init_logger (Some (lit "server.log")) LOG_DEBUG;;
  LOG_MAIN Logger.LOG_INFO 83 "Starting trading example server..." [];;
  server ← initialize_server_context example_server_config;
  modify (set_context server);;
  match server with
  | Live _ =>
      sys SysSigaction;;
      sys SysSigaction;;
      r ← start_server fuel;
      if negb (r =? SUCCESS) then
        LOG_MAIN LOG_ERROR 105 "Failed to start server" [];;
        cleanup_server;;
        mret 1
      else
        LOG_MAIN Logger.LOG_INFO 110 "Server listening on port %d"
          [LInt (port example_server_config)];;
        sleep_loop fuel;;
        stop_server;;
        cleanup_server;;
        LOG_MAIN Logger.LOG_INFO 120 "Server shutdown complete" [];;
        mret 0
  | _ =>
      LOG_MAIN LOG_ERROR 95 "Failed to initialize server context" [];;
      mret 1
  end.
End example_server.



Section example_client.
Context `{OS} `{Libm} `{Indeterminate}.

#[local] Abbreviation LOG_INFO line func fmt args :=
  (log_message LOG_INFO EXAMPLE_CLIENT_C line func fmt args).
#[local] Abbreviation LOG_ERROR line fmt args :=
  (log_message LOG_ERROR EXAMPLE_CLIENT_C line "main" fmt args).

Definition on_connect : M Client unit := LOG_INFO 12 "on_connect" "Connected to server" [].

Definition on_trade (trade : TradeExecution) : M Client unit :=
  LOG_INFO 16 "on_trade" "Received trade execution:" [];;
  LOG_INFO 17 "on_trade" "  Trade ID: %lu" [LInt (trade_id trade)];;
  LOG_INFO 18 "on_trade" "  Order ID: %lu" [LInt (t_order_id trade)];;
  LOG_INFO 19 "on_trade" "  Symbol: %s" [LStr (t_symbol trade)];;
  LOG_INFO 20 "on_trade" "  Price: %.2f" [LDouble (price_to_double (t_price trade))];;
  LOG_INFO 21 "on_trade" "  Quantity: %u" [LInt (t_quantity trade)];;
  LOG_INFO 22 "on_trade" "  Buyer: %s" [LStr (buyer_id trade)];;
  LOG_INFO 23 "on_trade" "  Seller: %s" [LStr (seller_id trade)].

End example_client.

(** ** Properties *)

Section example_properties.
Context `{OS} `{Libm} `{Indeterminate}.

(** C40. The example server confirms no order: whatever bytes arrive, if
    [example_handle_client_message] returns it has sent nothing, because it
    confirms only the orders for which [process_order] answers [SUCCESS]. *)
Theorem example_never_confirms (fd : Z) (data : bytes) (size : Z) (s s' : Server) (u : unit) :
  size <= Z.of_nat (length data) ->
  example_handle_client_message fd data size s = Ret u s' ->
  sends (world s') = sends (world s).
Proof.
  intros Hsize R. unfold example_handle_client_message in R.
  apply bind_inv in R as ([code o] & s1 & [Hd ->]%lift_inv & R). cbv beta iota in R.
  destruct (deserialize_data_length data size uninitialised_message code o Hsize
    ltac:(apply length_junk_bytes) Hd) as (m & -> & Hlen).
  cbn [from_option] in R. unfold id in R.
  assert (forall level line func fmt args (s2 : Server) v, 0 <= level <= 5 ->
    log_message level EXAMPLE_SERVER_C line func fmt args s = Ret v s2 ->
    sends (world s2) = sends (world s)) as Hlog.
  { intros level line func fmt args s2 v Hl [l ->]%log_returns; done. }
  destruct (code =? SUCCESS); [|by eapply Hlog, R; cbn].
  destruct (message_type_of_code (m_type m)) as [[]|]; try by (eapply Hlog, R; cbn).
  apply bind_inv in R as (r & s2 & R1 & R).
  apply process_order_silent in R1 as [Hr Hsends].
  2: { refine (wf_load (A:=Order) (m_data m) 0 _). rewrite Hlen. cbn [size_of Order_CType]. unfold DATA_SIZE. lia. }
  rewrite (proj2 (Z.eqb_neq r SUCCESS) Hr) in R. injection R as _ <-. done.
Qed.

(** Once [server_running] is 0, the waiting loop of the example is over. *)
Lemma sleep_loop_stopped fuel (s : Server) :
  server_running s = 0 ->
  wp (sleep_loop fuel) (fun _ s' =>
    p_context s' = p_context s /\ server_running s' = 0 /\
    locks_held (world s') = locks_held (world s) /\ opened (world s') = opened (world s) /\
    closes (world s') = closes (world s) /\ sleeps (world s') = sleeps (world s)) s.
Proof.
  intros Hrun. destruct fuel; cbn [sleep_loop]; wp_step; unfold loop_test; wp_steps;
    (apply wp_when; intros _; unfold signal_handler; wp_steps; effects; rewrite ?Hrun;
     cbn [Z.eqb negb]; wp_steps; by effects).
Qed.

(** A context without clients and without a listening socket closes nothing. *)
Lemma descriptors_none c :
  client_count c = 0 -> server_socket c < 0 ->
  descriptors c = [] /\ descriptors (stopped c) = [].
Proof.
  intros Hn Hfd. unfold descriptors, table_sockets, stopped.
  cbn [server_socket client_count clients set_state set_client_count set_server_socket].
  assert ((server_socket c >=? 0) = false) as E by lia. rewrite Hn, E. cbv iota. by rewrite E.
Qed.

(** *** What the server does not do: sleep *)

Lemma no_sleep_initialize cfg : only (fun c => as_sleep c = None) (initialize_server_context cfg).
Proof.
  assert (forall ls, only (fun c => as_sleep c = None) (locks_fail ls)) as Hlocks.
  { induction ls as [|l ls IH]; cbn [locks_fail]; only_calls. }
  unfold initialize_server_context, calloc. only_calls; apply Hlocks.
Qed.

Lemma no_sleep_stop : only (fun c => as_sleep c = None) stop_server.
Proof.
  assert (forall n i, only (fun c => as_sleep c = None) (stop_loop n i)) as Hloop.
  { induction n as [|n IH]; intros i; cbn [stop_loop]; unfold put_client, get_client; only_calls. }
  unfold stop_server. only_calls; apply Hloop.
Qed.

Lemma no_sleep_cleanup : only (fun c => as_sleep c = None) cleanup_server.
Proof. pose proof no_sleep_stop. unfold cleanup_server. only_calls; assumption. Qed.

Lemma no_sleep_start fuel : only (fun c => as_sleep c = None) (start_server fuel).
Proof.
  pose proof no_sleep_stop as Hstop.
  assert (only (fun c => as_sleep c = None) loop_test) as Htest
    by (unfold loop_test, signal_handler; only_calls; by apply only_nothing; intros ? ? ? [= _ <-]).
  assert (only (fun c => as_sleep c = None) accept_client) as Haccept
    by (unfold accept_client, put_client, get_client, time_NULL; only_calls).
  assert (only (fun c => as_sleep c = None) (accept_loop fuel)) as Hloop.
  { induction fuel as [|fuel IH]; cbn [accept_loop]; only_calls; assumption. }
  unfold start_server, setup_socket, setup_failed. only_calls; assumption.
Qed.

(** The rest of [main] once [server_running] is 0: the loop is over, and stopping
    twice more closes nothing and leaves no context. *)
Lemma example_wait_spec fuel c (k : M Server Z) (Q : Z -> Server -> Prop) (s : Server) :
  p_context s = Live c -> server_inv c -> client_count c = 0 -> server_socket c < 0 ->
  locks_held (world s) = Some [] -> server_running s = 0 ->
  (forall s', p_context s' = Freed -> server_running s' = 0 ->
     locks_held (world s') = Some [] -> opened (world s') = opened (world s) ->
     closes (world s') = closes (world s) -> sleeps (world s') = sleeps (world s) ->
     wp k Q s') ->
  wp (sleep_loop fuel;; stop_server;; cleanup_server;; k) Q s.
Proof.
  intros Hc Hinv Hn Hfd Hl Hr HQ. destruct (descriptors_none c Hn Hfd) as [D D'].
  wp_step. eapply wp_mono; [by apply sleep_loop_stopped|].
  intros _ s4 (Hc4 & Hr4 & Hl4 & Ho4 & Hcl4 & Z4). rewrite Hc in Hc4. rewrite Hl in Hl4.
  wp_step. eapply wp_mono; [apply wp_no_sleep; [apply no_sleep_stop|]; by eapply stop_server_spec|].
  intros _ s5 [(Hc5 & Hr5 & Hl5 & Ho5 & Hcl5) Z5]. wp_step.
  eapply wp_mono; [apply wp_no_sleep; [apply no_sleep_cleanup|];
    eapply cleanup_server_spec; [done|by apply server_inv_stopped|done]|].
  intros _ s6 [(Hc6 & Hr6 & Hl6 & Ho6 & Hcl6) Z6].
  rewrite D, app_nil_r in Hcl5. rewrite D', app_nil_r in Hcl6. apply HQ; [done| |done|..]; congruence.
Qed.

(** C38. The example server, stopped by a signal that the kernel delivers by the
    [n]-th test of [server_running], with fuel for as many tests, no mutex held and
    no descriptor open unaccounted for at the start: [main] returns, with status 0
    and [server_running] cleared or with status 1.  It has never called [sleep]:
    [start_server] returns only once the flag is cleared, so the loop that is to
    wait for the signal, behind it, leaves at its first test.  Whatever failed on the way,
    every descriptor was closed exactly as often as it was obtained, no lock is
    held, and the context was freed or never allocated. *)
Theorem example_server_exits_clean (n fuel : nat) (s : Server) :
  signal_by n -> (n <= polls (trace (world s)) + fuel)%nat ->
  locks_held (world s) = Some [] -> no_leak s ->
  wp (example_server_main fuel) (fun r s' =>
    (r = 0 /\ server_running s' = 0 \/ r = 1) /\
    sleeps (world s') = sleeps (world s) /\
    no_leak s' /\ locks_held (world s') = Some [] /\
    (p_context s' = Freed \/ p_context s' = Null)) s.
Proof.
  intros Hsig Hfuel Hlocks Hleak. unfold example_server_main.
  wp_step. eapply wp_mono; [apply wp_no_sleep; [by apply only_init_logger|];
    apply init_logger_bystander; by intros p [= <-]|].
  intros ? s1 [B1 Z1]. wp_steps.
  eapply wp_mono; [apply wp_no_sleep; [apply no_sleep_initialize|]; apply initialize_spec; by vm_compute|].
  intros p s2 [[B2 Hp] Z2].
  assert (bystander s s2) as ((_ & Hr & Hl & Hpolls) & Ho & Hcl & _).
  { eapply bystander_trans; [exact B1|]. eapply bystander_trans; [|exact B2].
    by apply bystander_same_trace. }
  rewrite sleeps_put_log, Z1 in Z2. rewrite Hlocks in Hl. wp_steps. unfold no_leak in *.
  destruct Hp as [->|[-> _]]; wp_steps.
  { effects. rewrite Hl, Ho, Hcl, Z2. by auto 10. }
  eapply wp_mono; [apply wp_no_sleep; [apply no_sleep_start|]|].
  { eapply (start_server_spec n fuel (fresh example_server_config)); unfold no_leak; effects;
      [done| |done|by apply server_inv_fresh|done|done|by rewrite Ho, Hcl].
    by rewrite Hpolls. }
  intros r s3 [(c3 & Hc3 & Hinv3 & Hn3 & Hfd3 & Hl3 & Hk3 & Hres) Z3]. unfold no_leak in Hk3.
  srv. rewrite Z2 in Z3. apply wp_if; intros Hrz.
  { destruct (descriptors_none c3 Hn3 Hfd3) as [D D'].
    wp_steps. eapply wp_mono; [apply wp_no_sleep; [apply no_sleep_cleanup|];
      eapply cleanup_server_spec; [srv_context|done|by effects]|].
    intros _ s4 [(Hc4 & Hr4 & Hl4 & Ho4 & Hcl4) Z4]. wp_steps. effects.
    rewrite D, app_nil_r in Hcl4. rewrite Hc4, Hl4, Ho4, Hcl4, Z4, Z3. by auto 10. }
  destruct Hres as [(-> & Hrun3 & _)|[-> |[-> | ->]]]; try done.
  wp_step. wp_step. eapply (example_wait_spec fuel c3); [by srv..|].
  intros s6 Hc6 Hr6 Hl6 Ho6 Hcl6 Z6. wp_steps. effects.
  rewrite Hc6, Hr6, Hl6, Ho6, Hcl6, Z6. by auto 10.
Qed.




End example_properties.

(** The state after the handler ran, for the example. *)
Definition after_example `{OS} `{Libm} `{Indeterminate} (data : bytes) (s : Server) : Server :=
  match example_handle_client_message 5 data (Z.of_nat (length data)) s with
  | Ret _ s' => s'
  | _ => s
  end.

Lemma example_never_confirms_witness :
  let os := os_const 148 0 [] in
  let data := @order_packet zero_junk test_order in
  let s' := @after_example os pow_ref zero_junk data sample_server in
  sends (world s') = sends (world sample_server).
Proof.
  intros os data s'.
  assert (@example_handle_client_message os pow_ref zero_junk 5 data (Z.of_nat (length data))
    sample_server = Ret tt s') as Hrun by (vm_compute; reflexivity).
  exact (@example_never_confirms os pow_ref zero_junk 5 data (Z.of_nat (length data))
    sample_server s' tt (Z.le_refl _) Hrun).
Defined.

Lemma example_server_exits_clean_witness :
  let main := @example_server_main os_sigint zero_junk 1 in
  let s := mkProcess initial_world 1 Null in
  match main s with Ret r _ => r = 0 | _ => False end /\
  wp main (fun r s' =>
    (r = 0 /\ server_running s' = 0 \/ r = 1) /\ sleeps (world s') = [] /\
    no_leak s' /\ locks_held (world s') = Some [] /\
    (p_context s' = Freed \/ p_context s' = Null)) s.
Proof.
  intros main s. split; [by vm_compute|].
  assert (no_leak s) as Hleak by (by unfold no_leak).
  refine (@example_server_exits_clean os_sigint zero_junk 1 1 s signal_by_sigint _
    eq_refl Hleak).
  cbn. lia.
Defined.

